(** * cosmos-system-5: message-dispatch services

    A shallow embedding of the in-process services of the repository
    (Organization, Sales, Market and Treasury) and the properties of their
    [process] dispatchers.

    Conventions of the embedding.
    - A JavaScript [number] is a rational ([Q]).  The properties below rest
      on comparison, [Math.min], [Math.max], [Math.floor] and copies of
      stored values, which do not depend on rounding; the infinities are
      left out, and so is [NaN] except in the Treasury's proficiency, where
      UPDATE_PROFICIENCY can store it: that one is a [Js.number], a rational
      or [NaN].
    - A [Date] is its millisecond count ([Z]); [Date | null] is [option Z].
    - A [Map<string, T>] is an insertion-ordered association list ([Js.Map]):
      [set] on a present key replaces the value in place, on an absent key it
      appends, as the iteration order of a JavaScript [Map] requires.
    - An object held in a [Map] and mutated through a reference is written
      back under the key it was read from.
    - [Date.now()], [new Date()] and [Math.random()] read an oracle carried
      by the [World]; every read advances the corresponding counter.
    - A handler parameter takes the type its TypeScript signature declares;
      an optional or defaulted parameter is an [option]; a parameter declared
      [any] whose shape the code inspects is a [Js.value].  The hosts pass
      the request body on unchecked, so a value of another type can arrive
      where an array or a string is declared.  Where the code then calls a
      method on it ([components], [targetChannels], [integrations],
      [segment]) the field is a [Js.arrayOr] or a [Js.stringOr] and the call
      raises as it does in the source, and [newProficiency] is the number
      [Math.min] makes of it; the other fields keep the declared type. *)

From Stdlib Require Import ZArith QArith Qround Qminmax List String Ascii Lia Bool.
From Stdlib Require Import DecimalString.
From Stdlib Require Import Lqa DecimalPos DecimalZ.
Import ListNotations.

#[local] Set Warnings "-register-all".
Local Open Scope string_scope.
Local Open Scope Z_scope.

(** ** JavaScript values and built-ins *)

Module Js.

(** A value that a JSON body can carry, plus [undefined]. *)
Inductive value : Type :=
| Undefined
| Null
| Bool (b : bool)
| Num (q : Q)
| Str (s : string)
| Arr (items : list value)
| Obj (fields : list (string * value)).

Inductive Error : Type :=
| TypeError (msg : string).

Definition Qltb (x y : Q) : bool := negb (Qle_bool y x).

(** ToBoolean. *)
Definition truthy (v : value) : bool :=
  match v with
  | Undefined | Null => false
  | Bool b => b
  | Num q => negb (Qeq_bool q 0)
  | Str s => negb (String.eqb s "")
  | Arr _ | Obj _ => true
  end.

Definition nullish (v : value) : bool :=
  match v with
  | Undefined | Null => true
  | _ => false
  end.

Fixpoint lookup {V : Type} (k : string) (l : list (string * V)) : option V :=
  match l with
  | [] => None
  | (k', v) :: r => if String.eqb k k' then Some v else lookup k r
  end.

(** [v.k] for an own data property [k]; reading a property of [undefined]
    or [null] raises a TypeError.  Inherited properties and index keys are
    not modelled: the services read named data fields only. *)
Definition getProp (v : value) (k : string) : Error + value :=
  match v with
  | Undefined =>
      inl (TypeError ("Cannot read properties of undefined (reading '" ++ k ++ "')"))
  | Null =>
      inl (TypeError ("Cannot read properties of null (reading '" ++ k ++ "')"))
  | Obj fields =>
      inr (match lookup k fields with Some x => x | None => Undefined end)
  | Arr items =>
      inr (if String.eqb k "length"
           then Num (inject_Z (Z.of_nat (List.length items))) else Undefined)
  | Str s =>
      inr (if String.eqb k "length"
           then Num (inject_Z (Z.of_nat (String.length s))) else Undefined)
  | Bool _ | Num _ => inr Undefined
  end.

(** [Object.keys(v).length] for a non-nullish [v]. *)
Definition keysLength (v : value) : Z :=
  match v with
  | Obj fields => Z.of_nat (List.length fields)
  | Arr items => Z.of_nat (List.length items)
  | Str s => Z.of_nat (String.length s)
  | _ => 0
  end.

(** [typeof v === 'object'] *)
Definition isObject (v : value) : bool :=
  match v with
  | Null | Arr _ | Obj _ => true
  | _ => false
  end.

(** [s || d] on an optional string: absent and empty are both falsy. *)
Definition orStr (s : option string) (d : string) : string :=
  match s with
  | Some x => if String.eqb x "" then d else x
  | None => d
  end.

Definition truthyStr (s : option string) : option string :=
  match s with
  | Some x => if String.eqb x "" then None else Some x
  | None => None
  end.

(** [a || d] on an optional array: every array is truthy. *)
Definition orArr {A : Type} (a : option (list A)) (d : list A) : list A :=
  match a with Some x => x | None => d end.

(** A truthy value on which the code calls an array method ([map], [filter],
    [push]) without a check: an array, or a value of another type (a number,
    a non-empty string, [true], an object), which has no such method. *)
Inductive arrayOr (A : Type) : Type :=
| IsArray (items : list A)
| NotArray.
Arguments IsArray {A} items.
Arguments NotArray {A}.

(** [a || d] on such a value; [None] stands for an absent or falsy [a]. *)
Definition orArray {A : Type} (a : option (arrayOr A)) (d : list A) : arrayOr A :=
  match a with Some x => x | None => IsArray d end.

(** A truthy value on which the code calls a string method without a check:
    a string, or a value without string methods (a number, [true], an object
    that is not an array). *)
Inductive stringOr : Type :=
| IsString (s : string)
| NotString.

(** [s || d] on such a value; absent, falsy and empty all give [d]. *)
Definition orString (s : option stringOr) (d : string) : stringOr :=
  match s with
  | Some (IsString x) => if String.eqb x "" then IsString d else IsString x
  | Some NotString => NotString
  | None => IsString d
  end.

(** [x || d] on an optional number: absent and zero are both falsy. *)
Definition orNum (x : option Q) (d : Q) : Q :=
  match x with
  | Some v => if Qeq_bool v 0 then d else v
  | None => d
  end.

(** [x ?? d] *)
Definition coalesce {A : Type} (x : option A) (d : A) : A :=
  match x with Some v => v | None => d end.

(** Decimal rendering of an integer inside a template string. *)
Definition showZ (z : Z) : string := NilZero.string_of_int (Z.to_int z).
Definition showNat (n : nat) : string := showZ (Z.of_nat n).

Definition lowerAscii (c : ascii) : ascii :=
  let n := nat_of_ascii c in
  if ((65 <=? n)%nat && (n <=? 90)%nat)%bool then ascii_of_nat (n + 32) else c.

(** [s.toLowerCase()] on the ASCII letters: a string is a sequence of
    bytes, and a letter outside ASCII is left as it is. *)
Fixpoint toLowerCase (s : string) : string :=
  match s with
  | EmptyString => EmptyString
  | String c r => String (lowerAscii c) (toLowerCase r)
  end.

(** [s.includes(sub)] *)
Fixpoint includes (s sub : string) : bool :=
  (String.prefix sub s
   || match s with
      | EmptyString => false
      | String _ r => includes r sub
      end)%bool.

(** Relative index of [Array.prototype.slice]. *)
Definition relIndex (len i : Z) : Z :=
  if i <? 0 then Z.max (len + i) 0 else Z.min i len.

(** [l.slice(start, stop)]; [stop] absent means the length. *)
Definition slice {A : Type} (start : Z) (stop : option Z) (l : list A) : list A :=
  let len := Z.of_nat (List.length l) in
  let k := relIndex len start in
  let e := match stop with Some e => relIndex len e | None => len end in
  firstn (Z.to_nat (e - k)) (skipn (Z.to_nat k) l).

(** [Math.floor], [Math.min], [Math.max] *)
Definition floor (q : Q) : Z := Qfloor q.
Definition min (x y : Q) : Q := if Qle_bool x y then x else y.
Definition max (x y : Q) : Q := if Qle_bool x y then y else x.

(** A number that can be [NaN].  [Math.min] and [Math.max] convert their
    arguments to numbers, and a value that is not numeric (the string
    ["abc"], an object, [undefined]) converts to [NaN].  The infinities,
    which [Math.min(1, x)] and [Math.max(0, x)] bring back to 1 and 0, are
    left out here as elsewhere. *)
Inductive number : Type :=
| Finite (q : Q)
| NaN.

(** [Math.min], [Math.max] and [-] with [NaN]: one [NaN] argument makes the
    result [NaN]. *)
Definition nmin (x y : number) : number :=
  match x, y with
  | Finite a, Finite b => Finite (min a b)
  | _, _ => NaN
  end.
Definition nmax (x y : number) : number :=
  match x, y with
  | Finite a, Finite b => Finite (max a b)
  | _, _ => NaN
  end.
Definition nsub (x y : number) : number :=
  match x, y with
  | Finite a, Finite b => Finite (a - b)
  | _, _ => NaN
  end.

(** [x > y] and [x >= y] with [NaN]: every comparison with [NaN] is false. *)
Definition ngt (x y : number) : bool :=
  match x, y with
  | Finite a, Finite b => Qltb b a
  | _, _ => false
  end.
Definition nge (x y : number) : bool :=
  match x, y with
  | Finite a, Finite b => Qle_bool b a
  | _, _ => false
  end.

(** Sum of a list of numbers: [l.reduce((a, b) => a + b, 0)]. *)
Definition sum (l : list Q) : Q := fold_left Qplus l 0%Q.

Definition ofNat (n : nat) : Q := inject_Z (Z.of_nat n).

(** *** [Map<string, V>] in insertion order *)

Definition Map (V : Type) : Type := list (string * V).

Definition get {V : Type} (m : Map V) (k : string) : option V := lookup k m.

Definition has {V : Type} (m : Map V) (k : string) : bool :=
  match get m k with Some _ => true | None => false end.

Fixpoint set {V : Type} (m : Map V) (k : string) (v : V) : Map V :=
  match m with
  | [] => [(k, v)]
  | (k', v') :: r =>
      if String.eqb k k' then (k', v) :: r else (k', v') :: set r k v
  end.

Definition values {V : Type} (m : Map V) : list V := List.map snd m.

Definition size {V : Type} (m : Map V) : nat := List.length m.

End Js.

(** ** The runtime shared by the services *)

Module Runtime.

Record LogEntry : Type := mkLog {
  level : string;
  text : string;
  detail : list (string * string)
}.

(** The environment's answers: the n-th clock reading, the n-th random
    draw and the n-th generated envelope id. *)
Record Oracle : Type := mkOracle {
  clockAt : nat -> Z;
  randAt : nat -> Q;
  idAt : nat -> string
}.

Record World : Type := mkWorld {
  oracle : Oracle;
  ticks : nat;
  draws : nat;
  ids : nat;
  logged : list LogEntry
}.

Inductive Res (A : Type) : Type :=
| Ok (a : A)
| Throw (e : Js.Error).
Arguments Ok {A} a.
Arguments Throw {A} e.

(** A computation over the service state [S] and the world.  A raised
    error keeps the mutations made before it. *)
Definition M (St A : Type) : Type := St -> World -> Res A * St * World.

Definition ret {St A : Type} (a : A) : M St A := fun s w => (Ok a, s, w).

Definition bind {St A B : Type} (m : M St A) (f : A -> M St B) : M St B :=
  fun s w =>
    match m s w with
    | (Ok a, s', w') => f a s' w'
    | (Throw e, s', w') => (Throw e, s', w')
    end.

Definition throw {St A : Type} (e : Js.Error) : M St A := fun s w => (Throw e, s, w).

Definition getState {St : Type} : M St St := fun s w => (Ok s, s, w).
Definition putState {St : Type} (s : St) : M St unit := fun _ w => (Ok tt, s, w).

Definition lift {St A : Type} (r : Js.Error + A) : M St A :=
  match r with
  | inl e => throw e
  | inr a => ret a
  end.

(** The receiver of an array method call [callee(...)]: a value that is not
    an array has no such method, and the call raises. *)
Definition items {St A : Type} (callee : string) (a : Js.arrayOr A) : M St (list A) :=
  match a with
  | Js.IsArray l => ret l
  | Js.NotArray => throw (Js.TypeError (callee ++ " is not a function"))
  end.

(** The receiver of a string method call, likewise. *)
Definition chars {St : Type} (callee : string) (s : Js.stringOr) : M St string :=
  match s with
  | Js.IsString x => ret x
  | Js.NotString => throw (Js.TypeError (callee ++ " is not a function"))
  end.

(** [Date.now()] *)
Definition now {St : Type} : M St Z :=
  fun s w =>
    (Ok (clockAt (oracle w) (ticks w)), s,
     mkWorld (oracle w) (S (ticks w)) (draws w) (ids w) (logged w)).

(** [new Date()] *)
Definition newDate {St : Type} : M St Z := now.

(** [Math.random()] *)
Definition random {St : Type} : M St Q :=
  fun s w =>
    (Ok (randAt (oracle w) (draws w)), s,
     mkWorld (oracle w) (ticks w) (S (draws w)) (ids w) (logged w)).

Definition freshId {St : Type} : M St string :=
  fun s w =>
    (Ok (idAt (oracle w) (ids w)), s,
     mkWorld (oracle w) (ticks w) (draws w) (S (ids w)) (logged w)).

(** Modelled from the spec: [BaseService.log] of the shared library is not
    in the repository's sources; the call records its level, text and
    data. *)
Definition log {St : Type} (lvl txt : string) (data : list (string * string)) : M St unit :=
  fun s w =>
    (Ok tt, s,
     mkWorld (oracle w) (ticks w) (draws w) (ids w) (logged w ++ [mkLog lvl txt data])).

(** The shared library's [ServiceConfig], with the fields the hosts set. *)
Record ServiceConfig : Type := mkConfig {
  port : Z;
  serviceName : string;
  triadType : string;
  serviceType : string;
  environment : string
}.

(** The shared library's [ServiceMessage], the envelope exchanged with a
    service; [P] is the payload type. *)
Record ServiceMessage (P : Type) : Type := mkMessage {
  id : string;
  type : string;
  payload : P;
  source : string;
  destination : string;
  timestamp : Z
}.
Arguments mkMessage {P}.
Arguments id {P}.
Arguments type {P}.
Arguments payload {P}.
Arguments source {P}.
Arguments destination {P}.
Arguments timestamp {P}.

(** Modelled from the spec: [createMessage] of the shared library is not in
    the repository's sources.  It always succeeds and assigns a fresh id
    and the creation time. *)
Definition createMessage {St P : Type} (ty : string) (p : P) (src dst : string)
  : M St (ServiceMessage P) :=
  bind freshId (fun i =>
  bind newDate (fun t =>
  ret (mkMessage i ty p src dst t))).

(** The payload of every response: the handler's result, the elapsed time
    and the name of the answering service. *)
Record Response (B : Type) : Type := mkResponse {
  body : B;
  processingTime : Z;
  respSource : string
}.
Arguments mkResponse {B}.
Arguments body {B}.
Arguments processingTime {B}.
Arguments respSource {B}.

Fixpoint mapiM {St A B : Type} (f : nat -> A -> M St B) (i : nat) (l : list A)
  : M St (list B) :=
  match l with
  | [] => ret []
  | x :: r =>
      bind (f i x) (fun y =>
      bind (mapiM f (S i) r) (fun ys =>
      ret (y :: ys)))
  end.

Fixpoint filterM {St A : Type} (p : A -> M St bool) (l : list A) : M St (list A) :=
  match l with
  | [] => ret []
  | x :: r =>
      bind (p x) (fun b =>
      bind (filterM p r) (fun ys =>
      ret (if b then x :: ys else ys)))
  end.

(** The outcome, the final state and the final world of a run. *)
Definition outcome {St A : Type} (r : Res A * St * World) : Res A := fst (fst r).
Definition finalState {St A : Type} (r : Res A * St * World) : St := snd (fst r).
Definition finalWorld {St A : Type} (r : Res A * St * World) : World := snd r.

End Runtime.

Declare Scope monad_scope.
Delimit Scope monad_scope with monad.
Notation "x <- m ;; k" := (Runtime.bind m (fun x => k))
(at level 61, m at next level, right associativity) : monad_scope.
Notation "m ;;; k" := (Runtime.bind m (fun _ => k))
(at level 61, right associativity) : monad_scope.

Local Open Scope monad_scope.

(** ** Organization service (organization-service.ts) *)

Module Organization.
Import Runtime.

Inductive OrgStatus : Type := active | inactive | pending | optimizing.
Inductive ComponentStatus : Type := operational | degraded | offline.
Inductive MaintenanceStatus : Type := scheduled | in_progress | completed | failed.

Record OrganizationComponent : Type := mkComponent {
  comp_id : string;
  comp_name : string;
  comp_role : string;
  comp_dependencies : list string;
  comp_status : ComponentStatus
}.

(** [Partial<OrganizationComponent>] as a request supplies it.  A number,
    string or boolean in its place has none of the four properties and reads
    as the empty record. *)
Record PartialComponent : Type := mkPartialComponent {
  part_id : option string;
  part_name : option string;
  part_role : option string;
  part_dependencies : option (list string)
}.

Record OrganizationMetrics : Type := mkMetrics {
  efficiency : Q;
  coordination : Q;
  responsiveness : Q;
  stability : Q
}.

(** The [type] field is a string: the source stores [(type as any)]. *)
Record SystemOrganization : Type := mkOrganization {
  org_id : string;
  org_name : string;
  org_type : string;
  org_components : list OrganizationComponent;
  org_status : OrgStatus;
  org_metrics : OrganizationMetrics;
  org_lastUpdated : Z
}.

Record CoordinationSchedule : Type := mkSchedule {
  frequency : string;
  nextExecution : Z;
  lastExecution : option Z;
  executionCount : Z
}.

Record BackgroundCoordination : Type := mkCoordination {
  coord_id : string;
  coord_coordinationType : string;
  coord_participants : list string;
  coord_priority : string;
  coord_schedule : CoordinationSchedule;
  coord_results : list Js.value
}.

Record MaintenanceResult : Type := mkResult {
  success : bool;
  itemsProcessed : Z;
  issuesFound : Z;
  issuesResolved : Z;
  recommendations : list string
}.

Record SystemMaintenance : Type := mkMaintenance {
  maint_id : string;
  maint_maintenanceType : string;
  maint_targets : list string;
  maint_status : MaintenanceStatus;
  maint_scheduledAt : Z;
  maint_completedAt : option Z;
  maint_results : MaintenanceResult
}.

Record State : Type := mkState {
  organizations : Js.Map SystemOrganization;
  coordinations : Js.Map BackgroundCoordination;
  maintenanceTasks : Js.Map SystemMaintenance;
  systemHealth : Js.Map Q
}.

(** The fields the handlers destructure out of [message.payload].
    [components] is mapped over without a check: it is absent (or falsy), an
    array whose elements are records or [null] ([None]), or another truthy
    value. *)
Record Payload : Type := mkPayload {
  p_name : option string;
  p_type : option string;
  p_components : option (Js.arrayOr (option PartialComponent));
  p_coordinationType : option string;
  p_participants : option (list string);
  p_priority : option string;
  p_frequency : option string;
  p_maintenanceType : option string;
  p_targets : option (list string);
  p_scheduledTime : option Z;
  p_maintenanceId : option string;
  p_organizationId : option string;
  p_includeComponents : option bool;
  p_optimizationType : option string;
  p_syncType : option string;
  p_data : Js.value
}.

Definition emptyPayload : Payload :=
  mkPayload None None None None None None None None None None None None None None None
    Js.Undefined.

Record OrgSummary : Type := mkOrgSummary {
  sum_id : string;
  sum_name : string;
  sum_type : string;
  sum_status : OrgStatus;
  sum_metrics : OrganizationMetrics
}.

Inductive OrgListing : Type :=
| FullOrganizations (l : list SystemOrganization)
| BriefOrganizations (l : list OrgSummary).

Record StatusSummary : Type := mkStatusSummary {
  totalOrganizations : nat;
  activeOrganizations : nat;
  totalCoordinations : nat;
  pendingMaintenance : nat;
  completedMaintenance : nat;
  overallHealth : Q
}.

Record OverallStatus : Type := mkOverallStatus {
  summary : StatusSummary;
  listedOrganizations : OrgListing;
  activeCoordinations : list BackgroundCoordination;
  recentMaintenance : list SystemMaintenance;
  systemHealthMetrics : list (string * Q)
}.

Inductive StatusReport : Type :=
| StatusFound (organization : SystemOrganization)
| StatusNotFound (organizationId : string)
| StatusOverall (status : OverallStatus).

Record MetricsImprovement : Type := mkImprovement {
  imp_efficiency : option Q;
  imp_coordination : option Q;
  imp_responsiveness : option Q;
  imp_stability : option Q
}.

Record StateManagementSync : Type := mkSmSync {
  sync_required : bool;
  sync_type : string;
  sync_priority : string
}.

Record OptimizationReport : Type := mkOptimizationReport {
  appliedOptimizations : list string;
  metricsImprovement : MetricsImprovement;
  stateManagementSync : StateManagementSync
}.

Record SyncedOrganization : Type := mkSyncedOrganization {
  syn_id : string;
  syn_name : string;
  syn_status : OrgStatus;
  syn_metrics : OrganizationMetrics
}.

Record OrganizationState : Type := mkOrganizationState {
  os_organizations : list SyncedOrganization;
  os_activeCoordinations : nat;
  os_pendingMaintenance : nat;
  os_systemHealthMetrics : list (string * Q)
}.

Record SyncResult : Type := mkSyncResult {
  sr_syncType : string;
  sr_timestamp : Z;
  sr_dataSynced : OrganizationState;
  sr_targetService : string;
  sr_bidirectional : bool;
  sr_nextScheduledSync : Z
}.

(** The result part of each response payload, tagged by the response type. *)
Inductive Body : Type :=
| OrganizationCreated (organization : SystemOrganization)
| BackgroundCoordinationCreated (coordination : BackgroundCoordination)
| MaintenanceScheduled (maintenance : SystemMaintenance)
| MaintenanceExecutionError (error : string) (maintenanceId : option string)
| MaintenanceExecuted (maintenanceId : string) (results : MaintenanceResult)
| OrganizationStatusRetrieved (status : StatusReport)
| OrganizationOptimized (organizationId : string) (optimizations : OptimizationReport)
| StateManagementSynced (syncResult : SyncResult).

Definition Reply : Type := ServiceMessage (Response Body).
Definition Request : Type := ServiceMessage Payload.

Definition setOrganizations (s : State) (m : Js.Map SystemOrganization) : State :=
  mkState m (coordinations s) (maintenanceTasks s) (systemHealth s).
Definition setCoordinations (s : State) (m : Js.Map BackgroundCoordination) : State :=
  mkState (organizations s) m (maintenanceTasks s) (systemHealth s).
Definition setMaintenanceTasks (s : State) (m : Js.Map SystemMaintenance) : State :=
  mkState (organizations s) (coordinations s) m (systemHealth s).
Definition setSystemHealth (s : State) (m : Js.Map Q) : State :=
  mkState (organizations s) (coordinations s) (maintenanceTasks s) m.

Definition withStatus (o : SystemOrganization) (st : OrgStatus) : SystemOrganization :=
  mkOrganization (org_id o) (org_name o) (org_type o) (org_components o) st
    (org_metrics o) (org_lastUpdated o).
Definition withMetrics (o : SystemOrganization) (m : OrganizationMetrics)
  : SystemOrganization :=
  mkOrganization (org_id o) (org_name o) (org_type o) (org_components o) (org_status o)
    m (org_lastUpdated o).
Definition withLastUpdated (o : SystemOrganization) (t : Z) : SystemOrganization :=
  mkOrganization (org_id o) (org_name o) (org_type o) (org_components o) (org_status o)
    (org_metrics o) t.

Definition withEfficiency (m : OrganizationMetrics) (v : Q) : OrganizationMetrics :=
  mkMetrics v (coordination m) (responsiveness m) (stability m).
Definition withCoordination (m : OrganizationMetrics) (v : Q) : OrganizationMetrics :=
  mkMetrics (efficiency m) v (responsiveness m) (stability m).
Definition withResponsiveness (m : OrganizationMetrics) (v : Q) : OrganizationMetrics :=
  mkMetrics (efficiency m) (coordination m) v (stability m).
Definition withStability (m : OrganizationMetrics) (v : Q) : OrganizationMetrics :=
  mkMetrics (efficiency m) (coordination m) (responsiveness m) v.

Definition withMaintStatus (t : SystemMaintenance) (st : MaintenanceStatus)
  : SystemMaintenance :=
  mkMaintenance (maint_id t) (maint_maintenanceType t) (maint_targets t) st
    (maint_scheduledAt t) (maint_completedAt t) (maint_results t).
Definition withCompletedAt (t : SystemMaintenance) (d : option Z) : SystemMaintenance :=
  mkMaintenance (maint_id t) (maint_maintenanceType t) (maint_targets t) (maint_status t)
    (maint_scheduledAt t) d (maint_results t).
Definition withResults (t : SystemMaintenance) (r : MaintenanceResult)
  : SystemMaintenance :=
  mkMaintenance (maint_id t) (maint_maintenanceType t) (maint_targets t) (maint_status t)
    (maint_scheduledAt t) (maint_completedAt t) r.

(** The reply every handler builds: the payload's [processingTime] and
    [source] are evaluated before [createMessage] runs. *)
Definition reply (cfg : ServiceConfig) (message : Request) (startTime : Z)
    (ty : string) (b : Body) : M State Reply :=
  t <- now ;;
  createMessage ty (mkResponse b (t - startTime) (serviceName cfg))
    (serviceName cfg) (source message).

Definition completeComponent (i : nat) (c : PartialComponent)
  : M State OrganizationComponent :=
  cid <- match Js.truthyStr (part_id c) with
         | Some x => ret x
         | None => t <- now ;; ret ("comp-" ++ Js.showZ t ++ "-" ++ Js.showNat i)
         end ;;
  ret (mkComponent cid
         (Js.orStr (part_name c) ("component-" ++ Js.showNat i))
         (Js.orStr (part_role c) "worker")
         (Js.orArr (part_dependencies c) [])
         operational).

Definition defaultComponents : list OrganizationComponent :=
  [ mkComponent "coord-1" "coordination-hub" "coordinator" [] operational;
    mkComponent "worker-1" "background-worker" "worker" ["coord-1"] operational;
    mkComponent "monitor-1" "health-monitor" "monitor" ["coord-1"] operational ].

(** The callback of [createOrganization] at index [i]: [c.id] on a [null]
    element raises. *)
Definition completeElement (i : nat) (c : option PartialComponent)
  : M State OrganizationComponent :=
  match c with
  | Some x => completeComponent i x
  | None => throw (Js.TypeError "Cannot read properties of null (reading 'id')")
  end.

Definition createOrganization (name type : option string)
    (components : option (Js.arrayOr (option PartialComponent)))
  : M State SystemOrganization :=
  given <- items "(components || []).map" (Js.orArray components []) ;;
  mapped <- mapiM completeElement 0%nat given ;;
  let orgComponents :=
    match mapped with
    | [] => defaultComponents
    | _ => mapped
    end in
  t <- now ;;
  updated <- newDate ;;
  ret (mkOrganization ("org-" ++ Js.showZ t)
         (Js.orStr name "system-organization")
         (Js.orStr type "coordination")
         orgComponents
         active
         (mkMetrics (85 # 100) (9 # 10) (8 # 10) (95 # 100))
         updated).

Definition handleCreateOrganization (cfg : ServiceConfig) (message : Request)
    (startTime : Z) : M State Reply :=
  let p := payload message in
  organization <- createOrganization (p_name p) (p_type p) (p_components p) ;;
  s <- getState ;;
  putState (setOrganizations s
              (Js.set (organizations s) (org_id organization) organization)) ;;;
  reply cfg message startTime "ORGANIZATION_CREATED" (OrganizationCreated organization).

Definition createBackgroundCoordination (coordinationType : option string)
    (participants : option (list string)) (priority frequency : option string)
  : M State BackgroundCoordination :=
  nowDate <- newDate ;;
  let next := nowDate + 60000 in
  t <- now ;;
  ret (mkCoordination ("coord-" ++ Js.showZ t)
         (Js.orStr coordinationType "general")
         (Js.orArr participants
            ["monitoring-service"; "state-management-service"; "process-director"])
         (Js.orStr priority "medium")
         (mkSchedule (Js.orStr frequency "5m") next None 0)
         []).

Definition handleBackgroundCoordination (cfg : ServiceConfig) (message : Request)
    (startTime : Z) : M State Reply :=
  let p := payload message in
  coordination <- createBackgroundCoordination (p_coordinationType p)
                    (p_participants p) (p_priority p) (p_frequency p) ;;
  s <- getState ;;
  putState (setCoordinations s
              (Js.set (coordinations s) (coord_id coordination) coordination)) ;;;
  reply cfg message startTime "BACKGROUND_COORDINATION_CREATED"
    (BackgroundCoordinationCreated coordination).

Definition scheduleMaintenance (maintenanceType : option string)
    (targets : option (list string)) (scheduledTime : option Z)
  : M State SystemMaintenance :=
  t <- now ;;
  at_ <- match scheduledTime with
         | Some d => ret d
         | None => t' <- now ;; ret (t' + 3600000)
         end ;;
  ret (mkMaintenance ("maint-" ++ Js.showZ t)
         (Js.orStr maintenanceType "routine")
         (Js.orArr targets ["all-services"])
         scheduled
         at_
         None
         (mkResult false 0 0 0 [])).

Definition handleScheduleMaintenance (cfg : ServiceConfig) (message : Request)
    (startTime : Z) : M State Reply :=
  let p := payload message in
  maintenance <- scheduleMaintenance (p_maintenanceType p) (p_targets p)
                   (p_scheduledTime p) ;;
  s <- getState ;;
  putState (setMaintenanceTasks s
              (Js.set (maintenanceTasks s) (maint_id maintenance) maintenance)) ;;;
  reply cfg message startTime "MAINTENANCE_SCHEDULED" (MaintenanceScheduled maintenance).

(** [executeMaintenance] mutates the task it is given; the mutated task is
    returned with the results. *)
Definition executeMaintenance (maintenance : SystemMaintenance)
  : M State (SystemMaintenance * MaintenanceResult) :=
  let m1 := withMaintStatus maintenance in_progress in
  let processed := Z.of_nat (List.length (maint_targets m1)) * 5 in
  r1 <- random ;;
  let found := Js.floor (r1 * 3) in
  r2 <- random ;;
  let resolved := Z.min found (Js.floor (r2 * inject_Z (found + 1))) in
  let recs :=
    ((if resolved <? found
      then ["Manual intervention required for unresolved issues"] else [])
     ++ (if 10 <? processed
         then ["Consider optimizing maintenance scope for efficiency"] else [])
     ++ ["Schedule follow-up maintenance in 24 hours"])%list in
  let results := mkResult (found <=? resolved) processed found resolved recs in
  let m2 := withMaintStatus m1 (if success results then completed else failed) in
  done <- newDate ;;
  let m3 := withCompletedAt m2 (Some done) in
  let m4 := withResults m3 results in
  ret (m4, results).

Definition handleExecuteMaintenance (cfg : ServiceConfig) (message : Request)
    (startTime : Z) : M State Reply :=
  let maintenanceId := p_maintenanceId (payload message) in
  s <- getState ;;
  match maintenanceId with
  | None =>
      reply cfg message startTime "MAINTENANCE_EXECUTION_ERROR"
        (MaintenanceExecutionError "Maintenance task not found" maintenanceId)
  | Some key =>
      match Js.get (maintenanceTasks s) key with
      | None =>
          reply cfg message startTime "MAINTENANCE_EXECUTION_ERROR"
            (MaintenanceExecutionError "Maintenance task not found" maintenanceId)
      | Some maintenance =>
          r <- executeMaintenance maintenance ;;
          s' <- getState ;;
          putState (setMaintenanceTasks s'
                      (Js.set (maintenanceTasks s') key (fst r))) ;;;
          reply cfg message startTime "MAINTENANCE_EXECUTED"
            (MaintenanceExecuted (maint_id (fst r)) (snd r))
      end
  end.

Definition isActive (o : SystemOrganization) : bool :=
  match org_status o with active => true | _ => false end.
Definition isScheduled (m : SystemMaintenance) : bool :=
  match maint_status m with scheduled => true | _ => false end.
Definition isCompleted (m : SystemMaintenance) : bool :=
  match maint_status m with completed => true | _ => false end.

Definition calculateOverallHealth (orgs : list SystemOrganization) : Q :=
  match orgs with
  | [] => 1%Q
  | _ =>
      let metrics := List.map org_metrics orgs in
      let n := Js.ofNat (List.length metrics) in
      let avgEfficiency := (Js.sum (List.map efficiency metrics) / n)%Q in
      let avgCoordination := (Js.sum (List.map coordination metrics) / n)%Q in
      let avgResponsiveness := (Js.sum (List.map responsiveness metrics) / n)%Q in
      let avgStability := (Js.sum (List.map stability metrics) / n)%Q in
      ((avgEfficiency + avgCoordination + avgResponsiveness + avgStability) / 4)%Q
  end.

Definition brief (o : SystemOrganization) : OrgSummary :=
  mkOrgSummary (org_id o) (org_name o) (org_type o) (org_status o) (org_metrics o).

Definition stillActive (c : BackgroundCoordination) : M State bool :=
  if 0 <? executionCount (coord_schedule c) then ret true
  else (t <- newDate ;; ret (t <? nextExecution (coord_schedule c))).

Definition getOverallOrganizationStatus (includeComponents : option bool)
  : M State OverallStatus :=
  s <- getState ;;
  let allOrgs := Js.values (organizations s) in
  let allCoordinations := Js.values (coordinations s) in
  let allMaintenance := Js.values (maintenanceTasks s) in
  let activeOrgs := List.filter isActive allOrgs in
  let pendingM := List.filter isScheduled allMaintenance in
  let completedM := List.filter isCompleted allMaintenance in
  let health := calculateOverallHealth allOrgs in
  activeC <- filterM stillActive allCoordinations ;;
  ret (mkOverallStatus
         (mkStatusSummary (List.length allOrgs) (List.length activeOrgs)
            (List.length allCoordinations) (List.length pendingM)
            (List.length completedM) health)
         (match includeComponents with
          | Some true => FullOrganizations allOrgs
          | _ => BriefOrganizations (List.map brief allOrgs)
          end)
         activeC
         (Js.slice (-5) None allMaintenance)
         (systemHealth s)).

Definition handleGetOrganizationStatus (cfg : ServiceConfig) (message : Request)
    (startTime : Z) : M State Reply :=
  let p := payload message in
  s <- getState ;;
  status <- match Js.truthyStr (p_organizationId p) with
            | Some key =>
                ret (match Js.get (organizations s) key with
                     | Some org => StatusFound org
                     | None => StatusNotFound key
                     end)
            | None =>
                o <- getOverallOrganizationStatus (p_includeComponents p) ;;
                ret (StatusOverall o)
            end ;;
  reply cfg message startTime "ORGANIZATION_STATUS_RETRIEVED"
    (OrganizationStatusRetrieved status).

Definition bump (current threshold delta : Q) (note : string)
  : list string * option Q :=
  if Js.Qltb current threshold then ([note], Some delta) else ([], None).

(** [optimizeOrganization] mutates the organization it is given, if any; the
    mutated organization is returned with the report. *)
Definition optimizeOrganization (organization : option SystemOrganization)
    (optimizationType : option string)
  : M State (option SystemOrganization * OptimizationReport) :=
  let sync := mkSmSync true "organization_update" "medium" in
  match organization with
  | Some org =>
      let o1 := withStatus org optimizing in
      let m := org_metrics o1 in
      let e := bump (efficiency m) (9 # 10) (5 # 100)
                 "Streamline component communication paths" in
      let c := bump (coordination m) (9 # 10) (3 # 100)
                 "Enhance inter-component coordination protocols" in
      let r := bump (responsiveness m) (9 # 10) (4 # 100)
                 "Reduce latency in background operations" in
      let t := bump (stability m) (95 # 100) (2 # 100)
                 "Implement additional failover mechanisms" in
      let optimizations := (fst e ++ fst c ++ fst r ++ fst t)%list in
      let improvement := mkImprovement (snd e) (snd c) (snd r) (snd t) in
      let m1 := withEfficiency m
                  (Js.min 1 (efficiency m + Js.orNum (snd e) 0))%Q in
      let m2 := withCoordination m1
                  (Js.min 1 (coordination m1 + Js.orNum (snd c) 0))%Q in
      let m3 := withResponsiveness m2
                  (Js.min 1 (responsiveness m2 + Js.orNum (snd r) 0))%Q in
      let m4 := withStability m3
                  (Js.min 1 (stability m3 + Js.orNum (snd t) 0))%Q in
      let o2 := withMetrics o1 m4 in
      let o3 := withStatus o2 active in
      d <- newDate ;;
      ret (Some (withLastUpdated o3 d),
           mkOptimizationReport optimizations improvement sync)
  | None =>
      ret (None,
           mkOptimizationReport
             [ "System-wide organization review completed";
               "Background coordination patterns analyzed";
               "Maintenance schedules optimized" ]
             (mkImprovement None None None None) sync)
  end.

Definition handleOptimizeOrganization (cfg : ServiceConfig) (message : Request)
    (startTime : Z) : M State Reply :=
  let p := payload message in
  s <- getState ;;
  let key := Js.truthyStr (p_organizationId p) in
  let org := match key with
             | Some k => Js.get (organizations s) k
             | None => None
             end in
  r <- optimizeOrganization org (p_optimizationType p) ;;
  match key, fst r with
  | Some k, Some org' =>
      s' <- getState ;;
      putState (setOrganizations s' (Js.set (organizations s') k org'))
  | _, _ => ret tt
  end ;;;
  reply cfg message startTime "ORGANIZATION_OPTIMIZED"
    (OrganizationOptimized
       (match fst r with
        | Some org' => Js.orStr (Some (org_id org')) "all"
        | None => "all"
        end)
       (snd r)).

Definition syncWithStateManagement (syncType : option string) (data : Js.value)
  : M State SyncResult :=
  syncTimestamp <- newDate ;;
  s <- getState ;;
  let organizationState :=
    mkOrganizationState
      (List.map (fun o => mkSyncedOrganization (org_id o) (org_name o)
                            (org_status o) (org_metrics o))
         (Js.values (organizations s)))
      (Js.size (coordinations s))
      (List.length (List.filter isScheduled (Js.values (maintenanceTasks s))))
      (systemHealth s) in
  ret (mkSyncResult (Js.orStr syncType "full") syncTimestamp organizationState
         "state-management-service" true (syncTimestamp + 300000)).

Definition handleSyncWithStateManagement (cfg : ServiceConfig) (message : Request)
    (startTime : Z) : M State Reply :=
  let p := payload message in
  syncResult <- syncWithStateManagement (p_syncType p) (p_data p) ;;
  reply cfg message startTime "STATE_MANAGEMENT_SYNCED" (StateManagementSynced syncResult).

(** The message types [process] recognizes. *)
Definition recognized : list string :=
  [ "CREATE_ORGANIZATION"; "COORDINATE_BACKGROUND"; "SCHEDULE_MAINTENANCE";
    "EXECUTE_MAINTENANCE"; "GET_ORGANIZATION_STATUS"; "OPTIMIZE_ORGANIZATION";
    "SYNC_WITH_STATE_MANAGEMENT" ].

Definition some {A : Type} (m : M State A) : M State (option A) :=
  x <- m ;; ret (Some x).

(** [process].  Each handler is an async function and [process] returns its
    promise without awaiting it, so a rejection of the handler is the
    rejection of [process]; the [catch] block, which would log the error,
    is never entered by it. *)
Definition process (cfg : ServiceConfig) (message : Request) : M State (option Reply) :=
  startTime <- now ;;
  log "info" "Processing organization request"
    [("messageId", id message); ("type", type message)] ;;;
  let ty := type message in
  if String.eqb ty "CREATE_ORGANIZATION" then
    some (handleCreateOrganization cfg message startTime)
  else if String.eqb ty "COORDINATE_BACKGROUND" then
    some (handleBackgroundCoordination cfg message startTime)
  else if String.eqb ty "SCHEDULE_MAINTENANCE" then
    some (handleScheduleMaintenance cfg message startTime)
  else if String.eqb ty "EXECUTE_MAINTENANCE" then
    some (handleExecuteMaintenance cfg message startTime)
  else if String.eqb ty "GET_ORGANIZATION_STATUS" then
    some (handleGetOrganizationStatus cfg message startTime)
  else if String.eqb ty "OPTIMIZE_ORGANIZATION" then
    some (handleOptimizeOrganization cfg message startTime)
  else if String.eqb ty "SYNC_WITH_STATE_MANAGEMENT" then
    some (handleSyncWithStateManagement cfg message startTime)
  else
    (log "warn" "Unknown message type" [("type", ty)] ;;; ret None).

Definition initializeOrganizationFramework : M State unit :=
  defaultOrg <- createOrganization (Some "autonomic-core") (Some "coordination") None ;;
  s <- getState ;;
  putState (setOrganizations s (Js.set (organizations s) (org_id defaultOrg) defaultOrg)) ;;;
  defaultCoord <- createBackgroundCoordination (Some "system-health")
                    (Some ["monitoring-service"; "state-management-service";
                           "process-director"])
                    (Some "high") (Some "1m") ;;
  s1 <- getState ;;
  putState (setCoordinations s1
              (Js.set (coordinations s1) (coord_id defaultCoord) defaultCoord)) ;;;
  s2 <- getState ;;
  putState (setSystemHealth s2
              (Js.set (Js.set (Js.set (Js.set (systemHealth s2)
                 "autonomic-triad" (95 # 100)%Q)
                 "background-processes" (9 # 10)%Q)
                 "coordination-efficiency" (85 # 100)%Q)
                 "maintenance-status" 1%Q)).

Definition emptyState : State := mkState [] [] [] [].

(** The constructor: empty stores, then the default framework. *)
Definition construct (w : World) : State * World :=
  match initializeOrganizationFramework emptyState w with
  | (_, s, w') => (s, w')
  end.

Definition shutdown : M State unit :=
  log "info" "Shutting down Organization Service" [] ;;;
  s <- getState ;;
  putState (setOrganizations s
              (List.map (fun kv => (fst kv, withStatus (snd kv) inactive))
                 (organizations s))).

(** The host's loop: one [process] call per request; a rejected call is
    answered with a failure and the service keeps its state. *)
Fixpoint serve (cfg : ServiceConfig) (messages : list Request) (s : State) (w : World)
  : State * World :=
  match messages with
  | [] => (s, w)
  | m :: rest =>
      match process cfg m s w with
      | (_, s', w') => serve cfg rest s' w'
      end
  end.

(** The states a service instance can be in between two calls. *)
Inductive reachable : State -> Prop :=
| reach_construct (w : World) : reachable (fst (construct w))
| reach_process (cfg : ServiceConfig) (m : Request) (s : State) (w : World) :
    reachable s -> reachable (finalState (process cfg m s w))
| reach_shutdown (s : State) (w : World) :
    reachable s -> reachable (finalState (shutdown s w)).

Definition noOptimizing (s : State) : Prop :=
  Forall (fun o => org_status o <> optimizing) (Js.values (organizations s)).

Definition unit_interval (v : Q) : Prop := (0 <= v <= 1)%Q.

Definition bounded (m : OrganizationMetrics) : Prop :=
  unit_interval (efficiency m) /\ unit_interval (coordination m)
  /\ unit_interval (responsiveness m) /\ unit_interval (stability m).

(** [Math.min(1, Math.max(0, v))] *)
Definition clamp (v : Q) : Q := Js.min 1 (Js.max 0 v).

End Organization.

(** ** Sales service (sales-service.ts) *)

Module Sales.
Import Runtime.

Record QualityDimensions : Type := mkDimensions {
  accuracy : Q;
  completeness : Q;
  relevance : Q;
  clarity : Q;
  timeliness : Q
}.

(** [Partial<QualityDimensions>] *)
Record PartialDimensions : Type := mkPartialDimensions {
  crit_accuracy : option Q;
  crit_completeness : option Q;
  crit_relevance : option Q;
  crit_clarity : option Q;
  crit_timeliness : option Q
}.

(** [outputId] holds [output.id] when that is truthy, whatever it is. *)
Record QualityAssessment : Type := mkAssessment {
  qa_id : string;
  qa_outputId : Js.value;
  qa_qualityScore : Q;
  qa_dimensions : QualityDimensions;
  qa_recommendations : list string;
  qa_timestamp : Z
}.

Inductive PromotionStatus : Type := promoted | pending | failed.

Record PromotionResult : Type := mkPromotion {
  promo_id : string;
  promo_contentId : Js.value;
  promo_channels : list string;
  promo_reach : Z;
  promo_engagement : Z;
  promo_status : PromotionStatus
}.

Record MarketReadinessCriteria : Type := mkCriteria {
  qualityThreshold : bool;
  complianceCheck : bool;
  formatValidation : bool;
  targetAlignment : bool
}.

Record MarketReadiness : Type := mkReadiness {
  ready : bool;
  score : Q;
  criteria : MarketReadinessCriteria;
  blockers : list string
}.

Inductive Trend : Type := improving | stable | declining.

Record QualityMetrics : Type := mkQualityMetrics {
  totalAssessments : nat;
  averageScore : Q;
  dimensionAverages : QualityDimensions;
  trendDirection : Trend
}.

Record State : Type := mkState {
  qualityThresholds : Js.Map Q;
  promotionChannels : list string;
  assessmentHistory : list QualityAssessment
}.

(** The fields the handlers destructure out of [message.payload]; [output],
    [content] and [requirements] are declared [any].  [targetChannels] is
    filtered without a check: it is absent (or falsy), an array, or another
    truthy value. *)
Record Payload : Type := mkPayload {
  p_output : Js.value;
  p_criteria : option PartialDimensions;
  p_content : Js.value;
  p_targetChannels : option (Js.arrayOr string);
  p_priority : option string;
  p_requirements : Js.value;
  p_targetMarket : option string
}.

(** The payload of an empty JSON object: every field is [undefined]. *)
Definition emptyPayload : Payload :=
  mkPayload Js.Undefined None Js.Undefined None None Js.Undefined None.

Inductive Body : Type :=
| QualityAssessed (assessment : QualityAssessment)
| OutputPromoted (result : PromotionResult)
| MarketReadinessChecked (readiness : MarketReadiness)
| QualityMetricsRetrieved (metrics : QualityMetrics)
| MarketOptimizationComplete (originalScore : Q) (optimizations : list string)
    (projectedImprovement : Q).

Definition Reply : Type := ServiceMessage (Response Body).
Definition Request : Type := ServiceMessage Payload.

Definition reply (cfg : ServiceConfig) (message : Request) (startTime : Z)
    (ty : string) (b : Body) : M State Reply :=
  t <- now ;;
  createMessage ty (mkResponse b (t - startTime) (serviceName cfg))
    (serviceName cfg) (source message).

(** [v.a || v.b || v.c]: the operands are read left to right until one is
    truthy. *)
Fixpoint firstTruthy (v : Js.value) (keys : list string) : M State Js.value :=
  match keys with
  | [] => ret Js.Undefined
  | [k] => lift (Js.getProp v k)
  | k :: rest =>
      x <- lift (Js.getProp v k) ;;
      if Js.truthy x then ret x else firstTruthy v rest
  end.

Definition evaluateAccuracy (output : Js.value) : M State Q :=
  hasData <- firstTruthy output ["data"; "content"; "result"] ;;
  hasMetadata <- firstTruthy output ["metadata"; "source"] ;;
  let s0 := (5 # 10)%Q in
  let s1 := if Js.truthy hasData then (s0 + (3 # 10))%Q else s0 in
  let s2 := if Js.truthy hasMetadata then (s1 + (2 # 10))%Q else s1 in
  r <- random ;;
  ret (Js.min (s2 + r * (1 # 10)) 1)%Q.

Definition evaluateCompleteness (output : Js.value) : M State Q :=
  let fields := Js.keysLength (if Js.truthy output then output else Js.Obj []) in
  r <- random ;;
  ret (Js.min (inject_Z fields / 10 + (5 # 10) + r * (1 # 10)) 1)%Q.

Definition evaluateRelevance (output : Js.value) : M State Q :=
  r <- random ;; ret ((7 # 10) + r * (3 # 10))%Q.

Definition evaluateClarity (output : Js.value) : M State Q :=
  let hasStructure := Js.isObject output in
  r <- random ;;
  ret (if hasStructure then (75 # 100) + r * (25 # 100) else (5 # 10) + r * (3 # 10))%Q.

Definition evaluateTimeliness (output : Js.value) : M State Q :=
  r <- random ;; ret ((8 # 10) + r * (2 # 10))%Q.

Definition below (v : Q) (limit : Q) (note : string) : list string :=
  if Js.Qltb v limit then [note] else [].

Definition generateRecommendations (dimensions : QualityDimensions)
    (crit : option PartialDimensions) : list string :=
  let recommendations :=
    (below (accuracy dimensions) (7 # 10)
       "Improve data accuracy through additional validation"
     ++ below (completeness dimensions) (7 # 10)
          "Add missing data fields for completeness"
     ++ below (relevance dimensions) (7 # 10)
          "Refine content to better match target requirements"
     ++ below (clarity dimensions) (7 # 10)
          "Restructure output for improved clarity"
     ++ below (timeliness dimensions) (7 # 10)
          "Optimize processing pipeline for faster delivery")%list in
  match recommendations with
  | [] => ["Output meets quality standards"]
  | _ => recommendations
  end.

Definition assessQuality (output : Js.value) (crit : option PartialDimensions)
  : M State QualityAssessment :=
  a <- evaluateAccuracy output ;;
  c <- evaluateCompleteness output ;;
  r <- evaluateRelevance output ;;
  l <- evaluateClarity output ;;
  t <- evaluateTimeliness output ;;
  let dimensions := mkDimensions a c r l t in
  let qualityScore := (Js.sum [a; c; r; l; t] / 5)%Q in
  let recommendations := generateRecommendations dimensions crit in
  i <- now ;;
  oid <- lift (Js.getProp output "id") ;;
  outputId <- (if Js.truthy oid then ret oid
               else (n <- now ;; ret (Js.Str ("output-" ++ Js.showZ n)))) ;;
  stamp <- newDate ;;
  ret (mkAssessment ("qa-" ++ Js.showZ i) outputId qualityScore dimensions
         recommendations stamp).

Definition handleQualityAssessment (cfg : ServiceConfig) (message : Request)
    (startTime : Z) : M State Reply :=
  let p := payload message in
  assessment <- assessQuality (p_output p) (p_criteria p) ;;
  s <- getState ;;
  putState (mkState (qualityThresholds s) (promotionChannels s)
              (assessmentHistory s ++ [assessment])) ;;;
  reply cfg message startTime "QUALITY_ASSESSED" (QualityAssessed assessment).

Definition promoteToChannels (content : Js.value) (channels : Js.arrayOr string)
    (priority : option string) : M State PromotionResult :=
  given <- items "channels.filter" channels ;;
  successfulChannels <-
    filterM (fun _ => r <- random ;; ret (Js.Qltb (1 # 10) r)) given ;;
  i <- now ;;
  cid <- lift (Js.getProp content "id") ;;
  contentId <- (if Js.truthy cid then ret cid
                else (n <- now ;; ret (Js.Str ("content-" ++ Js.showZ n)))) ;;
  r1 <- random ;;
  r2 <- random ;;
  ret (mkPromotion ("promo-" ++ Js.showZ i) contentId successfulChannels
         (Z.of_nat (List.length successfulChannels) * 100 + Js.floor (r1 * 500))
         (Js.floor (r2 * 100))
         (if (0 <? List.length successfulChannels)%nat then promoted else failed)).

Definition handleOutputPromotion (cfg : ServiceConfig) (message : Request)
    (startTime : Z) : M State Reply :=
  let p := payload message in
  s <- getState ;;
  let channels := Js.orArray (p_targetChannels p) (promotionChannels s) in
  promotionResult <- promoteToChannels (p_content p) channels (p_priority p) ;;
  reply cfg message startTime "OUTPUT_PROMOTED" (OutputPromoted promotionResult).

Definition checkMarketReadiness (output requirements : Js.value)
  : M State MarketReadiness :=
  assessment <- assessQuality output None ;;
  s <- getState ;;
  let threshold := Js.orNum (Js.get (qualityThresholds s) "market") (7 # 10) in
  let quality := Qle_bool threshold (qa_qualityScore assessment) in
  r1 <- random ;;
  r2 <- random ;;
  r3 <- random ;;
  let crit := mkCriteria quality (Js.Qltb (2 # 10) r1) (Js.Qltb (15 # 100) r2)
                (Js.Qltb (25 # 100) r3) in
  let blocked :=
    ((if qualityThreshold crit then [] else ["Quality below threshold"])
     ++ (if complianceCheck crit then [] else ["Compliance verification pending"])
     ++ (if formatValidation crit then [] else ["Format validation failed"])
     ++ (if targetAlignment crit then [] else ["Target audience alignment needed"]))%list in
  let flags := [qualityThreshold crit; complianceCheck crit; formatValidation crit;
                targetAlignment crit] in
  ret (mkReadiness (forallb (fun v => v) flags)
         (Js.ofNat (List.length (List.filter (fun v => v) flags)) / 4)%Q
         crit blocked).

Definition handleMarketReadinessCheck (cfg : ServiceConfig) (message : Request)
    (startTime : Z) : M State Reply :=
  let p := payload message in
  readiness <- checkMarketReadiness (p_output p) (p_requirements p) ;;
  reply cfg message startTime "MARKET_READINESS_CHECKED" (MarketReadinessChecked readiness).

Definition calculateDimensionAverages (assessments : list QualityAssessment)
  : QualityDimensions :=
  match assessments with
  | [] => mkDimensions 0 0 0 0 0
  | _ =>
      let dims := List.map qa_dimensions assessments in
      let count := Js.ofNat (List.length assessments) in
      mkDimensions (Js.sum (List.map accuracy dims) / count)%Q
                   (Js.sum (List.map completeness dims) / count)%Q
                   (Js.sum (List.map relevance dims) / count)%Q
                   (Js.sum (List.map clarity dims) / count)%Q
                   (Js.sum (List.map timeliness dims) / count)%Q
  end.

Definition calculateTrend (assessments : list QualityAssessment) : Trend :=
  if (List.length assessments <? 10)%nat then stable
  else
    let recent := Js.slice (-5) None assessments in
    let older := Js.slice (-10) (Some (-5)) assessments in
    let recentAvg :=
      (Js.sum (List.map qa_qualityScore recent) / Js.ofNat (List.length recent))%Q in
    let olderAvg :=
      (Js.sum (List.map qa_qualityScore older) / Js.ofNat (List.length older))%Q in
    let diff := (recentAvg - olderAvg)%Q in
    if Js.Qltb (5 # 100) diff then improving
    else if Js.Qltb diff (- (5 # 100)) then declining
    else stable.

(** The averages are exact here; the source rounds each sum and quotient to
    a double, so a reported average can differ from this one by that
    rounding. *)
Definition handleGetQualityMetrics (cfg : ServiceConfig) (message : Request)
    (startTime : Z) : M State Reply :=
  s <- getState ;;
  let recentAssessments := Js.slice (-100) None (assessmentHistory s) in
  let metrics :=
    mkQualityMetrics
      (List.length (assessmentHistory s))
      (match recentAssessments with
       | [] => 0%Q
       | _ => (Js.sum (List.map qa_qualityScore recentAssessments)
               / Js.ofNat (List.length recentAssessments))%Q
       end)
      (calculateDimensionAverages recentAssessments)
      (calculateTrend recentAssessments) in
  reply cfg message startTime "QUALITY_METRICS_RETRIEVED" (QualityMetricsRetrieved metrics).

Definition generateMarketOptimizations (output : Js.value)
    (assessment : QualityAssessment) (targetMarket : option string) : list string :=
  let d := qa_dimensions assessment in
  (below (clarity d) (8 # 10) "Restructure for improved market clarity"
   ++ below (relevance d) (8 # 10)
        ("Align content with " ++ Js.orStr targetMarket "target"
         ++ " market expectations")
   ++ below (completeness d) (8 # 10) "Add market-specific metadata and tags"
   ++ ["Apply market-appropriate formatting";
       "Optimize delivery timing for target audience"])%list.

Definition handleMarketOptimization (cfg : ServiceConfig) (message : Request)
    (startTime : Z) : M State Reply :=
  let p := payload message in
  assessment <- assessQuality (p_output p) None ;;
  let optimizations :=
    generateMarketOptimizations (p_output p) assessment (p_targetMarket p) in
  reply cfg message startTime "MARKET_OPTIMIZATION_COMPLETE"
    (MarketOptimizationComplete (qa_qualityScore assessment) optimizations
       (Js.ofNat (List.length optimizations) * (5 # 100))%Q).

Definition recognized : list string :=
  [ "ASSESS_QUALITY"; "PROMOTE_OUTPUT"; "CHECK_MARKET_READINESS";
    "GET_QUALITY_METRICS"; "OPTIMIZE_FOR_MARKET" ].

Definition some {A : Type} (m : M State A) : M State (option A) :=
  x <- m ;; ret (Some x).

(** [process]; as in the other services the handler's promise is returned
    without [await], so its rejection is the rejection of [process]. *)
Definition process (cfg : ServiceConfig) (message : Request) : M State (option Reply) :=
  startTime <- now ;;
  log "info" "Processing sales request"
    [("messageId", id message); ("type", type message)] ;;;
  let ty := type message in
  if String.eqb ty "ASSESS_QUALITY" then
    some (handleQualityAssessment cfg message startTime)
  else if String.eqb ty "PROMOTE_OUTPUT" then
    some (handleOutputPromotion cfg message startTime)
  else if String.eqb ty "CHECK_MARKET_READINESS" then
    some (handleMarketReadinessCheck cfg message startTime)
  else if String.eqb ty "GET_QUALITY_METRICS" then
    some (handleGetQualityMetrics cfg message startTime)
  else if String.eqb ty "OPTIMIZE_FOR_MARKET" then
    some (handleMarketOptimization cfg message startTime)
  else
    (log "warn" "Unknown message type" [("type", ty)] ;;; ret None).

Definition initializeQualityFramework : M State unit :=
  s <- getState ;;
  putState (mkState
              (Js.set (Js.set (Js.set (qualityThresholds s)
                 "market" (7 # 10)%Q) "premium" (85 # 100)%Q) "standard" (6 # 10)%Q)
              [ "primary-output"; "analytics-feed"; "integration-hub";
                "external-api"; "dashboard-display" ]
              (assessmentHistory s)).

Definition emptyState : State := mkState [] [] [].

Definition construct (w : World) : State * World :=
  match initializeQualityFramework emptyState w with
  | (_, s, w') => (s, w')
  end.

End Sales.

(** ** Market service (market-service.ts) *)

Module Market.
Import Runtime.

(** ['rising' | 'falling' | 'stable'] *)
Inductive Direction : Type := rising | falling | dir_stable.
Inductive Impact : Type := high | medium | low.
Inductive InterfaceStatus : Type := active | inactive | pending.
Inductive Trend : Type := improving | stable | declining.

Record MarketTrend : Type := mkTrend {
  trend_name : string;
  trend_direction : Direction;
  trend_impact : Impact;
  trend_timeframe : string
}.

Record MarketAnalysis : Type := mkAnalysis {
  ma_id : string;
  ma_marketSegment : string;
  ma_trends : list MarketTrend;
  ma_opportunities : list string;
  ma_threats : list string;
  ma_recommendations : list string;
  ma_timestamp : Z
}.

Record InterfaceMetrics : Type := mkInterfaceMetrics {
  requestsHandled : Z;
  averageLatency : Q;
  successRate : Q;
  lastActivity : Z
}.

Record ExternalInterface : Type := mkInterface {
  if_id : string;
  if_interfaceType : string;
  if_status : InterfaceStatus;
  if_capabilities : list string;
  if_metrics : InterfaceMetrics
}.

Record PerformanceFeedback : Type := mkFeedback {
  fb_source : string;
  fb_metricType : string;
  fb_value : Q;
  fb_trend : Trend;
  fb_actionRequired : bool;
  fb_recommendations : list string
}.

Record State : Type := mkState {
  marketSegments : Js.Map MarketAnalysis;
  externalInterfaces : Js.Map ExternalInterface;
  feedbackHistory : list PerformanceFeedback;
  marketIntelligence : Js.Map Js.value
}.

(** The [metrics] object of a feedback request: declared [any], read for a
    numeric [value] and a [type] string. *)
Record FeedbackMetrics : Type := mkFeedbackMetrics {
  fm_value : option Q;
  fm_type : option string
}.

(** The fields the handlers destructure out of [message.payload].
    [segment] is searched with [includes] without a check: it is absent (or
    falsy), a string, or another truthy value; an array, which has an
    [includes] of its own, is left out. *)
Record Payload : Type := mkPayload {
  p_segment : option Js.stringOr;
  p_depth : option string;
  p_factors : option (list string);
  p_interfaceId : option string;
  p_interfaceType : option string;
  p_capabilities : option (list string);
  p_metrics : option FeedbackMetrics;
  p_source : option string;
  p_domain : option string;
  p_timeframe : option string;
  p_targetArea : option string;
  p_constraints : Js.value
}.

Definition emptyPayload : Payload :=
  mkPayload None None None None None None None None None None None Js.Undefined.

Record IntelligenceSummary : Type := mkIntelligenceSummary {
  totalMarketSegments : nat;
  activeTrends : nat;
  feedbackTrend : string;
  interfaceHealth : Q
}.

Record Intelligence : Type := mkIntelligence {
  in_domain : string;
  in_timeframe : string;
  in_summary : IntelligenceSummary;
  in_insights : list string;
  in_actionItems : list string
}.

Record ExpectedImpact : Type := mkExpectedImpact {
  marketReach : string;
  responseTime : string;
  adaptability : string
}.

Record DirectorFeedback : Type := mkDirectorFeedback {
  df_type : string;
  df_recommendations : list string
}.

Record Optimization : Type := mkOptimization {
  opt_targetArea : string;
  opt_optimizations : list string;
  opt_expectedImpact : ExpectedImpact;
  opt_implementationPriority : string;
  opt_feedbackToProcessingDirector : DirectorFeedback
}.

Inductive Body : Type :=
| MarketAnalyzed (analysis : MarketAnalysis)
| InterfaceStatusRetrieved (interfaces : list ExternalInterface)
    (totalActive totalInterfaces : nat)
| InterfaceRegistered (interface : ExternalInterface)
| FeedbackProcessed (feedback : PerformanceFeedback) (historySize : nat)
| MarketIntelligenceRetrieved (intelligence : Intelligence)
| PotentialOptimized (optimization : Optimization).

Definition Reply : Type := ServiceMessage (Response Body).
Definition Request : Type := ServiceMessage Payload.

Definition reply (cfg : ServiceConfig) (message : Request) (startTime : Z)
    (ty : string) (b : Body) : M State Reply :=
  t <- now ;;
  createMessage ty (mkResponse b (t - startTime) (serviceName cfg))
    (serviceName cfg) (source message).

Definition identifyTrends (segment : string) : list MarketTrend :=
  let baseTrends :=
    [ mkTrend "Digital transformation acceleration" rising high "12-24 months";
      mkTrend "AI/ML integration demand" rising high "6-18 months";
      mkTrend "Real-time processing requirements" rising medium "3-12 months";
      mkTrend "Legacy system modernization" dir_stable medium "12-36 months" ] in
  if (Js.includes segment "cognitive" || Js.includes segment "ai")%bool
  then (baseTrends
        ++ [mkTrend "Neuromorphic computing adoption" rising high "18-36 months"])%list
  else baseTrends.

Definition isRisingHigh (t : MarketTrend) : bool :=
  match trend_direction t, trend_impact t with
  | rising, high => true
  | _, _ => false
  end.

Definition isRising (t : MarketTrend) : bool :=
  match trend_direction t with rising => true | _ => false end.

Definition identifyOpportunities (segment : string) (trends : list MarketTrend)
  : list string :=
  (List.map
     (fun t => ("Capitalize on " ++ trend_name t ++ " within " ++ trend_timeframe t)%string)
     (List.filter isRisingHigh trends)
   ++ [ "Expand cognitive processing capabilities";
        "Enhance cross-triad integration for market differentiation";
        "Develop predictive market intelligence features" ])%list.

Definition identifyThreats (segment : string) (trends : list MarketTrend) : list string :=
  [ "Increasing competition in cognitive systems space";
    "Rapid technology obsolescence risk";
    "Integration complexity with external systems";
    "Data privacy and compliance requirements" ].

Definition generateMarketRecommendations (opportunities threats : list string)
  : list string :=
  [ "Prioritize high-impact opportunities in the short term";
    "Implement continuous market monitoring";
    "Strengthen external interface capabilities";
    "Develop threat mitigation strategies";
    "Feed insights back to Processing Director for optimization" ].

(** [identifyTrends], called first, is where the segment's [includes] is
    looked up. *)
Definition analyzeMarket (given : Js.stringOr) (depth : option string)
    (factors : option (list string)) : M State MarketAnalysis :=
  segment <- chars "segment.includes" given ;;
  let trends := identifyTrends segment in
  let opportunities := identifyOpportunities segment trends in
  let threats := identifyThreats segment trends in
  let recommendations := generateMarketRecommendations opportunities threats in
  t <- now ;;
  stamp <- newDate ;;
  ret (mkAnalysis ("ma-" ++ Js.showZ t) segment trends opportunities threats
         recommendations stamp).

Definition handleMarketAnalysis (cfg : ServiceConfig) (message : Request)
    (startTime : Z) : M State Reply :=
  let p := payload message in
  analysis <- analyzeMarket (Js.orString (p_segment p) "general") (p_depth p)
                (p_factors p) ;;
  s <- getState ;;
  putState (mkState (Js.set (marketSegments s) (ma_marketSegment analysis) analysis)
              (externalInterfaces s) (feedbackHistory s) (marketIntelligence s)) ;;;
  reply cfg message startTime "MARKET_ANALYZED" (MarketAnalyzed analysis).

Definition isActive (i : ExternalInterface) : bool :=
  match if_status i with active => true | _ => false end.

Definition handleInterfaceStatus (cfg : ServiceConfig) (message : Request)
    (startTime : Z) : M State Reply :=
  let p := payload message in
  s <- getState ;;
  let interfaces :=
    match Js.truthyStr (p_interfaceId p) with
    | Some key =>
        match Js.get (externalInterfaces s) key with
        | Some iface => [iface]
        | None => []
        end
    | None => Js.values (externalInterfaces s)
    end in
  reply cfg message startTime "INTERFACE_STATUS_RETRIEVED"
    (InterfaceStatusRetrieved interfaces
       (List.length (List.filter isActive interfaces)) (List.length interfaces)).

Definition handleInterfaceRegistration (cfg : ServiceConfig) (message : Request)
    (startTime : Z) : M State Reply :=
  let p := payload message in
  t <- now ;;
  last <- newDate ;;
  let newInterface :=
    mkInterface ("iface-" ++ Js.showZ t) (Js.orStr (p_interfaceType p) "generic")
      active (Js.orArr (p_capabilities p) [])
      (mkInterfaceMetrics 0 0 1 last) in
  s <- getState ;;
  putState (mkState (marketSegments s)
              (Js.set (externalInterfaces s) (if_id newInterface) newInterface)
              (feedbackHistory s) (marketIntelligence s)) ;;;
  reply cfg message startTime "INTERFACE_REGISTERED" (InterfaceRegistered newInterface).

Definition fromSource (feedbackSource : option string) (f : PerformanceFeedback) : bool :=
  match feedbackSource with
  | Some x => String.eqb (fb_source f) x
  | None => false
  end.

(** The average and the two thresholds are exact here; the source rounds
    each sum, quotient and product to a double, so a value that lies on a
    threshold up to that rounding can be rated differently. *)
Definition processFeedback (metrics : option FeedbackMetrics)
    (feedbackSource : option string) : M State PerformanceFeedback :=
  value <- match metrics with
           | Some m =>
               match fm_value m with
               | Some v => ret v
               | None => random
               end
           | None => random
           end ;;
  s <- getState ;;
  let previousValues :=
    List.map fb_value
      (Js.slice (-10) None (List.filter (fromSource feedbackSource) (feedbackHistory s))) in
  let trend :=
    if (3 <=? List.length previousValues)%nat then
      let avg := (Js.sum previousValues / Js.ofNat (List.length previousValues))%Q in
      if Js.Qltb (avg * (105 # 100)) value then improving
      else if Js.Qltb value (avg * (95 # 100)) then declining
      else stable
    else stable in
  let recommendations :=
    match trend with
    | declining => [ "Review recent changes for potential issues";
                     "Consider optimization opportunities" ]
    | improving => [ "Continue current approach";
                     "Document successful patterns for replication" ]
    | stable => []
    end in
  ret (mkFeedback (Js.orStr feedbackSource "unknown")
         (Js.orStr (match metrics with Some m => fm_type m | None => None end) "general")
         value trend
         (match trend with declining => true | _ => false end)
         recommendations).

Definition handleFeedbackProcessing (cfg : ServiceConfig) (message : Request)
    (startTime : Z) : M State Reply :=
  let p := payload message in
  feedback <- processFeedback (p_metrics p) (p_source p) ;;
  s <- getState ;;
  let pushed := (feedbackHistory s ++ [feedback])%list in
  let kept := if (1000 <? List.length pushed)%nat
              then Js.slice (-500) None pushed else pushed in
  putState (mkState (marketSegments s) (externalInterfaces s) kept
              (marketIntelligence s)) ;;;
  reply cfg message startTime "FEEDBACK_PROCESSED"
    (FeedbackProcessed feedback (List.length kept)).

Definition hasTrend (t : Trend) (f : PerformanceFeedback) : bool :=
  match fb_trend f, t with
  | improving, improving | stable, stable | declining, declining => true
  | _, _ => false
  end.

Definition calculateOverallTrend (feedback : list PerformanceFeedback) : string :=
  match feedback with
  | [] => "insufficient data"
  | _ =>
      let up := Js.ofNat (List.length (List.filter (hasTrend improving) feedback)) in
      let down := Js.ofNat (List.length (List.filter (hasTrend declining) feedback)) in
      if Js.Qltb (down * (15 # 10)) up then "positive"
      else if Js.Qltb (up * (15 # 10)) down then "negative"
      else "neutral"
  end.

Definition calculateInterfaceHealth (s : State) : Q :=
  let interfaces := Js.values (externalInterfaces s) in
  match interfaces with
  | [] => 1%Q
  | _ => (Js.ofNat (List.length (List.filter isActive interfaces))
          / Js.ofNat (List.length interfaces))%Q
  end.

Definition generateActionItems (feedback : list PerformanceFeedback)
    (analyses : list MarketAnalysis) : list string :=
  let decliningFeedback := List.filter (hasTrend declining) feedback in
  let items :=
    ((if Js.Qltb (Js.ofNat (List.length feedback) * (3 # 10))
               (Js.ofNat (List.length decliningFeedback))
      then ["Investigate declining performance trends"] else [])
     ++ List.map
          (fun a => ("Address threats in " ++ ma_marketSegment a ++ " segment")%string)
          (List.filter (fun a => (3 <? List.length (ma_threats a))%nat) analyses))%list in
  match items with
  | [] => ["Continue monitoring - no immediate actions required"]
  | _ => items
  end.

Definition gatherMarketIntelligence (domain timeframe : option string)
  : M State Intelligence :=
  s <- getState ;;
  let recentFeedback := Js.slice (-50) None (feedbackHistory s) in
  let marketAnalyses := Js.values (marketSegments s) in
  ret (mkIntelligence (Js.orStr domain "all") (Js.orStr timeframe "recent")
         (mkIntelligenceSummary
            (List.length marketAnalyses)
            (List.length
               (List.flat_map (fun a => List.filter isRising (ma_trends a)) marketAnalyses))
            (calculateOverallTrend recentFeedback)
            (calculateInterfaceHealth s))
         [ "Performance metrics indicate stable system operation";
           "Market opportunities align with current capabilities";
           "External interface utilization is within expected parameters" ]
         (generateActionItems recentFeedback marketAnalyses)).

Definition handleGetIntelligence (cfg : ServiceConfig) (message : Request)
    (startTime : Z) : M State Reply :=
  let p := payload message in
  intelligence <- gatherMarketIntelligence (p_domain p) (p_timeframe p) ;;
  reply cfg message startTime "MARKET_INTELLIGENCE_RETRIEVED"
    (MarketIntelligenceRetrieved intelligence).

Definition optimizeForPotential (targetArea : option string) (constraints : Js.value)
  : Optimization :=
  mkOptimization (Js.orStr targetArea "general")
    [ "Enhance market awareness through expanded data collection";
      "Improve feedback loop efficiency with Processing Director";
      "Strengthen external interface reliability";
      "Optimize resource allocation based on market priorities" ]
    (mkExpectedImpact "+15%" "-20%" "+25%")
    "medium"
    (mkDirectorFeedback "OPTIMIZATION_FEEDBACK"
       [ "Consider adjusting processing priorities based on market trends";
         "Enable proactive resource allocation for emerging opportunities" ]).

Definition handlePotentialOptimization (cfg : ServiceConfig) (message : Request)
    (startTime : Z) : M State Reply :=
  let p := payload message in
  reply cfg message startTime "POTENTIAL_OPTIMIZED"
    (PotentialOptimized (optimizeForPotential (p_targetArea p) (p_constraints p))).

Definition recognized : list string :=
  [ "ANALYZE_MARKET"; "INTERFACE_STATUS"; "REGISTER_INTERFACE"; "PROCESS_FEEDBACK";
    "GET_MARKET_INTELLIGENCE"; "OPTIMIZE_POTENTIAL" ].

Definition some {A : Type} (m : M State A) : M State (option A) :=
  x <- m ;; ret (Some x).

Definition process (cfg : ServiceConfig) (message : Request) : M State (option Reply) :=
  startTime <- now ;;
  log "info" "Processing market request"
    [("messageId", id message); ("type", type message)] ;;;
  let ty := type message in
  if String.eqb ty "ANALYZE_MARKET" then
    some (handleMarketAnalysis cfg message startTime)
  else if String.eqb ty "INTERFACE_STATUS" then
    some (handleInterfaceStatus cfg message startTime)
  else if String.eqb ty "REGISTER_INTERFACE" then
    some (handleInterfaceRegistration cfg message startTime)
  else if String.eqb ty "PROCESS_FEEDBACK" then
    some (handleFeedbackProcessing cfg message startTime)
  else if String.eqb ty "GET_MARKET_INTELLIGENCE" then
    some (handleGetIntelligence cfg message startTime)
  else if String.eqb ty "OPTIMIZE_POTENTIAL" then
    some (handlePotentialOptimization cfg message startTime)
  else
    (log "warn" "Unknown message type" [("type", ty)] ;;; ret None).

Definition defaultInterface (index : nat) (kind : string) (capabilities : list string)
  : M State unit :=
  last <- newDate ;;
  let newInterface :=
    mkInterface ("default-iface-" ++ Js.showNat index) kind active capabilities
      (mkInterfaceMetrics 0 0 1 last) in
  s <- getState ;;
  putState (mkState (marketSegments s)
              (Js.set (externalInterfaces s) (if_id newInterface) newInterface)
              (feedbackHistory s) (marketIntelligence s)).

Definition initializeMarketFramework : M State unit :=
  defaultInterface 0 "api" ["REST"; "GraphQL"] ;;;
  defaultInterface 1 "webhook" ["event-driven"; "real-time"] ;;;
  defaultInterface 2 "batch" ["bulk-processing"; "scheduled"] ;;;
  established <- newDate ;;
  s <- getState ;;
  putState (mkState (marketSegments s) (externalInterfaces s) (feedbackHistory s)
              (Js.set (marketIntelligence s) "baseline"
                 (Js.Obj [ ("established", Js.Num (inject_Z established));
                           ("version", Js.Str "1.0.0") ]))).

Definition emptyState : State := mkState [] [] [] [].

Definition construct (w : World) : State * World :=
  match initializeMarketFramework emptyState w with
  | (_, s, w') => (s, w')
  end.

(** The host's loop: one [process] call per request. *)
Fixpoint serve (cfg : ServiceConfig) (messages : list Request) (s : State) (w : World)
  : State * World :=
  match messages with
  | [] => (s, w)
  | m :: rest =>
      match process cfg m s w with
      | (_, s', w') => serve cfg rest s' w'
      end
  end.

(** The history length after one more feedback record under the
    truncation policy. *)
Definition lengthAfterPush (n : nat) : nat :=
  if (1000 <? S n)%nat then 500%nat else S n.

End Market.

(** ** Treasury service (treasury-service.ts) *)

Module Treasury.
Import Runtime.

Record MotorPattern : Type := mkPattern {
  sequence : list string;
  timing : list Q;
  precision : Q;
  adaptability : Q
}.

(** [Partial<MotorPattern>] *)
Record PartialPattern : Type := mkPartialPattern {
  part_sequence : option (list string);
  part_timing : option (list Q);
  part_precision : option Q;
  part_adaptability : option Q
}.

Record SkillMetadata : Type := mkMetadata {
  createdAt : Z;
  developmentPlanId : option string;
  sourceTriad : string;
  validatedBy : list string;
  dependencies : list string
}.

(** [Partial<SkillMetadata>] *)
Record PartialMetadata : Type := mkPartialMetadata {
  part_developmentPlanId : option string;
  part_sourceTriad : option string;
  part_validatedBy : option (list string);
  part_dependencies : option (list string)
}.

(** The [skillType] field is a string: the source stores [(skillType as any)].
    [proficiency] can be [NaN]: UPDATE_PROFICIENCY stores what [Math.max]
    returns. *)
Record MotorMemory : Type := mkMemory {
  mm_id : string;
  skillName : string;
  skillType : string;
  pattern : MotorPattern;
  proficiency : Js.number;
  lastAccessed : Z;
  accessCount : Z;
  metadata : SkillMetadata
}.

Record SkillIntegration : Type := mkIntegration {
  targetService : string;
  integrationType : string;
  strength : Q
}.

(** [integrations] holds whatever truthy value the registration supplied:
    an array, or a value [push] cannot be called on. *)
Record LearnedSkill : Type := mkLearnedSkill {
  ls_id : string;
  ls_name : string;
  ls_category : string;
  ls_proficiencyLevel : Q;
  ls_patterns : list string;
  ls_integrations : Js.arrayOr SkillIntegration
}.

Record SkillRetrievalResult : Type := mkRetrieval {
  skill : option MotorMemory;
  retrievalTime : Z;
  confidence : Js.number;
  alternatives : list string
}.

Record AccessRecord : Type := mkAccess {
  acc_skillId : string;
  acc_timestamp : Z;
  acc_success : bool
}.

Record State : Type := mkState {
  motorMemoryStore : Js.Map MotorMemory;
  learnedSkills : Js.Map LearnedSkill;
  accessLog : list AccessRecord;
  sharedParasympatheticState : Js.Map Js.value
}.

Record CompletedSkill : Type := mkCompletedSkill {
  cs_name : option string;
  cs_type : option string
}.

(** The fields the handlers destructure out of [message.payload].
    [integrations] is stored as it comes: absent (or falsy), an array, or
    another truthy value.  [newProficiency] is handed to [Math.min], which
    converts it to a number: the field is that number, [NaN] for a value that
    is not numeric, and [None] for [undefined] and [null]. *)
Record Payload : Type := mkPayload {
  p_skillName : option string;
  p_skillType : option string;
  p_pattern : option PartialPattern;
  p_proficiency : option Q;
  p_metadata : option PartialMetadata;
  p_skillId : option string;
  p_name : option string;
  p_category : option string;
  p_proficiencyLevel : option Q;
  p_patterns : option (list string);
  p_integrations : option (Js.arrayOr SkillIntegration);
  p_newProficiency : option Js.number;
  p_reason : option string;
  p_minProficiency : option Q;
  p_developmentPlanId : option string;
  p_completedSkill : option CompletedSkill;
  p_targetService : option string;
  p_integrationType : option string
}.

Definition emptyPayload : Payload :=
  mkPayload None None None None None None None None None None None None None None
    None None None None.

Record MemorySummary : Type := mkMemorySummary {
  msum_id : string;
  msum_name : string;
  msum_type : string;
  msum_proficiency : Js.number;
  msum_accessCount : Z
}.

Record SkillSummary : Type := mkSkillSummary {
  ssum_id : string;
  ssum_name : string;
  ssum_category : string;
  ssum_proficiency : Q
}.

Record AccessStatistics : Type := mkAccessStatistics {
  totalAccesses : nat;
  successRate : Q
}.

Record Inventory : Type := mkInventory {
  totalMotorMemories : nat;
  totalLearnedSkills : nat;
  filteredMotorMemories : nat;
  filteredLearnedSkills : nat;
  inv_motorMemories : list MemorySummary;
  inv_learnedSkills : list SkillSummary;
  accessStatistics : AccessStatistics;
  parasympatheticStatus : Js.value
}.

Inductive Body : Type :=
| MotorMemoryStored (memoryId skillName : string) (proficiency : Js.number)
    (storedAt : Z)
| SkillRetrieved (result : SkillRetrievalResult)
| LearnedSkillRegistered (skill : LearnedSkill)
| ProficiencyUpdateError (error : string) (skillId : option string)
| ProficiencyUpdated (skillId : string)
    (oldProficiency newProficiency change : Js.number) (reason : string)
| SkillInventoryRetrieved (inventory : Inventory)
| DevelopmentReceived (memoryId skillName : string) (proficiency : Js.number)
    (developmentPlanId : option string) (parasympatheticSync : string)
| SkillIntegrationError (error : string) (skillId : option string)
| SkillIntegrated (skillId skillName : string) (integration : SkillIntegration)
    (totalIntegrations : nat).

Definition Reply : Type := ServiceMessage (Response Body).
Definition Request : Type := ServiceMessage Payload.

Definition setMotorMemoryStore (s : State) (m : Js.Map MotorMemory) : State :=
  mkState m (learnedSkills s) (accessLog s) (sharedParasympatheticState s).
Definition setLearnedSkills (s : State) (m : Js.Map LearnedSkill) : State :=
  mkState (motorMemoryStore s) m (accessLog s) (sharedParasympatheticState s).
Definition setAccessLog (s : State) (l : list AccessRecord) : State :=
  mkState (motorMemoryStore s) (learnedSkills s) l (sharedParasympatheticState s).
Definition setShared (s : State) (m : Js.Map Js.value) : State :=
  mkState (motorMemoryStore s) (learnedSkills s) (accessLog s) m.

Definition withProficiency (m : MotorMemory) (v : Js.number) : MotorMemory :=
  mkMemory (mm_id m) (skillName m) (skillType m) (pattern m) v (lastAccessed m)
    (accessCount m) (metadata m).
Definition withAccess (m : MotorMemory) (t : Z) : MotorMemory :=
  mkMemory (mm_id m) (skillName m) (skillType m) (pattern m) (proficiency m) t
    (accessCount m + 1) (metadata m).

Definition reply (cfg : ServiceConfig) (message : Request) (startTime : Z)
    (ty : string) (b : Body) : M State Reply :=
  t <- now ;;
  createMessage ty (mkResponse b (t - startTime) (serviceName cfg))
    (serviceName cfg) (source message).

(** [p?.f] on an optional record with optional fields. *)
Definition field {R A : Type} (r : option R) (f : R -> option A) : option A :=
  match r with Some x => f x | None => None end.

Definition storeMotorMemory (name type : option string) (pat : option PartialPattern)
    (prof : option Q) (meta : option PartialMetadata) : M State MotorMemory :=
  t <- now ;;
  accessed <- newDate ;;
  created <- newDate ;;
  ret (mkMemory ("mm-" ++ Js.showZ t)
         (Js.orStr name "unnamed-skill")
         (Js.orStr type "motor")
         (mkPattern (Js.orArr (field pat part_sequence) [])
                    (Js.orArr (field pat part_timing) [])
                    (Js.coalesce (field pat part_precision) (7 # 10))
                    (Js.coalesce (field pat part_adaptability) (5 # 10)))
         (Js.Finite (Js.coalesce prof (5 # 10)))
         accessed
         0
         (mkMetadata created
            (field meta part_developmentPlanId)
            (Js.orStr (field meta part_sourceTriad) "somatic")
            (Js.orArr (field meta part_validatedBy) [])
            (Js.orArr (field meta part_dependencies) []))).

Definition handleStoreMotorMemory (cfg : ServiceConfig) (message : Request)
    (startTime : Z) : M State Reply :=
  let p := payload message in
  memory <- storeMotorMemory (p_skillName p) (p_skillType p) (p_pattern p)
              (p_proficiency p) (p_metadata p) ;;
  s <- getState ;;
  putState (setMotorMemoryStore s (Js.set (motorMemoryStore s) (mm_id memory) memory)) ;;;
  reply cfg message startTime "MOTOR_MEMORY_STORED"
    (MotorMemoryStored (mm_id memory) (skillName memory) (proficiency memory)
       (createdAt (metadata memory))).

(** One round of the search loop of [retrieveSkill]: the best match so far
    (with the key it is stored under) and the alternatives collected. *)
Definition scan (name type : option string)
    (acc : option (string * MotorMemory) * list string) (entry : string * MotorMemory)
  : option (string * MotorMemory) * list string :=
  let memory := snd entry in
  let matchesName :=
    match Js.truthyStr name with
    | Some n => Js.includes (Js.toLowerCase (skillName memory)) (Js.toLowerCase n)
    | None => false
    end in
  let matchesType :=
    match Js.truthyStr type with
    | Some t => String.eqb (skillType memory) t
    | None => false
    end in
  if matchesName then
    (match fst acc with
     | None => Some entry
     | Some best =>
         if Js.ngt (proficiency memory) (proficiency (snd best))
         then Some entry else Some best
     end,
     (snd acc ++ [skillName memory])%list)
  else if matchesType then (fst acc, (snd acc ++ [skillName memory])%list)
  else acc.

Definition retrieveSkill (sid name type : option string) : M State SkillRetrievalResult :=
  startTime <- now ;;
  s <- getState ;;
  let byId :=
    match Js.truthyStr sid with
    | Some k =>
        match Js.get (motorMemoryStore s) k with
        | Some m => Some (k, m)
        | None => None
        end
    | None => None
    end in
  let found :=
    match byId with
    | Some hit => (Some hit, [])
    | None => fold_left (scan name type) (motorMemoryStore s) (None, [])
    end in
  hit <- match fst found with
         | Some (k, m) =>
             t <- newDate ;;
             let m' := withAccess m t in
             s' <- getState ;;
             putState (setMotorMemoryStore s' (Js.set (motorMemoryStore s') k m')) ;;;
             ret (Some m')
         | None => ret None
         end ;;
  finish <- now ;;
  ret (mkRetrieval hit (finish - startTime)
         (match hit with Some m => proficiency m | None => Js.Finite 0 end)
         (Js.slice 0 (Some 5)
            (List.filter
               (fun a => match hit with
                         | Some m => negb (String.eqb a (skillName m))
                         | None => true
                         end)
               (snd found)))).

Definition handleRetrieveSkill (cfg : ServiceConfig) (message : Request)
    (startTime : Z) : M State Reply :=
  let p := payload message in
  result <- retrieveSkill (p_skillId p) (p_skillName p) (p_skillType p) ;;
  stamp <- newDate ;;
  s <- getState ;;
  putState (setAccessLog s
              (accessLog s
               ++ [mkAccess
                     (match Js.truthyStr (p_skillId p) with
                      | Some x => x
                      | None => Js.orStr (p_skillName p) "search"
                      end)
                     stamp
                     (match skill result with Some _ => true | None => false end)])%list) ;;;
  reply cfg message startTime "SKILL_RETRIEVED" (SkillRetrieved result).

Definition registerLearnedSkill (name category : option string)
    (proficiencyLevel : option Q) (patterns : option (list string))
    (integrations : option (Js.arrayOr SkillIntegration)) : M State LearnedSkill :=
  t <- now ;;
  ret (mkLearnedSkill ("ls-" ++ Js.showZ t)
         (Js.orStr name "unnamed-learned-skill")
         (Js.orStr category "general")
         (Js.coalesce proficiencyLevel (5 # 10))
         (Js.orArr patterns [])
         (Js.orArray integrations
            [ mkIntegration "motor-control" "motor" (7 # 10);
              mkIntegration "processing-service" "behavioral" (5 # 10) ])).

Definition handleRegisterLearnedSkill (cfg : ServiceConfig) (message : Request)
    (startTime : Z) : M State Reply :=
  let p := payload message in
  learned <- registerLearnedSkill (p_name p) (p_category p) (p_proficiencyLevel p)
               (p_patterns p) (p_integrations p) ;;
  s <- getState ;;
  putState (setLearnedSkills s (Js.set (learnedSkills s) (ls_id learned) learned)) ;;;
  reply cfg message startTime "LEARNED_SKILL_REGISTERED" (LearnedSkillRegistered learned).

Definition handleUpdateProficiency (cfg : ServiceConfig) (message : Request)
    (startTime : Z) : M State Reply :=
  let p := payload message in
  s <- getState ;;
  match p_skillId p with
  | None =>
      reply cfg message startTime "PROFICIENCY_UPDATE_ERROR"
        (ProficiencyUpdateError "Skill not found" (p_skillId p))
  | Some key =>
      match Js.get (motorMemoryStore s) key with
      | None =>
          reply cfg message startTime "PROFICIENCY_UPDATE_ERROR"
            (ProficiencyUpdateError "Skill not found" (p_skillId p))
      | Some memory =>
          let oldProficiency := proficiency memory in
          let memory' :=
            withProficiency memory
              (Js.nmax (Js.Finite 0)
                 (Js.nmin (Js.Finite 1)
                    (Js.coalesce (p_newProficiency p) (proficiency memory)))) in
          putState (setMotorMemoryStore s (Js.set (motorMemoryStore s) key memory')) ;;;
          reply cfg message startTime "PROFICIENCY_UPDATED"
            (ProficiencyUpdated key oldProficiency (proficiency memory')
               (Js.nsub (proficiency memory') oldProficiency)
               (Js.orStr (p_reason p) "manual update"))
      end
  end.

Definition getSkillInventory (category : option string) (minProficiency : option Q)
  : M State Inventory :=
  s <- getState ;;
  let memories := Js.values (motorMemoryStore s) in
  let skills := Js.values (learnedSkills s) in
  let byCategory :=
    match Js.truthyStr category with
    | Some c => List.filter (fun k => String.eqb (ls_category k) c) skills
    | None => skills
    end in
  let filteredMemories :=
    match minProficiency with
    | Some v => List.filter (fun m => Js.nge (proficiency m) (Js.Finite v)) memories
    | None => memories
    end in
  let filteredSkills :=
    match minProficiency with
    | Some v => List.filter (fun k => Qle_bool v (ls_proficiencyLevel k)) byCategory
    | None => byCategory
    end in
  let recentAccess := Js.slice (-100) None (accessLog s) in
  let accessStats :=
    mkAccessStatistics (List.length recentAccess)
      (Js.ofNat (List.length (List.filter acc_success recentAccess))
       / Js.ofNat (Nat.max (List.length recentAccess) 1))%Q in
  ret (mkInventory (List.length memories) (List.length skills)
         (List.length filteredMemories) (List.length filteredSkills)
         (List.map (fun m => mkMemorySummary (mm_id m) (skillName m) (skillType m)
                               (proficiency m) (accessCount m)) filteredMemories)
         (List.map (fun k => mkSkillSummary (ls_id k) (ls_name k) (ls_category k)
                               (ls_proficiencyLevel k)) filteredSkills)
         accessStats
         (match Js.get (sharedParasympatheticState s) "status" with
          | Some v => if Js.truthy v then v else Js.Str "active"
          | None => Js.Str "active"
          end)).

Definition handleGetSkillInventory (cfg : ServiceConfig) (message : Request)
    (startTime : Z) : M State Reply :=
  let p := payload message in
  inventory <- getSkillInventory (p_category p) (p_minProficiency p) ;;
  reply cfg message startTime "SKILL_INVENTORY_RETRIEVED" (SkillInventoryRetrieved inventory).

(** [${v}] of an optional string inside a template. *)
Definition render (v : option string) : string :=
  match v with Some x => x | None => "undefined" end.

Definition optStr (v : option string) : Js.value :=
  match v with Some x => Js.Str x | None => Js.Undefined end.

Definition handleReceiveFromDevelopment (cfg : ServiceConfig) (message : Request)
    (startTime : Z) : M State Reply :=
  let p := payload message in
  let plan := p_developmentPlanId p in
  memory <- storeMotorMemory
              (Some (Js.orStr (field (p_completedSkill p) cs_name)
                       ("dev-skill-" ++ render plan)))
              (Some (Js.orStr (field (p_completedSkill p) cs_type) "motor"))
              (p_pattern p)
              (p_proficiency p)
              (Some (mkPartialMetadata plan (Some "somatic")
                       (Some ["development-service"]) None)) ;;
  s <- getState ;;
  putState (setMotorMemoryStore s (Js.set (motorMemoryStore s) (mm_id memory) memory)) ;;;
  stamp <- newDate ;;
  s1 <- getState ;;
  putState (setShared s1
              (Js.set (sharedParasympatheticState s1) "lastDevelopmentReceived"
                 (Js.Obj [ ("timestamp", Js.Num (inject_Z stamp));
                           ("planId", optStr plan);
                           ("memoryId", Js.Str (mm_id memory)) ]))) ;;;
  reply cfg message startTime "DEVELOPMENT_RECEIVED"
    (DevelopmentReceived (mm_id memory) (skillName memory) (proficiency memory) plan
       "complete").

Definition handleSkillIntegration (cfg : ServiceConfig) (message : Request)
    (startTime : Z) : M State Reply :=
  let p := payload message in
  s <- getState ;;
  match p_skillId p with
  | None =>
      reply cfg message startTime "SKILL_INTEGRATION_ERROR"
        (SkillIntegrationError "Skill not found" (p_skillId p))
  | Some key =>
      match Js.get (learnedSkills s) key with
      | None =>
          reply cfg message startTime "SKILL_INTEGRATION_ERROR"
            (SkillIntegrationError "Skill not found" (p_skillId p))
      | Some learned =>
          let integration :=
            mkIntegration (Js.orStr (p_targetService p) "motor-control")
              (Js.orStr (p_integrationType p) "motor") (5 # 10) in
          held <- items "skill.integrations.push" (ls_integrations learned) ;;
          let pushed := (held ++ [integration])%list in
          let learned' :=
            mkLearnedSkill (ls_id learned) (ls_name learned) (ls_category learned)
              (ls_proficiencyLevel learned) (ls_patterns learned)
              (Js.IsArray pushed) in
          putState (setLearnedSkills s (Js.set (learnedSkills s) key learned')) ;;;
          reply cfg message startTime "SKILL_INTEGRATED"
            (SkillIntegrated key (ls_name learned') integration
               (List.length pushed))
      end
  end.

Definition recognized : list string :=
  [ "STORE_MOTOR_MEMORY"; "RETRIEVE_SKILL"; "REGISTER_LEARNED_SKILL";
    "UPDATE_PROFICIENCY"; "GET_SKILL_INVENTORY"; "RECEIVE_FROM_DEVELOPMENT";
    "INTEGRATE_SKILL" ].

Definition some {A : Type} (m : M State A) : M State (option A) :=
  x <- m ;; ret (Some x).

Definition process (cfg : ServiceConfig) (message : Request) : M State (option Reply) :=
  startTime <- now ;;
  log "info" "Processing treasury request"
    [("messageId", id message); ("type", type message)] ;;;
  let ty := type message in
  if String.eqb ty "STORE_MOTOR_MEMORY" then
    some (handleStoreMotorMemory cfg message startTime)
  else if String.eqb ty "RETRIEVE_SKILL" then
    some (handleRetrieveSkill cfg message startTime)
  else if String.eqb ty "REGISTER_LEARNED_SKILL" then
    some (handleRegisterLearnedSkill cfg message startTime)
  else if String.eqb ty "UPDATE_PROFICIENCY" then
    some (handleUpdateProficiency cfg message startTime)
  else if String.eqb ty "GET_SKILL_INVENTORY" then
    some (handleGetSkillInventory cfg message startTime)
  else if String.eqb ty "RECEIVE_FROM_DEVELOPMENT" then
    some (handleReceiveFromDevelopment cfg message startTime)
  else if String.eqb ty "INTEGRATE_SKILL" then
    some (handleSkillIntegration cfg message startTime)
  else
    (log "warn" "Unknown message type" [("type", ty)] ;;; ret None).

Definition seed (name type : string) (prof : Q) : M State unit :=
  memory <- storeMotorMemory (Some name) (Some type) None (Some prof) None ;;
  s <- getState ;;
  putState (setMotorMemoryStore s (Js.set (motorMemoryStore s) (mm_id memory) memory)).

Definition initializeTreasuryFramework : M State unit :=
  seed "basic-motor-control" "motor" (9 # 10) ;;;
  seed "sensory-motor-coordination" "procedural" (8 # 10) ;;;
  seed "adaptive-response" "behavioral" (7 # 10) ;;;
  seed "reflex-action" "reflexive" (95 # 100) ;;;
  s <- getState ;;
  putState (setShared s (Js.set (sharedParasympatheticState s) "status"
                           (Js.Str "active"))) ;;;
  stamp <- newDate ;;
  s1 <- getState ;;
  putState (setShared s1
              (Js.set (sharedParasympatheticState s1) "initialized"
                 (Js.Obj [ ("timestamp", Js.Num (inject_Z stamp));
                           ("receivingFrom", Js.Str "development-service");
                           ("connectedTriads",
                            Js.Arr [Js.Str "somatic"; Js.Str "autonomic"]) ]))).

Definition emptyState : State := mkState [] [] [] [].

Definition construct (w : World) : State * World :=
  match initializeTreasuryFramework emptyState w with
  | (_, s, w') => (s, w')
  end.

Definition shutdown : M State unit :=
  log "info" "Shutting down Treasury Service" [] ;;;
  s <- getState ;;
  putState (setShared s (Js.set (sharedParasympatheticState s) "status"
                           (Js.Str "shutting-down"))).

(** [Math.min(1, Math.max(0, v))] *)
Definition clamp (v : Q) : Q := Js.min 1 (Js.max 0 v).

End Treasury.

(** ** Concrete configurations, worlds and requests *)

Module Samples.
Import Runtime.

(** A clock that advances by one millisecond per reading, a constant random
    source and numbered envelope ids. *)
Definition oracle0 : Oracle :=
  mkOracle (fun n => 1700000000000 + Z.of_nat n) (fun _ => (1 # 2)%Q)
    (fun n => "msg-" ++ Js.showNat n).

(** A clock stuck at one reading: every id generated from it collides. *)
Definition frozen : Oracle :=
  mkOracle (fun _ => 0) (fun _ => (1 # 2)%Q) (fun n => "msg-" ++ Js.showNat n).

Definition world0 : World := mkWorld oracle0 0 0 0 [].
Definition frozenWorld : World := mkWorld frozen 0 0 0 [].

Definition organizationConfig : ServiceConfig :=
  mkConfig 3026 "organization-service" "autonomic" "O-4" "development".
Definition salesConfig : ServiceConfig :=
  mkConfig 3005 "sales-service" "cerebral" "S-8" "development".
Definition marketConfig : ServiceConfig :=
  mkConfig 3006 "market-service" "cerebral" "M-1" "development".
Definition treasuryConfig : ServiceConfig :=
  mkConfig 3016 "treasury-service" "somatic" "T-7" "development".

(** The envelope the host builds for a request body. *)
Definition request {P : Type} (ty : string) (p : P) (dst : string) : ServiceMessage P :=
  mkMessage "req-1" ty p "api-gateway" dst 1700000000000.

Definition organization0 : Organization.State := fst (Organization.construct world0).
Definition organizationWorld : World := snd (Organization.construct world0).

Definition bogusOrganization : Organization.Request :=
  request "DELETE_ORGANIZATION" Organization.emptyPayload "organization-service".
Definition bogusSales : Sales.Request :=
  request "DELETE_ASSESSMENT" Sales.emptyPayload "sales-service".
Definition bogusMarket : Market.Request :=
  request "DELETE_SEGMENT" Market.emptyPayload "market-service".
Definition bogusTreasury : Treasury.Request :=
  request "DELETE_SKILL" Treasury.emptyPayload "treasury-service".

(** [POST /schedule] with [{"targets": ["a", "b"]}] *)
Definition scheduleAB : Organization.Request :=
  request "SCHEDULE_MAINTENANCE"
    (Organization.mkPayload None None None None None None None None
       (Some ["a"; "b"]) None None None None None None Js.Undefined)
    "organization-service".

Definition execute (key : string) : Organization.Request :=
  request "EXECUTE_MAINTENANCE"
    (Organization.mkPayload None None None None None None None None None None
       (Some key) None None None None Js.Undefined)
    "organization-service".

Definition optimize (key : string) : Organization.Request :=
  request "OPTIMIZE_ORGANIZATION"
    (Organization.mkPayload None None None None None None None None None None
       None (Some key) None None None Js.Undefined)
    "organization-service".

(** [POST /assess] with the empty JSON object. *)
Definition assessNothing : Sales.Request :=
  request "ASSESS_QUALITY" Sales.emptyPayload "sales-service".

Definition sales0 : Sales.State := fst (Sales.construct world0).

(** [POST /feedback] with [{"metrics": {"value": 0.5}, "source": "probe"}] *)
Definition feedback : Market.Request :=
  request "PROCESS_FEEDBACK"
    (Market.mkPayload None None None None None None
       (Some (Market.mkFeedbackMetrics (Some (1 # 2)%Q) None)) (Some "probe")
       None None None Js.Undefined)
    "market-service".

Definition market0 : Market.State := fst (Market.construct world0).
Definition marketWorld : World := snd (Market.construct world0).

Definition treasury0 : Treasury.State := fst (Treasury.construct world0).
Definition treasuryWorld : World := snd (Treasury.construct world0).

(** [POST /store] with a skill name, a type and a proficiency. *)
Definition store (name kind : string) (prof : Q) : Treasury.Request :=
  request "STORE_MOTOR_MEMORY"
    (Treasury.mkPayload (Some name) (Some kind) None (Some prof) None None None None
       None None None None None None None None None None)
    "treasury-service".

(** [POST /retrieve] with a skill name only. *)
Definition retrieveByName (name : string) : Treasury.Request :=
  request "RETRIEVE_SKILL"
    (Treasury.mkPayload (Some name) None None None None None None None
       None None None None None None None None None None)
    "treasury-service".

(** [POST /retrieve] with a skill id only. *)
Definition retrieveById (key : string) : Treasury.Request :=
  request "RETRIEVE_SKILL"
    (Treasury.mkPayload None None None None None (Some key) None None
       None None None None None None None None None None)
    "treasury-service".


(** The development service hands over a finished skill. *)
Definition receive (prof : Q) : Treasury.Request :=
  request "RECEIVE_FROM_DEVELOPMENT"
    (Treasury.mkPayload None None None (Some prof) None None None None
       None None None None None None (Some "plan-1") None None None)
    "treasury-service".

(** The confidence a retrieval by id reports right after a store. *)
Definition confidenceAfterStore (prof : Q) : option Js.number :=
  match Treasury.process treasuryConfig (store "overdrive" "motor" prof)
          treasury0 treasuryWorld with
  | (Ok (Some r), s1, w1) =>
      match body (payload r) with
      | Treasury.MotorMemoryStored key _ _ _ =>
          match Treasury.process treasuryConfig (retrieveById key) s1 w1 with
          | (Ok (Some r2), _, _) =>
              match body (payload r2) with
              | Treasury.SkillRetrieved res => Some (Treasury.confidence res)
              | _ => None
              end
          | _ => None
          end
      | _ => None
      end
  | _ => None
  end.

End Samples.

(** ** Vocabulary of the properties *)

Module Spec.
Import Runtime.

(** A computation that returns normally, leaves the service state alone,
    writes no log entry and only advances the world's counters. *)
Definition quiet {St A : Type} (m : M St A) : Prop :=
  forall s w, exists a w',
    m s w = (Ok a, s, w') /\ oracle w' = oracle w /\ (ticks w <= ticks w')%nat
    /\ logged w' = logged w.

(** The world after [process] has read the clock and logged the request. *)
Definition announced (txt : string) {P : Type} (msg : ServiceMessage P) (w : World)
  : World :=
  mkWorld (oracle w) (S (ticks w)) (draws w) (ids w)
    (logged w ++ [mkLog "info" txt [("messageId", id msg); ("type", type msg)]]).

(** The world after [process] has also logged the unknown-type warning. *)
Definition warned (txt : string) {P : Type} (msg : ServiceMessage P) (w : World)
  : World :=
  mkWorld (oracle w) (S (ticks w)) (draws w) (ids w)
    (logged w ++ [mkLog "info" txt [("messageId", id msg); ("type", type msg)];
                  mkLog "warn" "Unknown message type" [("type", type msg)]]).

(** A clock that never runs backwards. *)
Definition monotone (o : Oracle) : Prop :=
  forall i j, (i <= j)%nat -> clockAt o i <= clockAt o j.

End Spec.

Module OrganizationSpec.
Import Runtime Organization.

(** An array element that is not [null]. *)
Definition present {A : Type} (c : option A) : bool :=
  match c with Some _ => true | None => false end.

(** The [components] that [createOrganization] can map over: absent, or an
    array without a [null] element. *)
Definition mappable (components : option (Js.arrayOr (option PartialComponent)))
  : bool :=
  match Js.orArray components [] with
  | Js.IsArray given => forallb present given
  | Js.NotArray => false
  end.

(** A request whose handler finds the shapes it relies on. *)
Definition wellFormed (msg : Request) : bool :=
  negb (String.eqb (type msg) "CREATE_ORGANIZATION")
  || mappable (p_components (payload msg)).

(** What [createOrganization] returns. *)
Definition created (o : SystemOrganization) : Prop :=
  org_status o = active
  /\ org_metrics o = mkMetrics (85 # 100) (9 # 10) (8 # 10) (95 # 100)
  /\ exists t, org_id o = "org-" ++ t.

(** [o'] is [o] after a run of [optimizeOrganization]. *)
Definition optimized (o o' : SystemOrganization) : Prop :=
  exists ty s w rep s' w',
    optimizeOrganization (Some o) ty s w = (Ok (Some o', rep), s', w').

(** [t'] is [t] after a run of [executeMaintenance]. *)
Definition executed (t t' : SystemMaintenance) : Prop :=
  exists s w res s' w',
    executeMaintenance t s w = (Ok (t', res), s', w') /\ res = maint_results t'.

(** The effect one [process] call can have on the stores. *)
Inductive step (s : State) : State -> Prop :=
| step_same : step s s
| step_create o :
    created o ->
    step s (setOrganizations s (Js.set (organizations s) (org_id o) o))
| step_coordinate c :
    step s (setCoordinations s (Js.set (coordinations s) (coord_id c) c))
| step_schedule t :
    maint_status t = scheduled ->
    step s (setMaintenanceTasks s (Js.set (maintenanceTasks s) (maint_id t) t))
| step_execute k t t' :
    Js.get (maintenanceTasks s) k = Some t ->
    executed t t' ->
    step s (setMaintenanceTasks s (Js.set (maintenanceTasks s) k t'))
| step_optimize k o o' :
    Js.get (organizations s) k = Some o ->
    k <> "" ->
    optimized o o' ->
    step s (setOrganizations s (Js.set (organizations s) k o')).

(** A handler run that answers: it returns an envelope naming this service,
    timed against a later clock reading, after one [step]. *)
Definition answers (cfg : ServiceConfig) (t0 : Z) (s : State) (w : World)
    (x : Res Reply * State * World) : Prop :=
  exists r s' w',
    x = (Ok r, s', w') /\ step s s'
    /\ respSource (payload r) = serviceName cfg
    /\ (exists n, (ticks w <= n)%nat
                  /\ processingTime (payload r) = clockAt (oracle w) n - t0)
    /\ oracle w' = oracle w /\ (ticks w <= ticks w')%nat.

(** The envelope [some h] returns when the handler [h] answers, seen from the
    world [process] started in. *)
Definition replied (cfg : ServiceConfig) (s : State) (w : World)
    (x : Res (option Reply) * State * World) : Prop :=
  exists r s' w',
    x = (Ok (Some r), s', w') /\ step s s'
    /\ respSource (payload r) = serviceName cfg
    /\ (exists n, (ticks w <= n)%nat
                  /\ processingTime (payload r)
                     = clockAt (oracle w) n - clockAt (oracle w) (ticks w))
    /\ oracle w' = oracle w.

(** Every key is a non-empty string and no stored organization is
    [optimizing]. *)
Definition settled (s : State) : Prop :=
  Forall (fun kv => fst kv <> "" /\ org_status (snd kv) <> optimizing) (organizations s).

Definition holdsBounded (s : State) (k : string) : Prop :=
  exists o, Js.get (organizations s) k = Some o /\ bounded (org_metrics o).

End OrganizationSpec.

Module TreasurySpec.
Import Runtime Treasury.

(** The test the search loop applies for the name ["basic"]. *)
Definition basicMatch (m : MotorMemory) : bool :=
  Js.includes (Js.toLowerCase (skillName m)) "basic".

Definition good (m : MotorMemory) : Prop :=
  skillName m = "basic-motor-control" /\ proficiency m = Js.Finite (9 # 10).

(** Every stored memory that matches ["basic"] is a [good] one. *)
Definition fits (kv : string * MotorMemory) : Prop :=
  basicMatch (snd kv) = true -> good (snd kv).

Definition settledOn (acc : option (string * MotorMemory) * list string) : Prop :=
  match fst acc with
  | Some (_, m) => good m
  | None => True
  end.

(** The proficiency a store or hand-over response reports. *)
Definition reportedProficiency (b : Body) : option Js.number :=
  match b with
  | MotorMemoryStored _ _ p _ => Some p
  | DevelopmentReceived _ _ p _ _ => Some p
  | _ => None
  end.

End TreasurySpec.

(** ** Vocabulary of the further properties *)

Module More.
Import Runtime.

(** [Math.random()] answers in [0, 1). *)
Definition unitDraws (o : Oracle) : Prop :=
  forall n, (0 <= randAt o n < 1)%Q.

(** A handler run that answers: an envelope of the given type, sent by this
    service back to the sender of the request, naming this service in its
    payload and timed against a later clock reading. *)
Definition addressed {B P St : Type} (cfg : ServiceConfig) (msg : ServiceMessage P)
    (t0 : Z) (w : World) (x : Res (ServiceMessage (Response B)) * St * World)
    (ty : string) : Prop :=
  exists r s' w',
    x = (Ok r, s', w')
    /\ type r = ty
    /\ source r = serviceName cfg
    /\ destination r = source msg
    /\ respSource (payload r) = serviceName cfg
    /\ (exists n, (ticks w <= n)%nat
                  /\ processingTime (payload r) = clockAt (oracle w) n - t0)
    /\ oracle w' = oracle w /\ (ticks w <= ticks w')%nat.

(** [l] is [m] with some elements left out, the order kept. *)
Inductive subseq {A : Type} : list A -> list A -> Prop :=
| subseq_nil : subseq [] []
| subseq_skip x l m : subseq l m -> subseq l (x :: m)
| subseq_keep x l m : subseq l m -> subseq (x :: l) (x :: m).

End More.

Module OrganizationMore.
Import Runtime Organization.

(** The response type each request type is answered with; an
    EXECUTE_MAINTENANCE request has two. *)
Definition responseTypes (requestType : string) : list string :=
  if String.eqb requestType "CREATE_ORGANIZATION" then ["ORGANIZATION_CREATED"]
  else if String.eqb requestType "COORDINATE_BACKGROUND"
       then ["BACKGROUND_COORDINATION_CREATED"]
  else if String.eqb requestType "SCHEDULE_MAINTENANCE" then ["MAINTENANCE_SCHEDULED"]
  else if String.eqb requestType "EXECUTE_MAINTENANCE"
       then ["MAINTENANCE_EXECUTED"; "MAINTENANCE_EXECUTION_ERROR"]
  else if String.eqb requestType "GET_ORGANIZATION_STATUS"
       then ["ORGANIZATION_STATUS_RETRIEVED"]
  else if String.eqb requestType "OPTIMIZE_ORGANIZATION" then ["ORGANIZATION_OPTIMIZED"]
  else if String.eqb requestType "SYNC_WITH_STATE_MANAGEMENT"
       then ["STATE_MANAGEMENT_SYNCED"]
  else [].

(** Every stored organization has its four metrics in [0,1]. *)
Definition allBounded (s : State) : Prop :=
  Forall (fun kv => bounded (org_metrics (snd kv))) (organizations s).

(** The component [completeComponent] builds at index [i] from [c]. *)
Definition completes (i : nat) (c : PartialComponent) (k : OrganizationComponent)
  : Prop :=
  comp_name k = Js.orStr (part_name c) ("component-" ++ Js.showNat i)
  /\ comp_role k = Js.orStr (part_role c) "worker"
  /\ comp_dependencies k = Js.orArr (part_dependencies c) []
  /\ comp_status k = operational
  /\ (forall x, Js.truthyStr (part_id c) = Some x -> comp_id k = x)
  /\ (Js.truthyStr (part_id c) = None ->
      exists t, comp_id k = "comp-" ++ Js.showZ t ++ "-" ++ Js.showNat i).

(** The four metrics of [a] are at most those of [b]. *)
Definition metricsLe (a b : OrganizationMetrics) : Prop :=
  (efficiency a <= efficiency b /\ coordination a <= coordination b
   /\ responsiveness a <= responsiveness b /\ stability a <= stability b)%Q.

(** No metric is below the threshold under which [optimizeOrganization]
    raises it. *)
Definition atTargets (m : OrganizationMetrics) : Prop :=
  (9 # 10 <= efficiency m /\ 9 # 10 <= coordination m
   /\ 9 # 10 <= responsiveness m /\ 95 # 100 <= stability m)%Q.

(** The four metrics of [a] are those of [b]. *)
Definition metricsEq (a b : OrganizationMetrics) : Prop :=
  (efficiency a == efficiency b /\ coordination a == coordination b
   /\ responsiveness a == responsiveness b /\ stability a == stability b)%Q.

(** One metric before and after a run of [optimizeOrganization]: below its
    threshold it is raised by its increment, otherwise it is kept. *)
Definition raised (x y thr d : Q) : Prop :=
  ((x < thr /\ y == x + d) \/ (thr <= x /\ y == x))%Q.

(** [o'] is [o] after [n] runs of [optimizeOrganization]. *)
Inductive optimizedTimes : nat -> SystemOrganization -> SystemOrganization -> Prop :=
| optimized_zero o : optimizedTimes 0 o o
| optimized_succ n o o1 o2 :
    OrganizationSpec.optimized o o1 -> optimizedTimes n o1 o2 ->
    optimizedTimes (S n) o o2.

(** The report of an optimization that was given no organization. *)
Definition systemWideReport : OptimizationReport :=
  mkOptimizationReport
    [ "System-wide organization review completed";
      "Background coordination patterns analyzed";
      "Maintenance schedules optimized" ]
    (mkImprovement None None None None)
    (mkSmSync true "organization_update" "medium").

(** The status [executeMaintenance] leaves, read off its two draws. *)
Definition statusFor (r1 r2 : Q) : MaintenanceStatus :=
  let found := Js.floor (r1 * 3) in
  if found <=? Js.floor (r2 * inject_Z (found + 1)) then completed else failed.

End OrganizationMore.

Module SalesMore.
Import Runtime Sales.

(** The range each evaluator keeps its dimension in. *)
Definition inRange (d : QualityDimensions) : Prop :=
  (5 # 10 <= accuracy d <= 1 /\ 5 # 10 <= completeness d <= 1
   /\ 7 # 10 <= relevance d <= 1 /\ 5 # 10 <= clarity d <= 1
   /\ 8 # 10 <= timeliness d <= 1)%Q.

(** The request types whose handler assesses [payload.output]. *)
Definition assessing : list string :=
  ["ASSESS_QUALITY"; "CHECK_MARKET_READINESS"; "OPTIMIZE_FOR_MARKET"].

(** The request makes its handler read a field of an [output] or [content]
    that is undefined or null, or filter [targetChannels] that are not an
    array. *)
Definition unusableInput (msg : Request) : Prop :=
  (In (type msg) assessing /\ Js.nullish (p_output (payload msg)) = true)
  \/ (type msg = "PROMOTE_OUTPUT"
      /\ (Js.nullish (p_content (payload msg)) = true
          \/ p_targetChannels (payload msg) = Some Js.NotArray)).

(** The blockers [checkMarketReadiness] can report, in its order. *)
Definition allBlockers : list string :=
  [ "Quality below threshold"; "Compliance verification pending";
    "Format validation failed"; "Target audience alignment needed" ].

(** The number of criteria that hold. *)
Definition met (c : MarketReadinessCriteria) : nat :=
  List.length
    (List.filter (fun v => v)
       [qualityThreshold c; complianceCheck c; formatValidation c; targetAlignment c]).

End SalesMore.

Module MarketMore.
Import Runtime Market.

(** The states the service can be in between two calls. *)
Inductive reachable : State -> Prop :=
| reach_construct (w : World) : reachable (fst (construct w))
| reach_process (cfg : ServiceConfig) (m : Request) (s : State) (w : World) :
    reachable s -> reachable (finalState (process cfg m s w)).

(** What holds of the stores between two calls: the history is within its
    limit and names a source in every record, every interface is active, and
    every analysis is stored under its segment with its four threats. *)
Definition wellKept (s : State) : Prop :=
  (List.length (feedbackHistory s) <= 1000)%nat
  /\ Forall (fun f => fb_source f <> "") (feedbackHistory s)
  /\ Forall (fun kv => if_status (snd kv) = active) (externalInterfaces s)
  /\ Forall (fun kv => ma_marketSegment (snd kv) = fst kv
                       /\ List.length (ma_threats (snd kv)) = 4%nat)
       (marketSegments s).

(** The one kind of request the service rejects: an ANALYZE_MARKET whose
    segment is a truthy value without [includes]. *)
Definition unsearchable (msg : Request) : Prop :=
  type msg = "ANALYZE_MARKET" /\ p_segment (payload msg) = Some Js.NotString.

(** The values [processFeedback] compares a new value with: those of the
    last ten records of the same source. *)
Definition previousValues (feedbackSource : option string) (s : State) : list Q :=
  List.map fb_value
    (Js.slice (-10) None (List.filter (fromSource feedbackSource) (feedbackHistory s))).

(** The value a feedback request carries, if any. *)
Definition givenValue (p : Payload) : option Q :=
  match p_metrics p with
  | Some m => fm_value m
  | None => None
  end.

(** The recommendations that go with a trend. *)
Definition advice (t : Trend) : list string :=
  match t with
  | declining => [ "Review recent changes for potential issues";
                   "Consider optimization opportunities" ]
  | improving => [ "Continue current approach";
                   "Document successful patterns for replication" ]
  | stable => []
  end.

End MarketMore.

Module TreasuryMore.
Import Runtime Treasury.

(** The integration [handleSkillIntegration] appends. *)
Definition requestedIntegration (p : Payload) : SkillIntegration :=
  mkIntegration (Js.orStr (p_targetService p) "motor-control")
    (Js.orStr (p_integrationType p) "motor") (5 # 10).

(** The integrations a learned skill gets when none is given. *)
Definition defaultIntegrations : list SkillIntegration :=
  [ mkIntegration "motor-control" "motor" (7 # 10);
    mkIntegration "processing-service" "behavioral" (5 # 10) ].

(** The learned skill [k], holding the integrations [held], with one more
    integration. *)
Definition integrated (k : LearnedSkill) (held : list SkillIntegration)
    (i : SkillIntegration) : LearnedSkill :=
  mkLearnedSkill (ls_id k) (ls_name k) (ls_category k) (ls_proficiencyLevel k)
    (ls_patterns k) (Js.IsArray (held ++ [i])).

(** The key the [i]-th default skill is stored under: the constructor reads
    the clock three times per skill. *)
Definition seedKey (w : World) (i : nat) : string :=
  "mm-" ++ Js.showZ (clockAt (oracle w) (ticks w + 3 * i)).

(** The clock reading behind [seedKey]. *)
Definition seedReading (w : World) (i : nat) : Z :=
  clockAt (oracle w) (ticks w + 3 * i).

(** The id an access-log record carries. *)
Definition loggedId (p : Payload) : string :=
  match Js.truthyStr (p_skillId p) with
  | Some x => x
  | None => Js.orStr (p_skillName p) "search"
  end.

End TreasuryMore.

Module MoreSamples.
Import Runtime.

Definition statusRequest : Organization.Request :=
  Samples.request "GET_ORGANIZATION_STATUS" Organization.emptyPayload
    "organization-service".

Definition syncRequest : Organization.Request :=
  Samples.request "SYNC_WITH_STATE_MANAGEMENT" Organization.emptyPayload
    "organization-service".

(** [POST /status] with an organization id. *)
Definition statusOf (key : string) : Organization.Request :=
  Samples.request "GET_ORGANIZATION_STATUS"
    (Organization.mkPayload None None None None None None None None None None
       None (Some key) None None None Js.Undefined)
    "organization-service".

(** [POST /create] with [{"name": "second"}] *)
Definition createSecond : Organization.Request :=
  Samples.request "CREATE_ORGANIZATION"
    (Organization.mkPayload (Some "second") None None None None None None None None
       None None None None None None Js.Undefined)
    "organization-service".

(** The two components of [createWithComponents], the first without an id. *)
Definition pair : list Organization.PartialComponent :=
  [ Organization.mkPartialComponent None (Some "alpha") None None;
    Organization.mkPartialComponent (Some "b-1") None (Some "monitor")
      (Some ["alpha"]) ].

(** [POST /create] with two components. *)
Definition createWithComponents : Organization.Request :=
  Samples.request "CREATE_ORGANIZATION"
    (Organization.mkPayload (Some "pair") None
       (Some (Js.IsArray (List.map Some pair)))
       None None None None None None None None None None None None Js.Undefined)
    "organization-service".

(** [POST /create] with [{"components": [null]}] *)
Definition createWithNull : Organization.Request :=
  Samples.request "CREATE_ORGANIZATION"
    (Organization.mkPayload None None (Some (Js.IsArray [None]))
       None None None None None None None None None None None None Js.Undefined)
    "organization-service".

(** An organization as [createOrganization] leaves it. *)
Definition fresh : Organization.SystemOrganization :=
  Organization.mkOrganization "org-1700000000000" "system-organization" "coordination"
    Organization.defaultComponents Organization.active
    (Organization.mkMetrics (85 # 100) (9 # 10) (8 # 10) (95 # 100)) 1700000000000.

(** Draws of 0.9 then 0.4: two issues found, one resolved. *)
Definition unlucky : Oracle :=
  mkOracle (fun n => 1700000000000 + Z.of_nat n)
    (fun n => match n with 0%nat => (9 # 10)%Q | _ => (4 # 10)%Q end)
    (fun n => "msg-" ++ Js.showNat n).

Definition unluckyWorld : World := mkWorld unlucky 0 0 0 [].

Definition doneTask : Organization.SystemMaintenance :=
  Organization.mkMaintenance "maint-1" "routine" ["a"; "b"] Organization.completed
    1700000000000 (Some 1700000000500)
    (Organization.mkResult true 10 0 0 ["Schedule follow-up maintenance in 24 hours"]).

(** A service whose only maintenance task is completed. *)
Definition withDoneTask : Organization.State :=
  Organization.setMaintenanceTasks Samples.organization0 [("maint-1", doneTask)].

(** An output with an id and a data field. *)
Definition report : Js.value :=
  Js.Obj [("id", Js.Str "out-1"); ("data", Js.Num 1)].

Definition salesRequest (ty : string) (output content : Js.value)
    (channels : option (Js.arrayOr string)) : Sales.Request :=
  Samples.request ty
    (Sales.mkPayload output None content channels None Js.Undefined None)
    "sales-service".

Definition marketRequest (ty : string) (p : Market.Payload) : Market.Request :=
  Samples.request ty p "market-service".

(** [POST /analyze] with [{"segment": "cognitive-services"}] *)
Definition analyzeCognitive : Market.Request :=
  marketRequest "ANALYZE_MARKET"
    (Market.mkPayload (Some (Js.IsString "cognitive-services")) None None None None
       None None None None None None Js.Undefined).

(** [POST /analyze] with [{"segment": 5}] *)
Definition analyzeFive : Market.Request :=
  marketRequest "ANALYZE_MARKET"
    (Market.mkPayload (Some Js.NotString) None None None None None None None
       None None None Js.Undefined).

(** [POST /status] with an interface id. *)
Definition interfaceStatus (key : string) : Market.Request :=
  marketRequest "INTERFACE_STATUS"
    (Market.mkPayload None None None (Some key) None None None None None None None
       Js.Undefined).

Definition treasuryRequest (ty : string) (p : Treasury.Payload) : Treasury.Request :=
  Samples.request ty p "treasury-service".

(** [POST /register] with [{"integrations": "x"}] *)
Definition registerUnusable : Treasury.Request :=
  treasuryRequest "REGISTER_LEARNED_SKILL"
    (Treasury.mkPayload None None None None None None None None
       None None (Some Js.NotArray) None None None None None None None).

(** [POST /integrate] with a skill id. *)
Definition integrate (key : string) : Treasury.Request :=
  treasuryRequest "INTEGRATE_SKILL"
    (Treasury.mkPayload None None None None None (Some key) None None
       None None None None None None None None None None).

(** A stored memory and a store that holds it alone. *)
Definition grip : Treasury.MotorMemory :=
  Treasury.mkMemory "mm-7" "grip" "motor" (Treasury.mkPattern [] [] (7 # 10) (5 # 10))
    (Js.Finite (6 # 10)) 1700000000000 0
    (Treasury.mkMetadata 1700000000000 None "somatic" [] []).

Definition withGrip : Treasury.State :=
  Treasury.mkState [("mm-7", grip)] [] [] [].

End MoreSamples.

(** * Properties *)

(** ** Maps, quiet computations and unknown types *)

Module Facts.
Import Runtime Spec.

Lemma eqb_of_not_in (t : string) (l : list string) (x : string) :
  ~ In t l -> In x l -> String.eqb t x = false.
Proof.
  intros Hn Hi. apply String.eqb_neq. intros ->. exact (Hn Hi).
Qed.

Lemma get_set_same {V : Type} (m : Js.Map V) k v : Js.get (Js.set m k v) k = Some v.
Proof.
  unfold Js.get. induction m as [|[k' v'] r IH]; cbn.
  - rewrite String.eqb_refl. reflexivity.
  - destruct (String.eqb k k') eqn:E; cbn; rewrite E; auto.
Qed.

Lemma get_set_other {V : Type} (m : Js.Map V) k k' v :
  k' <> k -> Js.get (Js.set m k v) k' = Js.get m k'.
Proof.
  intros Hne. unfold Js.get. induction m as [|[k0 v0] r IH]; cbn.
  - apply String.eqb_neq in Hne. rewrite Hne. reflexivity.
  - destruct (String.eqb k k0) eqn:E; cbn.
    + apply String.eqb_eq in E. subst k0.
      apply String.eqb_neq in Hne. rewrite Hne. reflexivity.
    + destruct (String.eqb k' k0); auto.
Qed.

Lemma Forall_set {V : Type} (P : string * V -> Prop) (m : Js.Map V) k v :
  Forall P m -> P (k, v) -> Forall P (Js.set m k v).
Proof.
  intros Hm Hp. induction Hm as [|[k' v'] r Hx Hr IH]; cbn.
  - constructor; auto.
  - destruct (String.eqb k k') eqn:E.
    + apply String.eqb_eq in E. subst k'. constructor; auto.
    + constructor; auto.
Qed.

Lemma get_In {V : Type} (m : Js.Map V) k v : Js.get m k = Some v -> In (k, v) m.
Proof.
  unfold Js.get. induction m as [|[k' v'] r IH]; cbn; [discriminate|].
  destruct (String.eqb k k') eqn:E.
  - apply String.eqb_eq in E. subst. intros [= ->]. auto.
  - auto.
Qed.

Lemma in_firstn {A : Type} (n : nat) (l : list A) (x : A) :
  In x (firstn n l) -> In x l.
Proof.
  revert l. induction n as [|n IH]; intros [|y r]; cbn; try tauto.
  intros [H|H]; [left; exact H|right; apply IH; exact H].
Qed.

(** [l.slice(-n)] keeps the last [n] elements of a list that has them. *)
Lemma slice_tail_length {A : Type} (n : nat) (l : list A) :
  (0 < n <= List.length l)%nat ->
  List.length (Js.slice (- Z.of_nat n) None l) = n.
Proof.
  intros H. unfold Js.slice, Js.relIndex. cbv zeta.
  destruct (- Z.of_nat n <? 0) eqn:E.
  - rewrite Z.max_l by lia.
    rewrite length_firstn, length_skipn. lia.
  - apply Z.ltb_ge in E. lia.
Qed.

Ltac quiet_primitive :=
  intros s w; eexists _, _; split; [reflexivity|]; cbn; auto.

Lemma quiet_ret {St A : Type} (a : A) : quiet (@ret St A a).
Proof. quiet_primitive. Qed.

Lemma quiet_now {St : Type} : quiet (@now St).
Proof. quiet_primitive. Qed.

Lemma quiet_random {St : Type} : quiet (@random St).
Proof. quiet_primitive. Qed.

Lemma quiet_freshId {St : Type} : quiet (@freshId St).
Proof. quiet_primitive. Qed.

Lemma quiet_getState {St : Type} : quiet (@getState St).
Proof. quiet_primitive. Qed.

Lemma quiet_bind {St A B : Type} (m : M St A) (f : A -> M St B) :
  quiet m -> (forall a, quiet (f a)) -> quiet (bind m f).
Proof.
  intros Hm Hf s w. destruct (Hm s w) as (a & w1 & E1 & O1 & T1 & L1).
  destruct (Hf a s w1) as (b & w2 & E2 & O2 & T2 & L2).
  exists b, w2. unfold bind. rewrite E1, E2. repeat split; try congruence. lia.
Qed.

Lemma quiet_mapiM {St A B : Type} (f : nat -> A -> M St B) i l :
  (forall i x, quiet (f i x)) -> quiet (mapiM f i l).
Proof.
  intros Hf. revert i. induction l as [|x r IH]; intros i; cbn.
  - apply quiet_ret.
  - apply quiet_bind; auto. intros y. apply quiet_bind; auto. intros ys. apply quiet_ret.
Qed.

Lemma quiet_filterM {St A : Type} (p : A -> M St bool) l :
  (forall x, quiet (p x)) -> quiet (filterM p l).
Proof.
  intros Hp. induction l as [|x r IH]; cbn.
  - apply quiet_ret.
  - apply quiet_bind; auto. intros y. apply quiet_bind; auto. intros ys. apply quiet_ret.
Qed.

(** On a type outside the recognized list every test of the dispatch fails
    and the default branch runs. *)
Ltac unknown_type H :=
  unfold warned; cbv beta iota zeta delta [bind now log ret];
  repeat (rewrite (eqb_of_not_in _ _ _ H) by (cbn; tauto));
  cbn; rewrite <- app_assoc; reflexivity.

Lemma organization_unknown cfg (msg : Organization.Request) s w :
  ~ In (type msg) Organization.recognized ->
  Organization.process cfg msg s w
  = (Ok None, s, warned "Processing organization request" msg w).
Proof. intros H. unfold Organization.process. unknown_type H. Qed.

Lemma sales_unknown cfg (msg : Sales.Request) s w :
  ~ In (type msg) Sales.recognized ->
  Sales.process cfg msg s w = (Ok None, s, warned "Processing sales request" msg w).
Proof. intros H. unfold Sales.process. unknown_type H. Qed.

Lemma market_unknown cfg (msg : Market.Request) s w :
  ~ In (type msg) Market.recognized ->
  Market.process cfg msg s w = (Ok None, s, warned "Processing market request" msg w).
Proof. intros H. unfold Market.process. unknown_type H. Qed.

Lemma treasury_unknown cfg (msg : Treasury.Request) s w :
  ~ In (type msg) Treasury.recognized ->
  Treasury.process cfg msg s w
  = (Ok None, s, warned "Processing treasury request" msg w).
Proof. intros H. unfold Treasury.process. unknown_type H. Qed.

End Facts.

(** Enter [process] on a request whose type is known: read the clock, log
    the request and take the branch of the dispatch. *)
Ltac enter_process :=
  unfold Runtime.bind at 1, Runtime.now; unfold Runtime.bind at 1, Runtime.log;
  cbn [Runtime.type String.eqb Ascii.eqb Bool.eqb].

(** ** Organization service *)

Module OrganizationFacts.
Import Runtime Spec Facts Organization OrganizationSpec.

Ltac answered :=
  eexists _, _, _; split; [reflexivity|]; cbn; repeat split; auto; try lia;
  try apply step_same; try (eexists; split; [|reflexivity]; lia).

Lemma quiet_completeComponent i c : quiet (completeComponent i c).
Proof.
  unfold completeComponent. apply quiet_bind.
  - destruct (Js.truthyStr (part_id c)); [apply quiet_ret|].
    apply quiet_bind; [apply quiet_now|]. intros; apply quiet_ret.
  - intros; apply quiet_ret.
Qed.

Lemma mapiM_completeElement i given s w :
  forallb present given = true ->
  exists l w',
    mapiM completeElement i given s w = (Ok l, s, w')
    /\ oracle w' = oracle w /\ (ticks w <= ticks w')%nat /\ logged w' = logged w.
Proof.
  revert i w. induction given as [|c r IH]; intros i w H.
  - eexists _, _. split; [reflexivity|]. auto.
  - cbn in H. apply andb_true_iff in H. destruct H as (Hc & Hr).
    destruct c as [c|]; [|discriminate].
    destruct (quiet_completeComponent i c s w) as (k & w1 & E1 & O1 & T1 & L1).
    destruct (IH (S i) w1 Hr) as (l & w2 & E2 & O2 & T2 & L2).
    exists (k :: l), w2. cbn [mapiM completeElement]. unfold bind.
    rewrite E1, E2. repeat split; try congruence. lia.
Qed.

(** A [null] element stops the mapping: the error leaves the state alone. *)
Lemma mapiM_completeElement_raises i given s w :
  forallb present given = false ->
  exists e w',
    mapiM completeElement i given s w = (Throw e, s, w')
    /\ oracle w' = oracle w /\ (ticks w <= ticks w')%nat /\ logged w' = logged w.
Proof.
  revert i w. induction given as [|c r IH]; intros i w H; [discriminate|].
  cbn in H. destruct c as [c|].
  - cbn in H.
    destruct (quiet_completeComponent i c s w) as (k & w1 & E1 & O1 & T1 & L1).
    destruct (IH (S i) w1 H) as (e & w2 & E2 & O2 & T2 & L2).
    exists e, w2. cbn [mapiM completeElement]. unfold bind.
    rewrite E1, E2. repeat split; try congruence. lia.
  - eexists _, w. split; [reflexivity|]. auto.
Qed.

Lemma createOrganization_spec name ty comps s w :
  mappable comps = true ->
  exists o w',
    createOrganization name ty comps s w = (Ok o, s, w')
    /\ created o /\ oracle w' = oracle w /\ (ticks w <= ticks w')%nat.
Proof.
  unfold mappable, createOrganization. intros Hm.
  destruct (Js.orArray comps []) as [given|]; [|discriminate].
  destruct (mapiM_completeElement 0%nat given s w Hm) as (l & w1 & E & O1 & T1 & L1).
  unfold bind at 1, items, ret. unfold bind at 1. rewrite E. cbn.
  eexists _, _. split; [reflexivity|]. cbn.
  repeat split; auto; try lia. eexists; reflexivity.
Qed.

(** [components] that cannot be mapped over make [createOrganization] raise
    before anything is stored. *)
Lemma createOrganization_raises name ty comps s w :
  mappable comps = false ->
  exists e w',
    createOrganization name ty comps s w = (Throw e, s, w')
    /\ oracle w' = oracle w /\ (ticks w <= ticks w')%nat /\ logged w' = logged w.
Proof.
  unfold mappable, createOrganization. intros Hm.
  destruct (Js.orArray comps []) as [given|].
  - destruct (mapiM_completeElement_raises 0%nat given s w Hm)
      as (e & w1 & E & O1 & T1 & L1).
    unfold bind at 1, items, ret. unfold bind at 1. rewrite E.
    eexists _, _. split; [reflexivity|]. auto.
  - eexists _, w. split; [reflexivity|]. auto.
Qed.

Lemma handleCreateOrganization_spec cfg msg t0 s w :
  mappable (p_components (payload msg)) = true ->
  answers cfg t0 s w (handleCreateOrganization cfg msg t0 s w).
Proof.
  intros Hm. unfold handleCreateOrganization.
  destruct (createOrganization_spec (p_name (payload msg)) (p_type (payload msg))
              (p_components (payload msg)) s w Hm) as (o & w1 & E & Hc & O1 & T1).
  unfold bind at 1. rewrite E. cbn.
  eexists _, _, _. split; [reflexivity|]. cbn. rewrite O1.
  repeat split; auto; try lia.
  - apply step_create. exact Hc.
  - exists (ticks w1). split; auto.
Qed.

Lemma handleBackgroundCoordination_spec cfg msg t0 s w :
  answers cfg t0 s w (handleBackgroundCoordination cfg msg t0 s w).
Proof.
  answered. apply (step_coordinate s (mkCoordination _ _ _ _ _ _)).
Qed.

Lemma handleScheduleMaintenance_spec cfg msg t0 s w :
  answers cfg t0 s w (handleScheduleMaintenance cfg msg t0 s w).
Proof.
  unfold handleScheduleMaintenance, scheduleMaintenance.
  destruct (p_scheduledTime (payload msg)) as [d|]; answered;
    apply (step_schedule s (mkMaintenance _ _ _ _ _ _ _)); reflexivity.
Qed.

Lemma executeMaintenance_spec t s w :
  exists t' res w',
    executeMaintenance t s w = (Ok (t', res), s, w')
    /\ res = maint_results t'
    /\ oracle w' = oracle w /\ ticks w' = S (ticks w).
Proof.
  cbv beta iota zeta delta [executeMaintenance bind random newDate now ret].
  eexists _, _, _. split; [reflexivity|]. cbn. auto.
Qed.

Lemma handleExecuteMaintenance_spec cfg msg t0 s w :
  answers cfg t0 s w (handleExecuteMaintenance cfg msg t0 s w).
Proof.
  unfold handleExecuteMaintenance, bind at 1, getState.
  destruct (p_maintenanceId (payload msg)) as [k|]; [|answered].
  destruct (Js.get (maintenanceTasks s) k) as [t|] eqn:G; [|answered].
  destruct (executeMaintenance_spec t s w) as (t' & res & w1 & E & R1 & O1 & T1).
  unfold bind at 1. rewrite E.
  eexists _, _, _. split; [reflexivity|]. cbn. rewrite O1, T1.
  repeat split; auto; try lia.
  - eapply step_execute; [exact G|].
    exists s, w, res, s, w1. split; [exact E|exact R1].
  - eexists. split; [|reflexivity]. lia.
Qed.

Lemma quiet_stillActive c : quiet (stillActive c).
Proof.
  unfold stillActive. destruct (0 <? executionCount (coord_schedule c)).
  - apply quiet_ret.
  - apply quiet_bind; [apply quiet_now|]. intros; apply quiet_ret.
Qed.

Lemma quiet_getOverallOrganizationStatus inc : quiet (getOverallOrganizationStatus inc).
Proof.
  unfold getOverallOrganizationStatus. apply quiet_bind; [apply quiet_getState|].
  intros s. apply quiet_bind.
  - apply quiet_filterM. apply quiet_stillActive.
  - intros; apply quiet_ret.
Qed.

Lemma handleGetOrganizationStatus_spec cfg msg t0 s w :
  answers cfg t0 s w (handleGetOrganizationStatus cfg msg t0 s w).
Proof.
  unfold handleGetOrganizationStatus, bind at 1, getState.
  destruct (Js.truthyStr (p_organizationId (payload msg))) as [k|]; [answered|].
  destruct (quiet_getOverallOrganizationStatus (p_includeComponents (payload msg)) s w)
    as (o & w1 & E & O1 & T1 & L1).
  unfold bind at 1. unfold bind at 1. rewrite E.
  eexists _, _, _. split; [reflexivity|]. cbn. rewrite O1.
  repeat split; auto; try lia.
  - apply step_same.
  - exists (ticks w1). split; auto.
Qed.

Lemma optimizeOrganization_some o ty s w :
  exists o' rep w',
    optimizeOrganization (Some o) ty s w = (Ok (Some o', rep), s, w')
    /\ oracle w' = oracle w /\ ticks w' = S (ticks w).
Proof.
  cbv beta iota zeta delta [optimizeOrganization bind newDate now ret].
  eexists _, _, _. split; [reflexivity|]. cbn. auto.
Qed.

Lemma truthyStr_nonempty x k : Js.truthyStr x = Some k -> x = Some k /\ k <> "".
Proof.
  unfold Js.truthyStr. destruct x as [y|]; [|discriminate].
  destruct (String.eqb y "") eqn:E; [discriminate|].
  intros [= ->]. split; [reflexivity|]. apply String.eqb_neq. exact E.
Qed.

Lemma handleOptimizeOrganization_spec cfg msg t0 s w :
  answers cfg t0 s w (handleOptimizeOrganization cfg msg t0 s w).
Proof.
  unfold handleOptimizeOrganization, bind at 1, getState.
  destruct (Js.truthyStr (p_organizationId (payload msg))) as [k|] eqn:K; [|answered].
  destruct (Js.get (organizations s) k) as [o|] eqn:G; [|answered].
  destruct (optimizeOrganization_some o (p_optimizationType (payload msg)) s w)
    as (o' & rep & w1 & E & O1 & T1).
  unfold bind at 1. rewrite E.
  eexists _, _, _. split; [reflexivity|]. cbn. rewrite O1, T1.
  repeat split; auto; try lia.
  - eapply step_optimize; [exact G|apply (truthyStr_nonempty _ _ K)|].
    exists (p_optimizationType (payload msg)), s, w, rep, s, w1. exact E.
  - eexists. split; [|reflexivity]. lia.
Qed.

Lemma handleSyncWithStateManagement_spec cfg msg t0 s w :
  answers cfg t0 s w (handleSyncWithStateManagement cfg msg t0 s w).
Proof. answered. Qed.

Lemma some_replied cfg s w w0 (h : M State Reply) :
  oracle w0 = oracle w -> ticks w0 = S (ticks w) ->
  answers cfg (clockAt (oracle w) (ticks w)) s w0 (h s w0) ->
  replied cfg s w (some h s w0).
Proof.
  intros Ho Ht (r & s' & w' & E & St & Src & (n & Hn & Pt) & O & T).
  exists r, s', w'. unfold some, bind. rewrite E. cbn.
  repeat split; auto; try congruence.
  exists n. rewrite Ho in Pt. split; [lia|exact Pt].
Qed.

(** What [process] does on a recognized type. *)
Lemma process_recognized cfg msg s w :
  In (type msg) recognized -> wellFormed msg = true ->
  replied cfg s w (process cfg msg s w).
Proof.
  intros Hin Hw. destruct msg as [mid ty p src dst ts]. unfold wellFormed in Hw.
  cbn in Hin, Hw.
  destruct Hin as [E|[E|[E|[E|[E|[E|[E|[]]]]]]]]; subst ty;
    unfold process; enter_process;
    (apply some_replied; [reflexivity|reflexivity|]).
  - apply handleCreateOrganization_spec. exact Hw.
  - apply handleBackgroundCoordination_spec.
  - apply handleScheduleMaintenance_spec.
  - apply handleExecuteMaintenance_spec.
  - apply handleGetOrganizationStatus_spec.
  - apply handleOptimizeOrganization_spec.
  - apply handleSyncWithStateManagement_spec.
Qed.

Lemma recognized_dec t : {In t recognized} + {~ In t recognized}.
Proof. apply in_dec, string_dec. Qed.

(** CREATE_ORGANIZATION with [components] that cannot be mapped over is
    rejected with the error, and nothing is stored. *)
Lemma process_create_raises cfg msg s w :
  type msg = "CREATE_ORGANIZATION" ->
  mappable (p_components (payload msg)) = false ->
  exists e w', process cfg msg s w = (Throw e, s, w') /\ oracle w' = oracle w.
Proof.
  intros Ht Hm. destruct msg as [mid ty p src dst ts]. cbn in Ht, Hm. subst ty.
  unfold process. enter_process.
  unfold some, bind at 1, handleCreateOrganization, bind at 1. cbn [payload].
  match goal with
  | |- context [createOrganization ?a ?b ?c ?s0 ?w0] =>
      destruct (createOrganization_raises a b c s0 w0 Hm) as (e & w1 & E & O1 & _)
  end.
  rewrite E. eexists _, _. split; [reflexivity|exact O1].
Qed.

Lemma process_step cfg msg s w : step s (finalState (process cfg msg s w)).
Proof.
  destruct (recognized_dec (type msg)) as [Hin|Hn].
  - destruct (wellFormed msg) eqn:Hw.
    + destruct (process_recognized cfg msg s w Hin Hw) as (r & s' & w' & E & St & _).
      rewrite E. exact St.
    + unfold wellFormed in Hw. apply orb_false_iff in Hw. destruct Hw as (Ht & Hm).
      apply negb_false_iff, String.eqb_eq in Ht.
      destruct (process_create_raises cfg msg s w Ht Hm) as (e & w' & E & _).
      rewrite E. apply step_same.
  - rewrite (organization_unknown cfg msg s w Hn). apply step_same.
Qed.

(** On a recognized type the Organization service answers with an envelope
    that names it (CREATE_ORGANIZATION: when its components can be mapped
    over), and under a clock that never runs backwards the reported
    processing time is not negative. *)
Lemma process_recognized_reply cfg msg s w :
  In (type msg) recognized -> wellFormed msg = true -> monotone (oracle w) ->
  exists r,
    outcome (process cfg msg s w) = Ok (Some r)
    /\ respSource (payload r) = serviceName cfg
    /\ 0 <= processingTime (payload r).
Proof.
  intros Hin Hw Hm.
  destruct (process_recognized cfg msg s w Hin Hw)
    as (r & s' & w' & E & _ & Src & (n & Hn & Pt) & _).
  exists r. rewrite E. repeat split; auto.
  rewrite Pt. specialize (Hm _ _ Hn). lia.
Qed.

Lemma min_one_bounds (v : Q) : (0 <= v)%Q -> unit_interval (Js.min 1 v).
Proof.
  intros Hv. unfold unit_interval, Js.min. destruct (Qle_bool 1 v) eqn:E.
  - split; [discriminate|apply Qle_refl].
  - split; [exact Hv|].
    apply Qnot_lt_le. intros Hlt. apply Qlt_le_weak in Hlt.
    apply Qle_bool_iff in Hlt. congruence.
Qed.

Lemma max_zero_id (v : Q) : (0 <= v)%Q -> Js.max 0 v = v.
Proof.
  intros Hv. unfold Js.max. apply Qle_bool_iff in Hv. rewrite Hv. reflexivity.
Qed.

Lemma bump_nonneg cur thr d note :
  (0 <= d)%Q -> (0 <= Js.orNum (snd (bump cur thr d note)) 0)%Q.
Proof.
  intros Hd. unfold bump. destruct (Js.Qltb cur thr); cbn.
  - destruct (Qeq_bool d 0); [apply Qle_refl|exact Hd].
  - apply Qle_refl.
Qed.

Lemma sum_nonneg (a b : Q) : (0 <= a)%Q -> (0 <= b)%Q -> (0 <= a + b)%Q.
Proof.
  intros Ha Hb. rewrite <- (Qplus_0_l 0). apply Qplus_le_compat; assumption.
Qed.

(** What a run of [optimizeOrganization] leaves of an organization. *)
Lemma optimized_facts o o' :
  optimized o o' ->
  org_status o' = active /\ org_id o' = org_id o
  /\ (bounded (org_metrics o) -> bounded (org_metrics o')).
Proof.
  intros (ty & s & w & rep & s' & w' & E).
  cbv beta iota zeta delta [optimizeOrganization bind newDate now ret] in E.
  injection E as E _ _ _. subst o'. cbn.
  split; [reflexivity|]. split; [reflexivity|].
  intros (He & Hc & Hr & Hs). unfold bounded, unit_interval in *.
  repeat apply conj;
    try (apply min_one_bounds, sum_nonneg;
         [tauto | apply bump_nonneg; discriminate]).
Qed.

Lemma step_settled s s' : step s s' -> settled s -> settled s'.
Proof.
  intros St Hs. destruct St as [|o (Ha & _ & t & Hid)| | | |k o o' G Hk Ho]; cbn; auto.
  - apply Forall_set; auto. cbn. split.
    + rewrite Hid. discriminate.
    + rewrite Ha. discriminate.
  - apply Forall_set; auto. cbn. split; auto.
    destruct (optimized_facts o o' Ho) as (Ha & _). rewrite Ha. discriminate.
Qed.

Lemma construct_settled w : settled (fst (construct w)).
Proof.
  unfold settled. cbn. constructor; [|constructor]. cbn. split; discriminate.
Qed.

Lemma shutdown_settled s w : settled s -> settled (finalState (shutdown s w)).
Proof.
  unfold settled. cbn. intros H. induction H as [|[k o] r (Hk & _) Hr IH]; cbn.
  - constructor.
  - constructor; auto. cbn. split; [exact Hk|discriminate].
Qed.

Lemma reachable_settled s : reachable s -> settled s.
Proof.
  induction 1.
  - apply construct_settled.
  - eapply step_settled; [apply process_step|assumption].
  - apply shutdown_settled; assumption.
Qed.

Lemma settled_noOptimizing s : settled s -> noOptimizing s.
Proof.
  unfold settled, noOptimizing, Js.values. intros H.
  induction H as [|[k o] r (_ & Ho) Hr IH]; cbn; constructor; auto.
Qed.

Lemma process_optimize_existing cfg msg s w k o :
  type msg = "OPTIMIZE_ORGANIZATION" ->
  p_organizationId (payload msg) = Some k -> k <> "" ->
  Js.get (organizations s) k = Some o ->
  exists r o' w',
    process cfg msg s w
    = (Ok (Some r), setOrganizations s (Js.set (organizations s) k o'), w')
    /\ optimized o o'.
Proof.
  intros Ht Hp Hk G. destruct msg as [mid ty p src dst ts]. cbn in Ht, Hp. subst ty.
  unfold process. enter_process.
  unfold some, bind at 1, handleOptimizeOrganization, bind at 1, getState.
  cbn [payload]. rewrite Hp. unfold Js.truthyStr.
  apply String.eqb_neq in Hk. rewrite Hk, G. unfold bind at 1.
  match goal with
  | |- context [optimizeOrganization (Some o) ?ty ?s0 ?w0] =>
      destruct (optimizeOrganization_some o ty s0 w0) as (o' & rep & w1 & E & _)
  end.
  rewrite E.
  eexists _, o', _. split; [reflexivity|].
  eexists _, _, _, _, _, _. exact E.
Qed.

Lemma created_bounded o : created o -> bounded (org_metrics o).
Proof.
  intros (_ & Hm & _). rewrite Hm. unfold bounded, unit_interval. cbn.
  repeat split; discriminate.
Qed.

Lemma step_bounded s s' k : step s s' -> holdsBounded s k -> holdsBounded s' k.
Proof.
  intros St (o & G & B). unfold holdsBounded.
  destruct St as [|n Hn| | | |k0 o0 o' G0 Hk Ho];
    cbn [setOrganizations setCoordinations setMaintenanceTasks organizations];
    try (exists o; split; assumption).
  - destruct (string_dec (org_id n) k) as [<-|Hne].
    + exists n. rewrite get_set_same.
      split; [reflexivity|apply created_bounded; assumption].
    + exists o. rewrite get_set_other by congruence. split; assumption.
  - destruct (string_dec k0 k) as [->|Hne].
    + exists o'. rewrite get_set_same. split; [reflexivity|].
      rewrite G in G0. injection G0 as <-.
      apply (optimized_facts o o' Ho). exact B.
    + exists o. rewrite get_set_other by congruence. split; assumption.
Qed.

Lemma serve_bounded cfg msgs s w k :
  holdsBounded s k -> holdsBounded (fst (serve cfg msgs s w)) k.
Proof.
  revert s w. induction msgs as [|m r IH]; intros s w H; cbn [serve]; [exact H|].
  pose proof (process_step cfg m s w) as St.
  destruct (process cfg m s w) as [[x s'] w']. cbn in St.
  apply IH. eapply step_bounded; eassumption.
Qed.

Lemma optimize_clamps o ty s w :
  bounded (org_metrics o) ->
  exists o' rep w',
    optimizeOrganization (Some o) ty s w = (Ok (Some o', rep), s, w')
    /\ efficiency (org_metrics o')
       = clamp (efficiency (org_metrics o)
                + Js.orNum (imp_efficiency (metricsImprovement rep)) 0)%Q
    /\ coordination (org_metrics o')
       = clamp (coordination (org_metrics o)
                + Js.orNum (imp_coordination (metricsImprovement rep)) 0)%Q
    /\ responsiveness (org_metrics o')
       = clamp (responsiveness (org_metrics o)
                + Js.orNum (imp_responsiveness (metricsImprovement rep)) 0)%Q
    /\ stability (org_metrics o')
       = clamp (stability (org_metrics o)
                + Js.orNum (imp_stability (metricsImprovement rep)) 0)%Q.
Proof.
  intros (He & Hc & Hr & Hs).
  cbv beta iota zeta delta [optimizeOrganization bind newDate now ret].
  eexists _, _, _. split; [reflexivity|]. cbn. unfold clamp.
  repeat apply conj; rewrite max_zero_id; try reflexivity;
    apply sum_nonneg; try apply bump_nonneg; try discriminate;
    unfold unit_interval in *; tauto.
Qed.

Lemma executed_facts t t' :
  executed t t' ->
  (maint_status t' = completed \/ maint_status t' = failed)
  /\ maint_completedAt t' <> None
  /\ issuesResolved (maint_results t') <= issuesFound (maint_results t')
  /\ success (maint_results t')
     = (issuesFound (maint_results t') <=? issuesResolved (maint_results t'))
  /\ (maint_status t' = completed <-> success (maint_results t') = true)
  /\ maint_id t' = maint_id t.
Proof.
  intros (s & w & res & s' & w' & E & _).
  cbv beta iota zeta delta [executeMaintenance bind random newDate now ret] in E.
  injection E as E _ _ _. subst t'.
  cbn [maint_status maint_completedAt maint_results maint_id withResults
       withCompletedAt withMaintStatus success issuesFound issuesResolved].
  match goal with
  | |- context [if ?c then completed else failed] => destruct c eqn:Cmp
  end; repeat split; auto; try discriminate; apply Z.le_min_l.
Qed.

Lemma scheduleMaintenance_spec kind targets time s w :
  exists task w',
    scheduleMaintenance kind targets time s w = (Ok task, s, w')
    /\ maint_status task = scheduled
    /\ maint_completedAt task = None
    /\ maint_targets task = Js.orArr targets ["all-services"].
Proof.
  unfold scheduleMaintenance.
  cbv beta iota zeta delta [bind now ret].
  destruct time; (eexists _, _; split; [reflexivity|]; repeat split).
Qed.

Lemma process_schedule cfg msg s w :
  type msg = "SCHEDULE_MAINTENANCE" ->
  exists r task w',
    process cfg msg s w
    = (Ok (Some r),
       setMaintenanceTasks s (Js.set (maintenanceTasks s) (maint_id task) task), w')
    /\ type r = "MAINTENANCE_SCHEDULED"
    /\ body (payload r) = MaintenanceScheduled task
    /\ maint_status task = scheduled
    /\ maint_completedAt task = None
    /\ maint_targets task = Js.orArr (p_targets (payload msg)) ["all-services"].
Proof.
  intros Ht. destruct msg as [mid ty p src dst ts]. cbn in Ht. subst ty.
  unfold process. enter_process.
  unfold some, bind at 1, handleScheduleMaintenance, bind at 1. cbn [payload].
  match goal with
  | |- context [scheduleMaintenance ?a ?b ?c ?s0 ?w0] =>
      destruct (scheduleMaintenance_spec a b c s0 w0) as (task & w1 & E & H1 & H2 & H3)
  end.
  rewrite E.
  cbv beta iota zeta delta [bind getState putState reply createMessage now newDate
                            freshId ret].
  eexists _, task, _. split; [reflexivity|].
  cbn [type payload body]. repeat split; assumption.
Qed.

Lemma process_execute_existing cfg msg s w k t :
  type msg = "EXECUTE_MAINTENANCE" ->
  p_maintenanceId (payload msg) = Some k ->
  Js.get (maintenanceTasks s) k = Some t ->
  exists r t' w',
    process cfg msg s w
    = (Ok (Some r), setMaintenanceTasks s (Js.set (maintenanceTasks s) k t'), w')
    /\ type r = "MAINTENANCE_EXECUTED"
    /\ body (payload r) = MaintenanceExecuted (maint_id t') (maint_results t')
    /\ executed t t'.
Proof.
  intros Ht Hp G. destruct msg as [mid ty p src dst ts]. cbn in Ht, Hp. subst ty.
  unfold process. enter_process.
  unfold some, bind at 1, handleExecuteMaintenance, bind at 1, getState.
  cbn [payload]. rewrite Hp, G. unfold bind at 1.
  match goal with
  | |- context [executeMaintenance t ?s0 ?w0] =>
      destruct (executeMaintenance_spec t s0 w0) as (t' & res & w1 & E & R & _)
  end.
  rewrite E. subst res.
  eexists _, t', _. split; [reflexivity|]. cbn. repeat split.
  eexists _, _, _, _, _. split; [exact E|reflexivity].
Qed.

Lemma process_execute_missing cfg msg s w :
  type msg = "EXECUTE_MAINTENANCE" ->
  (forall k, p_maintenanceId (payload msg) = Some k ->
             Js.get (maintenanceTasks s) k = None) ->
  exists r w',
    process cfg msg s w = (Ok (Some r), s, w')
    /\ type r = "MAINTENANCE_EXECUTION_ERROR"
    /\ body (payload r)
       = MaintenanceExecutionError "Maintenance task not found"
           (p_maintenanceId (payload msg))
    /\ respSource (payload r) = serviceName cfg.
Proof.
  intros Ht Hk. destruct msg as [mid ty p src dst ts]. cbn in Ht, Hk. subst ty.
  unfold process. enter_process.
  unfold some, bind at 1, handleExecuteMaintenance, bind at 1, getState.
  cbn [payload].
  destruct (p_maintenanceId p) as [k|] eqn:E.
  - rewrite (Hk k eq_refl). eexists _, _. split; [reflexivity|]. cbn. repeat split.
  - eexists _, _. split; [reflexivity|]. cbn. repeat split.
Qed.

(** C3: scheduling a maintenance task stores a task whose status is
    [scheduled]; executing that task, whatever the random draws, leaves it
    [completed] or [failed] with a completion date, with
    [issuesResolved <= issuesFound], with [success] equal to
    [issuesResolved >= issuesFound], and [completed] exactly when [success]. *)
Theorem maintenance_schedule_then_execute cfg (sched : Request) s w :
  type sched = "SCHEDULE_MAINTENANCE" ->
  exists r task,
    outcome (process cfg sched s w) = Ok (Some r)
    /\ body (payload r) = MaintenanceScheduled task
    /\ maint_status task = scheduled
    /\ Js.get (maintenanceTasks (finalState (process cfg sched s w))) (maint_id task)
       = Some task
    /\ forall (exec : Request) w1,
         type exec = "EXECUTE_MAINTENANCE" ->
         p_maintenanceId (payload exec) = Some (maint_id task) ->
         exists r' task',
           outcome (process cfg exec (finalState (process cfg sched s w)) w1)
           = Ok (Some r')
           /\ body (payload r')
              = MaintenanceExecuted (maint_id task) (maint_results task')
           /\ Js.get
                (maintenanceTasks
                   (finalState
                      (process cfg exec (finalState (process cfg sched s w)) w1)))
                (maint_id task)
              = Some task'
           /\ (maint_status task' = completed \/ maint_status task' = failed)
           /\ maint_completedAt task' <> None
           /\ issuesResolved (maint_results task') <= issuesFound (maint_results task')
           /\ success (maint_results task')
              = (issuesFound (maint_results task')
                 <=? issuesResolved (maint_results task'))
           /\ (maint_status task' = completed
               <-> success (maint_results task') = true).
Proof.
  intros Ht.
  destruct (process_schedule cfg sched s w Ht)
    as (r & task & w' & E & _ & Hb & Hs & _).
  exists r, task. rewrite E. cbn [outcome finalState fst snd].
  assert (G : Js.get (maintenanceTasks
                        (setMaintenanceTasks s
                           (Js.set (maintenanceTasks s) (maint_id task) task)))
                (maint_id task) = Some task)
    by (cbn [setMaintenanceTasks maintenanceTasks]; apply get_set_same).
  repeat split; auto.
  intros exec w1 Hte Hid.
  destruct (process_execute_existing cfg exec _ w1 _ _ Hte Hid G)
    as (r' & task' & w1' & E' & _ & Hb' & Hex).
  destruct (executed_facts _ _ Hex) as (F1 & F2 & F3 & F4 & F5 & F6).
  exists r', task'. rewrite E'. cbn [outcome finalState fst snd].
  repeat split; auto; try apply F5.
  - rewrite Hb', F6. reflexivity.
  - cbn [setMaintenanceTasks maintenanceTasks]. apply get_set_same.
Qed.

Lemma maintenance_schedule_then_execute_witness :
  exists task,
    maint_status task = scheduled
    /\ Js.get
         (maintenanceTasks
            (finalState
               (process Samples.organizationConfig Samples.scheduleAB
                  Samples.organization0 Samples.organizationWorld)))
         (maint_id task)
       = Some task
    /\ exists task',
         Js.get
           (maintenanceTasks
              (finalState
                 (process Samples.organizationConfig (Samples.execute (maint_id task))
                    (finalState
                       (process Samples.organizationConfig Samples.scheduleAB
                          Samples.organization0 Samples.organizationWorld))
                    Samples.world0)))
           (maint_id task)
         = Some task'
         /\ (maint_status task' = completed \/ maint_status task' = failed)
         /\ maint_completedAt task' <> None.
Proof.
  destruct (maintenance_schedule_then_execute Samples.organizationConfig
              Samples.scheduleAB Samples.organization0 Samples.organizationWorld
              eq_refl) as (r & task & _ & _ & Hs & Hg & Hexec).
  exists task. split; [exact Hs|]. split; [exact Hg|].
  destruct (Hexec (Samples.execute (maint_id task)) Samples.world0 eq_refl eq_refl)
    as (r' & task' & _ & _ & Hg' & Hst & Hc & _).
  exists task'. split; [exact Hg'|]. split; [exact Hst|exact Hc].
Defined.

(** C4: an EXECUTE_MAINTENANCE request whose [maintenanceId] is not a key of
    the maintenance store is answered, without an error being raised, by an
    envelope carrying [error: "Maintenance task not found"] and the
    requested id, and every store is left as it was. *)
Theorem execute_missing_maintenance_is_soft cfg (msg : Request) s w :
  type msg = "EXECUTE_MAINTENANCE" ->
  (forall k, p_maintenanceId (payload msg) = Some k ->
             Js.get (maintenanceTasks s) k = None) ->
  exists r,
    outcome (process cfg msg s w) = Ok (Some r)
    /\ type r = "MAINTENANCE_EXECUTION_ERROR"
    /\ body (payload r)
       = MaintenanceExecutionError "Maintenance task not found"
           (p_maintenanceId (payload msg))
    /\ respSource (payload r) = serviceName cfg
    /\ finalState (process cfg msg s w) = s.
Proof.
  intros Ht Hk.
  destruct (process_execute_missing cfg msg s w Ht Hk) as (r & w' & E & H1 & H2 & H3).
  exists r. rewrite E. repeat split; assumption.
Qed.

Lemma execute_missing_maintenance_is_soft_witness :
  exists r,
    outcome (process Samples.organizationConfig (Samples.execute "nonexistent-id")
               Samples.organization0 Samples.organizationWorld)
    = Ok (Some r)
    /\ body (payload r)
       = MaintenanceExecutionError "Maintenance task not found"
           (Some "nonexistent-id")
    /\ finalState
         (process Samples.organizationConfig (Samples.execute "nonexistent-id")
            Samples.organization0 Samples.organizationWorld)
       = Samples.organization0.
Proof.
  destruct (execute_missing_maintenance_is_soft Samples.organizationConfig
              (Samples.execute "nonexistent-id") Samples.organization0
              Samples.organizationWorld eq_refl)
    as (r & H1 & _ & H2 & _ & H3).
  - intros k [= <-]. reflexivity.
  - exists r. split; [exact H1|]. split; [exact H2|exact H3].
Defined.

(** C8: the [optimizing] status is transient: between two calls no stored
    organization is [optimizing], and after an OPTIMIZE_ORGANIZATION call
    that names a stored organization that organization is [active]. *)
Theorem optimizing_status_is_transient s :
  reachable s ->
  noOptimizing s
  /\ forall cfg (msg : Request) w k o,
       type msg = "OPTIMIZE_ORGANIZATION" ->
       p_organizationId (payload msg) = Some k ->
       Js.get (organizations s) k = Some o ->
       exists o',
         Js.get (organizations (finalState (process cfg msg s w))) k = Some o'
         /\ org_status o' = active
         /\ noOptimizing (finalState (process cfg msg s w)).
Proof.
  intros Hr. pose proof (reachable_settled s Hr) as Hs.
  split; [apply settled_noOptimizing; exact Hs|].
  intros cfg msg w k o Ht Hp G.
  assert (Hk : k <> "").
  { apply get_In in G. unfold settled in Hs. rewrite Forall_forall in Hs.
    apply (Hs _ G). }
  destruct (process_optimize_existing cfg msg s w k o Ht Hp Hk G)
    as (r & o' & w' & E & Ho).
  exists o'. split; [|split].
  - rewrite E. cbn [finalState fst snd setOrganizations organizations].
    apply get_set_same.
  - apply (optimized_facts o o' Ho).
  - apply settled_noOptimizing, reachable_settled, reach_process, Hr.
Qed.

Lemma optimizing_status_is_transient_witness :
  noOptimizing Samples.organization0
  /\ exists o',
       Js.get
         (organizations
            (finalState
               (process Samples.organizationConfig
                  (Samples.optimize "org-1700000000000") Samples.organization0
                  Samples.organizationWorld)))
         "org-1700000000000"
       = Some o'
       /\ org_status o' = active.
Proof.
  destruct (optimizing_status_is_transient Samples.organization0
              (reach_construct Samples.world0)) as (H1 & H2).
  split; [exact H1|].
  destruct (H2 Samples.organizationConfig (Samples.optimize "org-1700000000000")
              Samples.organizationWorld "org-1700000000000"
              (mkOrganization "org-1700000000000" "autonomic-core" "coordination"
                 defaultComponents active
                 (mkMetrics (85 # 100) (9 # 10) (8 # 10) (95 # 100)) 1700000000001)
              eq_refl eq_refl eq_refl) as (o' & G & A & _).
  exists o'. split; [exact G|exact A].
Defined.

(** C9: an organization whose four metrics lie in [0,1] still has all four
    in [0,1] after any sequence of OPTIMIZE_ORGANIZATION calls, and each
    adjustment stores [min(1, max(0, metric + improvement))]. *)
Theorem optimize_keeps_metrics_in_unit_interval cfg (msgs : list Request) s w k o :
  (forall m, In m msgs -> type m = "OPTIMIZE_ORGANIZATION") ->
  Js.get (organizations s) k = Some o ->
  bounded (org_metrics o) ->
  (exists o',
     Js.get (organizations (fst (serve cfg msgs s w))) k = Some o'
     /\ bounded (org_metrics o'))
  /\ forall ty s0 w0,
       exists o' rep w',
         optimizeOrganization (Some o) ty s0 w0 = (Ok (Some o', rep), s0, w')
         /\ efficiency (org_metrics o')
            = clamp (efficiency (org_metrics o)
                     + Js.orNum (imp_efficiency (metricsImprovement rep)) 0)%Q
         /\ coordination (org_metrics o')
            = clamp (coordination (org_metrics o)
                     + Js.orNum (imp_coordination (metricsImprovement rep)) 0)%Q
         /\ responsiveness (org_metrics o')
            = clamp (responsiveness (org_metrics o)
                     + Js.orNum (imp_responsiveness (metricsImprovement rep)) 0)%Q
         /\ stability (org_metrics o')
            = clamp (stability (org_metrics o)
                     + Js.orNum (imp_stability (metricsImprovement rep)) 0)%Q.
Proof.
  intros _ G B. split.
  - apply (serve_bounded cfg msgs s w k). exists o. split; assumption.
  - intros ty s0 w0. apply optimize_clamps. exact B.
Qed.

Lemma optimize_keeps_metrics_in_unit_interval_witness :
  exists o',
    Js.get
      (organizations
         (fst (serve Samples.organizationConfig
                 (repeat (Samples.optimize "org-1700000000000") 10)
                 Samples.organization0 Samples.organizationWorld)))
      "org-1700000000000"
    = Some o'
    /\ bounded (org_metrics o').
Proof.
  apply (optimize_keeps_metrics_in_unit_interval Samples.organizationConfig
           (repeat (Samples.optimize "org-1700000000000") 10)
           Samples.organization0 Samples.organizationWorld "org-1700000000000"
           (mkOrganization "org-1700000000000" "autonomic-core" "coordination"
              defaultComponents active
              (mkMetrics (85 # 100) (9 # 10) (8 # 10) (95 # 100)) 1700000000001)).
  - intros m Hm. apply repeat_spec in Hm. subst m. reflexivity.
  - reflexivity.
  - unfold bounded, unit_interval. cbn. repeat split; discriminate.
Defined.

End OrganizationFacts.

(** ** Sales service *)

Module SalesFacts.
Import Runtime Spec Facts Sales.

(** C1 (at the input on which the code departs from it): an ASSESS_QUALITY
    request whose body is the empty JSON object has a recognized type, yet
    [process] is rejected with a TypeError raised by [evaluateAccuracy]
    reading [output.data]; no envelope is returned. *)
Theorem assess_without_output_is_rejected cfg s w :
  In (type Samples.assessNothing) recognized
  /\ process cfg Samples.assessNothing s w
     = (Throw (Js.TypeError "Cannot read properties of undefined (reading 'data')"),
        s, announced "Processing sales request" Samples.assessNothing w).
Proof.
  split; [cbn; auto|].
  unfold process, Samples.assessNothing, Samples.request. enter_process.
  reflexivity.
Qed.

End SalesFacts.

(** ** Market service *)

Module MarketFacts.
Import Runtime Spec Facts Market.

Lemma quiet_processFeedback m src : quiet (processFeedback m src).
Proof.
  unfold processFeedback. apply quiet_bind.
  - destruct m as [m|]; [destruct (fm_value m)|];
      try apply quiet_ret; apply quiet_random.
  - intros v. apply quiet_bind; [apply quiet_getState|]. intros s. apply quiet_ret.
Qed.

(** One PROCESS_FEEDBACK call answers and moves the history length by
    [lengthAfterPush]. *)
Lemma feedback_step cfg (msg : Request) s w :
  type msg = "PROCESS_FEEDBACK" ->
  exists r s' w',
    process cfg msg s w = (Ok (Some r), s', w')
    /\ List.length (feedbackHistory s')
       = lengthAfterPush (List.length (feedbackHistory s)).
Proof.
  intros Ht. destruct msg as [mid ty p src dst ts]. cbn in Ht. subst ty.
  unfold process. enter_process.
  unfold some, bind at 1, handleFeedbackProcessing, bind at 1.
  cbn [payload].
  match goal with
  | |- context [processFeedback ?m ?src ?s0 ?w0] =>
      destruct (quiet_processFeedback m src s0 w0) as (f & w1 & E & _)
  end.
  rewrite E.
  eexists _, _, _. split; [reflexivity|].
  cbn [feedbackHistory]. unfold lengthAfterPush.
  rewrite length_app. cbn [List.length]. rewrite Nat.add_1_r.
  destruct (1000 <? S (List.length (feedbackHistory s)))%nat eqn:C.
  - apply Nat.ltb_lt in C.
    apply (slice_tail_length 500). rewrite length_app. cbn. lia.
  - rewrite length_app. cbn. lia.
Qed.

Lemma serve_length cfg msgs s w :
  (forall m, In m msgs -> type m = "PROCESS_FEEDBACK") ->
  List.length (feedbackHistory (fst (serve cfg msgs s w)))
  = Nat.iter (List.length msgs) lengthAfterPush (List.length (feedbackHistory s)).
Proof.
  revert s w. induction msgs as [|m r IH]; intros s w H; [reflexivity|].
  cbn [serve List.length].
  destruct (feedback_step cfg m s w (H m (or_introl eq_refl)))
    as (x & s' & w' & E & L).
  rewrite E, IH by (intros; apply H; right; assumption).
  rewrite L. symmetry. apply Nat.iter_succ_r.
Qed.

(** C5, as stated, fails: from the empty history of a fresh service 1,100
    PROCESS_FEEDBACK requests leave 599 records, not 500. *)
Lemma eleven_hundred_feedbacks_leave_599 :
  feedbackHistory Samples.market0 = []
  /\ List.length
       (feedbackHistory
          (fst (serve Samples.marketConfig (repeat Samples.feedback 1100)
                  Samples.market0 Samples.marketWorld)))
     = 599%nat
  /\ List.length
       (feedbackHistory
          (fst (serve Samples.marketConfig (repeat Samples.feedback 1100)
                  Samples.market0 Samples.marketWorld)))
     <> 500%nat.
Proof.
  assert (H : List.length
                (feedbackHistory
                   (fst (serve Samples.marketConfig (repeat Samples.feedback 1100)
                           Samples.market0 Samples.marketWorld)))
              = 599%nat) by (vm_compute; reflexivity).
  split; [reflexivity|]. split; [exact H|]. rewrite H. discriminate.
Qed.

(** C5, amended: from an empty history 1,100 PROCESS_FEEDBACK requests leave
    exactly 599 records: the truncation fires once, on the 1,001st request,
    and leaves 500, and the next 99 requests append. *)
Theorem feedback_history_after_1100 cfg (msgs : list Request) s w :
  feedbackHistory s = [] ->
  List.length msgs = 1100%nat ->
  (forall m, In m msgs -> type m = "PROCESS_FEEDBACK") ->
  List.length (feedbackHistory (fst (serve cfg msgs s w))) = 599%nat
  /\ List.length (feedbackHistory (fst (serve cfg (firstn 1001 msgs) s w))) = 500%nat
  /\ List.length (feedbackHistory (fst (serve cfg (firstn 1000 msgs) s w))) = 1000%nat.
Proof.
  intros Hs Hl Ht.
  assert (Hf : forall n m, In m (firstn n msgs) -> type m = "PROCESS_FEEDBACK")
    by (intros n m Hm; apply Ht; eapply in_firstn; exact Hm).
  rewrite (serve_length cfg msgs s w Ht).
  rewrite (serve_length cfg _ s w (Hf 1001%nat)).
  rewrite (serve_length cfg _ s w (Hf 1000%nat)).
  unfold Request in *. rewrite !length_firstn, Hs, !Hl.
  repeat split; vm_compute; reflexivity.
Qed.

Lemma feedback_history_after_1100_witness :
  List.length
    (feedbackHistory
       (fst (serve Samples.marketConfig (repeat Samples.feedback 1100)
               Samples.market0 Samples.marketWorld)))
  = 599%nat.
Proof.
  apply (feedback_history_after_1100 Samples.marketConfig
           (repeat Samples.feedback 1100) Samples.market0 Samples.marketWorld).
  - reflexivity.
  - apply repeat_length.
  - intros m Hm. apply repeat_spec in Hm. subst m. reflexivity.
Defined.

End MarketFacts.

(** ** Treasury service *)

Module TreasuryFacts.
Import Runtime Spec Facts Treasury TreasurySpec.




Lemma storeMotorMemory_spec name ty pat prof meta s w :
  exists mem w',
    storeMotorMemory name ty pat prof meta s w = (Ok mem, s, w')
    /\ skillName mem = Js.orStr name "unnamed-skill"
    /\ skillType mem = Js.orStr ty "motor"
    /\ proficiency mem = Js.Finite (Js.coalesce prof (5 # 10)%Q).
Proof.
  eexists _, _. split; [reflexivity|]. cbn. repeat split.
Qed.

Lemma process_store cfg (msg : Request) s w :
  type msg = "STORE_MOTOR_MEMORY" ->
  exists r mem w',
    process cfg msg s w
    = (Ok (Some r),
       setMotorMemoryStore s (Js.set (motorMemoryStore s) (mm_id mem) mem), w')
    /\ body (payload r)
       = MotorMemoryStored (mm_id mem) (skillName mem) (proficiency mem)
           (createdAt (metadata mem))
    /\ skillName mem = Js.orStr (p_skillName (payload msg)) "unnamed-skill"
    /\ proficiency mem = Js.Finite (Js.coalesce (p_proficiency (payload msg)) (5 # 10)%Q).
Proof.
  intros Ht. destruct msg as [mid ty p src dst ts]. cbn in Ht. subst ty.
  unfold process. enter_process.
  unfold some, bind at 1, handleStoreMotorMemory, bind at 1. cbn [payload].
  match goal with
  | |- context [storeMotorMemory ?a ?b ?c ?d ?e ?s0 ?w0] =>
      destruct (storeMotorMemory_spec a b c d e s0 w0) as (mem & w1 & E & Hn & _ & Hp)
  end.
  rewrite E. eexists _, mem, _. split; [reflexivity|]. cbn. repeat split; assumption.
Qed.

Lemma process_receive cfg (msg : Request) s w :
  type msg = "RECEIVE_FROM_DEVELOPMENT" ->
  exists r mem w' shared,
    process cfg msg s w
    = (Ok (Some r),
       setShared
         (setMotorMemoryStore s (Js.set (motorMemoryStore s) (mm_id mem) mem))
         shared, w')
    /\ body (payload r)
       = DevelopmentReceived (mm_id mem) (skillName mem) (proficiency mem)
           (p_developmentPlanId (payload msg)) "complete"
    /\ proficiency mem = Js.Finite (Js.coalesce (p_proficiency (payload msg)) (5 # 10)%Q).
Proof.
  intros Ht. destruct msg as [mid ty p src dst ts]. cbn in Ht. subst ty.
  unfold process. enter_process.
  unfold some, bind at 1, handleReceiveFromDevelopment, bind at 1. cbn [payload].
  match goal with
  | |- context [storeMotorMemory ?a ?b ?c ?d ?e ?s0 ?w0] =>
      destruct (storeMotorMemory_spec a b c d e s0 w0) as (mem & w1 & E & Hn & _ & Hp)
  end.
  rewrite E. eexists _, mem, _, _. split; [reflexivity|]. cbn. repeat split; assumption.
Qed.

Lemma seed_spec name ty prof s w :
  exists mem w',
    seed name ty prof s w
    = (Ok tt, setMotorMemoryStore s (Js.set (motorMemoryStore s) (mm_id mem) mem), w')
    /\ skillName mem = Js.orStr (Some name) "unnamed-skill"
    /\ proficiency mem = Js.Finite prof.
Proof.
  unfold seed, bind at 1.
  destruct (storeMotorMemory_spec (Some name) (Some ty) None (Some prof) None s w)
    as (mem & w1 & E & Hn & _ & Hp).
  rewrite E. exists mem, w1. split; [reflexivity|]. split; assumption.
Qed.

(** A seeded memory keeps the store fitting when its name does not contain
    "basic" or it is the 0.9 "basic-motor-control". *)
Lemma seed_fits name ty prof s w :
  (Js.includes (Js.toLowerCase (Js.orStr (Some name) "unnamed-skill")) "basic" = true ->
   Js.orStr (Some name) "unnamed-skill" = "basic-motor-control" /\ prof = (9 # 10)%Q) ->
  Forall fits (motorMemoryStore s) ->
  exists s' w',
    seed name ty prof s w = (Ok tt, s', w') /\ Forall fits (motorMemoryStore s').
Proof.
  intros Hname Hs.
  destruct (seed_spec name ty prof s w) as (mem & w' & E & Hn & Hp).
  eexists _, _. split; [exact E|].
  cbn [setMotorMemoryStore motorMemoryStore]. apply Forall_set; [exact Hs|].
  unfold fits, good, basicMatch. cbn [snd]. rewrite Hn, Hp.
  intros H. destruct (Hname H) as (N & P). split; [exact N|]. rewrite P. reflexivity.
Qed.

Lemma construct_fits w : Forall fits (motorMemoryStore (fst (construct w))).
Proof.
  unfold construct, initializeTreasuryFramework.
  destruct (seed_fits "basic-motor-control" "motor" (9 # 10) emptyState w)
    as (s1 & w1 & E1 & F1);
    [intros _; split; reflexivity|constructor|].
  destruct (seed_fits "sensory-motor-coordination" "procedural" (8 # 10) s1 w1)
    as (s2 & w2 & E2 & F2); [intros H; vm_compute in H; discriminate H|exact F1|].
  destruct (seed_fits "adaptive-response" "behavioral" (7 # 10) s2 w2)
    as (s3 & w3 & E3 & F3); [intros H; vm_compute in H; discriminate H|exact F2|].
  destruct (seed_fits "reflex-action" "reflexive" (95 # 100) s3 w3)
    as (s4 & w4 & E4 & F4); [intros H; vm_compute in H; discriminate H|exact F3|].
  unfold bind at 1. rewrite E1.
  unfold bind at 1. rewrite E2.
  unfold bind at 1. rewrite E3.
  unfold bind at 1. rewrite E4.
  cbv beta iota zeta delta [bind getState putState newDate now ret].
  cbn [fst setShared motorMemoryStore]. exact F4.
Qed.

Lemma scan_basic ty acc kv :
  fits kv -> settledOn acc ->
  settledOn (scan (Some "basic") ty acc kv)
  /\ (fst acc <> None -> fst (scan (Some "basic") ty acc kv) <> None)
  /\ (basicMatch (snd kv) = true -> fst (scan (Some "basic") ty acc kv) <> None).
Proof.
  intros Hf Ha. unfold scan. cbn [Js.truthyStr String.eqb].
  change (Js.includes (Js.toLowerCase (skillName (snd kv))) (Js.toLowerCase "basic"))
    with (basicMatch (snd kv)).
  destruct (basicMatch (snd kv)) eqn:B.
  - specialize (Hf B). destruct kv as [k' m']. cbn [snd] in Hf.
    destruct acc as [[[k m]|] alts]; unfold settledOn in *; cbn [fst snd] in *.
    + destruct (Js.ngt (proficiency m') (proficiency m));
        (split; [assumption|split; intros _; discriminate]).
    + split; [assumption|split; intros _; discriminate].
  - destruct (match Js.truthyStr ty with
              | Some t => (skillType (snd kv) =? t)%string
              | None => false
              end); cbn [fst snd];
      (split; [exact Ha|split; [intros H; exact H|intros H; discriminate H]]).
Qed.

Lemma fold_scan_basic ty store acc :
  Forall fits store -> settledOn acc ->
  settledOn (fold_left (scan (Some "basic") ty) store acc)
  /\ (fst acc <> None \/ (exists kv, In kv store /\ basicMatch (snd kv) = true) ->
      fst (fold_left (scan (Some "basic") ty) store acc) <> None).
Proof.
  intros Hs. revert acc. induction Hs as [|kv r Hkv Hr IH]; intros acc Ha.
  - cbn. split; [exact Ha|]. intros [H|(kv & [] & _)]. exact H.
  - cbn [fold_left].
    destruct (scan_basic ty acc kv Hkv Ha) as (S1 & S2 & S3).
    destruct (IH _ S1) as (I1 & I2). split; [exact I1|].
    intros [H|(x & [->|Hin] & Hx)]; apply I2; auto.
    right. exists x. split; assumption.
Qed.

Lemma process_retrieve_basic cfg (msg : Request) s w :
  type msg = "RETRIEVE_SKILL" ->
  p_skillId (payload msg) = None ->
  p_skillName (payload msg) = Some "basic" ->
  Forall fits (motorMemoryStore s) ->
  (exists kv, In kv (motorMemoryStore s) /\ basicMatch (snd kv) = true) ->
  exists r res m,
    outcome (process cfg msg s w) = Ok (Some r)
    /\ type r = "SKILL_RETRIEVED"
    /\ body (payload r) = SkillRetrieved res
    /\ skill res = Some m
    /\ skillName m = "basic-motor-control"
    /\ confidence res = Js.Finite (9 # 10).
Proof.
  intros Ht Hi Hn Hf Hex. destruct msg as [mid ty p src dst ts]. cbn in Ht, Hi, Hn.
  subst ty.
  unfold process. enter_process.
  unfold some, bind at 1, handleRetrieveSkill, bind at 1, retrieveSkill.
  cbn [payload]. rewrite Hi, Hn.
  cbv beta iota zeta delta [bind now newDate ret getState putState Js.truthyStr].
  destruct (fold_scan_basic (p_skillType p) (motorMemoryStore s) (None, []) Hf I)
    as (Hgood & Hsome).
  specialize (Hsome (or_intror Hex)).
  destruct (fold_left (scan (Some "basic") (p_skillType p)) (motorMemoryStore s) (None, []))
    as [[[k m]|] alts]; [|exfalso; apply Hsome; reflexivity].
  unfold settledOn in Hgood. cbn [fst snd] in *. destruct Hgood as (Gn & Gp).
  eexists _, _, _. cbn. repeat split; assumption.
Qed.




(** C7: in a freshly constructed Treasury service, seeded defaults
    included, storing the motor memory "basic-motor-control" with
    proficiency 0.9 and then retrieving by the name "basic" returns a skill
    named "basic-motor-control" with confidence 0.9. *)
Theorem store_then_retrieve_basic cfg w0 (st : Request) w1 (rt : Request) w2 :
  type st = "STORE_MOTOR_MEMORY" ->
  p_skillName (payload st) = Some "basic-motor-control" ->
  p_skillType (payload st) = Some "motor" ->
  p_proficiency (payload st) = Some (9 # 10)%Q ->
  type rt = "RETRIEVE_SKILL" ->
  p_skillId (payload rt) = None ->
  p_skillName (payload rt) = Some "basic" ->
  exists r res m,
    outcome (process cfg rt (finalState (process cfg st (fst (construct w0)) w1)) w2)
    = Ok (Some r)
    /\ body (payload r) = SkillRetrieved res
    /\ skill res = Some m
    /\ skillName m = "basic-motor-control"
    /\ confidence res = Js.Finite (9 # 10).
Proof.
  intros Hst Hn Hty Hp Hrt Hid Hrn.
  destruct (process_store cfg st (fst (construct w0)) w1 Hst)
    as (r1 & mem & w1' & E & _ & Mn & Mp).
  rewrite E. cbn [finalState fst snd].
  rewrite Hn in Mn. rewrite Hp in Mp. cbn in Mn, Mp.
  destruct (process_retrieve_basic cfg rt
              (setMotorMemoryStore (fst (construct w0))
                 (Js.set (motorMemoryStore (fst (construct w0))) (mm_id mem) mem))
              w2 Hrt Hid Hrn) as (r & res & m & H1 & _ & H2 & H3 & H4 & H5).
  - cbn [setMotorMemoryStore motorMemoryStore].
    apply Forall_set; [apply construct_fits|].
    intros _. split; assumption.
  - exists (mm_id mem, mem). split.
    + cbn [setMotorMemoryStore motorMemoryStore]. apply get_In, get_set_same.
    + unfold basicMatch. cbn [snd]. rewrite Mn. reflexivity.
  - exists r, res, m. repeat split; assumption.
Qed.

Lemma store_then_retrieve_basic_witness :
  exists r res m,
    outcome
      (process Samples.treasuryConfig (Samples.retrieveByName "basic")
         (finalState
            (process Samples.treasuryConfig
               (Samples.store "basic-motor-control" "motor" (9 # 10))
               (fst (construct Samples.frozenWorld)) Samples.world0))
         Samples.world0)
    = Ok (Some r)
    /\ body (payload r) = SkillRetrieved res
    /\ skill res = Some m
    /\ skillName m = "basic-motor-control"
    /\ confidence res = Js.Finite (9 # 10).
Proof.
  apply (store_then_retrieve_basic Samples.treasuryConfig Samples.frozenWorld
           (Samples.store "basic-motor-control" "motor" (9 # 10)) Samples.world0
           (Samples.retrieveByName "basic") Samples.world0);
    reflexivity.
Defined.

(** C10: STORE_MOTOR_MEMORY and RECEIVE_FROM_DEVELOPMENT store the supplied
    proficiency verbatim, with no clamping (an absent one becomes 0.5), so a
    stored proficiency, and the confidence a later retrieval reports, can
    lie outside [0,1]: storing 5 is retrieved with confidence 5, storing -3
    with confidence -3. *)
Theorem stored_proficiency_is_not_clamped cfg (msg : Request) s w :
  type msg = "STORE_MOTOR_MEMORY" \/ type msg = "RECEIVE_FROM_DEVELOPMENT" ->
  (exists r mem,
     outcome (process cfg msg s w) = Ok (Some r)
     /\ Js.get (motorMemoryStore (finalState (process cfg msg s w))) (mm_id mem)
        = Some mem
     /\ proficiency mem
        = Js.Finite (Js.coalesce (p_proficiency (payload msg)) (5 # 10)%Q)
     /\ reportedProficiency (body (payload r)) = Some (proficiency mem))
  /\ Samples.confidenceAfterStore 5 = Some (Js.Finite 5)
  /\ Samples.confidenceAfterStore (-3) = Some (Js.Finite (-3))
  /\ ~ (5 <= 1)%Q /\ ~ (0 <= -3)%Q.
Proof.
  intros Ht. split; [|repeat split; try (vm_compute; reflexivity);
                       intros H; vm_compute in H; apply H; reflexivity].
  destruct Ht as [Ht|Ht].
  - destruct (process_store cfg msg s w Ht) as (r & mem & w' & E & Hb & _ & Hp).
    exists r, mem. rewrite E. cbn [outcome finalState fst snd].
    repeat split; auto.
    + cbn [setMotorMemoryStore motorMemoryStore]. apply get_set_same.
    + rewrite Hb. reflexivity.
  - destruct (process_receive cfg msg s w Ht) as (r & mem & w' & sh & E & Hb & Hp).
    exists r, mem. rewrite E. cbn [outcome finalState fst snd].
    repeat split; auto.
    + cbn [setShared setMotorMemoryStore motorMemoryStore]. apply get_set_same.
    + rewrite Hb. reflexivity.
Qed.

Lemma stored_proficiency_is_not_clamped_witness :
  (exists r mem,
     outcome (process Samples.treasuryConfig (Samples.receive 5) Samples.treasury0
                Samples.treasuryWorld)
     = Ok (Some r)
     /\ proficiency mem = Js.Finite 5
     /\ reportedProficiency (body (payload r)) = Some (proficiency mem))
  /\ Samples.confidenceAfterStore 5 = Some (Js.Finite 5).
Proof.
  destruct (stored_proficiency_is_not_clamped Samples.treasuryConfig
              (Samples.receive 5) Samples.treasury0 Samples.treasuryWorld
              (or_intror eq_refl)) as ((r & mem & H1 & _ & H2 & H3) & H4 & _).
  split; [|exact H4].
  exists r, mem. split; [exact H1|]. split; [exact H2|exact H3].
Defined.

End TreasuryFacts.

(** ** Unknown message types *)

(** C2: on a type that is not one of the recognized type strings [process]
    returns no envelope, raises nothing, leaves the stores as they were and
    logs the warning "Unknown message type". *)
Theorem unknown_type_yields_no_response :
  (forall cfg (msg : Organization.Request) s w,
     ~ In (Runtime.type msg) Organization.recognized ->
     Organization.process cfg msg s w
     = (Runtime.Ok None, s, Spec.warned "Processing organization request" msg w))
  /\ (forall cfg (msg : Sales.Request) s w,
        ~ In (Runtime.type msg) Sales.recognized ->
        Sales.process cfg msg s w
        = (Runtime.Ok None, s, Spec.warned "Processing sales request" msg w))
  /\ (forall cfg (msg : Market.Request) s w,
        ~ In (Runtime.type msg) Market.recognized ->
        Market.process cfg msg s w
        = (Runtime.Ok None, s, Spec.warned "Processing market request" msg w))
  /\ (forall cfg (msg : Treasury.Request) s w,
        ~ In (Runtime.type msg) Treasury.recognized ->
        Treasury.process cfg msg s w
        = (Runtime.Ok None, s, Spec.warned "Processing treasury request" msg w)).
Proof.
  repeat split; intros.
  - apply Facts.organization_unknown; assumption.
  - apply Facts.sales_unknown; assumption.
  - apply Facts.market_unknown; assumption.
  - apply Facts.treasury_unknown; assumption.
Qed.

Lemma unknown_type_yields_no_response_witness :
  Organization.process Samples.organizationConfig Samples.bogusOrganization
    Samples.organization0 Samples.organizationWorld
  = (Runtime.Ok None, Samples.organization0,
     Spec.warned "Processing organization request" Samples.bogusOrganization
       Samples.organizationWorld)
  /\ Sales.process Samples.salesConfig Samples.bogusSales Samples.sales0 Samples.world0
     = (Runtime.Ok None, Samples.sales0,
        Spec.warned "Processing sales request" Samples.bogusSales Samples.world0).
Proof.
  destruct unknown_type_yields_no_response as (H1 & H2 & _).
  split; [apply H1|apply H2]; cbn; intros H;
    repeat (destruct H as [H|H]; [discriminate H|]); exact H.
Defined.

(** ** Further properties *)

Module MoreFacts.
Import Runtime Spec Facts More.

Lemma monotone_oracle0 : monotone Samples.oracle0.
Proof. intros i j H. unfold Samples.oracle0. cbn [clockAt]. lia. Qed.

Lemma unitDraws_oracle0 : unitDraws Samples.oracle0.
Proof. intros n. cbn. split; [discriminate|reflexivity]. Qed.

Lemma ofNat_succ n : (Js.ofNat (S n) == Js.ofNat n + 1)%Q.
Proof.
  unfold Js.ofNat. rewrite Nat2Z.inj_succ, <- Z.add_1_r, inject_Z_plus. reflexivity.
Qed.

Lemma ofNat_nonneg n : (0 <= Js.ofNat n)%Q.
Proof.
  unfold Js.ofNat. change 0%Q with (inject_Z 0). rewrite <- Zle_Qle. lia.
Qed.

Lemma ofNat_pos n : (0 < n)%nat -> (0 < Js.ofNat n)%Q.
Proof.
  intros H. unfold Js.ofNat. change 0%Q with (inject_Z 0). rewrite <- Zlt_Qlt. lia.
Qed.

Lemma slice_tail_le {A : Type} (n : nat) (l : list A) :
  (0 < n)%nat ->
  List.length (Js.slice (- Z.of_nat n) None l) = Nat.min n (List.length l).
Proof.
  intros H. unfold Js.slice, Js.relIndex. cbv zeta.
  destruct (- Z.of_nat n <? 0) eqn:E; [|apply Z.ltb_ge in E; lia].
  rewrite length_firstn, length_skipn. lia.
Qed.

Lemma floor_nonneg (q : Q) : (0 <= q)%Q -> 0 <= Js.floor q.
Proof.
  intros H. unfold Js.floor. change 0 with (Qfloor 0). apply Qfloor_resp_le. exact H.
Qed.

Lemma floor_below (q : Q) (n : Z) : (q < inject_Z n)%Q -> Js.floor q < n.
Proof.
  intros H. unfold Js.floor. rewrite Zlt_Qlt.
  eapply Qle_lt_trans; [apply Qfloor_le|exact H].
Qed.

Lemma size_set {V : Type} (m : Js.Map V) k v :
  Js.size (Js.set m k v) = if Js.has m k then Js.size m else S (Js.size m).
Proof.
  unfold Js.size, Js.has, Js.get. induction m as [|[k' v'] r IH]; cbn; [reflexivity|].
  destruct (String.eqb k k'); cbn; [reflexivity|].
  rewrite IH. destruct (Js.lookup k r); reflexivity.
Qed.

Lemma bind_ret {St A B : Type} (a : A) (f : A -> M St B) s w :
  bind (ret a) f s w = f a s w.
Proof. reflexivity. Qed.

Ltac tidy := cbv beta iota; cbn [oracle ticks draws ids logged].

Ltac run E := unfold bind at 1; rewrite E; tidy.

Lemma subseq_length {A : Type} (l m : list A) :
  subseq l m -> (List.length l <= List.length m)%nat.
Proof. induction 1; cbn; lia. Qed.

Lemma in_skipn {A : Type} (x : A) n l : In x (skipn n l) -> In x l.
Proof.
  revert l. induction n as [|n IH]; intros l H; [exact H|].
  destruct l as [|y l]; [exact H|]. right. apply IH. exact H.
Qed.

End MoreFacts.

(** ** Further properties of the Organization service *)

Module OrganizationMoreFacts.
Import Runtime Spec Facts Organization OrganizationSpec OrganizationFacts.
Import More MoreFacts OrganizationMore MoreSamples.

Ltac addressing :=
  eexists _, _, _; split; [reflexivity|]; cbn; repeat split; auto; try lia;
  try (eexists; split; [|reflexivity]; lia).

Lemma create_addressed cfg msg t0 s w :
  mappable (p_components (payload msg)) = true ->
  addressed cfg msg t0 w (handleCreateOrganization cfg msg t0 s w) "ORGANIZATION_CREATED".
Proof.
  intros Hm. unfold handleCreateOrganization.
  destruct (createOrganization_spec (p_name (payload msg)) (p_type (payload msg))
              (p_components (payload msg)) s w Hm) as (o & w1 & E & Hc & O1 & T1).
  unfold bind at 1. rewrite E. cbn.
  eexists _, _, _. split; [reflexivity|]. cbn. rewrite O1.
  repeat split; auto; try lia. exists (ticks w1). split; auto.
Qed.

Lemma coordinate_addressed cfg msg t0 s w :
  addressed cfg msg t0 w (handleBackgroundCoordination cfg msg t0 s w)
    "BACKGROUND_COORDINATION_CREATED".
Proof. addressing. Qed.

Lemma schedule_addressed cfg msg t0 s w :
  addressed cfg msg t0 w (handleScheduleMaintenance cfg msg t0 s w)
    "MAINTENANCE_SCHEDULED".
Proof.
  unfold handleScheduleMaintenance, scheduleMaintenance.
  destruct (p_scheduledTime (payload msg)) as [d|]; addressing.
Qed.

Lemma execute_addressed cfg msg t0 s w :
  exists ty,
    In ty ["MAINTENANCE_EXECUTED"; "MAINTENANCE_EXECUTION_ERROR"]
    /\ addressed cfg msg t0 w (handleExecuteMaintenance cfg msg t0 s w) ty.
Proof.
  unfold handleExecuteMaintenance, bind at 1, getState.
  destruct (p_maintenanceId (payload msg)) as [k|];
    [|eexists; split; [right; left; reflexivity|addressing]].
  destruct (Js.get (maintenanceTasks s) k) as [t|] eqn:G;
    [|eexists; split; [right; left; reflexivity|addressing]].
  eexists; split; [left; reflexivity|].
  destruct (executeMaintenance_spec t s w) as (t' & res & w1 & E & R1 & O1 & T1).
  unfold bind at 1. rewrite E.
  eexists _, _, _. split; [reflexivity|]. cbn. rewrite O1, T1.
  repeat split; auto; try lia. eexists. split; [|reflexivity]. lia.
Qed.

Lemma status_addressed cfg msg t0 s w :
  addressed cfg msg t0 w (handleGetOrganizationStatus cfg msg t0 s w)
    "ORGANIZATION_STATUS_RETRIEVED".
Proof.
  unfold handleGetOrganizationStatus, bind at 1, getState.
  destruct (Js.truthyStr (p_organizationId (payload msg))) as [k|]; [addressing|].
  destruct (quiet_getOverallOrganizationStatus (p_includeComponents (payload msg)) s w)
    as (o & w1 & E & O1 & T1 & L1).
  unfold bind at 1. unfold bind at 1. rewrite E.
  eexists _, _, _. split; [reflexivity|]. cbn. rewrite O1.
  repeat split; auto; try lia. exists (ticks w1). split; auto.
Qed.

Lemma optimize_addressed cfg msg t0 s w :
  addressed cfg msg t0 w (handleOptimizeOrganization cfg msg t0 s w)
    "ORGANIZATION_OPTIMIZED".
Proof.
  unfold handleOptimizeOrganization, bind at 1, getState.
  destruct (Js.truthyStr (p_organizationId (payload msg))) as [k|] eqn:K; [|addressing].
  destruct (Js.get (organizations s) k) as [o|] eqn:G; [|addressing].
  destruct (optimizeOrganization_some o (p_optimizationType (payload msg)) s w)
    as (o' & rep & w1 & E & O1 & T1).
  unfold bind at 1. rewrite E.
  eexists _, _, _. split; [reflexivity|]. cbn. rewrite O1, T1.
  repeat split; auto; try lia. eexists. split; [|reflexivity]. lia.
Qed.

Lemma sync_addressed cfg msg t0 s w :
  addressed cfg msg t0 w (handleSyncWithStateManagement cfg msg t0 s w)
    "STATE_MANAGEMENT_SYNCED".
Proof. addressing. Qed.

Lemma some_addressed cfg (msg : Request) s w w0 (h : M State Reply) ty :
  oracle w0 = oracle w -> ticks w0 = S (ticks w) -> monotone (oracle w) ->
  addressed cfg msg (clockAt (oracle w) (ticks w)) w0 (h s w0) ty ->
  exists r,
    outcome (some h s w0) = Ok (Some r)
    /\ type r = ty
    /\ source r = serviceName cfg
    /\ destination r = source msg
    /\ respSource (payload r) = serviceName cfg
    /\ 0 <= processingTime (payload r).
Proof.
  intros Ho Ht Hm (r & s' & w' & E & Ty & Src & Dst & Rs & (n & Hn & Pt) & O & T).
  exists r. unfold some, bind. rewrite E. cbn.
  repeat split; auto. rewrite Pt, Ho.
  assert (H : clockAt (oracle w) (ticks w) <= clockAt (oracle w) n)
    by (apply Hm; lia).
  lia.
Qed.

Ltac answer lem :=
  match goal with
  | Hm : monotone (oracle ?w) |- context [some (?h ?c ?m ?t0) ?s0 ?w0] =>
      destruct (some_addressed c m s0 w w0 _ _ eq_refl eq_refl Hm (lem c m t0 s0 w0))
        as (r & H1 & H2 & H3 & H4 & H5 & H6);
      exists r; split; [exact H1|]; split; [left; symmetry; exact H2|]; auto
  end.

(** X1: on each of its seven request types the Organization service
    answers, without raising, with an envelope of the matching response
    type, sent by the service to the sender of the request, whose payload
    names the service, and under a clock that never runs backwards the
    processing time is not negative; the one exception is a
    CREATE_ORGANIZATION request whose components are not an array or hold a
    null: it is rejected with the error and leaves the stores as they
    were. *)
Theorem organization_answers_each_type cfg (msg : Request) s w :
  In (type msg) recognized ->
  monotone (oracle w) ->
  (wellFormed msg = true ->
   exists r,
     outcome (process cfg msg s w) = Ok (Some r)
     /\ In (type r) (responseTypes (type msg))
     /\ source r = serviceName cfg
     /\ destination r = source msg
     /\ respSource (payload r) = serviceName cfg
     /\ 0 <= processingTime (payload r))
  /\ (wellFormed msg = false ->
      type msg = "CREATE_ORGANIZATION"
      /\ exists e,
           outcome (process cfg msg s w) = Throw e
           /\ finalState (process cfg msg s w) = s).
Proof.
  intros Hin Hm. split.
  - intros Hw. destruct msg as [mid ty p src dst ts]. unfold wellFormed in Hw.
    cbn [type payload] in Hin, Hw.
    destruct Hin as [E|[E|[E|[E|[E|[E|[E|[]]]]]]]]; subst ty;
      unfold process; enter_process.
    + match goal with
      | |- context [some (?h ?c ?m ?t0) ?s0 ?w0] =>
          destruct (some_addressed c m s0 w w0 _ _ eq_refl eq_refl Hm
                      (create_addressed c m t0 s0 w0 Hw))
            as (r & H1 & H2 & H3 & H4 & H5 & H6)
      end.
      exists r. split; [exact H1|]. split; [left; symmetry; exact H2|]. auto.
    + answer coordinate_addressed.
    + answer schedule_addressed.
    + match goal with
      | |- context [some (?h ?c ?m ?t0) ?s0 ?w0] =>
          destruct (execute_addressed c m t0 s0 w0) as (ty & Hty & A);
          destruct (some_addressed c m s0 w w0 _ ty eq_refl eq_refl Hm A)
            as (r & H1 & H2 & H3 & H4 & H5 & H6)
      end.
      exists r. split; [exact H1|]. split; [rewrite H2; exact Hty|]. auto.
    + answer status_addressed.
    + answer optimize_addressed.
    + answer sync_addressed.
  - intros Hw. unfold wellFormed in Hw. apply orb_false_iff in Hw.
    destruct Hw as (Ht & Hc). apply negb_false_iff, String.eqb_eq in Ht.
    split; [exact Ht|].
    destruct (process_create_raises cfg msg s w Ht Hc) as (e & w' & E & _).
    exists e. rewrite E. split; reflexivity.
Qed.

Lemma organization_answers_each_type_witness :
  (exists r,
     outcome (process Samples.organizationConfig Samples.scheduleAB Samples.organization0
                Samples.world0)
     = Ok (Some r)
     /\ type r = "MAINTENANCE_SCHEDULED"
     /\ destination r = "api-gateway"
     /\ 0 <= processingTime (payload r))
  /\ (exists e,
        outcome (process Samples.organizationConfig createWithNull emptyState
                   Samples.world0)
        = Throw e).
Proof.
  split.
  - destruct (organization_answers_each_type Samples.organizationConfig
                Samples.scheduleAB Samples.organization0 Samples.world0
                (or_intror (or_intror (or_introl eq_refl))) monotone_oracle0)
      as (A & _).
    destruct (A eq_refl) as (r & E & [T|[]] & _ & D & _ & P).
    exists r. split; [exact E|]. split; [symmetry; exact T|]. split; [exact D|exact P].
  - destruct (organization_answers_each_type Samples.organizationConfig
                createWithNull emptyState Samples.world0
                (or_introl eq_refl) monotone_oracle0)
      as (_ & B).
    destruct (B eq_refl) as (_ & e & E & _).
    exists e. exact E.
Defined.

(** X2: whatever the clock, the constructor leaves exactly one organization,
    the active "autonomic-core" of type "coordination" with the three
    default components, exactly one coordination, "system-health" with
    priority "high" every "1m", no maintenance task and the four health
    metrics. *)
Theorem constructor_seeds_defaults w :
  exists o c,
    organizations (fst (construct w)) = [(org_id o, o)]
    /\ org_name o = "autonomic-core"
    /\ org_type o = "coordination"
    /\ org_status o = active
    /\ org_components o = defaultComponents
    /\ coordinations (fst (construct w)) = [(coord_id c, c)]
    /\ coord_coordinationType c = "system-health"
    /\ coord_priority c = "high"
    /\ frequency (coord_schedule c) = "1m"
    /\ executionCount (coord_schedule c) = 0
    /\ maintenanceTasks (fst (construct w)) = []
    /\ List.map fst (systemHealth (fst (construct w)))
       = ["autonomic-triad"; "background-processes"; "coordination-efficiency";
          "maintenance-status"].
Proof.
  unfold construct, initializeOrganizationFramework, createOrganization,
    createBackgroundCoordination.
  cbv beta iota zeta delta [bind now newDate ret getState putState mapiM Js.orArr].
  eexists (mkOrganization _ _ _ _ _ _ _), (mkCoordination _ _ _ _ _ _).
  cbn [fst organizations coordinations maintenanceTasks systemHealth setOrganizations
       setCoordinations setSystemHealth emptyState Js.set org_id org_name org_type
       org_status org_components coord_id coord_coordinationType coord_priority
       coord_schedule frequency executionCount Js.orStr String.eqb Ascii.eqb
       Bool.eqb List.map].
  repeat split.
Qed.

Lemma process_status cfg (msg : Request) s w :
  type msg = "GET_ORGANIZATION_STATUS" ->
  exists r status w',
    process cfg msg s w = (Ok (Some r), s, w')
    /\ body (payload r) = OrganizationStatusRetrieved status
    /\ match Js.truthyStr (p_organizationId (payload msg)) with
       | Some k =>
           status = match Js.get (organizations s) k with
                    | Some org => StatusFound org
                    | None => StatusNotFound k
                    end
       | None =>
           exists o w0 w1,
             getOverallOrganizationStatus (p_includeComponents (payload msg)) s w0
             = (Ok o, s, w1)
             /\ status = StatusOverall o
       end.
Proof.
  intros Ht. destruct msg as [mid ty p src dst ts]. cbn in Ht. subst ty.
  unfold process. enter_process.
  unfold some, bind at 1, handleGetOrganizationStatus, bind at 1, getState.
  cbn [payload].
  destruct (Js.truthyStr (p_organizationId p)) as [k|].
  - eexists _, _, _. split; [reflexivity|]. split; reflexivity.
  - unfold bind at 1. unfold bind at 1.
    match goal with
    | |- context [getOverallOrganizationStatus ?i ?s0 ?w0] =>
        destruct (quiet_getOverallOrganizationStatus i s0 w0) as (o & w1 & E & _)
    end.
    rewrite E.
    eexists _, _, _. split; [reflexivity|]. split; [reflexivity|].
    eexists _, _, _. split; [exact E|reflexivity].
Qed.

Lemma process_sync cfg (msg : Request) s w :
  type msg = "SYNC_WITH_STATE_MANAGEMENT" ->
  exists r w', process cfg msg s w = (Ok (Some r), s, w').
Proof.
  intros Ht. destruct msg as [mid ty p src dst ts]. cbn in Ht. subst ty.
  unfold process. enter_process.
  eexists _, _. reflexivity.
Qed.

(** X3: the two reporting requests, GET_ORGANIZATION_STATUS and
    SYNC_WITH_STATE_MANAGEMENT, answer and leave every store as it was; a
    status request that names an organization reports it as found when the
    id is a key of the store and as not found, with the id, otherwise. *)
Theorem reporting_requests_are_read_only cfg (msg : Request) s w :
  type msg = "GET_ORGANIZATION_STATUS" \/ type msg = "SYNC_WITH_STATE_MANAGEMENT" ->
  exists r,
    outcome (process cfg msg s w) = Ok (Some r)
    /\ finalState (process cfg msg s w) = s
    /\ (type msg = "GET_ORGANIZATION_STATUS" ->
        forall k, Js.truthyStr (p_organizationId (payload msg)) = Some k ->
        body (payload r)
        = OrganizationStatusRetrieved
            match Js.get (organizations s) k with
            | Some org => StatusFound org
            | None => StatusNotFound k
            end).
Proof.
  intros [Ht|Ht].
  - destruct (process_status cfg msg s w Ht) as (r & st & w' & E & Hb & Hs).
    exists r. rewrite E. cbn [outcome finalState fst snd].
    split; [reflexivity|]. split; [reflexivity|].
    intros _ k Hk. rewrite Hk in Hs. subst st. exact Hb.
  - destruct (process_sync cfg msg s w Ht) as (r & w' & E).
    exists r. rewrite E. cbn [outcome finalState fst snd].
    split; [reflexivity|]. split; [reflexivity|].
    intros Ht'. rewrite Ht in Ht'. discriminate Ht'.
Qed.

Lemma reporting_requests_are_read_only_witness :
  exists r,
    outcome (process Samples.organizationConfig (statusOf "ghost") Samples.organization0
               Samples.world0)
    = Ok (Some r)
    /\ finalState (process Samples.organizationConfig (statusOf "ghost")
                     Samples.organization0 Samples.world0)
       = Samples.organization0
    /\ (type (statusOf "ghost") = "GET_ORGANIZATION_STATUS" ->
        forall k, Js.truthyStr (p_organizationId (payload (statusOf "ghost"))) = Some k ->
        body (payload r)
        = OrganizationStatusRetrieved
            match Js.get (organizations Samples.organization0) k with
            | Some org => StatusFound org
            | None => StatusNotFound k
            end).
Proof.
  exact (reporting_requests_are_read_only Samples.organizationConfig
           (statusOf "ghost") Samples.organization0 Samples.world0 (or_introl eq_refl)).
Defined.

Lemma fold_sum_bounds (l : list Q) (a : Q) :
  Forall unit_interval l ->
  (a <= fold_left Qplus l a <= a + Js.ofNat (List.length l))%Q.
Proof.
  intros H. revert a. induction H as [|x r [Hx0 Hx1] Hr IH]; intros a; cbn [fold_left].
  - change (Js.ofNat (List.length (@nil Q))) with 0%Q. split; lra.
  - destruct (IH (a + x)%Q) as [L U]. cbn [List.length]. rewrite ofNat_succ.
    split; lra.
Qed.

(** The mean of numbers in [0,1] is in [0,1]. *)
Lemma mean_bounds (l : list Q) :
  l <> [] -> Forall unit_interval l ->
  unit_interval (Js.sum l / Js.ofNat (List.length l)).
Proof.
  intros Hne H. destruct (fold_sum_bounds l 0 H) as [L U].
  assert (Hp : (0 < Js.ofNat (List.length l))%Q).
  { apply ofNat_pos. destruct l; [congruence|cbn; lia]. }
  unfold unit_interval, Js.sum. split.
  - apply Qle_shift_div_l; [exact Hp|]. lra.
  - apply Qle_shift_div_r; [exact Hp|]. lra.
Qed.

Lemma calculateOverallHealth_bounds orgs :
  Forall (fun o => bounded (org_metrics o)) orgs ->
  unit_interval (calculateOverallHealth orgs).
Proof.
  intros H. destruct orgs as [|o r]; [cbn; split; discriminate|].
  unfold calculateOverallHealth. set (l := o :: r) in *.
  assert (Hl : forall f, (forall m, bounded m -> unit_interval (f m)) ->
                         unit_interval
                           (Js.sum (List.map f (List.map org_metrics l))
                            / Js.ofNat (List.length (List.map org_metrics l)))).
  { intros f Hf.
    rewrite <- (length_map f (List.map org_metrics l)).
    apply mean_bounds; [subst l; discriminate|].
    rewrite map_map. apply Forall_map. eapply Forall_impl; [|exact H].
    intros a Ha. apply Hf. exact Ha. }
  destruct (Hl efficiency) as [A1 A2]; [intros m Hm; apply Hm|].
  destruct (Hl coordination) as [B1 B2]; [intros m Hm; apply Hm|].
  destruct (Hl responsiveness) as [C1 C2]; [intros m Hm; apply Hm|].
  destruct (Hl stability) as [D1 D2]; [intros m Hm; apply Hm|].
  cbv zeta. unfold unit_interval. split.
  - apply Qle_shift_div_l; [reflexivity|]. lra.
  - apply Qle_shift_div_r; [reflexivity|]. lra.
Qed.

Lemma step_allBounded s s' : step s s' -> allBounded s -> allBounded s'.
Proof.
  intros St Hs. unfold allBounded in *.
  destruct St as [|o Hc| | | |k o o' G Hk Ho]; cbn; auto.
  - apply Forall_set; auto. cbn. apply created_bounded. exact Hc.
  - apply Forall_set; auto. cbn.
    apply (optimized_facts o o' Ho).
    apply get_In in G. rewrite Forall_forall in Hs. apply (Hs _ G).
Qed.

Lemma reachable_allBounded s : reachable s -> allBounded s.
Proof.
  induction 1.
  - unfold allBounded. cbn. constructor; [|constructor].
    unfold bounded, unit_interval. cbn. repeat split; discriminate.
  - eapply step_allBounded; [apply process_step|assumption].
  - unfold allBounded in *. cbn.
    induction IHreachable as [|[k o] r Hb Hr IH]; cbn; constructor; auto.
Qed.

Lemma getOverallOrganizationStatus_spec inc s w :
  exists st w',
    getOverallOrganizationStatus inc s w = (Ok st, s, w')
    /\ totalOrganizations (summary st) = Js.size (organizations s)
    /\ activeOrganizations (summary st)
       = List.length (List.filter isActive (Js.values (organizations s)))
    /\ totalCoordinations (summary st) = Js.size (coordinations s)
    /\ pendingMaintenance (summary st)
       = List.length (List.filter isScheduled (Js.values (maintenanceTasks s)))
    /\ completedMaintenance (summary st)
       = List.length (List.filter isCompleted (Js.values (maintenanceTasks s)))
    /\ overallHealth (summary st)
       = calculateOverallHealth (Js.values (organizations s))
    /\ recentMaintenance st = Js.slice (-5) None (Js.values (maintenanceTasks s))
    /\ systemHealthMetrics st = systemHealth s.
Proof.
  unfold getOverallOrganizationStatus, bind at 1, getState.
  destruct (quiet_filterM stillActive (Js.values (coordinations s)) quiet_stillActive s w)
    as (ac & w1 & E & _).
  unfold bind at 1. rewrite E.
  eexists _, _. split; [reflexivity|]. cbn [summary totalOrganizations
    activeOrganizations totalCoordinations pendingMaintenance completedMaintenance
    overallHealth recentMaintenance systemHealthMetrics].
  unfold Js.size, Js.values. rewrite !length_map. repeat split.
Qed.

(** X4: between two calls every stored organization has its four metrics in
    [0,1], and the overall status report is consistent with the stores: its
    health is in [0,1] (1 when no organization is stored), its counts are
    those of the stores, the active organizations and the pending and
    completed tasks are no more than the totals, and at most the five most
    recent maintenance tasks are listed. *)
Theorem overall_status_is_consistent cfg (msg : Request) s w :
  reachable s ->
  type msg = "GET_ORGANIZATION_STATUS" ->
  Js.truthyStr (p_organizationId (payload msg)) = None ->
  allBounded s
  /\ exists r st,
       outcome (process cfg msg s w) = Ok (Some r)
       /\ body (payload r) = OrganizationStatusRetrieved (StatusOverall st)
       /\ unit_interval (overallHealth (summary st))
       /\ (organizations s = [] -> overallHealth (summary st) = 1%Q)
       /\ totalOrganizations (summary st) = Js.size (organizations s)
       /\ totalCoordinations (summary st) = Js.size (coordinations s)
       /\ (activeOrganizations (summary st) <= totalOrganizations (summary st))%nat
       /\ (pendingMaintenance (summary st) + completedMaintenance (summary st)
           <= Js.size (maintenanceTasks s))%nat
       /\ List.length (recentMaintenance st)
          = Nat.min 5 (Js.size (maintenanceTasks s)).
Proof.
  intros Hr Ht Hid. pose proof (reachable_allBounded s Hr) as Hb. split; [exact Hb|].
  destruct (process_status cfg msg s w Ht) as (r & status & w' & E & Hbody & Hs).
  rewrite Hid in Hs. destruct Hs as (o & w0 & w1 & Eo & ->).
  destruct (getOverallOrganizationStatus_spec (p_includeComponents (payload msg)) s w0)
    as (st & w2 & E2 & T1 & T2 & T3 & T4 & T5 & T6 & T7 & _).
  rewrite E2 in Eo. injection Eo as <- _.
  exists r, st. rewrite E. cbn [outcome fst]. split; [reflexivity|]. split; [exact Hbody|].
  rewrite T6, T1, T2, T3, T4, T5, T7.
  split; [|split; [|split; [|split; [|split; [|split]]]]].
  - apply calculateOverallHealth_bounds. unfold Js.values. apply Forall_map. exact Hb.
  - intros ->. reflexivity.
  - reflexivity.
  - reflexivity.
  - unfold Js.size. rewrite <- (length_map snd (organizations s)). apply filter_length_le.
  - unfold Js.size, Js.values. set (l := List.map snd (maintenanceTasks s)).
    rewrite <- (length_map snd (maintenanceTasks s)). fold l.
    clear. induction l as [|m l IH]; cbn; [lia|].
    unfold isScheduled, isCompleted in *. destruct (maint_status m); cbn; lia.
  - rewrite (slice_tail_le 5) by lia. unfold Js.size, Js.values.
    rewrite length_map. reflexivity.
Qed.

Lemma overall_status_is_consistent_witness :
  allBounded Samples.organization0
  /\ exists r st,
       outcome (process Samples.organizationConfig statusRequest Samples.organization0
                  Samples.world0)
       = Ok (Some r)
       /\ body (payload r) = OrganizationStatusRetrieved (StatusOverall st)
       /\ unit_interval (overallHealth (summary st))
       /\ List.length (recentMaintenance st)
          = Nat.min 5 (Js.size (maintenanceTasks Samples.organization0)).
Proof.
  destruct (overall_status_is_consistent Samples.organizationConfig statusRequest
              Samples.organization0 Samples.world0 (reach_construct Samples.world0)
              eq_refl eq_refl)
    as (B & r & st & E & Hb & U & _ & _ & _ & _ & _ & L).
  split; [exact B|]. exists r, st.
  split; [exact E|]. split; [exact Hb|]. split; [exact U|exact L].
Defined.

(** X5: [shutdown] marks every stored organization inactive and changes
    nothing else: the keys, the organizations' other fields and the other
    stores are kept. *)
Theorem shutdown_deactivates_everything s w :
  let s' := finalState (shutdown s w) in
  outcome (shutdown s w) = Ok tt
  /\ Forall (fun o => org_status o = inactive) (Js.values (organizations s'))
  /\ List.map fst (organizations s') = List.map fst (organizations s)
  /\ List.map (fun kv => withStatus (snd kv) inactive) (organizations s')
     = List.map (fun kv => withStatus (snd kv) inactive) (organizations s)
  /\ coordinations s' = coordinations s
  /\ maintenanceTasks s' = maintenanceTasks s
  /\ systemHealth s' = systemHealth s.
Proof.
  cbn. split; [reflexivity|].
  split; [|split; [|split]]; [| | |repeat split];
    induction (organizations s) as [|[k o] r IH]; cbn; try constructor; auto;
    f_equal; auto.
Qed.

Lemma executeMaintenance_shape t s w :
  exists t' res w',
    executeMaintenance t s w = (Ok (t', res), s, w')
    /\ maint_status t'
       = statusFor (randAt (oracle w) (draws w)) (randAt (oracle w) (S (draws w)))
    /\ maint_completedAt t' = Some (clockAt (oracle w) (ticks w))
    /\ maint_id t' = maint_id t /\ maint_targets t' = maint_targets t
    /\ maint_results t' = res.
Proof.
  cbv beta iota zeta delta [executeMaintenance bind random newDate now ret].
  eexists _, _, _. split; [reflexivity|].
  cbn [maint_status maint_completedAt maint_results maint_id maint_targets
       withResults withCompletedAt withMaintStatus success oracle draws ticks].
  unfold statusFor. cbv zeta.
  set (f := Js.floor (randAt (oracle w) (draws w) * 3)).
  set (g := Js.floor _).
  split; [|repeat split].
  destruct (Z.leb_spec f g); destruct (Z.leb_spec f (Z.min f g)); try reflexivity; lia.
Qed.

Lemma process_execute_status cfg (msg : Request) s w k t :
  type msg = "EXECUTE_MAINTENANCE" ->
  p_maintenanceId (payload msg) = Some k ->
  Js.get (maintenanceTasks s) k = Some t ->
  exists r t' w',
    process cfg msg s w
    = (Ok (Some r), setMaintenanceTasks s (Js.set (maintenanceTasks s) k t'), w')
    /\ type r = "MAINTENANCE_EXECUTED"
    /\ body (payload r) = MaintenanceExecuted (maint_id t') (maint_results t')
    /\ maint_status t'
       = statusFor (randAt (oracle w) (draws w)) (randAt (oracle w) (S (draws w)))
    /\ maint_completedAt t' = Some (clockAt (oracle w) (S (ticks w)))
    /\ maint_id t' = maint_id t /\ maint_targets t' = maint_targets t.
Proof.
  intros Ht Hp G. destruct msg as [mid ty p src dst ts]. cbn in Ht, Hp. subst ty.
  unfold process. enter_process.
  unfold some, bind at 1, handleExecuteMaintenance, bind at 1, getState.
  cbn [payload]. rewrite Hp, G. unfold bind at 1.
  match goal with
  | |- context [executeMaintenance t ?s0 ?w0] =>
      destruct (executeMaintenance_shape t s0 w0)
        as (t' & res & w1 & E & D1 & D2 & D3 & D4 & D5)
  end.
  rewrite E. subst res.
  cbv beta iota zeta delta [bind getState putState reply createMessage now newDate
                            freshId ret].
  eexists _, t', _. split; [reflexivity|]. cbn [type payload body fst snd].
  repeat split; auto.
Qed.

(** X6: EXECUTE_MAINTENANCE does not look at the status of the task it
    names: a task in any status, completed and failed included, is executed
    again, and the status it is left in is decided by the two random draws
    of this run alone. *)
Theorem execution_ignores_the_current_status cfg (msg : Request) s w k t :
  type msg = "EXECUTE_MAINTENANCE" ->
  p_maintenanceId (payload msg) = Some k ->
  Js.get (maintenanceTasks s) k = Some t ->
  exists r t',
    outcome (process cfg msg s w) = Ok (Some r)
    /\ type r = "MAINTENANCE_EXECUTED"
    /\ Js.get (maintenanceTasks (finalState (process cfg msg s w))) k = Some t'
    /\ maint_status t'
       = statusFor (randAt (oracle w) (draws w)) (randAt (oracle w) (S (draws w)))
    /\ maint_completedAt t' = Some (clockAt (oracle w) (S (ticks w))).
Proof.
  intros Ht Hp G.
  destruct (process_execute_status cfg msg s w k t Ht Hp G)
    as (r & t' & w' & E & Hty & _ & Hs & Hc & _).
  exists r, t'. rewrite E. cbn [outcome finalState fst snd].
  repeat split; auto.
  cbn [setMaintenanceTasks maintenanceTasks]. apply get_set_same.
Qed.

Lemma execution_ignores_the_current_status_witness :
  Js.get (maintenanceTasks withDoneTask) "maint-1" = Some doneTask
  /\ maint_status doneTask = completed
  /\ exists t',
       Js.get
         (maintenanceTasks
            (finalState
               (process Samples.organizationConfig (Samples.execute "maint-1")
                  withDoneTask unluckyWorld)))
         "maint-1"
       = Some t'
       /\ maint_status t' = failed.
Proof.
  split; [reflexivity|]. split; [reflexivity|].
  destruct (execution_ignores_the_current_status Samples.organizationConfig
              (Samples.execute "maint-1") withDoneTask unluckyWorld "maint-1" doneTask
              eq_refl eq_refl eq_refl) as (r & t' & _ & _ & G & Hs & _).
  exists t'. split; [exact G|]. rewrite Hs. reflexivity.
Defined.

Lemma executeMaintenance_details t s w :
  unitDraws (oracle w) ->
  exists t' res w',
    executeMaintenance t s w = (Ok (t', res), s, w')
    /\ maint_results t' = res
    /\ itemsProcessed res = 5 * Z.of_nat (List.length (maint_targets t))
    /\ 0 <= issuesResolved res <= issuesFound res
    /\ issuesFound res <= 2
    /\ (success res = true <-> issuesResolved res = issuesFound res)
    /\ List.last (recommendations res) "" = "Schedule follow-up maintenance in 24 hours"
    /\ (In "Manual intervention required for unresolved issues" (recommendations res)
        <-> success res = false)
    /\ (In "Consider optimizing maintenance scope for efficiency" (recommendations res)
        <-> (2 < List.length (maint_targets t))%nat).
Proof.
  intros Hu.
  cbv beta iota zeta delta [executeMaintenance bind random newDate now ret].
  eexists _, _, _. split; [reflexivity|].
  cbn [maint_results withResults withCompletedAt withMaintStatus maint_targets
       itemsProcessed issuesResolved issuesFound success recommendations oracle draws].
  set (r1 := randAt (oracle w) (draws w)).
  set (r2 := randAt (oracle w) (S (draws w))).
  destruct (Hu (draws w)) as [A1 A2]. destruct (Hu (S (draws w))) as [B1 B2].
  fold r1 in A1, A2. fold r2 in B1, B2.
  set (found := Js.floor (r1 * 3)).
  assert (F0 : 0 <= found) by (apply floor_nonneg; lra).
  assert (F2 : found <= 2).
  { assert (found < 3); [|lia]. apply floor_below. change (inject_Z 3) with 3%Q. lra. }
  set (g := Js.floor (r2 * inject_Z (found + 1))).
  assert (G0 : 0 <= g).
  { apply floor_nonneg. apply Qmult_le_0_compat; [exact B1|].
    change 0%Q with (inject_Z 0). rewrite <- Zle_Qle. lia. }
  set (n := List.length (maint_targets t)).
  split; [reflexivity|]. split; [lia|]. split; [lia|]. split; [lia|].
  split; [rewrite Z.leb_le; lia|].
  destruct (Z.min found g <? found) eqn:C1; destruct (10 <? Z.of_nat n * 5) eqn:C2;
    destruct (found <=? Z.min found g) eqn:C3; cbn;
    try (apply Z.ltb_lt in C1); try (apply Z.ltb_ge in C1);
    try (apply Z.ltb_lt in C2); try (apply Z.ltb_ge in C2);
    try (apply Z.leb_le in C3); try (apply Z.leb_gt in C3); try lia;
    (split; [reflexivity|]); split;
    (split; [intros H; try reflexivity; try lia;
             repeat (destruct H as [H|H]; try discriminate H); try contradiction
            |intros H; try discriminate H; try lia; auto]).
Qed.

Lemma process_execute_details cfg (msg : Request) s w k t :
  type msg = "EXECUTE_MAINTENANCE" ->
  p_maintenanceId (payload msg) = Some k ->
  Js.get (maintenanceTasks s) k = Some t ->
  unitDraws (oracle w) ->
  exists r t' w',
    process cfg msg s w
    = (Ok (Some r), setMaintenanceTasks s (Js.set (maintenanceTasks s) k t'), w')
    /\ body (payload r) = MaintenanceExecuted (maint_id t) (maint_results t')
    /\ itemsProcessed (maint_results t') = 5 * Z.of_nat (List.length (maint_targets t))
    /\ 0 <= issuesResolved (maint_results t') <= issuesFound (maint_results t')
    /\ issuesFound (maint_results t') <= 2
    /\ (success (maint_results t') = true
        <-> issuesResolved (maint_results t') = issuesFound (maint_results t'))
    /\ List.last (recommendations (maint_results t')) ""
       = "Schedule follow-up maintenance in 24 hours"
    /\ (In "Manual intervention required for unresolved issues"
           (recommendations (maint_results t'))
        <-> success (maint_results t') = false)
    /\ (In "Consider optimizing maintenance scope for efficiency"
           (recommendations (maint_results t'))
        <-> (2 < List.length (maint_targets t))%nat).
Proof.
  intros Ht Hp G Hu. destruct msg as [mid ty p src dst ts]. cbn in Ht, Hp. subst ty.
  unfold process. enter_process.
  unfold some, bind at 1, handleExecuteMaintenance, bind at 1, getState.
  cbn [payload]. rewrite Hp, G. unfold bind at 1.
  match goal with
  | |- context [executeMaintenance t ?s0 ?w0] =>
      destruct (executeMaintenance_details t s0 w0 Hu)
        as (t' & res & w1 & E & R & D1 & D2 & D3 & D4 & D5 & D6 & D7);
      pose proof (executed_facts t t'
                    (ex_intro _ s0 (ex_intro _ w0 (ex_intro _ res (ex_intro _ s0
                       (ex_intro _ w1 (conj E (eq_sym R)))))))) as (_ & _ & _ & _ & _ & Hid)
  end.
  rewrite E. subst res.
  cbv beta iota zeta delta [bind getState putState reply createMessage now newDate
                            freshId ret].
  eexists _, t', _. split; [reflexivity|]. cbn [payload body fst snd].
  split; [rewrite Hid; reflexivity|].
  repeat split; auto; try apply D2; try apply D4; try apply D6; try apply D7.
Qed.

(** X7: with draws in [0,1) an executed maintenance task reports five items
    per target, between zero and two issues found and no more issues
    resolved than found; it succeeds exactly when every found issue is
    resolved; its recommendations end with the follow-up, contain the manual
    intervention exactly when it failed and the scope remark exactly when
    there are more than two targets. *)
Theorem maintenance_results_are_consistent cfg (msg : Request) s w k t :
  type msg = "EXECUTE_MAINTENANCE" ->
  p_maintenanceId (payload msg) = Some k ->
  Js.get (maintenanceTasks s) k = Some t ->
  unitDraws (oracle w) ->
  exists r t',
    outcome (process cfg msg s w) = Ok (Some r)
    /\ Js.get (maintenanceTasks (finalState (process cfg msg s w))) k = Some t'
    /\ body (payload r) = MaintenanceExecuted (maint_id t) (maint_results t')
    /\ itemsProcessed (maint_results t') = 5 * Z.of_nat (List.length (maint_targets t))
    /\ 0 <= issuesResolved (maint_results t') <= issuesFound (maint_results t')
    /\ issuesFound (maint_results t') <= 2
    /\ (success (maint_results t') = true
        <-> issuesResolved (maint_results t') = issuesFound (maint_results t'))
    /\ List.last (recommendations (maint_results t')) ""
       = "Schedule follow-up maintenance in 24 hours"
    /\ (In "Manual intervention required for unresolved issues"
           (recommendations (maint_results t'))
        <-> success (maint_results t') = false)
    /\ (In "Consider optimizing maintenance scope for efficiency"
           (recommendations (maint_results t'))
        <-> (2 < List.length (maint_targets t))%nat).
Proof.
  intros Ht Hp G Hu.
  destruct (process_execute_details cfg msg s w k t Ht Hp G Hu)
    as (r & t' & w' & E & H).
  exists r, t'. rewrite E. cbn [outcome finalState fst snd].
  split; [reflexivity|]. split; [|exact H].
  cbn [setMaintenanceTasks maintenanceTasks]. apply get_set_same.
Qed.

Lemma maintenance_results_are_consistent_witness :
  exists t',
    Js.get
      (maintenanceTasks
         (finalState
            (process Samples.organizationConfig (Samples.execute "maint-1")
               withDoneTask Samples.world0)))
      "maint-1"
    = Some t'
    /\ itemsProcessed (maint_results t') = 10
    /\ issuesFound (maint_results t') <= 2.
Proof.
  destruct (maintenance_results_are_consistent Samples.organizationConfig
              (Samples.execute "maint-1") withDoneTask Samples.world0 "maint-1" doneTask
              eq_refl eq_refl eq_refl unitDraws_oracle0)
    as (r & t' & _ & G & _ & I & _ & F & _).
  exists t'. split; [exact G|]. split; [exact I|exact F].
Defined.

(** *** Optimization *)

Lemma raise_spec (x thr d : Q) note :
  (0 < d)%Q -> (thr + d <= 1)%Q -> (x <= 1)%Q ->
  raised x (Js.min 1 (x + Js.orNum (snd (bump x thr d note)) 0)) thr d
  /\ (fst (bump x thr d note) = [] <-> (thr <= x)%Q).
Proof.
  intros Hd Ht Hx. unfold raised, bump, Js.Qltb, Js.min.
  destruct (Qle_bool thr x) eqn:E; cbn [negb fst snd Js.orNum].
  - apply Qle_bool_iff in E. split; [|tauto]. right. split; [exact E|].
    destruct (Qle_bool 1 (x + 0)) eqn:F.
    + apply Qle_bool_iff in F. lra.
    + lra.
  - assert (Hlt : (x < thr)%Q).
    { apply Qnot_le_lt. intros H. apply Qle_bool_iff in H. congruence. }
    split.
    + left. split; [exact Hlt|].
      destruct (Qeq_bool d 0) eqn:Z0.
      * apply Qeq_bool_iff in Z0. lra.
      * destruct (Qle_bool 1 (x + d)) eqn:F; [|reflexivity].
        apply Qle_bool_iff in F. lra.
    + split; [discriminate|]. intros H. lra.
Qed.

Lemma optimizeOrganization_report o ty s w :
  bounded (org_metrics o) ->
  exists o' rep w',
    optimizeOrganization (Some o) ty s w = (Ok (Some o', rep), s, w')
    /\ raised (efficiency (org_metrics o)) (efficiency (org_metrics o')) (9 # 10) (5 # 100)
    /\ raised (coordination (org_metrics o)) (coordination (org_metrics o'))
         (9 # 10) (3 # 100)
    /\ raised (responsiveness (org_metrics o)) (responsiveness (org_metrics o'))
         (9 # 10) (4 # 100)
    /\ raised (stability (org_metrics o)) (stability (org_metrics o')) (95 # 100) (2 # 100)
    /\ (appliedOptimizations rep = [] <-> atTargets (org_metrics o))
    /\ (List.length (appliedOptimizations rep) <= 4)%nat
    /\ org_id o' = org_id o /\ org_name o' = org_name o /\ org_type o' = org_type o
    /\ org_components o' = org_components o /\ org_status o' = active
    /\ org_lastUpdated o' = clockAt (oracle w) (ticks w).
Proof.
  intros (He & Hc & Hr & Hs). unfold unit_interval in *.
  cbv beta iota zeta delta [optimizeOrganization bind newDate now ret].
  eexists _, _, _. split; [reflexivity|].
  cbn [org_metrics org_id org_name org_type org_components org_status org_lastUpdated
       withStatus withMetrics withLastUpdated withEfficiency withCoordination
       withResponsiveness withStability efficiency coordination responsiveness stability
       appliedOptimizations].
  destruct (raise_spec (efficiency (org_metrics o)) (9 # 10) (5 # 100)
              "Streamline component communication paths") as (R1 & N1);
    [reflexivity|discriminate|tauto|].
  destruct (raise_spec (coordination (org_metrics o)) (9 # 10) (3 # 100)
              "Enhance inter-component coordination protocols") as (R2 & N2);
    [reflexivity|discriminate|tauto|].
  destruct (raise_spec (responsiveness (org_metrics o)) (9 # 10) (4 # 100)
              "Reduce latency in background operations") as (R3 & N3);
    [reflexivity|discriminate|tauto|].
  destruct (raise_spec (stability (org_metrics o)) (95 # 100) (2 # 100)
              "Implement additional failover mechanisms") as (R4 & N4);
    [reflexivity|discriminate|tauto|].
  split; [exact R1|]. split; [exact R2|]. split; [exact R3|]. split; [exact R4|].
  split; [|split; [|repeat split]].
  - unfold atTargets. rewrite <- N1, <- N2, <- N3, <- N4.
    split.
    + intros H. apply app_eq_nil in H as (H1 & H). apply app_eq_nil in H as (H2 & H).
      apply app_eq_nil in H as (H3 & H4). auto.
    + intros (H1 & H2 & H3 & H4). rewrite H1, H2, H3, H4. reflexivity.
  - rewrite !length_app. unfold bump.
    repeat match goal with |- context [if ?c then _ else _] => destruct c end;
      cbn; lia.
Qed.

Lemma raised_le x y thr d : (0 < d)%Q -> raised x y thr d -> (x <= y)%Q.
Proof. intros Hd [(H1 & H2)|(H1 & H2)]; lra. Qed.

Lemma process_optimize_report cfg (msg : Request) s w k o :
  type msg = "OPTIMIZE_ORGANIZATION" ->
  Js.truthyStr (p_organizationId (payload msg)) = Some k ->
  Js.get (organizations s) k = Some o ->
  bounded (org_metrics o) ->
  exists r o' rep w',
    process cfg msg s w
    = (Ok (Some r), setOrganizations s (Js.set (organizations s) k o'), w')
    /\ body (payload r) = OrganizationOptimized (Js.orStr (Some (org_id o)) "all") rep
    /\ raised (efficiency (org_metrics o)) (efficiency (org_metrics o')) (9 # 10) (5 # 100)
    /\ raised (coordination (org_metrics o)) (coordination (org_metrics o'))
         (9 # 10) (3 # 100)
    /\ raised (responsiveness (org_metrics o)) (responsiveness (org_metrics o'))
         (9 # 10) (4 # 100)
    /\ raised (stability (org_metrics o)) (stability (org_metrics o')) (95 # 100) (2 # 100)
    /\ (appliedOptimizations rep = [] <-> atTargets (org_metrics o))
    /\ org_id o' = org_id o /\ org_name o' = org_name o /\ org_type o' = org_type o
    /\ org_components o' = org_components o /\ org_status o' = active.
Proof.
  intros Ht Hp G Hb. destruct msg as [mid ty p src dst ts]. cbn [type payload] in *.
  subst ty. unfold process. enter_process.
  unfold some, bind at 1, handleOptimizeOrganization, bind at 1, getState.
  cbn [payload]. rewrite Hp, G. unfold bind at 1.
  match goal with
  | |- context [optimizeOrganization (Some o) ?ty ?s0 ?w0] =>
      destruct (optimizeOrganization_report o ty s0 w0 Hb)
        as (o' & rep & w1 & E & R1 & R2 & R3 & R4 & A & _ & I1 & I2 & I3 & I4 & I5 & _)
  end.
  rewrite E.
  cbv beta iota zeta delta [bind getState putState reply createMessage now newDate
                            freshId ret].
  cbn [fst snd].
  eexists _, o', rep, _. split; [reflexivity|]. cbn [payload body].
  split; [rewrite I1; reflexivity|].
  split; [exact R1|]. split; [exact R2|]. split; [exact R3|]. split; [exact R4|].
  split; [exact A|]. auto.
Qed.

(** X8: an OPTIMIZE_ORGANIZATION request that names a stored organization
    whose metrics are in [0,1] never lowers a metric: each metric below its
    threshold (0.9, and 0.95 for stability) is raised by its increment, the
    others are kept; the report lists an optimization exactly when some
    metric is below its threshold; the organization keeps its id, name, type
    and components, is left active, and no other entry of the store is
    touched. *)
Theorem optimization_never_lowers_a_metric cfg (msg : Request) s w k o :
  type msg = "OPTIMIZE_ORGANIZATION" ->
  Js.truthyStr (p_organizationId (payload msg)) = Some k ->
  Js.get (organizations s) k = Some o ->
  bounded (org_metrics o) ->
  exists r o' rep,
    outcome (process cfg msg s w) = Ok (Some r)
    /\ body (payload r) = OrganizationOptimized (Js.orStr (Some (org_id o)) "all") rep
    /\ Js.get (organizations (finalState (process cfg msg s w))) k = Some o'
    /\ (forall k', k' <> k ->
        Js.get (organizations (finalState (process cfg msg s w))) k'
        = Js.get (organizations s) k')
    /\ metricsLe (org_metrics o) (org_metrics o')
    /\ raised (efficiency (org_metrics o)) (efficiency (org_metrics o')) (9 # 10) (5 # 100)
    /\ raised (coordination (org_metrics o)) (coordination (org_metrics o'))
         (9 # 10) (3 # 100)
    /\ raised (responsiveness (org_metrics o)) (responsiveness (org_metrics o'))
         (9 # 10) (4 # 100)
    /\ raised (stability (org_metrics o)) (stability (org_metrics o')) (95 # 100) (2 # 100)
    /\ (appliedOptimizations rep = [] <-> atTargets (org_metrics o))
    /\ org_id o' = org_id o /\ org_name o' = org_name o /\ org_type o' = org_type o
    /\ org_components o' = org_components o /\ org_status o' = active.
Proof.
  intros Ht Hp G Hb.
  destruct (process_optimize_report cfg msg s w k o Ht Hp G Hb)
    as (r & o' & rep & w' & E & Hbody & R1 & R2 & R3 & R4 & A & I1 & I2 & I3 & I4 & I5).
  exists r, o', rep. rewrite E. cbn [outcome finalState fst snd setOrganizations
                                     organizations].
  split; [reflexivity|]. split; [exact Hbody|].
  split; [apply get_set_same|].
  split; [intros k' Hk; apply get_set_other; congruence|].
  split.
  { unfold metricsLe. repeat split; eapply raised_le; try eassumption; reflexivity. }
  split; [exact R1|]. split; [exact R2|]. split; [exact R3|]. split; [exact R4|].
  split; [exact A|]. auto.
Qed.

Lemma optimization_never_lowers_a_metric_witness :
  exists r o' rep,
    outcome (process Samples.organizationConfig (Samples.optimize "org-1700000000000")
               (setOrganizations emptyState [("org-1700000000000", fresh)])
               Samples.world0)
    = Ok (Some r)
    /\ body (payload r) = OrganizationOptimized "org-1700000000000" rep
    /\ raised (85 # 100) (efficiency (org_metrics o')) (9 # 10) (5 # 100)
    /\ org_components o' = defaultComponents.
Proof.
  assert (B : bounded (org_metrics fresh)).
  { unfold bounded, unit_interval. cbn. repeat split; discriminate. }
  destruct (optimization_never_lowers_a_metric Samples.organizationConfig
              (Samples.optimize "org-1700000000000")
              (setOrganizations emptyState [("org-1700000000000", fresh)])
              Samples.world0 "org-1700000000000" fresh eq_refl eq_refl eq_refl B)
    as (r & o' & rep & E & Hb & _ & _ & _ & R & _ & _ & _ & _ & _ & _ & _ & C & _).
  exists r, o', rep. split; [exact E|]. split; [exact Hb|]. split; [exact R|exact C].
Defined.

Lemma optimized_raised o o' :
  optimized o o' -> bounded (org_metrics o) ->
  bounded (org_metrics o')
  /\ raised (efficiency (org_metrics o)) (efficiency (org_metrics o')) (9 # 10) (5 # 100)
  /\ raised (coordination (org_metrics o)) (coordination (org_metrics o'))
       (9 # 10) (3 # 100)
  /\ raised (responsiveness (org_metrics o)) (responsiveness (org_metrics o'))
       (9 # 10) (4 # 100)
  /\ raised (stability (org_metrics o)) (stability (org_metrics o')) (95 # 100) (2 # 100).
Proof.
  intros Ho Hb. split; [apply (optimized_facts o o' Ho); exact Hb|].
  destruct Ho as (ty & s & w & rep & s' & w' & E).
  destruct (optimizeOrganization_report o ty s w Hb)
    as (o2 & rep2 & w2 & E2 & R1 & R2 & R3 & R4 & _).
  rewrite E in E2. injection E2 as <- _ _ _. auto.
Qed.

Lemma raised_progress x y thr d (n : nat) (x0 : Q) :
  (0 < d)%Q -> raised x y thr d ->
  (thr <= x \/ x == x0 + Js.ofNat n * d)%Q ->
  (thr <= y \/ y == x0 + Js.ofNat (S n) * d)%Q.
Proof.
  intros Hd [(H1 & H2)|(H1 & H2)] [H|H].
  - lra.
  - right. rewrite ofNat_succ. lra.
  - left. lra.
  - left. lra.
Qed.

Lemma optimizedTimes_progress n o o' :
  optimizedTimes n o o' ->
  forall (k : nat) e c r t,
    bounded (org_metrics o) ->
    (9 # 10 <= efficiency (org_metrics o)
     \/ efficiency (org_metrics o) == e + Js.ofNat k * (5 # 100))%Q ->
    (9 # 10 <= coordination (org_metrics o)
     \/ coordination (org_metrics o) == c + Js.ofNat k * (3 # 100))%Q ->
    (9 # 10 <= responsiveness (org_metrics o)
     \/ responsiveness (org_metrics o) == r + Js.ofNat k * (4 # 100))%Q ->
    (95 # 100 <= stability (org_metrics o)
     \/ stability (org_metrics o) == t + Js.ofNat k * (2 # 100))%Q ->
    bounded (org_metrics o')
    /\ metricsLe (org_metrics o) (org_metrics o')
    /\ (9 # 10 <= efficiency (org_metrics o')
        \/ efficiency (org_metrics o') == e + Js.ofNat (k + n) * (5 # 100))%Q
    /\ (9 # 10 <= coordination (org_metrics o')
        \/ coordination (org_metrics o') == c + Js.ofNat (k + n) * (3 # 100))%Q
    /\ (9 # 10 <= responsiveness (org_metrics o')
        \/ responsiveness (org_metrics o') == r + Js.ofNat (k + n) * (4 # 100))%Q
    /\ (95 # 100 <= stability (org_metrics o')
        \/ stability (org_metrics o') == t + Js.ofNat (k + n) * (2 # 100))%Q.
Proof.
  induction 1 as [o|n o o1 o2 Ho Hn IH]; intros k e c r t Hb He Hc Hr Ht.
  - rewrite Nat.add_0_r. split; [exact Hb|]. split; [|auto].
    unfold metricsLe. repeat split; apply Qle_refl.
  - destruct (optimized_raised o o1 Ho Hb) as (Hb1 & R1 & R2 & R3 & R4).
    destruct (IH (S k) e c r t Hb1) as (B & L & P1 & P2 & P3 & P4);
      try (eapply raised_progress; try eassumption; reflexivity).
    rewrite <- Nat.add_succ_comm. split; [exact B|]. split; [|auto].
    destruct L as (L1 & L2 & L3 & L4).
    pose proof (fun H => raised_le _ _ _ _ H R1) as X1.
    pose proof (fun H => raised_le _ _ _ _ H R2) as X2.
    pose proof (fun H => raised_le _ _ _ _ H R3) as X3.
    pose proof (fun H => raised_le _ _ _ _ H R4) as X4.
    specialize (X1 eq_refl). specialize (X2 eq_refl).
    specialize (X3 eq_refl). specialize (X4 eq_refl).
    unfold metricsLe. repeat split; lra.
Qed.

(** X9: repeated optimization converges.  After [n] runs on an organization
    whose metrics are in [0,1] no metric is lower than before, each metric
    has reached its threshold as soon as [n] increments from its start
    would, and after 48 runs every metric is at its threshold, so that a
    further run reports nothing and changes no metric. *)
Theorem repeated_optimization_reaches_the_targets n o o' :
  bounded (org_metrics o) ->
  optimizedTimes n o o' ->
  bounded (org_metrics o')
  /\ metricsLe (org_metrics o) (org_metrics o')
  /\ ((9 # 10 <= efficiency (org_metrics o) + Js.ofNat n * (5 # 100))%Q ->
      (9 # 10 <= efficiency (org_metrics o'))%Q)
  /\ ((9 # 10 <= coordination (org_metrics o) + Js.ofNat n * (3 # 100))%Q ->
      (9 # 10 <= coordination (org_metrics o'))%Q)
  /\ ((9 # 10 <= responsiveness (org_metrics o) + Js.ofNat n * (4 # 100))%Q ->
      (9 # 10 <= responsiveness (org_metrics o'))%Q)
  /\ ((95 # 100 <= stability (org_metrics o) + Js.ofNat n * (2 # 100))%Q ->
      (95 # 100 <= stability (org_metrics o'))%Q)
  /\ ((48 <= n)%nat ->
      atTargets (org_metrics o')
      /\ forall o'', optimized o' o'' -> metricsEq (org_metrics o'') (org_metrics o')).
Proof.
  intros Hb Hn.
  destruct (optimizedTimes_progress n o o' Hn 0
              (efficiency (org_metrics o)) (coordination (org_metrics o))
              (responsiveness (org_metrics o)) (stability (org_metrics o)) Hb)
    as (B & L & P1 & P2 & P3 & P4);
    try (right; change (Js.ofNat 0) with 0%Q; lra).
  cbn [Nat.add] in P1, P2, P3, P4.
  split; [exact B|]. split; [exact L|].
  assert (Q1 : (9 # 10 <= efficiency (org_metrics o) + Js.ofNat n * (5 # 100) ->
                9 # 10 <= efficiency (org_metrics o'))%Q)
    by (intros H; destruct P1 as [P|P]; [exact P|rewrite P; exact H]).
  assert (Q2 : (9 # 10 <= coordination (org_metrics o) + Js.ofNat n * (3 # 100) ->
                9 # 10 <= coordination (org_metrics o'))%Q)
    by (intros H; destruct P2 as [P|P]; [exact P|rewrite P; exact H]).
  assert (Q3 : (9 # 10 <= responsiveness (org_metrics o) + Js.ofNat n * (4 # 100) ->
                9 # 10 <= responsiveness (org_metrics o'))%Q)
    by (intros H; destruct P3 as [P|P]; [exact P|rewrite P; exact H]).
  assert (Q4 : (95 # 100 <= stability (org_metrics o) + Js.ofNat n * (2 # 100) ->
                95 # 100 <= stability (org_metrics o'))%Q)
    by (intros H; destruct P4 as [P|P]; [exact P|rewrite P; exact H]).
  split; [exact Q1|]. split; [exact Q2|]. split; [exact Q3|]. split; [exact Q4|].
  intros H48.
  assert (N : (48 <= Js.ofNat n)%Q).
  { unfold Js.ofNat. change 48%Q with (inject_Z 48). rewrite <- Zle_Qle. lia. }
  destruct Hb as (He & Hc & Hr & Hs). unfold unit_interval in *.
  assert (T : atTargets (org_metrics o')).
  { unfold atTargets. split; [apply Q1; nra|]. split; [apply Q2; nra|].
    split; [apply Q3; nra|apply Q4; nra]. }
  split; [exact T|].
  intros o'' Ho. destruct (optimized_raised o' o'' Ho B) as (_ & R1 & R2 & R3 & R4).
  destruct T as (T1 & T2 & T3 & T4).
  unfold metricsEq, raised in *.
  repeat split;
    [destruct R1 as [(X & _)|(_ & X)]|destruct R2 as [(X & _)|(_ & X)]
    |destruct R3 as [(X & _)|(_ & X)]|destruct R4 as [(X & _)|(_ & X)]];
    try exact X; lra.
Qed.

Lemma optimized_exists o : exists o', optimized o o'.
Proof.
  destruct (optimizeOrganization_some o None emptyState Samples.world0)
    as (o' & rep & w' & E & _).
  exists o', None, emptyState, Samples.world0, rep, emptyState, w'. exact E.
Qed.

Lemma repeated_optimization_reaches_the_targets_witness :
  exists o',
    optimizedTimes 1 fresh o'
    /\ (9 # 10 <= efficiency (org_metrics o'))%Q.
Proof.
  destruct (optimized_exists fresh) as (o' & Ho).
  assert (B : bounded (org_metrics fresh)).
  { unfold bounded, unit_interval. cbn. repeat split; discriminate. }
  assert (H1 : optimizedTimes 1 fresh o')
    by exact (optimized_succ 0 fresh o' o' Ho (optimized_zero o')).
  exists o'. split; [exact H1|].
  destruct (repeated_optimization_reaches_the_targets 1 fresh o' B H1)
    as (_ & _ & Q1 & _).
  apply Q1. discriminate.
Defined.

Lemma process_optimize_missing cfg (msg : Request) s w :
  type msg = "OPTIMIZE_ORGANIZATION" ->
  (forall k, Js.truthyStr (p_organizationId (payload msg)) = Some k ->
             Js.get (organizations s) k = None) ->
  exists r w',
    process cfg msg s w = (Ok (Some r), s, w')
    /\ body (payload r) = OrganizationOptimized "all" systemWideReport.
Proof.
  intros Ht Hk. destruct msg as [mid ty p src dst ts]. cbn [type payload] in *.
  subst ty. unfold process. enter_process.
  unfold some, bind at 1, handleOptimizeOrganization, bind at 1, getState.
  cbn [payload].
  destruct (Js.truthyStr (p_organizationId p)) as [k|].
  - rewrite (Hk k eq_refl). eexists _, _. split; reflexivity.
  - eexists _, _. split; reflexivity.
Qed.

(** X10: an OPTIMIZE_ORGANIZATION request that names no organization, the
    empty id, or an id that is not a key of the store is answered as a
    system-wide review: the reply names "all", lists the three system-wide
    optimizations with no metric improvement, and no store is changed. *)
Theorem optimizing_an_unknown_organization_is_a_review cfg (msg : Request) s w :
  type msg = "OPTIMIZE_ORGANIZATION" ->
  (forall k, Js.truthyStr (p_organizationId (payload msg)) = Some k ->
             Js.get (organizations s) k = None) ->
  exists r,
    outcome (process cfg msg s w) = Ok (Some r)
    /\ type r = "ORGANIZATION_OPTIMIZED"
    /\ body (payload r) = OrganizationOptimized "all" systemWideReport
    /\ finalState (process cfg msg s w) = s.
Proof.
  intros Ht Hk.
  destruct (process_optimize_missing cfg msg s w Ht Hk) as (r & w' & E & Hb).
  exists r. rewrite E. cbn [outcome finalState fst snd].
  split; [reflexivity|]. split; [|split; [exact Hb|reflexivity]].
  revert E. destruct msg as [mid ty p src dst ts]. cbn [type] in Ht. subst ty.
  unfold process. enter_process.
  unfold some, bind at 1, handleOptimizeOrganization, bind at 1, getState.
  cbn [payload] in *.
  destruct (Js.truthyStr (p_organizationId p)) as [k|].
  - rewrite (Hk k eq_refl). intros E. injection E as <- _. reflexivity.
  - intros E. injection E as <- _. reflexivity.
Qed.

Lemma optimizing_an_unknown_organization_is_a_review_witness :
  exists r,
    outcome (process Samples.organizationConfig (Samples.optimize "ghost") emptyState
               Samples.world0)
    = Ok (Some r)
    /\ body (payload r) = OrganizationOptimized "all" systemWideReport.
Proof.
  destruct (optimizing_an_unknown_organization_is_a_review Samples.organizationConfig
              (Samples.optimize "ghost") emptyState Samples.world0 eq_refl
              (fun k _ => eq_refl)) as (r & E & _ & Hb & _).
  exists r. split; [exact E|exact Hb].
Defined.

(** *** Creation *)

Lemma completeComponent_spec i c s w :
  exists k w',
    completeComponent i c s w = (Ok k, s, w')
    /\ completes i c k
    /\ oracle w' = oracle w /\ (ticks w <= ticks w')%nat.
Proof.
  unfold completeComponent, completes.
  destruct (Js.truthyStr (part_id c)) as [x|];
    cbv beta iota zeta delta [bind now ret];
    eexists _, _; (split; [reflexivity|]);
    cbn [comp_name comp_role comp_dependencies comp_status comp_id oracle ticks].
  - repeat split; auto. intros y [= <-]. reflexivity. discriminate.
  - repeat split; auto. discriminate. eexists; reflexivity.
Qed.

Lemma mapiM_completes cs : forall i s w,
  exists l w',
    mapiM completeElement i (List.map Some cs) s w = (Ok l, s, w')
    /\ List.length l = List.length cs
    /\ (forall j c, nth_error cs j = Some c ->
        exists k, nth_error l j = Some k /\ completes (i + j) c k)
    /\ oracle w' = oracle w /\ (ticks w <= ticks w')%nat.
Proof.
  induction cs as [|c cs IH]; intros i s w.
  - exists [], w. cbn. repeat split; auto. intros [|j] c; discriminate.
  - destruct (completeComponent_spec i c s w) as (k & w1 & E1 & C1 & O1 & T1).
    destruct (IH (S i) s w1) as (l & w2 & E2 & L2 & N2 & O2 & T2).
    exists (k :: l), w2. cbn [mapiM List.map completeElement].
    unfold bind at 1. rewrite E1.
    unfold bind at 1. rewrite E2. split; [reflexivity|].
    split; [cbn; congruence|]. split; [|split; [congruence|lia]].
    intros [|j] c' Hc; cbn in Hc.
    + injection Hc as <-. exists k. rewrite Nat.add_0_r. split; [reflexivity|exact C1].
    + destruct (N2 j c' Hc) as (k' & Hk & Ck). exists k'.
      rewrite <- Nat.add_succ_comm. split; [exact Hk|exact Ck].
Qed.

Lemma createOrganization_details name ty comps given s w :
  Js.orArray comps [] = Js.IsArray (List.map Some given) ->
  exists o w',
    createOrganization name ty comps s w = (Ok o, s, w')
    /\ oracle w' = oracle w /\ (ticks w < ticks w')%nat
    /\ (exists n, (ticks w <= n)%nat /\ org_id o = "org-" ++ Js.showZ (clockAt (oracle w) n))
    /\ org_name o = Js.orStr name "system-organization"
    /\ org_type o = Js.orStr ty "coordination"
    /\ org_status o = active
    /\ org_metrics o = mkMetrics (85 # 100) (9 # 10) (8 # 10) (95 # 100)
    /\ match given with
       | [] => org_components o = defaultComponents
       | _ :: _ =>
           List.length (org_components o) = List.length given
           /\ forall j c, nth_error given j = Some c ->
              exists k, nth_error (org_components o) j = Some k /\ completes j c k
       end.
Proof.
  intros Hg. unfold createOrganization. rewrite Hg.
  destruct (mapiM_completes given 0%nat s w)
    as (l & w1 & E & L & N & O1 & T1).
  unfold bind at 1, items, ret. unfold bind at 1. rewrite E.
  cbv beta iota zeta delta [bind now newDate ret].
  eexists _, _. split; [reflexivity|].
  cbn [org_id org_name org_type org_status org_metrics org_components oracle ticks].
  split; [exact O1|]. split; [lia|].
  split; [exists (ticks w1); split; [exact T1|rewrite O1; reflexivity]|].
  repeat (split; [reflexivity|]).
  destruct given as [|c cs].
  - destruct l; [reflexivity|discriminate L].
  - destruct l as [|k l]; [discriminate L|]. split; [exact L|exact N].
Qed.

Lemma process_create cfg (msg : Request) given s w :
  type msg = "CREATE_ORGANIZATION" ->
  Js.orArray (p_components (payload msg)) [] = Js.IsArray (List.map Some given) ->
  exists r o w',
    process cfg msg s w
    = (Ok (Some r), setOrganizations s (Js.set (organizations s) (org_id o) o), w')
    /\ body (payload r) = OrganizationCreated o
    /\ (exists n, (ticks w < n)%nat
                  /\ org_id o = "org-" ++ Js.showZ (clockAt (oracle w) n))
    /\ org_name o = Js.orStr (p_name (payload msg)) "system-organization"
    /\ org_type o = Js.orStr (p_type (payload msg)) "coordination"
    /\ org_status o = active
    /\ org_metrics o = mkMetrics (85 # 100) (9 # 10) (8 # 10) (95 # 100)
    /\ match given with
       | [] => org_components o = defaultComponents
       | _ :: _ =>
           List.length (org_components o) = List.length given
           /\ forall j c,
                nth_error given j = Some c ->
                exists k, nth_error (org_components o) j = Some k /\ completes j c k
       end.
Proof.
  intros Ht Hg. destruct msg as [mid ty p src dst ts]. cbn [type payload] in Ht, Hg.
  subst ty.
  unfold process. enter_process.
  unfold some, bind at 1, handleCreateOrganization, bind at 1. cbn [payload].
  match goal with
  | |- context [createOrganization ?a ?b ?c ?s0 ?w0] =>
      destruct (createOrganization_details a b c given s0 w0 Hg)
        as (o & w1 & E & _ & _ & (n & Hn & Hid) & D)
  end.
  rewrite E.
  cbv beta iota zeta delta [bind getState putState reply createMessage now newDate
                            freshId ret].
  eexists _, o, _. split; [reflexivity|]. split; [reflexivity|].
  split; [exists n; split; [cbn [ticks] in Hn; lia|exact Hid]|]. exact D.
Qed.

(** Components that can be mapped over are an array of records. *)
Lemma mappable_given comps :
  mappable comps = true ->
  exists given, Js.orArray comps [] = Js.IsArray (List.map Some given).
Proof.
  unfold mappable. destruct (Js.orArray comps []) as [l|]; [|discriminate].
  induction l as [|c l IH]; intros H.
  - exists []. reflexivity.
  - cbn in H. apply andb_true_iff in H. destruct H as (Hc & Hl).
    destruct c as [c|]; [|discriminate].
    destruct (IH Hl) as (given & E). injection E as ->.
    exists (c :: given). reflexivity.
Qed.

(** X11: a CREATE_ORGANIZATION request whose components are absent or an
    array of records stores the new organization under the id
    "org-<clock reading>" read after the request was received, so a request
    at a reading already used as an id replaces the stored organization and
    the store does not grow.  The organization carries the given name and
    type or their defaults, is active with the starting metrics, and has the
    three default components when no component is given, otherwise one
    completed component per given one, in order.  A request whose components
    are not an array, or hold a null, is rejected with the error and stores
    nothing. *)
Theorem created_organization_is_keyed_by_the_clock cfg (msg : Request) s w :
  type msg = "CREATE_ORGANIZATION" ->
  (mappable (p_components (payload msg)) = true ->
     exists given r o,
       Js.orArray (p_components (payload msg)) [] = Js.IsArray (List.map Some given)
       /\ outcome (process cfg msg s w) = Ok (Some r)
       /\ body (payload r) = OrganizationCreated o
       /\ organizations (finalState (process cfg msg s w))
          = Js.set (organizations s) (org_id o) o
       /\ Js.size (organizations (finalState (process cfg msg s w)))
          = (if Js.has (organizations s) (org_id o)
             then Js.size (organizations s) else S (Js.size (organizations s)))
       /\ (exists n, (ticks w < n)%nat
                     /\ org_id o = "org-" ++ Js.showZ (clockAt (oracle w) n))
       /\ org_name o = Js.orStr (p_name (payload msg)) "system-organization"
       /\ org_type o = Js.orStr (p_type (payload msg)) "coordination"
       /\ org_status o = active
       /\ org_metrics o = mkMetrics (85 # 100) (9 # 10) (8 # 10) (95 # 100)
       /\ match given with
          | [] => org_components o = defaultComponents
          | _ :: _ =>
              List.length (org_components o) = List.length given
              /\ forall j c,
                   nth_error given j = Some c ->
                   exists k, nth_error (org_components o) j = Some k /\ completes j c k
          end)
  /\ (mappable (p_components (payload msg)) = false ->
      exists e,
        outcome (process cfg msg s w) = Throw e
        /\ finalState (process cfg msg s w) = s).
Proof.
  intros Ht. split.
  - intros Hm. destruct (mappable_given _ Hm) as (given & Hg).
    destruct (process_create cfg msg given s w Ht Hg) as (r & o & w' & E & Hb & Hid & D).
    exists given, r, o. rewrite E.
    cbn [outcome finalState fst snd setOrganizations organizations].
    split; [exact Hg|].
    split; [reflexivity|]. split; [exact Hb|]. split; [reflexivity|].
    split; [apply size_set|]. split; [exact Hid|exact D].
  - intros Hm. destruct (process_create_raises cfg msg s w Ht Hm) as (e & w' & E & _).
    exists e. rewrite E. split; reflexivity.
Qed.

Lemma created_organization_is_keyed_by_the_clock_witness :
  (exists r o,
     outcome (process Samples.organizationConfig createWithComponents emptyState
                Samples.world0)
     = Ok (Some r)
     /\ body (payload r) = OrganizationCreated o
     /\ org_name o = "pair"
     /\ List.length (org_components o) = 2%nat)
  /\ (exists e,
        outcome (process Samples.organizationConfig createWithNull emptyState
                   Samples.world0)
        = Throw e).
Proof.
  split.
  - destruct (created_organization_is_keyed_by_the_clock Samples.organizationConfig
                createWithComponents emptyState Samples.world0 eq_refl)
      as (A & _).
    destruct (A eq_refl) as (given & r & o & G & E & Hb & _ & _ & _ & N & _ & _ & _ & D).
    exists r, o. split; [exact E|]. split; [exact Hb|]. split; [exact N|].
    assert (Hp : given = pair).
    { cbn in G. injection G as G.
      destruct given as [|a [|b [|c l]]]; try discriminate G.
      unfold pair. cbn in G. congruence. }
    subst given. destruct D as (L & _). exact L.
  - destruct (created_organization_is_keyed_by_the_clock Samples.organizationConfig
                createWithNull emptyState Samples.world0 eq_refl)
      as (_ & B).
    destruct (B eq_refl) as (e & E & _).
    exists e. exact E.
Defined.

End OrganizationMoreFacts.

(** ** Further properties of the Sales service *)

Module SalesMoreFacts.
Import Runtime Spec Facts Sales.
Import More MoreFacts SalesMore MoreSamples.

Lemma getProp_ok v k : Js.nullish v = false -> exists x, Js.getProp v k = inr x.
Proof. destruct v; cbn; intros H; try discriminate H; eexists; reflexivity. Qed.

Lemma getProp_nullish v k : Js.nullish v = true -> exists e, Js.getProp v k = inl e.
Proof. destruct v; cbn; intros H; try discriminate H; eexists; reflexivity. Qed.

Lemma firstTruthy_ok v keys (s : State) w :
  Js.nullish v = false -> exists x, firstTruthy v keys s w = (Ok x, s, w).
Proof.
  intros H. induction keys as [|k [|k' r] IH].
  - eexists; reflexivity.
  - destruct (getProp_ok v k H) as (x & E). exists x. cbn. rewrite E. reflexivity.
  - destruct (getProp_ok v k H) as (x & E). cbn [firstTruthy].
    unfold bind at 1. rewrite E. cbn [lift ret].
    destruct (Js.truthy x); [exists x; reflexivity|exact IH].
Qed.

Lemma firstTruthy_nullish v k keys (s : State) w :
  Js.nullish v = true -> exists e, firstTruthy v (k :: keys) s w = (Throw e, s, w).
Proof.
  intros H. destruct (getProp_nullish v k H) as (e & E). exists e.
  destruct keys; cbn; [|unfold bind]; rewrite E; reflexivity.
Qed.

Lemma min_one_between (x lo : Q) :
  (lo <= x)%Q -> (lo <= 1)%Q -> (lo <= Js.min x 1 <= 1)%Q.
Proof.
  intros Hx Hl. unfold Js.min. destruct (Qle_bool x 1) eqn:E.
  - apply Qle_bool_iff in E. split; assumption.
  - split; [exact Hl|apply Qle_refl].
Qed.

Lemma keysLength_nonneg v : (0 <= inject_Z (Js.keysLength v))%Q.
Proof.
  change 0%Q with (inject_Z 0). rewrite <- Zle_Qle. destruct v; cbn; lia.
Qed.

Lemma evaluateAccuracy_ok output (s : State) w :
  Js.nullish output = false ->
  exists a,
    evaluateAccuracy output s w
    = (Ok a, s, mkWorld (oracle w) (ticks w) (S (draws w)) (ids w) (logged w))
    /\ (unitDraws (oracle w) -> (5 # 10 <= a <= 1)%Q).
Proof.
  intros H. unfold evaluateAccuracy.
  destruct (firstTruthy_ok output ["data"; "content"; "result"] s w H) as (x & E1).
  destruct (firstTruthy_ok output ["metadata"; "source"] s w H) as (y & E2).
  run E1. run E2. unfold bind, random, ret.
  eexists. split; [reflexivity|]. intros Hu. destruct (Hu (draws w)) as [R0 R1].
  apply min_one_between; [|discriminate].
  destruct (Js.truthy x); destruct (Js.truthy y); lra.
Qed.

Lemma evaluateAccuracy_nullish output (s : State) w :
  Js.nullish output = true -> exists e, evaluateAccuracy output s w = (Throw e, s, w).
Proof.
  intros H. unfold evaluateAccuracy.
  destruct (firstTruthy_nullish output "data" ["content"; "result"] s w H) as (e & E).
  exists e. run E. reflexivity.
Qed.

Lemma evaluateCompleteness_ok output (s : State) w :
  exists c,
    evaluateCompleteness output s w
    = (Ok c, s, mkWorld (oracle w) (ticks w) (S (draws w)) (ids w) (logged w))
    /\ (unitDraws (oracle w) -> (5 # 10 <= c <= 1)%Q).
Proof.
  unfold evaluateCompleteness, bind, random, ret.
  eexists. split; [reflexivity|]. intros Hu. destruct (Hu (draws w)) as [R0 R1].
  apply min_one_between; [|discriminate].
  pose proof (keysLength_nonneg (if Js.truthy output then output else Js.Obj [])) as K.
  set (f := inject_Z _) in *.
  assert (0 <= f / 10)%Q by (apply Qle_shift_div_l; [reflexivity|lra]).
  lra.
Qed.

Lemma evaluateRelevance_ok output (s : State) w :
  exists r,
    evaluateRelevance output s w
    = (Ok r, s, mkWorld (oracle w) (ticks w) (S (draws w)) (ids w) (logged w))
    /\ (unitDraws (oracle w) -> (7 # 10 <= r <= 1)%Q).
Proof.
  unfold evaluateRelevance, bind, random, ret.
  eexists. split; [reflexivity|]. intros Hu. destruct (Hu (draws w)) as [R0 R1]. lra.
Qed.

Lemma evaluateClarity_ok output (s : State) w :
  exists l,
    evaluateClarity output s w
    = (Ok l, s, mkWorld (oracle w) (ticks w) (S (draws w)) (ids w) (logged w))
    /\ (unitDraws (oracle w) ->
        (5 # 10 <= l <= 1)%Q /\ (Js.isObject output = true -> (75 # 100 <= l)%Q)).
Proof.
  unfold evaluateClarity, bind, random, ret.
  eexists. split; [reflexivity|]. intros Hu. destruct (Hu (draws w)) as [R0 R1].
  destruct (Js.isObject output); (split; [lra|]); intros H; [lra|discriminate H].
Qed.

Lemma evaluateTimeliness_ok output (s : State) w :
  exists t,
    evaluateTimeliness output s w
    = (Ok t, s, mkWorld (oracle w) (ticks w) (S (draws w)) (ids w) (logged w))
    /\ (unitDraws (oracle w) -> (8 # 10 <= t <= 1)%Q).
Proof.
  unfold evaluateTimeliness, bind, random, ret.
  eexists. split; [reflexivity|]. intros Hu. destruct (Hu (draws w)) as [R0 R1]. lra.
Qed.

Lemma assessQuality_ok output crit (s : State) w :
  Js.nullish output = false ->
  exists a w',
    assessQuality output crit s w = (Ok a, s, w')
    /\ oracle w' = oracle w /\ (ticks w < ticks w')%nat /\ logged w' = logged w
    /\ qa_qualityScore a
       = (Js.sum [accuracy (qa_dimensions a); completeness (qa_dimensions a);
                  relevance (qa_dimensions a); clarity (qa_dimensions a);
                  timeliness (qa_dimensions a)] / 5)%Q
    /\ qa_recommendations a = generateRecommendations (qa_dimensions a) crit
    /\ (unitDraws (oracle w) ->
        inRange (qa_dimensions a)
        /\ (Js.isObject output = true -> (75 # 100 <= clarity (qa_dimensions a))%Q)).
Proof.
  intros H. unfold assessQuality.
  destruct (evaluateAccuracy_ok output s w H) as (a & E1 & B1).
  run E1.
  unfold bind at 1.
  match goal with |- context [evaluateCompleteness output s ?w1] =>
    destruct (evaluateCompleteness_ok output s w1) as (c & E2 & B2) end.
  cbn [oracle ticks draws ids logged] in E2, B2. rewrite E2. tidy.
  unfold bind at 1.
  match goal with |- context [evaluateRelevance output s ?w1] =>
    destruct (evaluateRelevance_ok output s w1) as (r & E3 & B3) end.
  cbn [oracle ticks draws ids logged] in E3, B3. rewrite E3. tidy.
  unfold bind at 1.
  match goal with |- context [evaluateClarity output s ?w1] =>
    destruct (evaluateClarity_ok output s w1) as (l & E4 & B4) end.
  cbn [oracle ticks draws ids logged] in E4, B4. rewrite E4. tidy.
  unfold bind at 1.
  match goal with |- context [evaluateTimeliness output s ?w1] =>
    destruct (evaluateTimeliness_ok output s w1) as (t & E5 & B5) end.
  cbn [oracle ticks draws ids logged] in E5, B5. rewrite E5. tidy.
  destruct (getProp_ok output "id" H) as (oid & G).
  unfold bind at 1, now. tidy. unfold bind at 1. rewrite G. cbn [lift ret].
  tidy.
  destruct (Js.truthy oid);
    cbv beta iota zeta delta [bind now newDate ret]; tidy;
    (eexists _, _; split; [reflexivity|]);
    cbn [oracle ticks logged qa_qualityScore qa_dimensions qa_recommendations accuracy
         completeness relevance clarity timeliness];
    (split; [reflexivity|]); (split; [lia|]); (split; [reflexivity|]);
    (split; [reflexivity|]); (split; [reflexivity|]);
    intros Hu; specialize (B1 Hu); specialize (B2 Hu); specialize (B3 Hu);
    specialize (B4 Hu); specialize (B5 Hu); unfold inRange;
    cbn [accuracy completeness relevance clarity timeliness]; tauto.
Qed.

Lemma assessQuality_nullish output crit (s : State) w :
  Js.nullish output = true -> exists e, assessQuality output crit s w = (Throw e, s, w).
Proof.
  intros H. unfold assessQuality.
  destruct (evaluateAccuracy_nullish output s w H) as (e & E).
  exists e. run E. reflexivity.
Qed.


(** *** ASSESS_QUALITY *)

Ltac finish_handler :=
  cbv beta iota zeta delta [bind getState putState reply createMessage now newDate
                            freshId ret];
  tidy.

Lemma process_assess cfg (msg : Request) s w :
  type msg = "ASSESS_QUALITY" ->
  Js.nullish (p_output (payload msg)) = false ->
  exists r a w',
    process cfg msg s w
    = (Ok (Some r),
       mkState (qualityThresholds s) (promotionChannels s) (assessmentHistory s ++ [a]),
       w')
    /\ type r = "QUALITY_ASSESSED"
    /\ body (payload r) = QualityAssessed a
    /\ qa_qualityScore a
       = (Js.sum [accuracy (qa_dimensions a); completeness (qa_dimensions a);
                  relevance (qa_dimensions a); clarity (qa_dimensions a);
                  timeliness (qa_dimensions a)] / 5)%Q
    /\ qa_recommendations a
       = generateRecommendations (qa_dimensions a) (p_criteria (payload msg))
    /\ (unitDraws (oracle w) ->
        inRange (qa_dimensions a)
        /\ (Js.isObject (p_output (payload msg)) = true ->
            (75 # 100 <= clarity (qa_dimensions a))%Q)).
Proof.
  intros Ht Hn. destruct msg as [mid ty p src dst ts]. cbn [type payload] in *.
  subst ty. unfold process. enter_process.
  unfold some, bind at 1, handleQualityAssessment, bind at 1. cbn [payload].
  match goal with
  | |- context [assessQuality ?o ?c ?s0 ?w0] =>
      destruct (assessQuality_ok o c s0 w0 Hn) as (a & w1 & E & O1 & T1 & L1 & D)
  end.
  rewrite E. finish_handler.
  eexists _, a, _. split; [reflexivity|]. split; [reflexivity|].
  split; [reflexivity|]. exact D.
Qed.

Lemma process_assessing_nullish cfg (msg : Request) s w :
  In (type msg) assessing ->
  Js.nullish (p_output (payload msg)) = true ->
  exists e w', process cfg msg s w = (Throw e, s, w').
Proof.
  intros Ht Hn. destruct msg as [mid ty p src dst ts]. cbn [type payload] in *.
  destruct Ht as [<-|[<-|[<-|[]]]]; unfold process; enter_process.
  - unfold some, bind at 1, handleQualityAssessment, bind at 1. cbn [payload].
    match goal with
    | |- context [assessQuality ?o ?c ?s0 ?w0] =>
        destruct (assessQuality_nullish o c s0 w0 Hn) as (e & E)
    end.
    rewrite E. eexists _, _. reflexivity.
  - unfold some, bind at 1, handleMarketReadinessCheck, bind at 1, checkMarketReadiness,
      bind at 1.
    cbn [payload].
    match goal with
    | |- context [assessQuality ?o ?c ?s0 ?w0] =>
        destruct (assessQuality_nullish o c s0 w0 Hn) as (e & E)
    end.
    rewrite E. eexists _, _. reflexivity.
  - unfold some, bind at 1, handleMarketOptimization, bind at 1. cbn [payload].
    match goal with
    | |- context [assessQuality ?o ?c ?s0 ?w0] =>
        destruct (assessQuality_nullish o c s0 w0 Hn) as (e & E)
    end.
    rewrite E. eexists _, _. reflexivity.
Qed.

Lemma below_nil v limit note : below v limit note = [] <-> (limit <= v)%Q.
Proof.
  unfold below, Js.Qltb. destruct (Qle_bool limit v) eqn:E; cbn.
  - apply Qle_bool_iff in E. tauto.
  - split; [discriminate|]. intros H. apply Qle_bool_iff in H. congruence.
Qed.

Lemma below_cases v limit note :
  (below v limit note = [] /\ (limit <= v)%Q)
  \/ (below v limit note = [note] /\ (v < limit)%Q).
Proof.
  unfold below, Js.Qltb. destruct (Qle_bool limit v) eqn:E; cbn.
  - left. apply Qle_bool_iff in E. tauto.
  - right. split; [reflexivity|]. apply Qnot_le_lt. intros H.
    apply Qle_bool_iff in H. congruence.
Qed.

Lemma generateRecommendations_inRange d crit :
  inRange d ->
  generateRecommendations d crit <> []
  /\ ~ In "Refine content to better match target requirements"
         (generateRecommendations d crit)
  /\ ~ In "Optimize processing pipeline for faster delivery"
         (generateRecommendations d crit)
  /\ (generateRecommendations d crit = ["Output meets quality standards"]
      <-> (7 # 10 <= accuracy d /\ 7 # 10 <= completeness d /\ 7 # 10 <= clarity d)%Q).
Proof.
  intros (Ha & Hc & Hr & Hl & Ht). unfold generateRecommendations.
  destruct (below_cases (relevance d) (7 # 10)
              "Refine content to better match target requirements") as [(-> & _)|(_ & X)];
    [|lra].
  destruct (below_cases (timeliness d) (7 # 10)
              "Optimize processing pipeline for faster delivery") as [(-> & _)|(_ & X)];
    [|lra].
  destruct (below_cases (accuracy d) (7 # 10)
              "Improve data accuracy through additional validation")
    as [(-> & A)|(-> & A)];
    destruct (below_cases (completeness d) (7 # 10)
                "Add missing data fields for completeness") as [(-> & C)|(-> & C)];
    destruct (below_cases (clarity d) (7 # 10)
                "Restructure output for improved clarity") as [(-> & L)|(-> & L)];
    cbn [app];
    (split; [discriminate|]);
    (split; [intros H; repeat (destruct H as [H|H]; [discriminate H|]); exact H|]);
    (split; [intros H; repeat (destruct H as [H|H]; [discriminate H|]); exact H|]);
    (split; [intros H; try discriminate H; repeat split; lra
            |intros (H1 & H2 & H3); try reflexivity; lra]).
Qed.

(** X12: an ASSESS_QUALITY request whose output is neither undefined nor
    null is answered with QUALITY_ASSESSED and the assessment is appended to
    the history; with draws in [0,1) accuracy, completeness and clarity are
    in [0.5,1], relevance in [0.7,1] and timeliness in [0.8,1], so the score
    is in [0.6,1]; the recommendations are never empty, never mention
    relevance or timeliness, and are the single "Output meets quality
    standards" exactly when accuracy, completeness and clarity are at least
    0.7. *)
Theorem assessment_is_recorded_and_in_range cfg (msg : Request) s w :
  type msg = "ASSESS_QUALITY" ->
  Js.nullish (p_output (payload msg)) = false ->
  unitDraws (oracle w) ->
  exists r a,
    outcome (process cfg msg s w) = Ok (Some r)
    /\ type r = "QUALITY_ASSESSED"
    /\ body (payload r) = QualityAssessed a
    /\ assessmentHistory (finalState (process cfg msg s w))
       = (assessmentHistory s ++ [a])%list
    /\ inRange (qa_dimensions a)
    /\ (6 # 10 <= qa_qualityScore a <= 1)%Q
    /\ qa_recommendations a <> []
    /\ ~ In "Refine content to better match target requirements" (qa_recommendations a)
    /\ ~ In "Optimize processing pipeline for faster delivery" (qa_recommendations a)
    /\ (qa_recommendations a = ["Output meets quality standards"]
        <-> (7 # 10 <= accuracy (qa_dimensions a)
             /\ 7 # 10 <= completeness (qa_dimensions a)
             /\ 7 # 10 <= clarity (qa_dimensions a))%Q).
Proof.
  intros Ht Hn Hu.
  destruct (process_assess cfg msg s w Ht Hn) as (r & a & w' & E & Ty & Hb & Sc & Rc & D).
  destruct (D Hu) as (R & _).
  exists r, a. rewrite E. cbn [outcome finalState fst snd assessmentHistory].
  split; [reflexivity|]. split; [exact Ty|]. split; [exact Hb|]. split; [reflexivity|].
  split; [exact R|].
  split.
  { rewrite Sc. unfold Js.sum. cbn [fold_left].
    destruct R as (Ha & Hc & Hr & Hl & Hti).
    split; [apply Qle_shift_div_l|apply Qle_shift_div_r]; try reflexivity; lra. }
  rewrite Rc. apply generateRecommendations_inRange. exact R.
Qed.

Lemma assessment_is_recorded_and_in_range_witness :
  exists r a,
    outcome (process Samples.salesConfig
               (salesRequest "ASSESS_QUALITY" report Js.Undefined None)
               Samples.sales0 Samples.world0)
    = Ok (Some r)
    /\ body (payload r) = QualityAssessed a
    /\ (6 # 10 <= qa_qualityScore a <= 1)%Q.
Proof.
  destruct (assessment_is_recorded_and_in_range Samples.salesConfig
              (salesRequest "ASSESS_QUALITY" report Js.Undefined None)
              Samples.sales0 Samples.world0 eq_refl eq_refl unitDraws_oracle0)
    as (r & a & E & _ & Hb & _ & _ & Sc & _).
  exists r, a. split; [exact E|]. split; [exact Hb|exact Sc].
Defined.


(** *** PROMOTE_OUTPUT *)

Lemma filter_draws (channels : list string) (s : State) : forall w,
  exists ok n,
    filterM (fun _ : string => r <- random ;; ret (Js.Qltb (1 # 10) r)) channels s w
    = (Ok ok, s, mkWorld (oracle w) (ticks w) (n + draws w) (ids w) (logged w))
    /\ subseq ok channels
    /\ ((forall k, (1 # 10 < randAt (oracle w) k)%Q) -> ok = channels).
Proof.
  set (p := fun _ : string => (r <- random ;; ret (Js.Qltb (1 # 10) r)) : M State bool).
  assert (Hp : forall x s w,
             p x s w
             = (Ok (Js.Qltb (1 # 10) (randAt (oracle w) (draws w))), s,
                mkWorld (oracle w) (ticks w) (S (draws w)) (ids w) (logged w)))
    by reflexivity.
  induction channels as [|c r IH]; intros w.
  - exists [], 0%nat. destruct w. repeat split; constructor.
  - cbn [filterM]. unfold bind at 1. rewrite Hp. tidy. unfold bind at 1.
    match goal with |- context [filterM p r s ?w1] =>
      destruct (IH w1) as (ok & n & E & Hs & Ha) end.
    cbn [oracle ticks draws ids logged] in E, Ha.
    rewrite E. tidy. unfold ret.
    destruct (Js.Qltb (1 # 10) (randAt (oracle w) (draws w))) eqn:D.
    + exists (c :: ok), (S n). rewrite <- Nat.add_succ_comm.
      split; [reflexivity|]. split; [constructor; exact Hs|].
      intros H. rewrite (Ha H). reflexivity.
    + exists ok, (S n). rewrite <- Nat.add_succ_comm.
      split; [reflexivity|]. split; [constructor; exact Hs|].
      intros H. exfalso. specialize (H (draws w)).
      unfold Js.Qltb in D. apply negb_false_iff, Qle_bool_iff in D. lra.
Qed.

Lemma promoteToChannels_ok content channels priority (s : State) w :
  Js.nullish content = false ->
  exists p w',
    promoteToChannels content (Js.IsArray channels) priority s w = (Ok p, s, w')
    /\ oracle w' = oracle w
    /\ subseq (promo_channels p) channels
    /\ ((forall k, (1 # 10 < randAt (oracle w) k)%Q) -> promo_channels p = channels)
    /\ (promo_status p = promoted <-> promo_channels p <> [])
    /\ (promo_status p = failed <-> promo_channels p = [])
    /\ (unitDraws (oracle w) ->
        100 * Z.of_nat (List.length (promo_channels p)) <= promo_reach p
        < 100 * Z.of_nat (List.length (promo_channels p)) + 500
        /\ 0 <= promo_engagement p < 100).
Proof.
  intros H. unfold promoteToChannels. cbn [items]. rewrite bind_ret.
  destruct (filter_draws channels s w) as (ok & n & E & Hs & Ha).
  run E. destruct (getProp_ok content "id" H) as (cid & G).
  unfold bind at 1, now. tidy. unfold bind at 1. rewrite G. cbn [lift ret]. tidy.
  destruct (Js.truthy cid);
    cbv beta iota zeta delta [bind now random ret]; tidy;
    (eexists _, _; split; [reflexivity|]);
    cbn [oracle promo_channels promo_status promo_reach promo_engagement];
    (split; [reflexivity|]); (split; [exact Hs|]); (split; [exact Ha|]);
    (split; [destruct ok; cbn; split; intros X; congruence|]);
    (split; [destruct ok; cbn; split; intros X; congruence|]);
    intros Hu;
    match goal with
    | |- context [Js.floor (?r1 * 500)] =>
        assert (F1 : 0 <= Js.floor (r1 * 500) < 500)
    end;
    try (match goal with
         | |- 0 <= Js.floor (randAt ?o ?k * 500) < 500 =>
             destruct (Hu k) as [A B]; split;
             [apply floor_nonneg; lra
             |apply floor_below; change (inject_Z 500) with 500%Q; lra]
         end);
    match goal with
    | |- context [Js.floor (?r2 * 100)] =>
        assert (F2 : 0 <= Js.floor (r2 * 100) < 100)
    end;
    try (match goal with
         | |- 0 <= Js.floor (randAt ?o ?k * 100) < 100 =>
             destruct (Hu k) as [A B]; split;
             [apply floor_nonneg; lra
             |apply floor_below; change (inject_Z 100) with 100%Q; lra]
         end);
    lia.
Qed.

Lemma promoteToChannels_raises content channels priority (s : State) w :
  Js.nullish content = true \/ channels = Js.NotArray ->
  exists e w', promoteToChannels content channels priority s w = (Throw e, s, w').
Proof.
  intros H. unfold promoteToChannels.
  destruct channels as [given|]; [|eexists _, _; reflexivity].
  destruct H as [H|H]; [|discriminate H].
  cbn [items]. rewrite bind_ret.
  destruct (filter_draws given s w) as (ok & n & E & _).
  run E. destruct (getProp_nullish content "id" H) as (e & G).
  unfold bind at 1, now. tidy. unfold bind at 1. rewrite G. cbn [lift throw].
  eexists _, _. reflexivity.
Qed.

Lemma process_promote cfg (msg : Request) channels s w :
  type msg = "PROMOTE_OUTPUT" ->
  Js.nullish (p_content (payload msg)) = false ->
  Js.orArray (p_targetChannels (payload msg)) (promotionChannels s)
  = Js.IsArray channels ->
  exists r p w',
    process cfg msg s w = (Ok (Some r), s, w')
    /\ type r = "OUTPUT_PROMOTED"
    /\ body (payload r) = OutputPromoted p
    /\ subseq (promo_channels p) channels
    /\ ((forall k, (1 # 10 < randAt (oracle w) k)%Q) -> promo_channels p = channels)
    /\ (promo_status p = promoted <-> promo_channels p <> [])
    /\ (promo_status p = failed <-> promo_channels p = [])
    /\ (unitDraws (oracle w) ->
        100 * Z.of_nat (List.length (promo_channels p)) <= promo_reach p
        < 100 * Z.of_nat (List.length (promo_channels p)) + 500
        /\ 0 <= promo_engagement p < 100).
Proof.
  intros Ht Hn Hc. destruct msg as [mid ty p src dst ts]. cbn [type payload] in *.
  subst ty. unfold process. enter_process.
  unfold some, bind at 1, handleOutputPromotion, bind at 1, getState. tidy.
  unfold bind at 1. cbn [payload]. rewrite Hc.
  match goal with
  | |- context [promoteToChannels ?c (Js.IsArray ?ch) ?pr ?s0 ?w0] =>
      destruct (promoteToChannels_ok c ch pr s0 w0 Hn) as (pr' & w1 & E & O1 & D)
  end.
  rewrite E. finish_handler.
  eexists _, pr', _. split; [reflexivity|]. split; [reflexivity|].
  split; [reflexivity|]. exact D.
Qed.

Lemma process_promote_raises cfg (msg : Request) s w :
  type msg = "PROMOTE_OUTPUT" ->
  Js.nullish (p_content (payload msg)) = true
  \/ p_targetChannels (payload msg) = Some Js.NotArray ->
  exists e w', process cfg msg s w = (Throw e, s, w').
Proof.
  intros Ht Hn. destruct msg as [mid ty p src dst ts]. cbn [type payload] in *.
  subst ty. unfold process. enter_process.
  unfold some, bind at 1, handleOutputPromotion, bind at 1, getState. tidy.
  unfold bind at 1. cbn [payload].
  match goal with
  | |- context [promoteToChannels ?c ?ch ?pr ?s0 ?w0] =>
      destruct (promoteToChannels_raises c ch pr s0 w0) as (e & w1 & E)
  end.
  { destruct Hn as [Hn|Hn]; [left; exact Hn|right; rewrite Hn; reflexivity]. }
  rewrite E. eexists _, _. reflexivity.
Qed.

(** X13: a PROMOTE_OUTPUT request whose content is neither undefined nor
    null and whose target channels are absent or an array is answered with
    OUTPUT_PROMOTED and changes no state.  The promoted channels are the
    requested ones (the service's own when none is requested) with some
    left out, in order, and all of them when every draw exceeds 0.1; the
    status is "promoted" exactly when a channel is left and "failed"
    otherwise, so an empty array of target channels always fails; with
    draws in [0,1) the reach is 100 per channel plus less than 500 and the
    engagement is below 100.  Target channels that are a truthy value other
    than an array make the request fail with the error, whatever the
    content, and change no state. *)
Theorem promotion_keeps_a_subsequence_of_the_channels cfg (msg : Request) s w :
  type msg = "PROMOTE_OUTPUT" ->
  (forall channels,
     Js.nullish (p_content (payload msg)) = false ->
     Js.orArray (p_targetChannels (payload msg)) (promotionChannels s)
     = Js.IsArray channels ->
     exists r p,
       outcome (process cfg msg s w) = Ok (Some r)
       /\ finalState (process cfg msg s w) = s
       /\ type r = "OUTPUT_PROMOTED"
       /\ body (payload r) = OutputPromoted p
       /\ subseq (promo_channels p) channels
       /\ ((forall k, (1 # 10 < randAt (oracle w) k)%Q) -> promo_channels p = channels)
       /\ (promo_status p = promoted <-> promo_channels p <> [])
       /\ (promo_status p = failed <-> promo_channels p = [])
       /\ (channels = [] -> promo_status p = failed)
       /\ (unitDraws (oracle w) ->
           100 * Z.of_nat (List.length (promo_channels p)) <= promo_reach p
           < 100 * Z.of_nat (List.length (promo_channels p)) + 500
           /\ 0 <= promo_engagement p < 100))
  /\ (p_targetChannels (payload msg) = Some Js.NotArray ->
      exists e,
        outcome (process cfg msg s w) = Throw e
        /\ finalState (process cfg msg s w) = s).
Proof.
  intros Ht. split.
  - intros channels Hn Hc.
    destruct (process_promote cfg msg channels s w Ht Hn Hc)
      as (r & p & w' & E & Ty & Hb & Hs & Ha & P1 & P2 & Hu).
    exists r, p. rewrite E. cbn [outcome finalState fst snd].
    repeat (split; [first [reflexivity | assumption]|]).
    split; [|exact Hu].
    intros He. rewrite He in Hs. apply P2. inversion Hs. reflexivity.
  - intros Hc.
    destruct (process_promote_raises cfg msg s w Ht (or_intror Hc)) as (e & w' & E).
    exists e. rewrite E. split; reflexivity.
Qed.

Lemma promotion_keeps_a_subsequence_of_the_channels_witness :
  (exists r p,
     outcome (process Samples.salesConfig
                (salesRequest "PROMOTE_OUTPUT" Js.Undefined report
                   (Some (Js.IsArray [])))
                Samples.sales0 Samples.world0)
     = Ok (Some r)
     /\ body (payload r) = OutputPromoted p
     /\ promo_status p = failed)
  /\ (exists e,
        outcome (process Samples.salesConfig
                   (salesRequest "PROMOTE_OUTPUT" Js.Undefined report
                      (Some Js.NotArray))
                   Samples.sales0 Samples.world0)
        = Throw e).
Proof.
  split.
  - destruct (promotion_keeps_a_subsequence_of_the_channels Samples.salesConfig
                (salesRequest "PROMOTE_OUTPUT" Js.Undefined report
                   (Some (Js.IsArray [])))
                Samples.sales0 Samples.world0 eq_refl) as (A & _).
    destruct (A [] eq_refl eq_refl)
      as (r & p & E & _ & _ & Hb & _ & _ & _ & _ & F & _).
    exists r, p. split; [exact E|]. split; [exact Hb|exact (F eq_refl)].
  - destruct (promotion_keeps_a_subsequence_of_the_channels Samples.salesConfig
                (salesRequest "PROMOTE_OUTPUT" Js.Undefined report
                   (Some Js.NotArray))
                Samples.sales0 Samples.world0 eq_refl) as (_ & B).
    destruct (B eq_refl) as (e & E & _). exists e. exact E.
Defined.


(** *** CHECK_MARKET_READINESS *)

Lemma checkMarketReadiness_ok output requirements (s : State) w :
  Js.nullish output = false ->
  exists rd w',
    checkMarketReadiness output requirements s w = (Ok rd, s, w')
    /\ oracle w' = oracle w
    /\ (ready rd = true <-> blockers rd = [])
    /\ (ready rd = true <-> met (criteria rd) = 4%nat)
    /\ (List.length (blockers rd) + met (criteria rd) = 4)%nat
    /\ score rd = (Js.ofNat (met (criteria rd)) / 4)%Q
    /\ subseq (blockers rd) allBlockers
    /\ (In "Quality below threshold" (blockers rd)
        <-> qualityThreshold (criteria rd) = false)
    /\ (In "Compliance verification pending" (blockers rd)
        <-> complianceCheck (criteria rd) = false)
    /\ (In "Format validation failed" (blockers rd)
        <-> formatValidation (criteria rd) = false)
    /\ (In "Target audience alignment needed" (blockers rd)
        <-> targetAlignment (criteria rd) = false).
Proof.
  intros H. unfold checkMarketReadiness.
  destruct (assessQuality_ok output None s w H) as (a & w1 & E & O1 & _).
  run E.
  cbv beta iota zeta delta [bind getState random ret]. tidy.
  eexists _, _. split; [reflexivity|]. split; [exact O1|].
  cbn [ready blockers criteria score qualityThreshold complianceCheck formatValidation
       targetAlignment].
  unfold met.
  cbn [qualityThreshold complianceCheck formatValidation targetAlignment].
  set (q := Qle_bool _ _). set (c1 := Js.Qltb (2 # 10) _).
  set (c2 := Js.Qltb (15 # 100) _). set (c3 := Js.Qltb (25 # 100) _).
  unfold allBlockers.
  destruct q, c1, c2, c3; cbn [forallb andb List.filter List.length app Nat.add];
    (split; [split; intros X; first [reflexivity | discriminate X]|]);
    (split; [split; intros X; first [reflexivity | discriminate X]|]);
    (split; [reflexivity|]); (split; [reflexivity|]);
    (split; [repeat first [apply subseq_nil | apply subseq_keep | apply subseq_skip]|]);
    repeat split; intros X; try reflexivity; try discriminate X;
    try (left; reflexivity); try (right; left; reflexivity);
    try (right; right; left; reflexivity); try (right; right; right; left; reflexivity);
    repeat (destruct X as [X|X]; [discriminate X|]); try contradiction.
Qed.

Lemma process_readiness cfg (msg : Request) s w :
  type msg = "CHECK_MARKET_READINESS" ->
  Js.nullish (p_output (payload msg)) = false ->
  exists r rd w',
    process cfg msg s w = (Ok (Some r), s, w')
    /\ type r = "MARKET_READINESS_CHECKED"
    /\ body (payload r) = MarketReadinessChecked rd
    /\ (ready rd = true <-> blockers rd = [])
    /\ (ready rd = true <-> met (criteria rd) = 4%nat)
    /\ (List.length (blockers rd) + met (criteria rd) = 4)%nat
    /\ score rd = (Js.ofNat (met (criteria rd)) / 4)%Q
    /\ subseq (blockers rd) allBlockers
    /\ (In "Quality below threshold" (blockers rd)
        <-> qualityThreshold (criteria rd) = false)
    /\ (In "Compliance verification pending" (blockers rd)
        <-> complianceCheck (criteria rd) = false)
    /\ (In "Format validation failed" (blockers rd)
        <-> formatValidation (criteria rd) = false)
    /\ (In "Target audience alignment needed" (blockers rd)
        <-> targetAlignment (criteria rd) = false).
Proof.
  intros Ht Hn. destruct msg as [mid ty p src dst ts]. cbn [type payload] in *.
  subst ty. unfold process. enter_process.
  unfold some, bind at 1, handleMarketReadinessCheck, bind at 1. cbn [payload].
  match goal with
  | |- context [checkMarketReadiness ?o ?q ?s0 ?w0] =>
      destruct (checkMarketReadiness_ok o q s0 w0 Hn) as (rd & w1 & E & O1 & D)
  end.
  rewrite E. finish_handler.
  eexists _, rd, _. split; [reflexivity|]. split; [reflexivity|].
  split; [reflexivity|]. exact D.
Qed.

(** X14: a CHECK_MARKET_READINESS request whose output is neither undefined
    nor null is answered with MARKET_READINESS_CHECKED and changes no state:
    the assessment it makes is not recorded in the history.  The output is
    ready exactly when there is no blocker, which is when all four criteria
    hold; each criterion that fails contributes its own blocker, in the
    order of the criteria, and the score is the number of criteria that
    hold divided by four. *)
Theorem readiness_is_ready_exactly_without_blockers cfg (msg : Request) s w :
  type msg = "CHECK_MARKET_READINESS" ->
  Js.nullish (p_output (payload msg)) = false ->
  exists r rd,
    outcome (process cfg msg s w) = Ok (Some r)
    /\ finalState (process cfg msg s w) = s
    /\ type r = "MARKET_READINESS_CHECKED"
    /\ body (payload r) = MarketReadinessChecked rd
    /\ (ready rd = true <-> blockers rd = [])
    /\ (ready rd = true <-> met (criteria rd) = 4%nat)
    /\ (List.length (blockers rd) + met (criteria rd) = 4)%nat
    /\ score rd = (Js.ofNat (met (criteria rd)) / 4)%Q
    /\ subseq (blockers rd) allBlockers
    /\ (In "Quality below threshold" (blockers rd)
        <-> qualityThreshold (criteria rd) = false)
    /\ (In "Compliance verification pending" (blockers rd)
        <-> complianceCheck (criteria rd) = false)
    /\ (In "Format validation failed" (blockers rd)
        <-> formatValidation (criteria rd) = false)
    /\ (In "Target audience alignment needed" (blockers rd)
        <-> targetAlignment (criteria rd) = false).
Proof.
  intros Ht Hn.
  destruct (process_readiness cfg msg s w Ht Hn) as (r & rd & w' & E & Ty & Hb & D).
  exists r, rd. rewrite E. cbn [outcome finalState fst snd].
  split; [reflexivity|]. split; [reflexivity|]. split; [exact Ty|]. split; [exact Hb|].
  exact D.
Qed.

Lemma readiness_is_ready_exactly_without_blockers_witness :
  exists r rd,
    outcome (process Samples.salesConfig
               (salesRequest "CHECK_MARKET_READINESS" report Js.Undefined None)
               Samples.sales0 Samples.world0)
    = Ok (Some r)
    /\ body (payload r) = MarketReadinessChecked rd
    /\ (ready rd = true <-> blockers rd = []).
Proof.
  destruct (readiness_is_ready_exactly_without_blockers Samples.salesConfig
              (salesRequest "CHECK_MARKET_READINESS" report Js.Undefined None)
              Samples.sales0 Samples.world0 eq_refl eq_refl)
    as (r & rd & E & _ & _ & Hb & R & _).
  exists r, rd. split; [exact E|]. split; [exact Hb|exact R].
Defined.

(** *** GET_QUALITY_METRICS *)

Lemma process_metrics cfg (msg : Request) s w :
  type msg = "GET_QUALITY_METRICS" ->
  exists r m w',
    process cfg msg s w = (Ok (Some r), s, w')
    /\ type r = "QUALITY_METRICS_RETRIEVED"
    /\ body (payload r) = QualityMetricsRetrieved m
    /\ totalAssessments m = List.length (assessmentHistory s)
    /\ dimensionAverages m
       = calculateDimensionAverages (Js.slice (-100) None (assessmentHistory s))
    /\ trendDirection m = calculateTrend (Js.slice (-100) None (assessmentHistory s))
    /\ averageScore m
       = match Js.slice (-100) None (assessmentHistory s) with
         | [] => 0%Q
         | _ :: _ =>
             (Js.sum (List.map qa_qualityScore
                        (Js.slice (-100) None (assessmentHistory s)))
              / Js.ofNat (List.length (Js.slice (-100) None (assessmentHistory s))))%Q
         end.
Proof.
  intros Ht. destruct msg as [mid ty p src dst ts]. cbn [type] in Ht. subst ty.
  unfold process. enter_process.
  unfold some, bind at 1, handleGetQualityMetrics, bind at 1, getState. tidy.
  finish_handler.
  eexists _, _, _. split; [reflexivity|]. repeat split.
Qed.

(** X15: GET_QUALITY_METRICS changes no state and reports the length of the
    whole history as totalAssessments.  With an empty history the average
    score and the five dimension averages are 0, and with fewer than ten
    assessments the trend is "stable".  The averages and the trend depend on
    the last hundred assessments only: a service whose last hundred
    assessments are the same reports the same ones. *)
Theorem quality_metrics_summarise_the_history cfg (msg : Request) s w :
  type msg = "GET_QUALITY_METRICS" ->
  exists r m,
    outcome (process cfg msg s w) = Ok (Some r)
    /\ finalState (process cfg msg s w) = s
    /\ type r = "QUALITY_METRICS_RETRIEVED"
    /\ body (payload r) = QualityMetricsRetrieved m
    /\ totalAssessments m = List.length (assessmentHistory s)
    /\ (assessmentHistory s = [] ->
        averageScore m = 0%Q /\ dimensionAverages m = mkDimensions 0 0 0 0 0)
    /\ ((List.length (assessmentHistory s) < 10)%nat -> trendDirection m = stable)
    /\ (forall s2 w2,
          Js.slice (-100) None (assessmentHistory s2)
          = Js.slice (-100) None (assessmentHistory s) ->
          exists r2 m2,
            outcome (process cfg msg s2 w2) = Ok (Some r2)
            /\ body (payload r2) = QualityMetricsRetrieved m2
            /\ averageScore m2 = averageScore m
            /\ dimensionAverages m2 = dimensionAverages m
            /\ trendDirection m2 = trendDirection m).
Proof.
  intros Ht.
  destruct (process_metrics cfg msg s w Ht)
    as (r & m & w' & E & Ty & Hb & Tot & Dim & Tr & Av).
  exists r, m. rewrite E. cbn [outcome finalState fst snd].
  split; [reflexivity|]. split; [reflexivity|]. split; [exact Ty|]. split; [exact Hb|].
  split; [exact Tot|].
  split; [intros He; rewrite Av, Dim, He; split; reflexivity|].
  split.
  - intros Hl. rewrite Tr. unfold calculateTrend.
    rewrite (slice_tail_le 100) by lia.
    destruct (Nat.ltb_spec (Nat.min 100 (List.length (assessmentHistory s))) 10);
      [reflexivity|lia].
  - intros s2 w2 Hs.
    destruct (process_metrics cfg msg s2 w2 Ht)
      as (r2 & m2 & w2' & E2 & _ & Hb2 & _ & Dim2 & Tr2 & Av2).
    exists r2, m2. rewrite E2. cbn [outcome fst].
    split; [reflexivity|]. split; [exact Hb2|].
    rewrite Av2, Dim2, Tr2, Av, Dim, Tr, Hs. repeat split.
Qed.

Lemma quality_metrics_summarise_the_history_witness :
  exists r m,
    outcome (process Samples.salesConfig
               (salesRequest "GET_QUALITY_METRICS" Js.Undefined Js.Undefined None)
               Samples.sales0 Samples.world0)
    = Ok (Some r)
    /\ body (payload r) = QualityMetricsRetrieved m
    /\ averageScore m = 0%Q
    /\ trendDirection m = stable.
Proof.
  destruct (quality_metrics_summarise_the_history Samples.salesConfig
              (salesRequest "GET_QUALITY_METRICS" Js.Undefined Js.Undefined None)
              Samples.sales0 Samples.world0 eq_refl)
    as (r & m & E & _ & _ & Hb & _ & Z0 & Tr & _).
  exists r, m. split; [exact E|]. split; [exact Hb|].
  split; [apply (Z0 eq_refl)|apply Tr; cbn; lia].
Defined.

(** *** OPTIMIZE_FOR_MARKET *)

Lemma process_market_optimization cfg (msg : Request) s w :
  type msg = "OPTIMIZE_FOR_MARKET" ->
  Js.nullish (p_output (payload msg)) = false ->
  exists r a w',
    process cfg msg s w = (Ok (Some r), s, w')
    /\ type r = "MARKET_OPTIMIZATION_COMPLETE"
    /\ body (payload r)
       = MarketOptimizationComplete (qa_qualityScore a)
           (generateMarketOptimizations (p_output (payload msg)) a
              (p_targetMarket (payload msg)))
           (Js.ofNat
              (List.length
                 (generateMarketOptimizations (p_output (payload msg)) a
                    (p_targetMarket (payload msg))))
            * (5 # 100))%Q
    /\ (unitDraws (oracle w) -> inRange (qa_dimensions a)).
Proof.
  intros Ht Hn. destruct msg as [mid ty p src dst ts]. cbn [type payload] in *.
  subst ty. unfold process. enter_process.
  unfold some, bind at 1, handleMarketOptimization, bind at 1. cbn [payload].
  match goal with
  | |- context [assessQuality ?o ?c ?s0 ?w0] =>
      destruct (assessQuality_ok o c s0 w0 Hn)
        as (a & w1 & E & O1 & T1 & L1 & _ & _ & D)
  end.
  rewrite E. finish_handler.
  eexists _, a, _. split; [reflexivity|]. split; [reflexivity|].
  split; [reflexivity|]. intros Hu. apply D. exact Hu.
Qed.

Lemma generateMarketOptimizations_shape output a market :
  exists pre,
    generateMarketOptimizations output a market
    = (pre ++ [ "Apply market-appropriate formatting";
                "Optimize delivery timing for target audience" ])%list
    /\ subseq pre
         [ "Restructure for improved market clarity";
           "Align content with " ++ Js.orStr market "target" ++ " market expectations";
           "Add market-specific metadata and tags" ]
    /\ (pre = [] <-> (8 # 10 <= clarity (qa_dimensions a)
                      /\ 8 # 10 <= relevance (qa_dimensions a)
                      /\ 8 # 10 <= completeness (qa_dimensions a))%Q).
Proof.
  unfold generateMarketOptimizations. cbv zeta.
  eexists. rewrite !app_assoc. split; [reflexivity|].
  destruct (below_cases (clarity (qa_dimensions a)) (8 # 10)
              "Restructure for improved market clarity") as [(-> & L)|(-> & L)];
    destruct (below_cases (relevance (qa_dimensions a)) (8 # 10)
                ("Align content with " ++ Js.orStr market "target"
                 ++ " market expectations")) as [(-> & R)|(-> & R)];
    destruct (below_cases (completeness (qa_dimensions a)) (8 # 10)
                "Add market-specific metadata and tags") as [(-> & C)|(-> & C)];
    cbn [app];
    (split; [repeat first [apply subseq_nil | apply subseq_keep | apply subseq_skip]|]);
    (split; [intros X; try discriminate X; repeat split; lra
            |intros (X1 & X2 & X3); try reflexivity; lra]).
Qed.

(** X16: an OPTIMIZE_FOR_MARKET request whose output is neither undefined
    nor null is answered with MARKET_OPTIMIZATION_COMPLETE and changes no
    state.  The optimizations always end with the formatting and the timing
    entries, preceded by those of the clarity, relevance and completeness
    entries whose dimension is below 0.8, in that order; the relevance entry
    names the target market, "target" when none is given; the projected
    improvement is 0.05 per optimization, hence between 0.10 and 0.25. *)
Theorem market_optimizations_end_with_the_fixed_entries cfg (msg : Request) s w :
  type msg = "OPTIMIZE_FOR_MARKET" ->
  Js.nullish (p_output (payload msg)) = false ->
  exists r original opts improvement pre,
    outcome (process cfg msg s w) = Ok (Some r)
    /\ finalState (process cfg msg s w) = s
    /\ type r = "MARKET_OPTIMIZATION_COMPLETE"
    /\ body (payload r) = MarketOptimizationComplete original opts improvement
    /\ opts = (pre ++ [ "Apply market-appropriate formatting";
                        "Optimize delivery timing for target audience" ])%list
    /\ subseq pre
         [ "Restructure for improved market clarity";
           "Align content with " ++ Js.orStr (p_targetMarket (payload msg)) "target"
           ++ " market expectations";
           "Add market-specific metadata and tags" ]
    /\ improvement = (Js.ofNat (List.length opts) * (5 # 100))%Q
    /\ (10 # 100 <= improvement <= 25 # 100)%Q.
Proof.
  intros Ht Hn.
  destruct (process_market_optimization cfg msg s w Ht Hn)
    as (r & a & w' & E & Ty & Hb & _).
  destruct (generateMarketOptimizations_shape (p_output (payload msg)) a
              (p_targetMarket (payload msg))) as (pre & Ep & Hs & _).
  eexists r, _, _, _, pre. rewrite E. cbn [outcome finalState fst snd].
  split; [reflexivity|]. split; [reflexivity|]. split; [exact Ty|].
  split; [exact Hb|]. split; [exact Ep|]. split; [exact Hs|]. split; [reflexivity|].
  rewrite Ep, length_app. cbn [List.length].
  assert (Hl : (List.length pre <= 3)%nat).
  { apply subseq_length in Hs. cbn [List.length] in Hs. exact Hs. }
  unfold Js.ofNat. rewrite Nat2Z.inj_add. cbn [Z.of_nat Pos.of_succ_nat Pos.succ].
  rewrite inject_Z_plus.
  assert (A : (0 <= inject_Z (Z.of_nat (List.length pre)) <= 3)%Q).
  { change 0%Q with (inject_Z 0). change 3%Q with (inject_Z 3).
    rewrite <- !Zle_Qle. lia. }
  change (inject_Z 2) with 2%Q. lra.
Qed.

Lemma market_optimizations_end_with_the_fixed_entries_witness :
  exists r original opts improvement,
    outcome (process Samples.salesConfig
               (salesRequest "OPTIMIZE_FOR_MARKET" report Js.Undefined None)
               Samples.sales0 Samples.world0)
    = Ok (Some r)
    /\ body (payload r) = MarketOptimizationComplete original opts improvement
    /\ (10 # 100 <= improvement <= 25 # 100)%Q.
Proof.
  destruct (market_optimizations_end_with_the_fixed_entries Samples.salesConfig
              (salesRequest "OPTIMIZE_FOR_MARKET" report Js.Undefined None)
              Samples.sales0 Samples.world0 eq_refl eq_refl)
    as (r & o & opts & imp & pre & E & _ & _ & Hb & _ & _ & _ & B).
  exists r, o, opts, imp. split; [exact E|]. split; [exact Hb|exact B].
Defined.


(** *** Rejections and what a request can change *)

Ltac not_missing Ht :=
  let X := fresh in
  intros [[X ?]|[X ?]]; try congruence; rewrite Ht in X; cbn in X;
  repeat (destruct X as [X|X]; [discriminate X|]); try contradiction;
  try discriminate X.

Lemma process_outcomes cfg (msg : Request) s w :
  (unusableInput msg /\ exists e w', process cfg msg s w = (Throw e, s, w'))
  \/ (~ unusableInput msg /\ type msg <> "ASSESS_QUALITY"
      /\ exists r w', process cfg msg s w = (Ok r, s, w'))
  \/ (~ unusableInput msg /\ type msg = "ASSESS_QUALITY"
      /\ exists r a w',
           process cfg msg s w
           = (Ok (Some r),
              mkState (qualityThresholds s) (promotionChannels s)
                (assessmentHistory s ++ [a]),
              w')).
Proof.
  destruct (in_dec string_dec (type msg) recognized) as [Hin|Hout].
  - cbn in Hin. destruct Hin as [Ht|[Ht|[Ht|[Ht|[Ht|[]]]]]]; symmetry in Ht.
    + destruct (Js.nullish (p_output (payload msg))) eqn:Hn.
      * left. split; [left; split; [rewrite Ht; cbn; auto|exact Hn]|].
        apply process_assessing_nullish; [rewrite Ht; cbn; auto|exact Hn].
      * right. right. split; [not_missing Ht|]. split; [exact Ht|].
        destruct (process_assess cfg msg s w Ht Hn) as (r & a & w' & E & _).
        exists r, a, w'. exact E.
    + destruct (Js.nullish (p_content (payload msg))) eqn:Hn;
        [left; split; [right; split; [exact Ht|left; exact Hn]|];
         apply process_promote_raises; [exact Ht|left; exact Hn]|].
      destruct (Js.orArray (p_targetChannels (payload msg)) (promotionChannels s))
        as [channels|] eqn:Hc.
      * right. left. split.
        { intros [[X _]|[_ [X|X]]].
          - rewrite Ht in X. cbn in X.
            repeat (destruct X as [X|X]; [discriminate X|]). contradiction.
          - congruence.
          - rewrite X in Hc. discriminate Hc. }
        split; [rewrite Ht; discriminate|].
        destruct (process_promote cfg msg channels s w Ht Hn Hc)
          as (r & p & w' & E & _).
        exists (Some r), w'. exact E.
      * assert (Hx : p_targetChannels (payload msg) = Some Js.NotArray).
        { destruct (p_targetChannels (payload msg)) as [[l|]|];
            [discriminate Hc|reflexivity|discriminate Hc]. }
        left. split; [right; split; [exact Ht|right; exact Hx]|].
        apply process_promote_raises; [exact Ht|right; exact Hx].
    + destruct (Js.nullish (p_output (payload msg))) eqn:Hn.
      * left. split; [left; split; [rewrite Ht; cbn; auto|exact Hn]|].
        apply process_assessing_nullish; [rewrite Ht; cbn; auto|exact Hn].
      * right. left. split; [not_missing Ht|].
        split; [rewrite Ht; discriminate|].
        destruct (process_readiness cfg msg s w Ht Hn) as (r & rd & w' & E & _).
        exists (Some r), w'. exact E.
    + right. left. split; [not_missing Ht|].
      split; [rewrite Ht; discriminate|].
      destruct (process_metrics cfg msg s w Ht) as (r & m & w' & E & _).
      exists (Some r), w'. exact E.
    + destruct (Js.nullish (p_output (payload msg))) eqn:Hn.
      * left. split; [left; split; [rewrite Ht; cbn; auto|exact Hn]|].
        apply process_assessing_nullish; [rewrite Ht; cbn; auto|exact Hn].
      * right. left. split; [not_missing Ht|].
        split; [rewrite Ht; discriminate|].
        destruct (process_market_optimization cfg msg s w Ht Hn)
          as (r & a & w' & E & _).
        exists (Some r), w'. exact E.
  - right. left.
    split; [|split].
    + intros [[X _]|[X _]]; apply Hout.
      * unfold assessing in X. cbn in X |- *. tauto.
      * rewrite X. cbn. tauto.
    + intros X. apply Hout. rewrite X. cbn. tauto.
    + eexists _, _. apply sales_unknown. exact Hout.
Qed.

(** X17: the Sales service rejects exactly the requests with an unusable
    input: [process] raises if and only if the type is ASSESS_QUALITY,
    CHECK_MARKET_READINESS or OPTIMIZE_FOR_MARKET and the payload's output
    is undefined or null, or the type is PROMOTE_OUTPUT and the payload's
    content is undefined or null or its target channels are a truthy value
    other than an array; a rejected request leaves the state as it was. *)
Theorem sales_rejects_exactly_the_unusable_inputs cfg (msg : Request) s w :
  ((exists e, outcome (process cfg msg s w) = Throw e) <-> unusableInput msg)
  /\ (forall e, outcome (process cfg msg s w) = Throw e ->
      finalState (process cfg msg s w) = s).
Proof.
  destruct (process_outcomes cfg msg s w)
    as [(M & e & w' & E)|[(M & _ & r & w' & E)|(M & _ & r & a & w' & E)]];
    rewrite E; cbn [outcome finalState fst snd].
  - split; [split; [intros _; exact M|intros _; exists e; reflexivity]|].
    intros _ _. reflexivity.
  - split; [split; [intros (e & X); discriminate X|intros X; contradiction]|].
    intros e X. discriminate X.
  - split; [split; [intros (e & X); discriminate X|intros X; contradiction]|].
    intros e X. discriminate X.
Qed.

(** X18: no request changes the quality thresholds or the promotion
    channels, and the assessment history is only ever extended, by exactly
    one assessment and only by an ASSESS_QUALITY request: the assessments
    made by CHECK_MARKET_READINESS and OPTIMIZE_FOR_MARKET are not
    recorded. *)
Theorem only_assess_quality_extends_the_history cfg (msg : Request) s w :
  qualityThresholds (finalState (process cfg msg s w)) = qualityThresholds s
  /\ promotionChannels (finalState (process cfg msg s w)) = promotionChannels s
  /\ (assessmentHistory (finalState (process cfg msg s w)) = assessmentHistory s
      \/ (type msg = "ASSESS_QUALITY"
          /\ exists a,
               assessmentHistory (finalState (process cfg msg s w))
               = (assessmentHistory s ++ [a])%list)).
Proof.
  destruct (process_outcomes cfg msg s w)
    as [(M & e & w' & E)|[(M & _ & r & w' & E)|(M & Ht & r & a & w' & E)]];
    rewrite E; cbn [outcome finalState fst snd qualityThresholds promotionChannels
                    assessmentHistory]; auto.
  split; [reflexivity|]. split; [reflexivity|]. right. split; [exact Ht|].
  exists a. reflexivity.
Qed.

End SalesMoreFacts.

(** ** Further properties of the Market service *)

Module MarketMoreFacts.
Import Runtime Spec Facts Market.
Import More MoreFacts MarketMore MoreSamples.

Ltac finish_handler :=
  cbv beta iota zeta delta [bind getState putState reply createMessage now newDate
                            freshId ret];
  tidy.

Lemma process_analyze cfg (msg : Request) segment s w :
  type msg = "ANALYZE_MARKET" ->
  Js.orString (p_segment (payload msg)) "general" = Js.IsString segment ->
  exists r a w',
    process cfg msg s w
    = (Ok (Some r),
       mkState (Js.set (marketSegments s) (ma_marketSegment a) a)
         (externalInterfaces s) (feedbackHistory s) (marketIntelligence s),
       w')
    /\ type r = "MARKET_ANALYZED"
    /\ body (payload r) = MarketAnalyzed a
    /\ ma_marketSegment a = segment
    /\ ma_trends a = identifyTrends (ma_marketSegment a)
    /\ ma_opportunities a = identifyOpportunities (ma_marketSegment a) (ma_trends a)
    /\ ma_threats a = identifyThreats (ma_marketSegment a) (ma_trends a)
    /\ ma_recommendations a
       = generateMarketRecommendations (ma_opportunities a) (ma_threats a)
    /\ ma_id a = "ma-" ++ Js.showZ (clockAt (oracle w) (S (ticks w))).
Proof.
  intros Ht Hs. destruct msg as [mid ty p src dst ts]. cbn [type payload] in *.
  subst ty. unfold process. enter_process.
  unfold some, bind at 1, handleMarketAnalysis, bind at 1, analyzeMarket.
  cbn [payload]. rewrite Hs. cbn [chars]. finish_handler.
  eexists _, (mkAnalysis _ _ _ _ _ _ _), _. split; [reflexivity|].
  repeat split.
Qed.

Lemma process_analyze_raises cfg (msg : Request) s w :
  unsearchable msg ->
  exists e w', process cfg msg s w = (Throw e, s, w').
Proof.
  intros (Ht & Hs). destruct msg as [mid ty p src dst ts]. cbn [type payload] in *.
  subst ty. unfold process. enter_process.
  unfold some, bind at 1, handleMarketAnalysis, bind at 1, analyzeMarket.
  cbn [payload]. rewrite Hs. cbn [Js.orString chars].
  eexists _, _. reflexivity.
Qed.

(** A segment is a string, "general" by default, or has no [includes]. *)
Lemma orString_cases (x : option Js.stringOr) :
  (exists segment, Js.orString x "general" = Js.IsString segment /\ segment <> "")
  \/ x = Some Js.NotString.
Proof.
  destruct x as [[y|]|]; cbn [Js.orString]; [|right; reflexivity|].
  - left. destruct (String.eqb y "") eqn:E.
    + exists "general". split; [reflexivity|discriminate].
    + exists y. split; [reflexivity|]. apply String.eqb_neq. exact E.
  - left. exists "general". split; [reflexivity|discriminate].
Qed.

Lemma process_interface_status cfg (msg : Request) s w :
  type msg = "INTERFACE_STATUS" ->
  exists r l w',
    process cfg msg s w = (Ok (Some r), s, w')
    /\ type r = "INTERFACE_STATUS_RETRIEVED"
    /\ body (payload r)
       = InterfaceStatusRetrieved l (List.length (List.filter isActive l))
           (List.length l)
    /\ l = match Js.truthyStr (p_interfaceId (payload msg)) with
           | Some key =>
               match Js.get (externalInterfaces s) key with
               | Some iface => [iface]
               | None => []
               end
           | None => Js.values (externalInterfaces s)
           end.
Proof.
  intros Ht. destruct msg as [mid ty p src dst ts]. cbn [type payload] in *.
  subst ty. unfold process. enter_process.
  unfold some, bind at 1, handleInterfaceStatus, bind at 1, getState. tidy.
  cbn [payload]. finish_handler.
  eexists _, _, _. split; [reflexivity|]. repeat split.
Qed.

Lemma process_register cfg (msg : Request) s w :
  type msg = "REGISTER_INTERFACE" ->
  exists r i w',
    process cfg msg s w
    = (Ok (Some r),
       mkState (marketSegments s) (Js.set (externalInterfaces s) (if_id i) i)
         (feedbackHistory s) (marketIntelligence s),
       w')
    /\ type r = "INTERFACE_REGISTERED"
    /\ body (payload r) = InterfaceRegistered i
    /\ if_id i = "iface-" ++ Js.showZ (clockAt (oracle w) (S (ticks w)))
    /\ if_interfaceType i = Js.orStr (p_interfaceType (payload msg)) "generic"
    /\ if_status i = active
    /\ if_capabilities i = Js.orArr (p_capabilities (payload msg)) []
    /\ if_metrics i = mkInterfaceMetrics 0 0 1 (clockAt (oracle w) (S (S (ticks w)))).
Proof.
  intros Ht. destruct msg as [mid ty p src dst ts]. cbn [type payload] in *.
  subst ty. unfold process. enter_process.
  unfold some, bind at 1, handleInterfaceRegistration.
  cbn [payload]. finish_handler.
  eexists _, (mkInterface _ _ _ _ _), _. split; [reflexivity|].
  repeat split.
Qed.

Lemma slice_tail_skipn {A : Type} (n : nat) (l : list A) :
  (0 < n <= List.length l)%nat ->
  Js.slice (- Z.of_nat n) None l = skipn (List.length l - n) l.
Proof.
  intros H. unfold Js.slice, Js.relIndex. cbv zeta.
  destruct (- Z.of_nat n <? 0) eqn:E; [|apply Z.ltb_ge in E; lia].
  replace (Z.to_nat (Z.max (Z.of_nat (List.length l) + - Z.of_nat n) 0))
    with (List.length l - n)%nat by lia.
  apply firstn_all2. rewrite length_skipn. lia.
Qed.

Lemma process_feedback cfg (msg : Request) s w :
  type msg = "PROCESS_FEEDBACK" ->
  exists r f w',
    process cfg msg s w
    = (Ok (Some r),
       mkState (marketSegments s) (externalInterfaces s)
         (skipn (if (List.length (feedbackHistory s) <? 1000)%nat then 0
                 else List.length (feedbackHistory s) - 499)%nat
            (feedbackHistory s) ++ [f])%list
         (marketIntelligence s),
       w')
    /\ type r = "FEEDBACK_PROCESSED"
    /\ body (payload r)
       = FeedbackProcessed f
           (if (List.length (feedbackHistory s) <? 1000)%nat
            then S (List.length (feedbackHistory s)) else 500%nat)
    /\ fb_source f = Js.orStr (p_source (payload msg)) "unknown"
    /\ fb_metricType f
       = Js.orStr (match p_metrics (payload msg) with
                   | Some m => fm_type m
                   | None => None
                   end) "general"
    /\ fb_value f = match givenValue (payload msg) with
                    | Some v => v
                    | None => randAt (oracle w) (draws w)
                    end
    /\ fb_trend f
       = (let previous := previousValues (p_source (payload msg)) s in
          if (3 <=? List.length previous)%nat then
            let avg := (Js.sum previous / Js.ofNat (List.length previous))%Q in
            if Js.Qltb (avg * (105 # 100)) (fb_value f) then improving
            else if Js.Qltb (fb_value f) (avg * (95 # 100)) then declining
            else stable
          else stable)
    /\ fb_actionRequired f = match fb_trend f with declining => true | _ => false end
    /\ fb_recommendations f = advice (fb_trend f).
Proof.
  intros Ht. destruct msg as [mid ty p src dst ts]. cbn [type payload] in *.
  subst ty. unfold process. enter_process.
  unfold some, bind at 1, handleFeedbackProcessing, bind at 1, processFeedback,
    bind at 1.
  cbn [payload].
  assert (K : forall f : PerformanceFeedback,
             (if (1000 <? List.length (feedbackHistory s ++ [f]))%nat
              then Js.slice (-500) None (feedbackHistory s ++ [f])
              else feedbackHistory s ++ [f])%list
             = (skipn (if (List.length (feedbackHistory s) <? 1000)%nat then 0
                       else List.length (feedbackHistory s) - 499)%nat
                  (feedbackHistory s) ++ [f])%list
             /\ List.length
                  (if (1000 <? List.length (feedbackHistory s ++ [f]))%nat
                   then Js.slice (-500) None (feedbackHistory s ++ [f])
                   else feedbackHistory s ++ [f])%list
                = (if (List.length (feedbackHistory s) <? 1000)%nat
                   then S (List.length (feedbackHistory s)) else 500%nat)).
  { intros f. rewrite length_app. cbn [List.length]. rewrite Nat.add_1_r.
    destruct (Nat.ltb_spec (List.length (feedbackHistory s)) 1000) as [L|L].
    - destruct (Nat.ltb_spec 1000 (S (List.length (feedbackHistory s)))); [lia|].
      rewrite length_app. cbn. split; [reflexivity|lia].
    - destruct (Nat.ltb_spec 1000 (S (List.length (feedbackHistory s)))); [|lia].
      change (-500) with (- Z.of_nat 500).
      rewrite slice_tail_skipn by (rewrite length_app; cbn; lia).
      rewrite length_app. cbn [List.length].
      replace (List.length (feedbackHistory s) + 1 - 500)%nat
        with (List.length (feedbackHistory s) - 499)%nat by lia.
      rewrite skipn_app.
      replace (List.length (feedbackHistory s) - 499
               - List.length (feedbackHistory s))%nat with 0%nat by lia.
      cbn [skipn]. split; [reflexivity|].
      rewrite length_app, length_skipn. cbn. lia. }
  unfold givenValue, previousValues. cbn [p_metrics p_source].
  destruct (p_metrics p) as [[[v|] mt]|]; cbn [fm_value fm_type];
    cbv beta iota zeta delta [bind getState putState reply createMessage now newDate
                              freshId ret random];
    tidy;
    match goal with
    | |- context [FeedbackProcessed ?f _] =>
        destruct (K f) as (K1 & K2); rewrite K2, K1;
        eexists _, f, _; split; [reflexivity|]
    end;
    repeat split.
Qed.

Lemma process_intelligence cfg (msg : Request) s w :
  type msg = "GET_MARKET_INTELLIGENCE" ->
  exists r i w',
    process cfg msg s w = (Ok (Some r), s, w')
    /\ type r = "MARKET_INTELLIGENCE_RETRIEVED"
    /\ body (payload r) = MarketIntelligenceRetrieved i
    /\ in_domain i = Js.orStr (p_domain (payload msg)) "all"
    /\ in_timeframe i = Js.orStr (p_timeframe (payload msg)) "recent"
    /\ totalMarketSegments (in_summary i) = Js.size (marketSegments s)
    /\ feedbackTrend (in_summary i)
       = calculateOverallTrend (Js.slice (-50) None (feedbackHistory s))
    /\ interfaceHealth (in_summary i) = calculateInterfaceHealth s
    /\ in_actionItems i
       = generateActionItems (Js.slice (-50) None (feedbackHistory s))
           (Js.values (marketSegments s)).
Proof.
  intros Ht. destruct msg as [mid ty p src dst ts]. cbn [type payload] in *.
  subst ty. unfold process. enter_process.
  unfold some, bind at 1, handleGetIntelligence, bind at 1, gatherMarketIntelligence,
    bind at 1, getState.
  tidy. cbn [payload]. finish_handler.
  eexists _, (mkIntelligence _ _ _ _ _), _. split; [reflexivity|].
  cbn [type payload body in_domain in_timeframe in_summary totalMarketSegments
       feedbackTrend interfaceHealth in_actionItems].
  unfold Js.size, Js.values. rewrite length_map. repeat split.
Qed.

Lemma process_potential cfg (msg : Request) s w :
  type msg = "OPTIMIZE_POTENTIAL" ->
  exists r w',
    process cfg msg s w = (Ok (Some r), s, w')
    /\ type r = "POTENTIAL_OPTIMIZED"
    /\ body (payload r)
       = PotentialOptimized
           (optimizeForPotential (p_targetArea (payload msg))
              (p_constraints (payload msg))).
Proof.
  intros Ht. destruct msg as [mid ty p src dst ts]. cbn [type payload] in *.
  subst ty. unfold process. enter_process.
  unfold some, bind at 1, handlePotentialOptimization. cbn [payload]. finish_handler.
  eexists _, _. split; [reflexivity|]. repeat split.
Qed.


(** *** What a request can change *)

Lemma market_recognized_dec t : {In t recognized} + {~ In t recognized}.
Proof. apply in_dec, string_dec. Qed.

(** X19: the Market service raises on one kind of request only, an
    ANALYZE_MARKET whose segment is a truthy value without [includes] (a
    number, [true], an object), and then changes nothing; every other
    request is answered when its type is recognized and dropped with no
    response otherwise.  A request changes at most the store of its own
    type: only ANALYZE_MARKET touches the market segments, only
    REGISTER_INTERFACE the interfaces, only PROCESS_FEEDBACK the feedback
    history, and nothing touches the market intelligence. *)
Theorem market_requests_change_only_their_own_store cfg (msg : Request) s w :
  (unsearchable msg ->
   exists e,
     outcome (process cfg msg s w) = Throw e
     /\ finalState (process cfg msg s w) = s)
  /\ (~ unsearchable msg ->
      exists r,
        outcome (process cfg msg s w) = Ok r
        /\ (r = None <-> ~ In (type msg) recognized))
  /\ marketIntelligence (finalState (process cfg msg s w)) = marketIntelligence s
  /\ (type msg <> "ANALYZE_MARKET" ->
      marketSegments (finalState (process cfg msg s w)) = marketSegments s)
  /\ (type msg <> "REGISTER_INTERFACE" ->
      externalInterfaces (finalState (process cfg msg s w)) = externalInterfaces s)
  /\ (type msg <> "PROCESS_FEEDBACK" ->
      feedbackHistory (finalState (process cfg msg s w)) = feedbackHistory s).
Proof.
  destruct (market_recognized_dec (type msg)) as [Hin|Hout].
  - assert (Hr : forall r : Reply, Some r = None <-> ~ In (type msg) recognized)
      by (intros r; split; [discriminate|contradiction]).
    cbn in Hin. destruct Hin as [Ht|[Ht|[Ht|[Ht|[Ht|[Ht|[]]]]]]]; symmetry in Ht;
      try (split; [intros (X & _); congruence|]).
    + destruct (orString_cases (p_segment (payload msg))) as [(g & Hg & _)|Hn].
      * destruct (process_analyze cfg msg g s w Ht Hg) as (r & a & w' & E & _).
        rewrite E. cbn [outcome finalState fst snd marketIntelligence marketSegments
                        externalInterfaces feedbackHistory].
        split; [intros (_ & X); rewrite X in Hg; discriminate Hg|].
        split; [intros _; exists (Some r); split; [reflexivity|apply Hr]|].
        repeat split; auto. intros X. contradiction.
      * destruct (process_analyze_raises cfg msg s w (conj Ht Hn)) as (e & w' & E).
        rewrite E. cbn [outcome finalState fst snd].
        split; [intros _; exists e; split; reflexivity|].
        split; [intros X; exfalso; apply X; split; assumption|].
        repeat split; auto.
    + destruct (process_interface_status cfg msg s w Ht) as (r & l & w' & E & _).
      rewrite E. cbn [outcome finalState fst snd].
      split; [intros _; exists (Some r); split; [reflexivity|apply Hr]|].
      repeat split; auto.
    + destruct (process_register cfg msg s w Ht) as (r & a & w' & E & _).
      rewrite E. cbn [outcome finalState fst snd marketIntelligence marketSegments
                      externalInterfaces feedbackHistory].
      split; [intros _; exists (Some r); split; [reflexivity|apply Hr]|].
      repeat split; auto. intros X. contradiction.
    + destruct (process_feedback cfg msg s w Ht) as (r & a & w' & E & _).
      rewrite E. cbn [outcome finalState fst snd marketIntelligence marketSegments
                      externalInterfaces feedbackHistory].
      split; [intros _; exists (Some r); split; [reflexivity|apply Hr]|].
      repeat split; auto. intros X. contradiction.
    + destruct (process_intelligence cfg msg s w Ht) as (r & l & w' & E & _).
      rewrite E. cbn [outcome finalState fst snd].
      split; [intros _; exists (Some r); split; [reflexivity|apply Hr]|].
      repeat split; auto.
    + destruct (process_potential cfg msg s w Ht) as (r & w' & E & _).
      rewrite E. cbn [outcome finalState fst snd].
      split; [intros _; exists (Some r); split; [reflexivity|apply Hr]|].
      repeat split; auto.
  - rewrite (market_unknown cfg msg s w Hout). cbn [outcome finalState fst snd].
    split; [intros (X & _); exfalso; apply Hout; rewrite X; cbn; tauto|].
    split; [intros _; exists None; split; [reflexivity|tauto]|]. repeat split; auto.
Qed.

(** *** The invariant of the stores *)

Lemma orStr_nonempty x d : d <> "" -> Js.orStr x d <> "".
Proof.
  intros Hd. unfold Js.orStr. destruct x as [y|]; [|exact Hd].
  destruct (String.eqb y "") eqn:E; [exact Hd|]. apply String.eqb_neq. exact E.
Qed.

Lemma Forall_skipn {A : Type} (P : A -> Prop) n (l : list A) :
  Forall P l -> Forall P (skipn n l).
Proof.
  intros H. apply Forall_forall. intros x Hx. apply in_skipn in Hx.
  revert x Hx. apply Forall_forall. exact H.
Qed.

Lemma construct_wellKept w : wellKept (fst (construct w)).
Proof.
  unfold wellKept, construct.
  cbv beta iota zeta delta [initializeMarketFramework defaultInterface bind newDate now
                            getState putState ret emptyState].
  cbn [fst feedbackHistory externalInterfaces marketSegments List.length].
  split; [lia|]. split; [constructor|]. split; [|constructor].
  repeat (apply Forall_set; [|reflexivity]). constructor.
Qed.

Lemma process_wellKept cfg (msg : Request) s w :
  wellKept s -> wellKept (finalState (process cfg msg s w)).
Proof.
  intros (H1 & H2 & H3 & H4).
  destruct (market_recognized_dec (type msg)) as [Hin|Hout].
  - cbn in Hin. destruct Hin as [Ht|[Ht|[Ht|[Ht|[Ht|[Ht|[]]]]]]]; symmetry in Ht.
    + destruct (orString_cases (p_segment (payload msg))) as [(g & Hg & _)|Hn].
      * destruct (process_analyze cfg msg g s w Ht Hg)
          as (r & a & w' & E & _ & _ & _ & _ & _ & T & _).
        rewrite E. unfold wellKept.
        cbn [finalState fst snd marketSegments externalInterfaces feedbackHistory].
        repeat split; auto. apply Forall_set; [exact H4|]. cbn [fst snd].
        split; [reflexivity|rewrite T; reflexivity].
      * destruct (process_analyze_raises cfg msg s w (conj Ht Hn)) as (e & w' & E).
        rewrite E. repeat split; auto.
    + destruct (process_interface_status cfg msg s w Ht) as (r & l & w' & E & _).
      rewrite E. repeat split; auto.
    + destruct (process_register cfg msg s w Ht)
        as (r & i & w' & E & _ & _ & _ & _ & A & _).
      rewrite E. unfold wellKept.
      cbn [finalState fst snd marketSegments externalInterfaces feedbackHistory].
      repeat split; auto. apply Forall_set; [exact H3|exact A].
    + destruct (process_feedback cfg msg s w Ht)
        as (r & f & w' & E & _ & _ & Src & _).
      rewrite E. unfold wellKept.
      cbn [finalState fst snd marketSegments externalInterfaces feedbackHistory].
      split; [|split; [|split; assumption]].
      * rewrite length_app, length_skipn. cbn [List.length].
        destruct (Nat.ltb_spec (List.length (feedbackHistory s)) 1000); lia.
      * apply Forall_app. split; [apply Forall_skipn; exact H2|].
        constructor; [|constructor]. rewrite Src. apply orStr_nonempty. discriminate.
    + destruct (process_intelligence cfg msg s w Ht) as (r & l & w' & E & _).
      rewrite E. repeat split; auto.
    + destruct (process_potential cfg msg s w Ht) as (r & w' & E & _).
      rewrite E. repeat split; auto.
  - rewrite (market_unknown cfg msg s w Hout). repeat split; auto.
Qed.

Lemma reachable_wellKept s : reachable s -> wellKept s.
Proof.
  induction 1 as [w|cfg m s w Hs IH].
  - apply construct_wellKept.
  - apply process_wellKept. exact IH.
Qed.

(** X20: between two calls the feedback history holds at most 1,000
    records, each naming a non-empty source; every registered interface is
    active, as nothing ever deactivates one; and every stored analysis is
    kept under the segment it names and lists four threats. *)
Theorem market_stores_are_well_kept s :
  reachable s ->
  (List.length (feedbackHistory s) <= 1000)%nat
  /\ Forall (fun f => fb_source f <> "") (feedbackHistory s)
  /\ Forall (fun i => if_status i = active) (Js.values (externalInterfaces s))
  /\ (forall k a, Js.get (marketSegments s) k = Some a ->
      ma_marketSegment a = k /\ List.length (ma_threats a) = 4%nat).
Proof.
  intros Hr. destruct (reachable_wellKept s Hr) as (H1 & H2 & H3 & H4).
  split; [exact H1|]. split; [exact H2|].
  split; [unfold Js.values; apply Forall_map; exact H3|].
  intros k a G. apply get_In in G. rewrite Forall_forall in H4. apply (H4 (k, a) G).
Qed.

Lemma market_stores_are_well_kept_witness :
  (List.length
     (feedbackHistory
        (finalState (process Samples.marketConfig Samples.feedback Samples.market0
                       Samples.marketWorld)))
   <= 1000)%nat.
Proof.
  apply market_stores_are_well_kept.
  apply reach_process. apply (reach_construct Samples.world0).
Defined.


(** *** PROCESS_FEEDBACK *)

Lemma filter_no_source (l : list PerformanceFeedback) :
  List.filter (fromSource None) l = [].
Proof. induction l as [|f l IH]; [reflexivity|exact IH]. Qed.

(** X21: a PROCESS_FEEDBACK request appends its record to the history and,
    once the history held 1,000 records, keeps only the newest 499 of them
    before it; the reported size is the new length.  The record's value is
    the number given, a given 0 included, and a random draw when none is
    given; its source and metric type default to "unknown" and "general".
    With fewer than three earlier records of the same source among the last
    ten, in particular when no source is given, the trend is "stable".
    Action is required exactly when the trend is "declining", and the
    recommendations are those of the trend. *)
Theorem feedback_is_appended_and_rated_against_its_source cfg (msg : Request) s w :
  type msg = "PROCESS_FEEDBACK" ->
  exists r f,
    outcome (process cfg msg s w) = Ok (Some r)
    /\ type r = "FEEDBACK_PROCESSED"
    /\ body (payload r)
       = FeedbackProcessed f
           (List.length (feedbackHistory (finalState (process cfg msg s w))))
    /\ feedbackHistory (finalState (process cfg msg s w))
       = (skipn (if (List.length (feedbackHistory s) <? 1000)%nat then 0
                 else List.length (feedbackHistory s) - 499)%nat
            (feedbackHistory s) ++ [f])%list
    /\ fb_source f = Js.orStr (p_source (payload msg)) "unknown"
    /\ fb_metricType f
       = Js.orStr (match p_metrics (payload msg) with
                   | Some m => fm_type m
                   | None => None
                   end) "general"
    /\ fb_value f = match givenValue (payload msg) with
                    | Some v => v
                    | None => randAt (oracle w) (draws w)
                    end
    /\ ((List.length (previousValues (p_source (payload msg)) s) < 3)%nat ->
        fb_trend f = stable)
    /\ (p_source (payload msg) = None -> fb_trend f = stable)
    /\ (fb_actionRequired f = true <-> fb_trend f = declining)
    /\ fb_recommendations f = advice (fb_trend f).
Proof.
  intros Ht.
  destruct (process_feedback cfg msg s w Ht)
    as (r & f & w' & E & Ty & Hb & Src & Mt & Val & Tr & Act & Rec).
  exists r, f. rewrite E. cbn [outcome finalState fst snd feedbackHistory].
  split; [reflexivity|]. split; [exact Ty|].
  split.
  { rewrite Hb. f_equal. rewrite length_app, length_skipn. cbn [List.length].
    destruct (Nat.ltb_spec (List.length (feedbackHistory s)) 1000); lia. }
  split; [reflexivity|]. split; [exact Src|]. split; [exact Mt|]. split; [exact Val|].
  cbv zeta in Tr.
  split.
  { intros Hl. rewrite Tr.
    destruct (Nat.leb_spec 3 (List.length (previousValues (p_source (payload msg)) s)));
      [lia|reflexivity]. }
  split.
  { intros Hn. rewrite Tr. unfold previousValues. rewrite Hn.
    rewrite filter_no_source. reflexivity. }
  split; [|exact Rec].
  rewrite Act. destruct (fb_trend f); split; intros X; congruence.
Qed.

Lemma feedback_is_appended_and_rated_against_its_source_witness :
  exists r f,
    outcome (process Samples.marketConfig Samples.feedback Samples.market0
               Samples.marketWorld)
    = Ok (Some r)
    /\ body (payload r) = FeedbackProcessed f 1
    /\ fb_value f = (1 # 2)%Q
    /\ fb_source f = "probe".
Proof.
  destruct (feedback_is_appended_and_rated_against_its_source Samples.marketConfig
              Samples.feedback Samples.market0 Samples.marketWorld eq_refl)
    as (r & f & E & _ & Hb & Hh & Src & _ & Val & _).
  exists r, f. split; [exact E|]. split; [|split; [exact Val|exact Src]].
  rewrite Hb, Hh. reflexivity.
Defined.

(** *** ANALYZE_MARKET *)

Lemma identifyTrends_cases segment :
  (Js.includes segment "cognitive" || Js.includes segment "ai" = true
   /\ List.length (identifyTrends segment) = 5%nat
   /\ List.length (identifyOpportunities segment (identifyTrends segment)) = 6%nat
   /\ In "Capitalize on Neuromorphic computing adoption within 18-36 months"
        (identifyOpportunities segment (identifyTrends segment)))
  \/ (Js.includes segment "cognitive" || Js.includes segment "ai" = false
      /\ List.length (identifyTrends segment) = 4%nat
      /\ List.length (identifyOpportunities segment (identifyTrends segment)) = 5%nat
      /\ ~ In "Capitalize on Neuromorphic computing adoption within 18-36 months"
             (identifyOpportunities segment (identifyTrends segment))).
Proof.
  unfold identifyTrends. cbv zeta.
  destruct (Js.includes segment "cognitive" || Js.includes segment "ai")%bool;
    [left|right]; (split; [reflexivity|]); (split; [reflexivity|]);
    (split; [reflexivity|]).
  - cbn. auto.
  - cbn. intros X. repeat (destruct X as [X|X]; [discriminate X|]). exact X.
Qed.

(** X22: an ANALYZE_MARKET request whose segment is absent or a string
    stores its analysis under the segment it names, "general" when none or
    the empty one is given, replacing an earlier analysis of that segment,
    so the store grows only for a new segment.  The analysis lists four
    trends, and a fifth, neuromorphic one exactly when the segment's name
    includes "cognitive" or "ai"; one more opportunity than trends, the
    neuromorphic one among them in that case only; four threats and five
    recommendations.  A segment that is a truthy value without [includes]
    (a number, [true], an object) makes the request fail with the error
    before anything is stored. *)
Theorem analysis_is_stored_under_its_segment cfg (msg : Request) s w :
  type msg = "ANALYZE_MARKET" ->
  (p_segment (payload msg) <> Some Js.NotString ->
   exists r a segment,
     Js.orString (p_segment (payload msg)) "general" = Js.IsString segment
     /\ outcome (process cfg msg s w) = Ok (Some r)
     /\ type r = "MARKET_ANALYZED"
     /\ body (payload r) = MarketAnalyzed a
     /\ ma_marketSegment a = segment
     /\ marketSegments (finalState (process cfg msg s w))
        = Js.set (marketSegments s) segment a
     /\ Js.get (marketSegments (finalState (process cfg msg s w))) segment = Some a
     /\ Js.size (marketSegments (finalState (process cfg msg s w)))
        = (if Js.has (marketSegments s) segment
           then Js.size (marketSegments s) else S (Js.size (marketSegments s)))
     /\ List.length (ma_trends a)
        = (if (Js.includes segment "cognitive" || Js.includes segment "ai")%bool
           then 5 else 4)%nat
     /\ List.length (ma_opportunities a) = S (List.length (ma_trends a))
     /\ (In "Capitalize on Neuromorphic computing adoption within 18-36 months"
           (ma_opportunities a)
         <-> (Js.includes segment "cognitive" || Js.includes segment "ai")%bool = true)
     /\ List.length (ma_threats a) = 4%nat
     /\ List.length (ma_recommendations a) = 5%nat)
  /\ (p_segment (payload msg) = Some Js.NotString ->
      exists e,
        outcome (process cfg msg s w) = Throw e
        /\ finalState (process cfg msg s w) = s).
Proof.
  intros Ht. split.
  - intros Hs.
    destruct (orString_cases (p_segment (payload msg))) as [(g & Hg & _)|Hn];
      [|contradiction].
    destruct (process_analyze cfg msg g s w Ht Hg)
      as (r & a & w' & E & Ty & Hb & Seg & Tr & Op & Th & Rc & _).
    exists r, a, g. rewrite E. cbn [outcome finalState fst snd marketSegments].
    split; [exact Hg|].
    split; [reflexivity|]. split; [exact Ty|]. split; [exact Hb|]. split; [exact Seg|].
    rewrite Op, Tr, Th, Rc, Seg.
    split; [reflexivity|]. split; [apply get_set_same|]. split; [apply size_set|].
    destruct (identifyTrends_cases g)
      as [(C & L1 & L2 & I)|(C & L1 & L2 & I)]; rewrite C, L1, L2;
      repeat split; auto; intros X; try discriminate X; contradiction.
  - intros Hn.
    destruct (process_analyze_raises cfg msg s w (conj Ht Hn)) as (e & w' & E).
    exists e. rewrite E. split; reflexivity.
Qed.

Lemma analysis_is_stored_under_its_segment_witness :
  (exists r a,
     outcome (process Samples.marketConfig analyzeCognitive Samples.market0
                Samples.marketWorld)
     = Ok (Some r)
     /\ body (payload r) = MarketAnalyzed a
     /\ ma_marketSegment a = "cognitive-services"
     /\ List.length (ma_threats a) = 4%nat)
  /\ (exists e,
        outcome (process Samples.marketConfig analyzeFive Samples.market0
                   Samples.marketWorld)
        = Throw e).
Proof.
  split.
  - destruct (analysis_is_stored_under_its_segment Samples.marketConfig
                analyzeCognitive Samples.market0 Samples.marketWorld eq_refl)
      as (A & _).
    destruct A as (r & a & g & G & E & _ & Hb & Seg & _ & _ & _ & _ & _ & _ & Th & _);
      [discriminate|].
    exists r, a. split; [exact E|]. split; [exact Hb|]. split; [|exact Th].
    rewrite Seg. cbn in G. congruence.
  - destruct (analysis_is_stored_under_its_segment Samples.marketConfig analyzeFive
                Samples.market0 Samples.marketWorld eq_refl)
      as (_ & B).
    destruct (B eq_refl) as (e & E & _). exists e. exact E.
Defined.

(** *** REGISTER_INTERFACE and INTERFACE_STATUS *)

Lemma filter_all_active (l : list (string * ExternalInterface)) :
  Forall (fun kv => if_status (snd kv) = active) l ->
  List.filter isActive (Js.values l) = Js.values l.
Proof.
  unfold Js.values. induction 1 as [|[k i] r Hx Hr IH]; cbn; [reflexivity|].
  cbn in Hx. unfold isActive at 1. rewrite Hx, IH. reflexivity.
Qed.

(** X23: a REGISTER_INTERFACE request stores an active interface under the
    id "iface-<clock reading>", with the given type and capabilities or the
    defaults "generic" and none, no request handled and a success rate of 1;
    an INTERFACE_STATUS request that then names this id is answered with
    exactly this interface, one active out of one. *)
Theorem registered_interface_is_reported cfg cfg' (msg query : Request) s w w2 :
  type msg = "REGISTER_INTERFACE" ->
  type query = "INTERFACE_STATUS" ->
  exists r i,
    outcome (process cfg msg s w) = Ok (Some r)
    /\ type r = "INTERFACE_REGISTERED"
    /\ body (payload r) = InterfaceRegistered i
    /\ if_id i = "iface-" ++ Js.showZ (clockAt (oracle w) (S (ticks w)))
    /\ if_interfaceType i = Js.orStr (p_interfaceType (payload msg)) "generic"
    /\ if_status i = active
    /\ if_capabilities i = Js.orArr (p_capabilities (payload msg)) []
    /\ requestsHandled (if_metrics i) = 0
    /\ successRate (if_metrics i) = 1%Q
    /\ externalInterfaces (finalState (process cfg msg s w))
       = Js.set (externalInterfaces s) (if_id i) i
    /\ (p_interfaceId (payload query) = Some (if_id i) ->
        exists r2,
          outcome (process cfg' query (finalState (process cfg msg s w)) w2)
          = Ok (Some r2)
          /\ body (payload r2) = InterfaceStatusRetrieved [i] 1 1).
Proof.
  intros Ht Hq.
  destruct (process_register cfg msg s w Ht)
    as (r & i & w' & E & Ty & Hb & Id & Ity & St & Cap & Met).
  exists r, i. rewrite E. cbn [outcome finalState fst snd externalInterfaces].
  split; [reflexivity|]. split; [exact Ty|]. split; [exact Hb|]. split; [exact Id|].
  split; [exact Ity|]. split; [exact St|]. split; [exact Cap|].
  split; [rewrite Met; reflexivity|]. split; [rewrite Met; reflexivity|].
  split; [reflexivity|].
  intros Hid.
  destruct (process_interface_status cfg' query
              (mkState (marketSegments s) (Js.set (externalInterfaces s) (if_id i) i)
                 (feedbackHistory s) (marketIntelligence s)) w2 Hq)
    as (r2 & l & w3 & E2 & _ & Hb2 & Hl).
  exists r2. rewrite E2. cbn [outcome fst]. split; [reflexivity|].
  rewrite Hb2, Hl, Hid. cbn [externalInterfaces].
  assert (T : Js.truthyStr (Some (if_id i)) = Some (if_id i))
    by (rewrite Id; reflexivity).
  rewrite T, get_set_same. cbn [List.filter List.length]. unfold isActive.
  rewrite St. reflexivity.
Qed.

Lemma registered_interface_is_reported_witness :
  exists r i,
    outcome (process Samples.marketConfig
               (marketRequest "REGISTER_INTERFACE" emptyPayload) Samples.market0
               Samples.marketWorld)
    = Ok (Some r)
    /\ body (payload r) = InterfaceRegistered i
    /\ if_interfaceType i = "generic"
    /\ if_status i = active.
Proof.
  destruct (registered_interface_is_reported Samples.marketConfig Samples.marketConfig
              (marketRequest "REGISTER_INTERFACE" emptyPayload) (interfaceStatus "x")
              Samples.market0 Samples.marketWorld Samples.marketWorld eq_refl eq_refl)
    as (r & i & E & _ & Hb & _ & Ity & St & _).
  exists r, i. split; [exact E|]. split; [exact Hb|]. split; [exact Ity|exact St].
Defined.

(** X24: an INTERFACE_STATUS request changes no state.  With a non-empty id
    it reports the interface stored under it alone, or none when the id is
    not a key; without one it reports every interface in registration
    order.  Between two calls every interface it reports is active, so the
    two totals agree. *)
Theorem interface_status_reports_active_interfaces cfg (msg : Request) s w :
  type msg = "INTERFACE_STATUS" ->
  reachable s ->
  exists r l,
    outcome (process cfg msg s w) = Ok (Some r)
    /\ finalState (process cfg msg s w) = s
    /\ type r = "INTERFACE_STATUS_RETRIEVED"
    /\ body (payload r) = InterfaceStatusRetrieved l (List.length l) (List.length l)
    /\ (forall k, Js.truthyStr (p_interfaceId (payload msg)) = Some k ->
        l = match Js.get (externalInterfaces s) k with
            | Some i => [i]
            | None => []
            end)
    /\ (Js.truthyStr (p_interfaceId (payload msg)) = None ->
        l = Js.values (externalInterfaces s))
    /\ Forall (fun i => if_status i = active) l.
Proof.
  intros Ht Hr.
  destruct (reachable_wellKept s Hr) as (_ & _ & Ha & _).
  destruct (process_interface_status cfg msg s w Ht) as (r & l & w' & E & Ty & Hb & Hl).
  assert (Hall : Forall (fun i => if_status i = active) l).
  { rewrite Hl. destruct (Js.truthyStr (p_interfaceId (payload msg))) as [k|].
    - destruct (Js.get (externalInterfaces s) k) as [i|] eqn:G; [|constructor].
      constructor; [|constructor]. apply get_In in G.
      rewrite Forall_forall in Ha. apply (Ha (k, i) G).
    - unfold Js.values. apply Forall_map. exact Ha. }
  exists r, l. rewrite E. cbn [outcome finalState fst snd].
  split; [reflexivity|]. split; [reflexivity|]. split; [exact Ty|].
  split.
  { rewrite Hb. f_equal.
    clear - Hall. induction Hall as [|i r Hi Hr IH]; [reflexivity|].
    cbn [List.filter]. unfold isActive at 1. rewrite Hi. cbn [List.length].
    rewrite IH. reflexivity. }
  split; [intros k Hk; rewrite Hl, Hk; reflexivity|].
  split; [intros Hk; rewrite Hl, Hk; reflexivity|exact Hall].
Qed.

Lemma interface_status_reports_active_interfaces_witness :
  exists r l,
    outcome (process Samples.marketConfig (interfaceStatus "default-iface-1")
               Samples.market0 Samples.marketWorld)
    = Ok (Some r)
    /\ body (payload r) = InterfaceStatusRetrieved l (List.length l) (List.length l)
    /\ Forall (fun i => if_status i = active) l.
Proof.
  destruct (interface_status_reports_active_interfaces Samples.marketConfig
              (interfaceStatus "default-iface-1") Samples.market0 Samples.marketWorld
              eq_refl (reach_construct Samples.world0))
    as (r & l & E & _ & _ & Hb & _ & _ & A).
  exists r, l. split; [exact E|]. split; [exact Hb|exact A].
Defined.


(** *** GET_MARKET_INTELLIGENCE *)

Lemma calculateOverallTrend_insufficient l :
  calculateOverallTrend l = "insufficient data" <-> l = [].
Proof.
  unfold calculateOverallTrend. destruct l as [|f l]; [tauto|].
  split; [|discriminate]. cbv zeta.
  repeat match goal with |- context [if ?c then _ else _] => destruct c end;
    discriminate.
Qed.

Lemma calculateInterfaceHealth_all_active s :
  Forall (fun kv => if_status (snd kv) = active) (externalInterfaces s) ->
  (calculateInterfaceHealth s == 1)%Q.
Proof.
  intros H. unfold calculateInterfaceHealth. cbv zeta.
  rewrite (filter_all_active _ H).
  destruct (Js.values (externalInterfaces s)) as [|i l] eqn:E; [reflexivity|].
  unfold Qdiv. apply Qmult_inv_r.
  assert (P : (0 < Js.ofNat (List.length (i :: l)))%Q) by (apply ofNat_pos; cbn; lia).
  intros Z0. rewrite Z0 in P. discriminate P.
Qed.

Lemma generateActionItems_threats feedback analyses a :
  In a analyses -> List.length (ma_threats a) = 4%nat ->
  In ("Address threats in " ++ ma_marketSegment a ++ " segment")
    (generateActionItems feedback analyses).
Proof.
  intros Ha Hl. unfold generateActionItems. cbv zeta.
  set (items := (_ ++ _)%list).
  assert (Hi : In ("Address threats in " ++ ma_marketSegment a ++ " segment") items).
  { unfold items. apply in_or_app. right.
    apply (in_map (fun a => "Address threats in " ++ ma_marketSegment a ++ " segment")).
    apply filter_In. split; [exact Ha|]. rewrite Hl. reflexivity. }
  destruct items; [contradiction|exact Hi].
Qed.

Lemma generateActionItems_monitoring feedback analyses :
  In "Continue monitoring - no immediate actions required"
    (generateActionItems feedback analyses) ->
  generateActionItems feedback analyses
  = ["Continue monitoring - no immediate actions required"].
Proof.
  unfold generateActionItems. cbv zeta.
  set (items := (_ ++ _)%list).
  assert (Hn : ~ In "Continue monitoring - no immediate actions required" items).
  { unfold items. intros X. apply in_app_or in X. destruct X as [X|X].
    - destruct (Js.Qltb _ _); cbn in X; [destruct X as [X|X]; [discriminate X|]|];
        contradiction.
    - apply in_map_iff in X. destruct X as (a & X & _). discriminate X. }
  destruct items as [|x r] eqn:E; [reflexivity|]. intros X. contradiction.
Qed.

(** X25: a GET_MARKET_INTELLIGENCE request changes no state; its domain and
    timeframe default to "all" and "recent"; it counts the stored segments;
    between two calls the interface health is 1, the feedback trend is
    "insufficient data" exactly when no feedback is recorded, and the action
    items name every stored segment, since each analysis lists four
    threats, so that "Continue monitoring" is reported only alone. *)
Theorem intelligence_reflects_the_stores cfg (msg : Request) s w :
  type msg = "GET_MARKET_INTELLIGENCE" ->
  reachable s ->
  exists r i,
    outcome (process cfg msg s w) = Ok (Some r)
    /\ finalState (process cfg msg s w) = s
    /\ type r = "MARKET_INTELLIGENCE_RETRIEVED"
    /\ body (payload r) = MarketIntelligenceRetrieved i
    /\ in_domain i = Js.orStr (p_domain (payload msg)) "all"
    /\ in_timeframe i = Js.orStr (p_timeframe (payload msg)) "recent"
    /\ totalMarketSegments (in_summary i) = Js.size (marketSegments s)
    /\ (interfaceHealth (in_summary i) == 1)%Q
    /\ (feedbackTrend (in_summary i) = "insufficient data" <-> feedbackHistory s = [])
    /\ (forall k a, Js.get (marketSegments s) k = Some a ->
        In ("Address threats in " ++ k ++ " segment") (in_actionItems i))
    /\ (In "Continue monitoring - no immediate actions required" (in_actionItems i) ->
        in_actionItems i = ["Continue monitoring - no immediate actions required"]
        /\ marketSegments s = []).
Proof.
  intros Ht Hr.
  destruct (reachable_wellKept s Hr) as (_ & _ & Ha & Hs).
  destruct (process_intelligence cfg msg s w Ht)
    as (r & i & w' & E & Ty & Hb & Dom & Tf & Tot & Ft & Ih & Ai).
  assert (Hk : forall k a, Js.get (marketSegments s) k = Some a ->
                In ("Address threats in " ++ k ++ " segment") (in_actionItems i)).
  { intros k a G. apply get_In in G. rewrite Ai.
    rewrite Forall_forall in Hs. destruct (Hs (k, a) G) as (Hseg & Hth).
    cbn [fst snd] in Hseg, Hth. rewrite <- Hseg.
    apply generateActionItems_threats; [|exact Hth].
    unfold Js.values. apply (in_map snd _ (k, a)). exact G. }
  exists r, i. rewrite E. cbn [outcome finalState fst snd].
  split; [reflexivity|]. split; [reflexivity|]. split; [exact Ty|]. split; [exact Hb|].
  split; [exact Dom|]. split; [exact Tf|]. split; [exact Tot|].
  split; [rewrite Ih; apply calculateInterfaceHealth_all_active; exact Ha|].
  split.
  { rewrite Ft, calculateOverallTrend_insufficient. split.
    - intros X. pose proof (slice_tail_le 50 (feedbackHistory s) ltac:(lia)) as L.
      change (- Z.of_nat 50) with (-50) in L. rewrite X in L.
      destruct (feedbackHistory s); [reflexivity|cbn in L; lia].
    - intros ->. reflexivity. }
  split; [exact Hk|].
  intros Hc. rewrite Ai in Hc |- *.
  pose proof (generateActionItems_monitoring _ _ Hc) as Hm. split; [exact Hm|].
  destruct (marketSegments s) as [|[k a] rest] eqn:Em; [reflexivity|].
  exfalso. specialize (Hk k a). rewrite Ai, Hm in Hk.
  assert (G : Js.get ((k, a) :: rest) k = Some a)
    by (unfold Js.get; cbn; rewrite String.eqb_refl; reflexivity).
  destruct (Hk G) as [X|[]]. discriminate X.
Qed.

Lemma intelligence_reflects_the_stores_witness :
  exists r i,
    outcome (process Samples.marketConfig
               (marketRequest "GET_MARKET_INTELLIGENCE" emptyPayload) Samples.market0
               Samples.marketWorld)
    = Ok (Some r)
    /\ body (payload r) = MarketIntelligenceRetrieved i
    /\ in_domain i = "all"
    /\ (interfaceHealth (in_summary i) == 1)%Q.
Proof.
  destruct (intelligence_reflects_the_stores Samples.marketConfig
              (marketRequest "GET_MARKET_INTELLIGENCE" emptyPayload) Samples.market0
              Samples.marketWorld eq_refl (reach_construct Samples.world0))
    as (r & i & E & _ & _ & Hb & D & _ & _ & H & _).
  exists r, i. split; [exact E|]. split; [exact Hb|]. split; [exact D|exact H].
Defined.

(** *** The constructor *)

(** X26: whatever the clock reads, the constructor registers the three
    default interfaces "default-iface-0", "-1" and "-2", of types "api",
    "webhook" and "batch" with their capabilities, all active, records the
    "baseline" intelligence entry, and leaves the segments and the feedback
    history empty. *)
Theorem market_constructor_seeds_three_interfaces w :
  List.map fst (externalInterfaces (fst (construct w)))
  = ["default-iface-0"; "default-iface-1"; "default-iface-2"]
  /\ List.map if_id (Js.values (externalInterfaces (fst (construct w))))
     = ["default-iface-0"; "default-iface-1"; "default-iface-2"]
  /\ List.map if_interfaceType (Js.values (externalInterfaces (fst (construct w))))
     = ["api"; "webhook"; "batch"]
  /\ List.map if_capabilities (Js.values (externalInterfaces (fst (construct w))))
     = [["REST"; "GraphQL"]; ["event-driven"; "real-time"];
        ["bulk-processing"; "scheduled"]]
  /\ List.map if_status (Js.values (externalInterfaces (fst (construct w))))
     = [active; active; active]
  /\ List.map fst (marketIntelligence (fst (construct w))) = ["baseline"]
  /\ marketSegments (fst (construct w)) = []
  /\ feedbackHistory (fst (construct w)) = [].
Proof.
  unfold construct.
  cbv beta iota zeta delta [initializeMarketFramework defaultInterface bind newDate now
                            getState putState ret emptyState].
  cbn [fst feedbackHistory externalInterfaces marketSegments marketIntelligence oracle
       ticks].
  repeat split.
Qed.

End MarketMoreFacts.

(** ** Further properties of the Treasury service *)

Module TreasuryMoreFacts.
Import Runtime Spec Facts Treasury.
Import More MoreFacts TreasuryMore MoreSamples.

Ltac finish_handler :=
  cbv beta iota zeta delta [bind getState putState reply createMessage now newDate
                            freshId ret];
  tidy.

(** *** RETRIEVE_SKILL *)

Lemma process_retrieve_by_id cfg (msg : Request) s w k m :
  type msg = "RETRIEVE_SKILL" ->
  Js.truthyStr (p_skillId (payload msg)) = Some k ->
  Js.get (motorMemoryStore s) k = Some m ->
  exists r res w',
    process cfg msg s w
    = (Ok (Some r),
       setAccessLog
         (setMotorMemoryStore s
            (Js.set (motorMemoryStore s) k
               (withAccess m (clockAt (oracle w) (S (S (ticks w)))))))
         (accessLog s
          ++ [mkAccess k (clockAt (oracle w) (S (S (S (S (ticks w)))))) true]),
       w')
    /\ type r = "SKILL_RETRIEVED"
    /\ body (payload r) = SkillRetrieved res
    /\ skill res = Some (withAccess m (clockAt (oracle w) (S (S (ticks w)))))
    /\ confidence res = proficiency m
    /\ alternatives res = [].
Proof.
  intros Ht Hp G. destruct msg as [mid ty p src dst ts]. cbn [type payload] in *.
  subst ty. unfold process. enter_process.
  unfold some, bind at 1, handleRetrieveSkill, bind at 1, retrieveSkill.
  cbn [payload]. rewrite Hp.
  unfold bind at 1, now. tidy. unfold bind at 1, getState. tidy. rewrite G.
  finish_handler. cbn [fst snd].
  eexists _, (mkRetrieval _ _ _ _), _. split; [reflexivity|].
  cbn [type payload body skill confidence alternatives withAccess proficiency].
  repeat split.
Qed.

Lemma process_retrieve_nothing cfg (msg : Request) s w :
  type msg = "RETRIEVE_SKILL" ->
  (forall k, Js.truthyStr (p_skillId (payload msg)) = Some k ->
             Js.get (motorMemoryStore s) k = None) ->
  Js.truthyStr (p_skillName (payload msg)) = None ->
  Js.truthyStr (p_skillType (payload msg)) = None ->
  exists r res w',
    process cfg msg s w
    = (Ok (Some r),
       setAccessLog s
         (accessLog s
          ++ [mkAccess (loggedId (payload msg))
                (clockAt (oracle w) (S (S (S (ticks w))))) false]),
       w')
    /\ type r = "SKILL_RETRIEVED"
    /\ body (payload r) = SkillRetrieved res
    /\ skill res = None
    /\ confidence res = Js.Finite 0
    /\ alternatives res = [].
Proof.
  intros Ht Hp Hn Hy. destruct msg as [mid ty p src dst ts]. cbn [type payload] in *.
  subst ty. unfold process. enter_process.
  unfold some, bind at 1, handleRetrieveSkill, bind at 1, retrieveSkill, loggedId.
  cbn [payload].
  assert (F : fold_left (scan (p_skillName p) (p_skillType p)) (motorMemoryStore s)
                (None, [])
              = (None, [])).
  { clear - Hn Hy. generalize (@None (string * MotorMemory), @nil string).
    induction (motorMemoryStore s) as [|kv r IH]; intros acc; [reflexivity|].
    cbn [fold_left]. rewrite <- (IH acc) at 2. f_equal.
    unfold scan. cbv zeta. rewrite Hn, Hy. reflexivity. }
  unfold bind at 1, now. tidy. unfold bind at 1, getState. tidy.
  destruct (Js.truthyStr (p_skillId p)) as [k|] eqn:K.
  - rewrite (Hp k eq_refl), F. finish_handler. cbn [fst snd skill].
    eexists _, (mkRetrieval _ _ _ _), _. split; [reflexivity|]. repeat split.
  - rewrite F. finish_handler. cbn [fst snd skill].
    eexists _, (mkRetrieval _ _ _ _), _. split; [reflexivity|]. repeat split.
Qed.

(** X27: a RETRIEVE_SKILL request whose skill id is a key of the store is
    answered with the memory stored under it, its access count raised by
    one and its last access set to the clock; the confidence is the
    memory's proficiency, there is no alternative, the store keeps the
    counted access under the same key and no other key changes, and the
    access log gains a successful record naming the id.  A RETRIEVE_SKILL
    request that names no stored id, no name and no type finds nothing: the
    skill is null, the confidence 0, the store is unchanged and the log
    gains a failed record naming the id, or "search" when there is none. *)
Theorem retrieval_by_id_counts_the_access cfg (msg : Request) s w :
  type msg = "RETRIEVE_SKILL" ->
  (forall k m,
     Js.truthyStr (p_skillId (payload msg)) = Some k ->
     Js.get (motorMemoryStore s) k = Some m ->
     exists r res m',
       outcome (process cfg msg s w) = Ok (Some r)
       /\ body (payload r) = SkillRetrieved res
       /\ skill res = Some m'
       /\ accessCount m' = accessCount m + 1
       /\ lastAccessed m' = clockAt (oracle w) (S (S (ticks w)))
       /\ withAccess m (lastAccessed m') = m'
       /\ confidence res = proficiency m
       /\ alternatives res = []
       /\ Js.get (motorMemoryStore (finalState (process cfg msg s w))) k = Some m'
       /\ (forall k', k' <> k ->
           Js.get (motorMemoryStore (finalState (process cfg msg s w))) k'
           = Js.get (motorMemoryStore s) k')
       /\ exists stamp,
            accessLog (finalState (process cfg msg s w))
            = (accessLog s ++ [mkAccess k stamp true])%list)
  /\ ((forall k, Js.truthyStr (p_skillId (payload msg)) = Some k ->
                 Js.get (motorMemoryStore s) k = None) ->
      Js.truthyStr (p_skillName (payload msg)) = None ->
      Js.truthyStr (p_skillType (payload msg)) = None ->
      exists r res,
        outcome (process cfg msg s w) = Ok (Some r)
        /\ body (payload r) = SkillRetrieved res
        /\ skill res = None
        /\ confidence res = Js.Finite 0
        /\ alternatives res = []
        /\ motorMemoryStore (finalState (process cfg msg s w)) = motorMemoryStore s
        /\ exists stamp,
             accessLog (finalState (process cfg msg s w))
             = (accessLog s ++ [mkAccess (loggedId (payload msg)) stamp false])%list).
Proof.
  intros Ht. split.
  - intros k m Hp G.
    destruct (process_retrieve_by_id cfg msg s w k m Ht Hp G)
      as (r & res & w' & E & _ & Hb & Sk & Cf & Al).
    exists r, res, (withAccess m (clockAt (oracle w) (S (S (ticks w))))).
    rewrite E.
    cbn [outcome finalState fst snd setAccessLog setMotorMemoryStore motorMemoryStore
         accessLog withAccess accessCount lastAccessed].
    split; [reflexivity|]. split; [exact Hb|]. split; [exact Sk|].
    split; [reflexivity|]. split; [reflexivity|]. split; [reflexivity|].
    split; [exact Cf|]. split; [exact Al|]. split; [apply get_set_same|].
    split; [intros k' Hk; apply get_set_other; exact Hk|].
    eexists. reflexivity.
  - intros Hp Hn Hy.
    destruct (process_retrieve_nothing cfg msg s w Ht Hp Hn Hy)
      as (r & res & w' & E & _ & Hb & Sk & Cf & Al).
    exists r, res. rewrite E.
    cbn [outcome finalState fst snd setAccessLog motorMemoryStore accessLog].
    split; [reflexivity|]. split; [exact Hb|]. split; [exact Sk|]. split; [exact Cf|].
    split; [exact Al|]. split; [reflexivity|]. eexists. reflexivity.
Qed.

Lemma retrieval_by_id_counts_the_access_witness :
  exists r res m',
    outcome (process Samples.treasuryConfig (Samples.retrieveById "mm-7") withGrip
               Samples.world0)
    = Ok (Some r)
    /\ body (payload r) = SkillRetrieved res
    /\ skill res = Some m'
    /\ accessCount m' = 1
    /\ confidence res = Js.Finite (6 # 10).
Proof.
  destruct (retrieval_by_id_counts_the_access Samples.treasuryConfig
              (Samples.retrieveById "mm-7") withGrip Samples.world0 eq_refl)
    as (H & _).
  destruct (H "mm-7" grip eq_refl eq_refl)
    as (r & res & m' & E & Hb & Sk & Ac & _ & _ & Cf & _).
  exists r, res, m'. split; [exact E|]. split; [exact Hb|]. split; [exact Sk|].
  split; [exact Ac|exact Cf].
Defined.

(** *** REGISTER_LEARNED_SKILL and INTEGRATE_SKILL *)

Lemma process_register_skill cfg (msg : Request) s w :
  type msg = "REGISTER_LEARNED_SKILL" ->
  exists r k w',
    process cfg msg s w
    = (Ok (Some r), setLearnedSkills s (Js.set (learnedSkills s) (ls_id k) k), w')
    /\ type r = "LEARNED_SKILL_REGISTERED"
    /\ body (payload r) = LearnedSkillRegistered k
    /\ ls_id k = "ls-" ++ Js.showZ (clockAt (oracle w) (S (ticks w)))
    /\ ls_name k = Js.orStr (p_name (payload msg)) "unnamed-learned-skill"
    /\ ls_category k = Js.orStr (p_category (payload msg)) "general"
    /\ ls_proficiencyLevel k = Js.coalesce (p_proficiencyLevel (payload msg)) (5 # 10)%Q
    /\ ls_patterns k = Js.orArr (p_patterns (payload msg)) []
    /\ ls_integrations k
       = Js.orArray (p_integrations (payload msg)) defaultIntegrations.
Proof.
  intros Ht. destruct msg as [mid ty p src dst ts]. cbn [type payload] in *.
  subst ty. unfold process. enter_process.
  unfold some, bind at 1, handleRegisterLearnedSkill, bind at 1, registerLearnedSkill.
  cbn [payload]. finish_handler.
  eexists _, (mkLearnedSkill _ _ _ _ _ _), _. split; [reflexivity|]. repeat split.
Qed.

Lemma process_integrate cfg (msg : Request) s w key k held :
  type msg = "INTEGRATE_SKILL" ->
  p_skillId (payload msg) = Some key ->
  Js.get (learnedSkills s) key = Some k ->
  ls_integrations k = Js.IsArray held ->
  exists r w',
    process cfg msg s w
    = (Ok (Some r),
       setLearnedSkills s
         (Js.set (learnedSkills s) key
            (integrated k held (requestedIntegration (payload msg)))),
       w')
    /\ type r = "SKILL_INTEGRATED"
    /\ body (payload r)
       = SkillIntegrated key (ls_name k) (requestedIntegration (payload msg))
           (S (List.length held)).
Proof.
  intros Ht Hp G Hh. destruct msg as [mid ty p src dst ts]. cbn [type payload] in *.
  subst ty. unfold process. enter_process.
  unfold some, bind at 1, handleSkillIntegration, bind at 1, getState. tidy.
  cbn [payload]. rewrite Hp, G, Hh. cbn [items]. rewrite bind_ret. finish_handler.
  eexists _, _. split; [reflexivity|]. split; [reflexivity|].
  cbn [payload body ls_name]. rewrite length_app. cbn [List.length].
  rewrite Nat.add_1_r. reflexivity.
Qed.

(** [push] on integrations that are not an array raises before the skill is
    written back. *)
Lemma process_integrate_raises cfg (msg : Request) s w key k :
  type msg = "INTEGRATE_SKILL" ->
  p_skillId (payload msg) = Some key ->
  Js.get (learnedSkills s) key = Some k ->
  ls_integrations k = Js.NotArray ->
  exists e w', process cfg msg s w = (Throw e, s, w').
Proof.
  intros Ht Hp G Hh. destruct msg as [mid ty p src dst ts]. cbn [type payload] in *.
  subst ty. unfold process. enter_process.
  unfold some, bind at 1, handleSkillIntegration, bind at 1, getState. tidy.
  cbn [payload]. rewrite Hp, G, Hh. cbn [items].
  eexists _, _. reflexivity.
Qed.

Lemma process_integrate_missing cfg (msg : Request) s w :
  type msg = "INTEGRATE_SKILL" ->
  (forall key, p_skillId (payload msg) = Some key ->
               Js.get (learnedSkills s) key = None) ->
  exists r w',
    process cfg msg s w = (Ok (Some r), s, w')
    /\ type r = "SKILL_INTEGRATION_ERROR"
    /\ body (payload r)
       = SkillIntegrationError "Skill not found" (p_skillId (payload msg)).
Proof.
  intros Ht Hp. destruct msg as [mid ty p src dst ts]. cbn [type payload] in *.
  subst ty. unfold process. enter_process.
  unfold some, bind at 1, handleSkillIntegration, bind at 1, getState. tidy.
  cbn [payload]. destruct (p_skillId p) as [key|].
  - rewrite (Hp key eq_refl). finish_handler.
    eexists _, _. split; [reflexivity|]. split; reflexivity.
  - finish_handler. eexists _, _. split; [reflexivity|]. split; reflexivity.
Qed.

(** X28: a REGISTER_LEARNED_SKILL request stores the skill under the id
    "ls-<clock reading>" with the given name, category, level and patterns
    or the defaults "unnamed-learned-skill", "general", 0.5 (a given 0 is
    kept) and none, and with the integrations as given, the two default
    ones when none is given.  An INTEGRATE_SKILL request that then names
    this id appends, when the skill's integrations are an array, one
    integration of strength 0.5, to "motor-control" as "motor" unless told
    otherwise, and reports one integration more than before; when the
    skill was registered with integrations that are a truthy value other
    than an array, the request fails with the error and changes nothing.
    An INTEGRATE_SKILL request that names no stored skill is answered with
    SKILL_INTEGRATION_ERROR and changes nothing.  Neither request touches
    the motor memories. *)
Theorem registered_skill_gains_an_integration cfg cfg' (msg query : Request) s w w2 :
  type msg = "REGISTER_LEARNED_SKILL" ->
  type query = "INTEGRATE_SKILL" ->
  exists r k,
    outcome (process cfg msg s w) = Ok (Some r)
    /\ type r = "LEARNED_SKILL_REGISTERED"
    /\ body (payload r) = LearnedSkillRegistered k
    /\ ls_id k = "ls-" ++ Js.showZ (clockAt (oracle w) (S (ticks w)))
    /\ ls_name k = Js.orStr (p_name (payload msg)) "unnamed-learned-skill"
    /\ ls_category k = Js.orStr (p_category (payload msg)) "general"
    /\ ls_proficiencyLevel k = Js.coalesce (p_proficiencyLevel (payload msg)) (5 # 10)%Q
    /\ ls_patterns k = Js.orArr (p_patterns (payload msg)) []
    /\ ls_integrations k
       = Js.orArray (p_integrations (payload msg)) defaultIntegrations
    /\ Js.get (learnedSkills (finalState (process cfg msg s w))) (ls_id k) = Some k
    /\ motorMemoryStore (finalState (process cfg msg s w)) = motorMemoryStore s
    /\ (forall held,
          p_skillId (payload query) = Some (ls_id k) ->
          ls_integrations k = Js.IsArray held ->
          exists r2,
            outcome (process cfg' query (finalState (process cfg msg s w)) w2)
            = Ok (Some r2)
            /\ body (payload r2)
               = SkillIntegrated (ls_id k) (ls_name k)
                   (requestedIntegration (payload query))
                   (S (List.length held))
            /\ Js.get
                 (learnedSkills
                    (finalState
                       (process cfg' query (finalState (process cfg msg s w)) w2)))
                 (ls_id k)
               = Some (integrated k held (requestedIntegration (payload query)))
            /\ motorMemoryStore
                 (finalState
                    (process cfg' query (finalState (process cfg msg s w)) w2))
               = motorMemoryStore s)
    /\ (p_skillId (payload query) = Some (ls_id k) ->
        ls_integrations k = Js.NotArray ->
        exists e,
          outcome (process cfg' query (finalState (process cfg msg s w)) w2)
          = Throw e
          /\ finalState (process cfg' query (finalState (process cfg msg s w)) w2)
             = finalState (process cfg msg s w))
    /\ ((forall key, p_skillId (payload query) = Some key ->
                     Js.get (learnedSkills s) key = None) ->
        exists r2,
          outcome (process cfg' query s w2) = Ok (Some r2)
          /\ type r2 = "SKILL_INTEGRATION_ERROR"
          /\ body (payload r2)
             = SkillIntegrationError "Skill not found" (p_skillId (payload query))
          /\ finalState (process cfg' query s w2) = s).
Proof.
  intros Ht Hq.
  destruct (process_register_skill cfg msg s w Ht)
    as (r & k & w' & E & Ty & Hb & Id & Nm & Ct & Lv & Pt & In).
  exists r, k. rewrite E. cbn [outcome finalState fst snd].
  split; [reflexivity|]. split; [exact Ty|]. split; [exact Hb|]. split; [exact Id|].
  split; [exact Nm|]. split; [exact Ct|]. split; [exact Lv|]. split; [exact Pt|].
  split; [exact In|].
  split; [cbn [setLearnedSkills learnedSkills]; apply get_set_same|].
  split; [reflexivity|].
  split; [|split].
  - intros held Hid Hh.
    destruct (process_integrate cfg' query
                (setLearnedSkills s (Js.set (learnedSkills s) (ls_id k) k)) w2
                (ls_id k) k held Hq Hid (get_set_same _ _ _) Hh)
      as (r2 & w3 & E2 & _ & Hb2).
    exists r2. rewrite E2.
    cbn [outcome finalState fst snd setLearnedSkills learnedSkills motorMemoryStore].
    split; [reflexivity|]. split; [exact Hb2|]. split; [apply get_set_same|reflexivity].
  - intros Hid Hh.
    destruct (process_integrate_raises cfg' query
                (setLearnedSkills s (Js.set (learnedSkills s) (ls_id k) k)) w2
                (ls_id k) k Hq Hid (get_set_same _ _ _) Hh)
      as (e & w3 & E2).
    exists e. rewrite E2. split; reflexivity.
  - intros Hm.
    destruct (process_integrate_missing cfg' query s w2 Hq Hm)
      as (r2 & w3 & E2 & Ty2 & Hb2).
    exists r2. rewrite E2. cbn [outcome finalState fst snd]. auto.
Qed.

Lemma registered_skill_gains_an_integration_witness :
  (exists r k,
     outcome (process Samples.treasuryConfig
                (treasuryRequest "REGISTER_LEARNED_SKILL" emptyPayload) withGrip
                Samples.world0)
     = Ok (Some r)
     /\ body (payload r) = LearnedSkillRegistered k
     /\ ls_name k = "unnamed-learned-skill"
     /\ ls_integrations k = Js.IsArray defaultIntegrations)
  /\ (exists e,
        outcome (process Samples.treasuryConfig (integrate "ls-1700000000001")
                   (finalState
                      (process Samples.treasuryConfig registerUnusable withGrip
                         Samples.world0))
                   Samples.world0)
        = Throw e).
Proof.
  split.
  - destruct (registered_skill_gains_an_integration Samples.treasuryConfig
                Samples.treasuryConfig
                (treasuryRequest "REGISTER_LEARNED_SKILL" emptyPayload) (integrate "x")
                withGrip Samples.world0 Samples.world0 eq_refl eq_refl)
      as (r & k & E & _ & Hb & _ & Nm & _ & _ & _ & In & _).
    exists r, k. split; [exact E|]. split; [exact Hb|]. split; [exact Nm|exact In].
  - destruct (registered_skill_gains_an_integration Samples.treasuryConfig
                Samples.treasuryConfig registerUnusable (integrate "ls-1700000000001")
                withGrip Samples.world0 Samples.world0 eq_refl eq_refl)
      as (r & k & _ & _ & _ & Id & _ & _ & _ & _ & In & _ & _ & _ & Raises & _).
    destruct Raises as (e & E & _).
    + rewrite Id. vm_compute. reflexivity.
    + exact In.
    + exists e. exact E.
Defined.


(** *** GET_SKILL_INVENTORY *)

Lemma getSkillInventory_spec category minProficiency s w :
  exists inv,
    getSkillInventory category minProficiency s w = (Ok inv, s, w)
    /\ totalMotorMemories inv = Js.size (motorMemoryStore s)
    /\ totalLearnedSkills inv = Js.size (learnedSkills s)
    /\ filteredMotorMemories inv = List.length (inv_motorMemories inv)
    /\ filteredLearnedSkills inv = List.length (inv_learnedSkills inv)
    /\ (filteredMotorMemories inv <= totalMotorMemories inv)%nat
    /\ (filteredLearnedSkills inv <= totalLearnedSkills inv)%nat
    /\ (minProficiency = None -> filteredMotorMemories inv = totalMotorMemories inv)
    /\ (minProficiency = None -> Js.truthyStr category = None ->
        filteredLearnedSkills inv = totalLearnedSkills inv)
    /\ (forall v, minProficiency = Some v ->
        Forall (fun m => exists q, msum_proficiency m = Js.Finite q /\ (v <= q)%Q)
          (inv_motorMemories inv)
        /\ Forall (fun k => (v <= ssum_proficiency k)%Q) (inv_learnedSkills inv))
    /\ (forall c, Js.truthyStr category = Some c ->
        Forall (fun k => ssum_category k = c) (inv_learnedSkills inv))
    /\ totalAccesses (accessStatistics inv) = Nat.min 100 (List.length (accessLog s))
    /\ (0 <= successRate (accessStatistics inv) <= 1)%Q
    /\ (Js.get (sharedParasympatheticState s) "status" = None ->
        parasympatheticStatus inv = Js.Str "active").
Proof.
  unfold getSkillInventory, bind, getState, ret. cbv zeta.
  eexists. split; [reflexivity|].
  cbn [totalMotorMemories totalLearnedSkills filteredMotorMemories filteredLearnedSkills
       inv_motorMemories inv_learnedSkills accessStatistics totalAccesses successRate
       parasympatheticStatus].
  unfold Js.size, Js.values. rewrite !length_map.
  set (byCat := match Js.truthyStr category with
                | Some c => List.filter (fun k => String.eqb (ls_category k) c)
                              (List.map snd (learnedSkills s))
                | None => List.map snd (learnedSkills s)
                end).
  assert (Hcat : (List.length byCat <= List.length (learnedSkills s))%nat).
  { unfold byCat. destruct (Js.truthyStr category).
    - rewrite <- (length_map snd (learnedSkills s)). apply filter_length_le.
    - rewrite length_map. lia. }
  split; [reflexivity|]. split; [reflexivity|]. split; [reflexivity|].
  split; [reflexivity|].
  split.
  { destruct minProficiency; [|rewrite length_map; lia].
    rewrite <- (length_map snd (motorMemoryStore s)). apply filter_length_le. }
  split.
  { destruct minProficiency; [|exact Hcat].
    eapply Nat.le_trans; [apply filter_length_le|exact Hcat]. }
  split; [intros ->; rewrite length_map; reflexivity|].
  split; [intros -> Hc; unfold byCat; rewrite Hc, length_map; reflexivity|].
  split.
  { intros v ->. split; apply Forall_map; apply Forall_forall; intros x Hx;
      apply filter_In in Hx; destruct Hx as (_ & Hx); cbn.
    - destruct (proficiency x) as [q|]; [|discriminate Hx].
      exists q. split; [reflexivity|]. apply Qle_bool_iff. exact Hx.
    - apply Qle_bool_iff. exact Hx. }
  split.
  { intros c Hc. apply Forall_map. unfold byCat. rewrite Hc.
    assert (F : Forall (fun k => ls_category k = c)
                  (List.filter (fun k => String.eqb (ls_category k) c)
                     (List.map snd (learnedSkills s)))).
    { apply Forall_forall. intros x Hx. apply filter_In in Hx.
      destruct Hx as (_ & Hx). apply String.eqb_eq. exact Hx. }
    destruct minProficiency; [|exact F].
    apply Forall_forall. intros x Hx. apply filter_In in Hx. destruct Hx as (Hx & _).
    revert x Hx. apply Forall_forall. exact F. }
  split; [apply (slice_tail_le 100); lia|].
  split.
  { set (recent := Js.slice (-100) None (accessLog s)).
    pose proof (filter_length_le acc_success recent) as Hle.
    assert (Hd : (0 < Js.ofNat (Nat.max (List.length recent) 1))%Q)
      by (apply ofNat_pos; lia).
    assert (Hn : (0 <= Js.ofNat (List.length (List.filter acc_success recent)))%Q)
      by apply ofNat_nonneg.
    assert (Hm : (Js.ofNat (List.length (List.filter acc_success recent))
                  <= Js.ofNat (Nat.max (List.length recent) 1))%Q).
    { unfold Js.ofNat. rewrite <- Zle_Qle. lia. }
    split.
    - apply Qle_shift_div_l; [exact Hd|]. lra.
    - apply Qle_shift_div_r; [exact Hd|]. lra. }
  intros ->. reflexivity.
Qed.

Lemma process_inventory cfg (msg : Request) s w :
  type msg = "GET_SKILL_INVENTORY" ->
  exists r inv w',
    process cfg msg s w = (Ok (Some r), s, w')
    /\ type r = "SKILL_INVENTORY_RETRIEVED"
    /\ body (payload r) = SkillInventoryRetrieved inv
    /\ totalMotorMemories inv = Js.size (motorMemoryStore s)
    /\ totalLearnedSkills inv = Js.size (learnedSkills s)
    /\ filteredMotorMemories inv = List.length (inv_motorMemories inv)
    /\ filteredLearnedSkills inv = List.length (inv_learnedSkills inv)
    /\ (filteredMotorMemories inv <= totalMotorMemories inv)%nat
    /\ (filteredLearnedSkills inv <= totalLearnedSkills inv)%nat
    /\ (p_minProficiency (payload msg) = None ->
        filteredMotorMemories inv = totalMotorMemories inv)
    /\ (p_minProficiency (payload msg) = None ->
        Js.truthyStr (p_category (payload msg)) = None ->
        filteredLearnedSkills inv = totalLearnedSkills inv)
    /\ (forall v, p_minProficiency (payload msg) = Some v ->
        Forall (fun m => exists q, msum_proficiency m = Js.Finite q /\ (v <= q)%Q)
          (inv_motorMemories inv)
        /\ Forall (fun k => (v <= ssum_proficiency k)%Q) (inv_learnedSkills inv))
    /\ (forall c, Js.truthyStr (p_category (payload msg)) = Some c ->
        Forall (fun k => ssum_category k = c) (inv_learnedSkills inv))
    /\ totalAccesses (accessStatistics inv) = Nat.min 100 (List.length (accessLog s))
    /\ (0 <= successRate (accessStatistics inv) <= 1)%Q
    /\ (Js.get (sharedParasympatheticState s) "status" = None ->
        parasympatheticStatus inv = Js.Str "active").
Proof.
  intros Ht. destruct msg as [mid ty p src dst ts]. cbn [type payload] in *.
  subst ty. unfold process. enter_process.
  unfold some, bind at 1, handleGetSkillInventory, bind at 1. cbn [payload].
  match goal with
  | |- context [getSkillInventory ?c ?m ?s0 ?w0] =>
      destruct (getSkillInventory_spec c m s0 w0) as (inv & E & D)
  end.
  rewrite E. finish_handler.
  eexists _, inv, _. split; [reflexivity|]. split; [reflexivity|].
  split; [reflexivity|]. exact D.
Qed.

(** X29: GET_SKILL_INVENTORY changes no state.  Its totals are the sizes of
    the two stores; the filtered counts are the lengths of the two listings
    and never exceed the totals; without a minimum proficiency every memory
    is listed, and without a category either every learned skill; every
    listed entry meets the minimum proficiency and the category asked for;
    the access statistics cover at most the last 100 accesses and the
    success rate is in [0,1]; the parasympathetic status defaults to
    "active". *)
Theorem inventory_counts_agree_with_the_stores cfg (msg : Request) s w :
  type msg = "GET_SKILL_INVENTORY" ->
  exists r inv,
    outcome (process cfg msg s w) = Ok (Some r)
    /\ finalState (process cfg msg s w) = s
    /\ type r = "SKILL_INVENTORY_RETRIEVED"
    /\ body (payload r) = SkillInventoryRetrieved inv
    /\ totalMotorMemories inv = Js.size (motorMemoryStore s)
    /\ totalLearnedSkills inv = Js.size (learnedSkills s)
    /\ filteredMotorMemories inv = List.length (inv_motorMemories inv)
    /\ filteredLearnedSkills inv = List.length (inv_learnedSkills inv)
    /\ (filteredMotorMemories inv <= totalMotorMemories inv)%nat
    /\ (filteredLearnedSkills inv <= totalLearnedSkills inv)%nat
    /\ (p_minProficiency (payload msg) = None ->
        filteredMotorMemories inv = totalMotorMemories inv)
    /\ (p_minProficiency (payload msg) = None ->
        Js.truthyStr (p_category (payload msg)) = None ->
        filteredLearnedSkills inv = totalLearnedSkills inv)
    /\ (forall v, p_minProficiency (payload msg) = Some v ->
        Forall (fun m => exists q, msum_proficiency m = Js.Finite q /\ (v <= q)%Q)
          (inv_motorMemories inv)
        /\ Forall (fun k => (v <= ssum_proficiency k)%Q) (inv_learnedSkills inv))
    /\ (forall c, Js.truthyStr (p_category (payload msg)) = Some c ->
        Forall (fun k => ssum_category k = c) (inv_learnedSkills inv))
    /\ totalAccesses (accessStatistics inv) = Nat.min 100 (List.length (accessLog s))
    /\ (0 <= successRate (accessStatistics inv) <= 1)%Q
    /\ (Js.get (sharedParasympatheticState s) "status" = None ->
        parasympatheticStatus inv = Js.Str "active").
Proof.
  intros Ht.
  destruct (process_inventory cfg msg s w Ht) as (r & inv & w' & E & Ty & Hb & D).
  exists r, inv. rewrite E. cbn [outcome finalState fst snd].
  split; [reflexivity|]. split; [reflexivity|]. split; [exact Ty|]. split; [exact Hb|].
  exact D.
Qed.

Lemma inventory_counts_agree_with_the_stores_witness :
  exists r inv,
    outcome (process Samples.treasuryConfig
               (treasuryRequest "GET_SKILL_INVENTORY" emptyPayload) withGrip
               Samples.world0)
    = Ok (Some r)
    /\ body (payload r) = SkillInventoryRetrieved inv
    /\ totalMotorMemories inv = 1%nat
    /\ filteredMotorMemories inv = totalMotorMemories inv.
Proof.
  destruct (inventory_counts_agree_with_the_stores Samples.treasuryConfig
              (treasuryRequest "GET_SKILL_INVENTORY" emptyPayload) withGrip
              Samples.world0 eq_refl)
    as (r & inv & E & _ & _ & Hb & T & _ & _ & _ & _ & _ & F & _).
  exists r, inv. split; [exact E|]. split; [exact Hb|]. split; [exact T|].
  exact (F eq_refl).
Defined.

(** *** The constructor *)

Lemma showZ_inj a b : Js.showZ a = Js.showZ b -> a = b.
Proof.
  unfold Js.showZ. intros H. apply DecimalZ.to_int_inj.
  assert (N : forall z, Z.to_int z <> Decimal.Pos Decimal.Nil
                        /\ Z.to_int z <> Decimal.Neg Decimal.Nil).
  { intros [|p|p]; cbn; split; try discriminate;
      intros [= X]; apply (DecimalPos.Unsigned.to_uint_nonnil p X). }
  apply (f_equal NilZero.int_of_string) in H.
  rewrite !NilZero.isi in H by apply N.
  injection H as H. exact H.
Qed.

Lemma seed_keyed name ty prof s w :
  exists mem,
    seed name ty prof s w
    = (Ok tt,
       setMotorMemoryStore s (Js.set (motorMemoryStore s) (mm_id mem) mem),
       mkWorld (oracle w) (S (S (S (ticks w)))) (draws w) (ids w) (logged w))
    /\ mm_id mem = "mm-" ++ Js.showZ (clockAt (oracle w) (ticks w))
    /\ skillName mem = Js.orStr (Some name) "unnamed-skill"
    /\ skillType mem = Js.orStr (Some ty) "motor"
    /\ proficiency mem = Js.Finite prof
    /\ accessCount mem = 0.
Proof.
  unfold seed, storeMotorMemory.
  cbv beta iota zeta delta [bind getState putState now newDate ret]. tidy.
  eexists (mkMemory _ _ _ _ _ _ _ _). split; [reflexivity|]. repeat split.
Qed.

Lemma construct_store w :
  exists m0 m1 m2 m3,
    motorMemoryStore (fst (construct w))
    = Js.set (Js.set (Js.set (Js.set [] (seedKey w 0) m0) (seedKey w 1) m1)
                (seedKey w 2) m2) (seedKey w 3) m3
    /\ (skillName m0 = "basic-motor-control" /\ skillType m0 = "motor"
        /\ proficiency m0 = Js.Finite (9 # 10))
    /\ (skillName m1 = "sensory-motor-coordination" /\ skillType m1 = "procedural"
        /\ proficiency m1 = Js.Finite (8 # 10))
    /\ (skillName m2 = "adaptive-response" /\ skillType m2 = "behavioral"
        /\ proficiency m2 = Js.Finite (7 # 10))
    /\ (skillName m3 = "reflex-action" /\ skillType m3 = "reflexive"
        /\ proficiency m3 = Js.Finite (95 # 100)).
Proof.
  unfold construct, initializeTreasuryFramework.
  destruct (seed_keyed "basic-motor-control" "motor" (9 # 10) emptyState w)
    as (m0 & E0 & K0 & N0 & T0 & P0 & _).
  unfold bind at 1. rewrite E0. tidy.
  unfold bind at 1.
  match goal with |- context [seed _ _ _ ?s1 ?w1] =>
    destruct (seed_keyed "sensory-motor-coordination" "procedural" (8 # 10) s1 w1)
      as (m1 & E1 & K1 & N1 & T1 & P1 & _) end.
  cbn [oracle ticks draws ids logged] in E1, K1.
  rewrite E1. tidy.
  unfold bind at 1.
  match goal with |- context [seed _ _ _ ?s2 ?w2] =>
    destruct (seed_keyed "adaptive-response" "behavioral" (7 # 10) s2 w2)
      as (m2 & E2 & K2 & N2 & T2 & P2 & _) end.
  cbn [oracle ticks draws ids logged] in E2, K2.
  rewrite E2. tidy.
  unfold bind at 1.
  match goal with |- context [seed _ _ _ ?s3 ?w3] =>
    destruct (seed_keyed "reflex-action" "reflexive" (95 # 100) s3 w3)
      as (m3 & E3 & K3 & N3 & T3 & P3 & _) end.
  cbn [oracle ticks draws ids logged] in E3, K3.
  rewrite E3. tidy.
  cbv beta iota zeta delta [bind getState putState newDate now ret]. tidy.
  cbn [fst setShared setMotorMemoryStore motorMemoryStore emptyState].
  exists m0, m1, m2, m3. unfold seedKey.
  replace (ticks w + 3 * 0)%nat with (ticks w) by lia.
  replace (ticks w + 3 * 1)%nat with (S (S (S (ticks w)))) by lia.
  replace (ticks w + 3 * 2)%nat with (S (S (S (S (S (S (ticks w))))))) by lia.
  replace (ticks w + 3 * 3)%nat
    with (S (S (S (S (S (S (S (S (S (ticks w)))))))))) by lia.
  rewrite <- K0, <- K1, <- K2, <- K3.
  split; [reflexivity|]. repeat split; assumption.
Qed.

(** X30: the constructor stores its four default skills under keys made of
    the clock reading alone, so how many survive depends on the clock.
    When the four readings are the same, as within one millisecond, each
    skill replaces the one before and the store holds "reflex-action"
    alone; when they are pairwise different the store holds the four
    skills, in order. *)
Theorem default_skills_collide_within_one_reading w :
  exists m0 m1 m2 m3,
    (skillName m0 = "basic-motor-control" /\ proficiency m0 = Js.Finite (9 # 10))
    /\ (skillName m1 = "sensory-motor-coordination" /\ proficiency m1 = Js.Finite (8 # 10))
    /\ (skillName m2 = "adaptive-response" /\ proficiency m2 = Js.Finite (7 # 10))
    /\ (skillName m3 = "reflex-action" /\ proficiency m3 = Js.Finite (95 # 100))
    /\ (seedReading w 1 = seedReading w 0 ->
        seedReading w 2 = seedReading w 0 ->
        seedReading w 3 = seedReading w 0 ->
        motorMemoryStore (fst (construct w)) = [(seedKey w 0, m3)])
    /\ (NoDup [seedReading w 0; seedReading w 1; seedReading w 2; seedReading w 3] ->
        motorMemoryStore (fst (construct w))
        = [(seedKey w 0, m0); (seedKey w 1, m1); (seedKey w 2, m2); (seedKey w 3, m3)]).
Proof.
  destruct (construct_store w)
    as (m0 & m1 & m2 & m3 & E & (N0 & _ & P0) & (N1 & _ & P1) & (N2 & _ & P2)
        & (N3 & _ & P3)).
  exists m0, m1, m2, m3.
  split; [auto|]. split; [auto|]. split; [auto|]. split; [auto|].
  assert (K : forall i j, seedKey w i = seedKey w j <-> seedReading w i = seedReading w j).
  { intros i j. unfold seedKey, seedReading. split.
    - intros H. injection H as H. apply showZ_inj. exact H.
    - intros ->. reflexivity. }
  split.
  - intros H1 H2 H3. rewrite E.
    apply K in H1, H2, H3. rewrite H1, H2, H3.
    do 4 (cbn [Js.set]; rewrite ?String.eqb_refl). reflexivity.
  - intros Hd. rewrite E.
    assert (D : forall i j, seedReading w i <> seedReading w j ->
                     String.eqb (seedKey w i) (seedKey w j) = false).
    { intros i j H. apply String.eqb_neq. intros X. apply K in X. contradiction. }
    inversion Hd as [|x0 l0 A0 Hd1]; subst.
    inversion Hd1 as [|x1 l1 A1 Hd2]; subst.
    inversion Hd2 as [|x2 l2 A2 Hd3]; subst.
    cbn [In] in A0, A1, A2.
    cbn [Js.set].
    rewrite (D 1%nat 0%nat) by (intros X; apply A0; auto).
    cbn [Js.set].
    rewrite (D 2%nat 0%nat) by (intros X; apply A0; auto).
    rewrite (D 2%nat 1%nat) by (intros X; apply A1; auto).
    cbn [Js.set].
    rewrite (D 3%nat 0%nat) by (intros X; apply A0; auto).
    rewrite (D 3%nat 1%nat) by (intros X; apply A1; auto).
    rewrite (D 3%nat 2%nat) by (intros X; apply A2; auto).
    reflexivity.
Qed.

Lemma default_skills_collide_within_one_reading_witness :
  exists m,
    motorMemoryStore (fst (construct Samples.frozenWorld))
    = [(seedKey Samples.frozenWorld 0, m)]
    /\ skillName m = "reflex-action".
Proof.
  destruct (default_skills_collide_within_one_reading Samples.frozenWorld)
    as (m0 & m1 & m2 & m3 & _ & _ & _ & (N3 & _) & H & _).
  exists m3. split; [apply H; reflexivity|exact N3].
Defined.

End TreasuryMoreFacts.
